(** * OpenStack Lightspeed operator: a shallow embedding of the controller

    The development follows the Go sources of the operator
    ([internal/controller]): the OCP version resolver, the helpers that patch
    and inspect the [OLSConfig] singleton, the installer of the OpenShift
    Lightspeed operator and the deletion branch of the reconciler.

    Go strings are byte strings ([string]), Go [error] values are the terms
    of [error] and a [nil] error is [None].  Functions that talk to the API
    server are written in a state monad over a model of the cluster. *)

From Stdlib Require Import Ascii String ZArith Lia.
From stdpp Require Import base option list gmap strings pretty sorting.

Set Warnings "-register-all".
#[local] Open Scope string_scope.

(* ===================================================================== *)
(** ** Go's [strings] package (the functions the controller calls)       *)
(* ===================================================================== *)

Module GoStrings.

(** [strings.HasPrefix(s, prefix)]. *)
Fixpoint HasPrefix (s prefix : string) : bool :=
  match prefix, s with
  | EmptyString, _ => true
  | String _ _, EmptyString => false
  | String p prefix', String c s' =>
      if Ascii.eqb c p then HasPrefix s' prefix' else false
  end.

(** [s[n:]], for [n <= len(s)]. *)
Fixpoint dropBytes (n : nat) (s : string) : string :=
  match n, s with
  | O, _ => s
  | S _, EmptyString => EmptyString
  | S n', String _ s' => dropBytes n' s'
  end.

(** [s[:n]], for [n <= len(s)]. *)
Fixpoint takeBytes (n : nat) (s : string) : string :=
  match n, s with
  | O, _ => EmptyString
  | S _, EmptyString => EmptyString
  | S n', String c s' => String c (takeBytes n' s')
  end.

(** [strings.HasSuffix(s, suffix)]:
    [len(s) >= len(suffix) && s[len(s)-len(suffix):] == suffix]. *)
Definition HasSuffix (s suffix : string) : bool :=
  (String.length suffix <=? String.length s)%nat &&
  String.eqb (dropBytes (String.length s - String.length suffix) s) suffix.

(** Prepends a byte to the piece that is being read. *)
Definition consHead (c : ascii) (pieces : list string) : list string :=
  match pieces with
  | [] => [String c EmptyString]
  | p :: ps => String c p :: ps
  end.

(** The scan of [strings.Split] for a non-empty separator: [skip] bytes of
    a separator that has just been recognised are still to be dropped; the
    head of the result is the piece that is being read. *)
Fixpoint splitFrom (sep : string) (skip : nat) (s : string) : list string :=
  match s with
  | EmptyString => [EmptyString]
  | String c s' =>
      match skip with
      | S k => splitFrom sep k s'
      | O =>
          if HasPrefix s sep
          then EmptyString :: splitFrom sep (String.length sep - 1) s'
          else consHead c (splitFrom sep 0 s')
      end
  end.

(** [strings.Split(s, sep)] for a non-empty [sep] (the controller only
    splits on ["\n"] and on ["="]). *)
Definition Split (s sep : string) : list string := splitFrom sep 0 s.

(** [strings.ReplaceAll(s, old, new)] for a one-byte [old]. *)
Fixpoint ReplaceAllByte (s : string) (old : ascii) (new : string) : string :=
  match s with
  | EmptyString => EmptyString
  | String c s' =>
      if Ascii.eqb c old then new +:+ ReplaceAllByte s' old new
      else String c (ReplaceAllByte s' old new)
  end.

(** [strings.Join(elems, sep)]. *)
Fixpoint Join (elems : list string) (sep : string) : string :=
  match elems with
  | [] => EmptyString
  | [e] => e
  | e :: rest => e +:+ sep +:+ Join rest sep
  end.

(** Whether the byte [c] occurs in [s]. *)
Fixpoint ContainsByte (s : string) (c : ascii) : bool :=
  match s with
  | EmptyString => false
  | String x s' => Ascii.eqb x c || ContainsByte s' c
  end.

(** The line feed, ["\n"]. *)
Definition LF : string := String (ascii_of_nat 10) EmptyString.

End GoStrings.

(* ===================================================================== *)
(** ** The fragment of Go's [regexp] that [ParseMajorMinorVersion] uses   *)
(* ===================================================================== *)

Module GoRegexp.

(** Syntax trees of the operators that occur in [^(\d+\.\d+)]. *)
Inductive Regexp : Type :=
| BeginText                      (* ^ *)
| Literal (c : ascii)            (* an escaped or plain byte, as in \. *)
| PerlDigit                      (* \d, that is [0-9] *)
| Concat (r1 r2 : Regexp)
| Plus (r : Regexp)              (* greedy r+ *)
| Capture (r : Regexp).          (* ( r ), the only group: number 1 *)

Definition isDigit (c : ascii) : bool :=
  let n := nat_of_ascii c in (48 <=? n)%nat && (n <=? 57)%nat.

(** A thread of the matcher: the offset reached, the input that is left
    and the text of group 1, if the group was closed. *)
Definition Cont (R : Type) : Type := nat -> string -> option string -> option R.

(** The iterations of a greedy [+] whose body is matched by [step]: one
    more iteration is tried before the rest of the pattern, [k], runs.
    [n] bounds the number of iterations; an iteration that consumes
    nothing is not repeated. *)
Fixpoint plusLoop {R : Type}
    (step : nat -> string -> option string -> Cont R -> option R)
    (k : Cont R) (n : nat) (pos : nat) (s : string) (cap : option string)
    {struct n} : option R :=
  match n with
  | O => None
  | S n' =>
      step pos s cap (fun pos' s' cap' =>
        match (if (pos <? pos')%nat then plusLoop step k n' pos' s' cap' else None) with
        | Some x => Some x
        | None => k pos' s' cap'
        end)
  end.

(** Backtracking matcher with leftmost-first preference, as Go's engine
    resolves it.  [fuel] bounds the iterations of every [+]. *)
Fixpoint run {R : Type} (r : Regexp) (fuel : nat) (pos : nat) (s : string)
    (cap : option string) (k : Cont R) {struct r} : option R :=
  match r with
  | BeginText => if (pos =? 0)%nat then k pos s cap else None
  | Literal c =>
      match s with
      | String x s' => if Ascii.eqb x c then k (S pos) s' cap else None
      | EmptyString => None
      end
  | PerlDigit =>
      match s with
      | String x s' => if isDigit x then k (S pos) s' cap else None
      | EmptyString => None
      end
  | Concat r1 r2 =>
      run r1 fuel pos s cap (fun pos' s' cap' => run r2 fuel pos' s' cap' k)
  | Plus r1 => plusLoop (run r1 fuel) k fuel pos s cap
  | Capture r1 =>
      run r1 fuel pos s cap (fun pos' s' _ =>
        k pos' s' (Some (GoStrings.takeBytes (pos' - pos) s)))
  end.

(** Looks for the leftmost match that starts at offset [pos] or later. *)
Fixpoint findFrom (re : Regexp) (fuel : nat) (pos : nat) (s : string)
    : option (list string) :=
  match run re fuel pos s None (fun e _ cap => Some (e, cap)) with
  | Some (e, cap) => Some [GoStrings.takeBytes (e - pos) s; default EmptyString cap]
  | None =>
      match s with
      | EmptyString => None
      | String _ s' => findFrom re fuel (S pos) s'
      end
  end.

(** [re.FindStringSubmatch(s)]: the text of the leftmost match and of its
    group, [None] (Go's [nil] slice) when there is no match. *)
Definition FindStringSubmatch (re : Regexp) (s : string) : option (list string) :=
  findFrom re (S (String.length s)) 0 s.

End GoRegexp.

(* ===================================================================== *)
(** ** Go errors                                                          *)
(* ===================================================================== *)

(** The reasons of the API errors that the controller tells apart. *)
Inductive StatusReason : Type :=
| ReasonNotFound
| ReasonAlreadyExists
| ReasonConflict
| ReasonInternalError.

(** An [error] value: a message ([errors.New], [fmt.Errorf]), a message
    wrapping a cause ([%w]) or a status error of the API machinery. *)
Inductive error : Type :=
| ErrorString (msg : string)
| WrapError (msg : string) (cause : error)
| StatusError (reason : StatusReason) (msg : string).

#[global] Instance StatusReason_eq_dec : EqDecision StatusReason.
Proof. solve_decision. Defined.

#[global] Instance error_eq_dec : EqDecision error.
Proof. solve_decision. Defined.

Module k8s_errors.

(** [ReasonForError]: the reason of the first status error in the chain. *)
Fixpoint ReasonForError (err : error) : option StatusReason :=
  match err with
  | ErrorString _ => None
  | WrapError _ cause => ReasonForError cause
  | StatusError r _ => Some r
  end.

Definition IsNotFound (err : error) : bool :=
  bool_decide (ReasonForError err = Some ReasonNotFound).

Definition IsConflict (err : error) : bool :=
  bool_decide (ReasonForError err = Some ReasonConflict).

Definition IsAlreadyExists (err : error) : bool :=
  bool_decide (ReasonForError err = Some ReasonAlreadyExists).

Definition NewNotFound (resource name : string) : error :=
  StatusError ReasonNotFound (resource +:+ " " +:+ name +:+ " not found").

End k8s_errors.

(* ===================================================================== *)
(** ** The OCP version resolver (ocp_rag.go)                              *)
(* ===================================================================== *)

Module OCPVersion.

Definition OpenStackLightspeedOCPVectorDBPath : string := "/rag/ocp_vector_db/ocp".
Definition OpenStackLightspeedOCPIndexPrefix : string := "ocp-product-docs".

Definition OCPVersion416 : string := "4.16".
Definition OCPVersion418 : string := "4.18".
Definition OCPVersionLatest : string := "latest".

Definition SupportedOCPVersions : list string :=
  [OCPVersion416; OCPVersion418; OCPVersionLatest].

(** The compiled form of the pattern [^(\d+\.\d+)]. *)
Definition majorMinorRe : GoRegexp.Regexp :=
  GoRegexp.Concat GoRegexp.BeginText
    (GoRegexp.Capture
       (GoRegexp.Concat (GoRegexp.Plus GoRegexp.PerlDigit)
          (GoRegexp.Concat (GoRegexp.Literal "."%char)
             (GoRegexp.Plus GoRegexp.PerlDigit)))).

Definition ParseMajorMinorVersion (fullVersion : string) : string * option error :=
  let re := majorMinorRe in
  let matches := GoRegexp.FindStringSubmatch re fullVersion in
  match matches with
  | Some (_ :: m1 :: _) => (m1, None)
  | _ => (EmptyString, Some (ErrorString ("invalid version format: " +:+ fullVersion)))
  end.

Definition GetOCPIndexName (version : string) : string :=
  let versionFormatted := GoStrings.ReplaceAllByte version "."%char "_" in
  OpenStackLightspeedOCPIndexPrefix +:+ "-" +:+ versionFormatted.

Definition GetOCPVectorDBPath (version : string) : string :=
  OpenStackLightspeedOCPVectorDBPath +:+ "-" +:+ version.

(** [slices.Contains(SupportedOCPVersions, version)]. *)
Definition IsSupportedOCPVersion (version : string) : bool :=
  existsb (String.eqb version) SupportedOCPVersions.

Definition ResolveOCPVersion (detectedVersion overrideVersion : string)
    (enableOCPRAG : bool) : string * bool * option error :=
  if negb enableOCPRAG then (EmptyString, false, None)
  else if negb (String.eqb overrideVersion EmptyString) then
    (overrideVersion, false, None)
  else if String.eqb detectedVersion EmptyString then
    (EmptyString, false, Some (ErrorString "no OCP version detected"))
  else if IsSupportedOCPVersion detectedVersion then
    (detectedVersion, false, None)
  else (OCPVersionLatest, true, None).

End OCPVersion.

(* ===================================================================== *)
(** ** Strings that match [\d+\.\d+]                                      *)
(* ===================================================================== *)

Module MajorMinor.

Fixpoint allDigits (s : string) : bool :=
  match s with
  | EmptyString => true
  | String c s' => GoRegexp.isDigit c && allDigits s'
  end.

(** [s] matches [\d+]. *)
Definition digits (s : string) : Prop := s <> EmptyString /\ allDigits s = true.

Definition startsWithDigit (s : string) : bool :=
  match s with
  | String c _ => GoRegexp.isDigit c
  | EmptyString => false
  end.

(** [p] matches [\d+\.\d+] as a whole. *)
Definition matchesPattern (p : string) : Prop :=
  exists major minor, digits major /\ digits minor /\ p = major +:+ "." +:+ minor.

(** [v] has a prefix that matches [^\d+\.\d+]. *)
Definition hasMatchingPrefix (v : string) : Prop :=
  exists p rest, matchesPattern p /\ v = p +:+ rest.

(** [p] is the major.minor prefix of [v]: the matching prefix whose minor
    number is not cut short. *)
Definition majorMinorPrefix (v p : string) : Prop :=
  exists major minor rest,
    digits major /\ digits minor /\ p = major +:+ "." +:+ minor /\
    v = p +:+ rest /\ startsWithDigit rest = false.

(** The longest run of digits at the head of a string, and what follows. *)
Fixpoint spanDigits (s : string) : string * string :=
  match s with
  | EmptyString => (EmptyString, EmptyString)
  | String c s' =>
      if GoRegexp.isDigit c
      then let '(ds, rest) := spanDigits s' in (String c ds, rest)
      else (EmptyString, s)
  end.

(** A direct scanner for the major.minor prefix: digits, a dot, digits. *)
Definition scanMajorMinor (v : string) : option string :=
  let '(major, r1) := spanDigits v in
  match major, r1 with
  | String _ _, String c r2 =>
      if Ascii.eqb c "."%char then
        let '(minor, _) := spanDigits r2 in
        match minor with
        | String _ _ => Some (major +:+ "." +:+ minor)
        | EmptyString => None
        end
      else None
  | _, _ => None
  end.

End MajorMinor.

(* ===================================================================== *)
(** ** [float64]: the numbers of decoded JSON that are not [int64]        *)
(* ===================================================================== *)

Module float64.

(** A [float64] that is a number, by its value [mantissa * 2^exponent]: the
    mantissa is odd, or both are [0].  The infinities and not-a-number are
    no values of JSON, and the two zeros, which [==] and [DeepEqual] take
    for equal, are one value here. *)
Record t : Type := mk { mantissa : Z; exponent : Z }.

#[global] Instance t_eq_dec : EqDecision t.
Proof. solve_decision. Defined.

(** The odd part of a mantissa, with the exponent that keeps the value. *)
Fixpoint oddPart (p : positive) (e : Z) : positive * Z :=
  match p with
  | xO p' => oddPart p' (e + 1)
  | _ => (p, e)
  end.

(** The number [m * 2^e]. *)
Definition make (m e : Z) : t :=
  match m with
  | Z0 => mk 0 0
  | Zpos p => let '(p', e') := oddPart p e in mk (Zpos p') e'
  | Zneg p => let '(p', e') := oddPart p e in mk (Zneg p') e'
  end.

(** [float64(n)] for an integer [n]: [n] itself when 53 bits hold it,
    otherwise the nearest number with a mantissa of 53 bits, the one with
    the even mantissa when two are as near. *)
Definition ofInt (n : Z) : t :=
  let a := Z.abs n in
  let k := (Z.log2 a + 1 - 53)%Z in
  if (k <=? 0)%Z then make n 0
  else
    let q := Z.shiftr a k in
    let r := Z.land a (Z.ones k) in
    let half := Z.shiftl 1 (k - 1) in
    let q' := if (half <? r)%Z || ((r =? half)%Z && Z.odd q) then (q + 1)%Z else q in
    make (Z.sgn n * q') k.

(** The integer that a number is, if it is one. *)
Definition toInt (f : t) : option Z :=
  if (0 <=? exponent f)%Z then Some (mantissa f * 2 ^ exponent f)%Z
  else if (mantissa f mod 2 ^ (- exponent f) =? 0)%Z
       then Some (mantissa f / 2 ^ (- exponent f))%Z
       else None.

End float64.

(* ===================================================================== *)
(** ** [unstructured]: loosely typed API objects                          *)
(* ===================================================================== *)

(** A Go slice that may be [nil]: [None] is the nil slice. *)
Definition slice (A : Type) : Type := option (list A).

Definition elems {A : Type} (s : slice A) : list A := default [] s.

Module uns.

(** The values of an [interface{}] in decoded JSON; [Null] is [nil],
    [Number] an [int64] and [Float] a [float64]. *)
Inductive value : Type :=
| Null
| Bool (b : bool)
| Number (n : Z)
| Float (f : float64.t)
| Str (s : string)
| Slice (l : list value)
| Map (m : gmap string value).

Fixpoint value_eq_dec (x y : value) {struct x} : Decision (x = y).
Proof.
  refine (match x, y with
  | Null, Null => left _
  | Bool a, Bool b => cast_if (decide (a = b))
  | Number a, Number b => cast_if (decide (a = b))
  | Float a, Float b => cast_if (decide (a = b))
  | Str a, Str b => cast_if (decide (a = b))
  | Slice a, Slice b => cast_if (@decide (a = b) (@list_eq_dec _ value_eq_dec a b))
  | Map a, Map b => cast_if (@decide (a = b) (@gmap_eq_dec _ _ _ _ value_eq_dec a b))
  | _, _ => right _
  end); abstract congruence.
Defined.

#[global] Instance value_eqdec : EqDecision value := value_eq_dec.

(** [Unstructured]: the field [Object] holds the whole document. *)
Record Unstructured : Type := mkUnstructured { Object : gmap string value }.

#[global] Instance Unstructured_eq_dec : EqDecision Unstructured.
Proof. solve_decision. Defined.

Definition accessorError : error := ErrorString "accessor error".

(** [NestedFieldNoCopy], on the value reached so far: a [nil] or a missing
    key on the way is "not found"; a value that is not a map is an error. *)
Fixpoint nestedFrom (val : value) (fields : list string) : value * bool * option error :=
  match fields with
  | [] => (val, true, None)
  | field :: fields' =>
      match val with
      | Null => (Null, false, None)
      | Map m =>
          match m !! field with
          | Some val' => nestedFrom val' fields'
          | None => (Null, false, None)
          end
      | _ => (Null, false, Some accessorError)
      end
  end.

Definition NestedFieldNoCopy (obj : gmap string value) (fields : list string)
    : value * bool * option error :=
  nestedFrom (Map obj) fields.

Definition NestedString (obj : gmap string value) (fields : list string)
    : string * bool * option error :=
  let '(val, found, err) := NestedFieldNoCopy obj fields in
  if negb found || bool_decide (err <> None) then (EmptyString, found, err)
  else match val with
       | Str s => (s, true, None)
       | _ => (EmptyString, false, Some accessorError)
       end.

Definition NestedSlice (obj : gmap string value) (fields : list string)
    : list value * bool * option error :=
  let '(val, found, err) := NestedFieldNoCopy obj fields in
  if negb found || bool_decide (err <> None) then ([], found, err)
  else match val with
       | Slice l => (l, true, None)
       | _ => ([], false, Some accessorError)
       end.

Definition asString (v : value) : option string :=
  match v with
  | Str s => Some s
  | _ => None
  end.

(** [NestedStringMap]: every value of the map has to be a string.  The
    [nil] map of Go is the empty map here. *)
Definition NestedStringMap (obj : gmap string value) (fields : list string)
    : gmap string string * bool * option error :=
  let '(val, found, err) := NestedFieldNoCopy obj fields in
  if negb found || bool_decide (err <> None) then (∅, found, err)
  else match val with
       | Map m =>
           if bool_decide (map_Forall (fun _ v => is_Some (asString v)) m)
           then (omap asString m, true, None)
           else (∅, false, Some accessorError)
       | _ => (∅, false, Some accessorError)
       end.

(** [NestedStringSlice]: every element has to be a string; the result is
    [nil] unless the field is found and well formed. *)
Definition NestedStringSlice (obj : gmap string value) (fields : list string)
    : slice string * bool * option error :=
  let '(val, found, err) := NestedFieldNoCopy obj fields in
  if negb found || bool_decide (err <> None) then (None, found, err)
  else match val with
       | Slice l =>
           match mapM asString l with
           | Some strs => (Some strs, true, None)
           | None => (None, false, Some accessorError)
           end
       | _ => (None, false, Some accessorError)
       end.

Definition notAMapError : error :=
  ErrorString "value cannot be set because the path is not a map[string]interface{}".

(** [setNestedFieldNoCopy]: walks [field :: fields] from [m], creating the
    maps that are missing, and stores [value] under the last field; a value
    on the way that is not a map stops it with an error.  The map returned
    is [m] after the call, whether it failed or not. *)
Fixpoint setNestedFrom (m : gmap string value) (val : value) (field : string)
    (fields : list string) : gmap string value * option error :=
  match fields with
  | [] => (<[field := val]> m, None)
  | field' :: fields' =>
      match m !! field with
      | Some (Map child) =>
          let '(child', err) := setNestedFrom child val field' fields' in
          (<[field := Map child']> m, err)
      | Some _ => (m, Some notAMapError)
      | None =>
          let '(child', err) := setNestedFrom ∅ val field' fields' in
          (<[field := Map child']> m, err)
      end
  end.

(** [SetNestedField(obj, value, fields...)]; the path is never empty. *)
Definition SetNestedField (obj : gmap string value) (val : value)
    (fields : list string) : gmap string value * option error :=
  match fields with
  | [] => (obj, None)
  | field :: fields' => setNestedFrom obj val field fields'
  end.

Definition SetNestedSlice (obj : gmap string value) (val : list value)
    (fields : list string) : gmap string value * option error :=
  SetNestedField obj (Slice val) fields.

Definition SetNestedStringSlice (obj : gmap string value) (val : list string)
    (fields : list string) : gmap string value * option error :=
  SetNestedField obj (Slice (Str <$> val)) fields.

Definition SetNestedStringMap (obj : gmap string value) (val : gmap string string)
    (fields : list string) : gmap string value * option error :=
  SetNestedField obj (Map (Str <$> val)) fields.

(** [RemoveNestedField]: nothing happens unless the path leads through maps. *)
Fixpoint removeNestedFrom (m : gmap string value) (field : string)
    (fields : list string) : gmap string value :=
  match fields with
  | [] => delete field m
  | field' :: fields' =>
      match m !! field with
      | Some (Map child) => <[field := Map (removeNestedFrom child field' fields')]> m
      | _ => m
      end
  end.

Definition RemoveNestedField (obj : gmap string value) (fields : list string)
    : gmap string value :=
  match fields with
  | [] => obj
  | field :: fields' => removeNestedFrom obj field fields'
  end.

(** Accessors of [*Unstructured]; their errors are dropped, as in Go. *)
Definition GetName (u : Unstructured) : string :=
  (NestedString (Object u) ["metadata"; "name"]).1.1.

Definition GetNamespace (u : Unstructured) : string :=
  (NestedString (Object u) ["metadata"; "namespace"]).1.1.

Definition GetLabels (u : Unstructured) : gmap string string :=
  (NestedStringMap (Object u) ["metadata"; "labels"]).1.1.

(** [SetLabels] with a map that is not [nil]. *)
Definition SetLabels (labels : gmap string string) (u : Unstructured) : Unstructured :=
  mkUnstructured (SetNestedStringMap (Object u) labels ["metadata"; "labels"]).1.

Definition GetFinalizers (u : Unstructured) : slice string :=
  (NestedStringSlice (Object u) ["metadata"; "finalizers"]).1.1.

Definition SetFinalizers (finalizers : slice string) (u : Unstructured) : Unstructured :=
  match finalizers with
  | None => mkUnstructured (RemoveNestedField (Object u) ["metadata"; "finalizers"])
  | Some l => mkUnstructured (SetNestedStringSlice (Object u) l ["metadata"; "finalizers"]).1
  end.

Definition GetDeletionTimestamp (u : Unstructured) : string :=
  (NestedString (Object u) ["metadata"; "deletionTimestamp"]).1.1.

(** The document has the value [v] at the path [p]. *)
Definition hasField (obj : gmap string value) (p : list string) (v : value) : Prop :=
  NestedFieldNoCopy obj p = (v, true, None).

(** Two paths part ways: neither leads through the other. *)
Fixpoint diverge (p q : list string) : bool :=
  match p, q with
  | a :: p', b :: q' => if String.eqb a b then diverge p' q' else true
  | _, _ => false
  end.

End uns.

(* ===================================================================== *)
(** ** API types                                                          *)
(* ===================================================================== *)

Module metav1.

Record OwnerReference : Type := mkOwnerReference {
  ref_APIVersion : string;
  ref_Kind : string;
  ref_Name : string;
  ref_UID : string;
  ref_Controller : option bool;
  ref_BlockOwnerDeletion : option bool }.

(** The part of [ObjectMeta] that the controller reads or writes.  A zero
    [DeletionTimestamp] is [None]. *)
Record ObjectMeta : Type := mkObjectMeta {
  Name : string;
  Namespace : string;
  UID : string;
  Generation : Z;
  Labels : gmap string string;
  OwnerReferences : list OwnerReference;
  Finalizers : slice string;
  DeletionTimestamp : option nat }.

Record Condition : Type := mkCondition {
  cond_Type : string;
  cond_Status : string;
  cond_ObservedGeneration : Z;
  cond_LastTransitionTime : string;
  cond_Reason : string;
  cond_Message : string }.

Definition ConditionTrue : string := "True".

#[global] Instance OwnerReference_eq_dec : EqDecision OwnerReference.
Proof. solve_decision. Defined.

#[global] Instance ObjectMeta_eq_dec : EqDecision ObjectMeta.
Proof. solve_decision. Defined.

#[global] Instance Condition_eq_dec : EqDecision Condition.
Proof. solve_decision. Defined.

Definition set_OwnerReferences (refs : list OwnerReference) (m : ObjectMeta) : ObjectMeta :=
  mkObjectMeta (Name m) (Namespace m) (UID m) (Generation m) (Labels m) refs
    (Finalizers m) (DeletionTimestamp m).

Definition set_Finalizers (f : slice string) (m : ObjectMeta) : ObjectMeta :=
  mkObjectMeta (Name m) (Namespace m) (UID m) (Generation m) (Labels m)
    (OwnerReferences m) f (DeletionTimestamp m).

Definition set_DeletionTimestamp (t : option nat) (m : ObjectMeta) : ObjectMeta :=
  mkObjectMeta (Name m) (Namespace m) (UID m) (Generation m) (Labels m)
    (OwnerReferences m) (Finalizers m) t.

End metav1.

(** [metav1.Object], for the typed objects: they embed an [ObjectMeta]. *)
Class Object (T : Type) : Type := {
  GetObjectMeta : T -> metav1.ObjectMeta;
  SetObjectMeta : metav1.ObjectMeta -> T -> T }.

Definition GetUID {T : Type} `{Object T} (o : T) : string :=
  metav1.UID (GetObjectMeta o).

Definition GetName {T : Type} `{Object T} (o : T) : string :=
  metav1.Name (GetObjectMeta o).

Definition GetNamespace {T : Type} `{Object T} (o : T) : string :=
  metav1.Namespace (GetObjectMeta o).

Definition GetOwnerReferences {T : Type} `{Object T} (o : T) : list metav1.OwnerReference :=
  metav1.OwnerReferences (GetObjectMeta o).

Definition SetOwnerReferences {T : Type} `{Object T}
    (refs : list metav1.OwnerReference) (o : T) : T :=
  SetObjectMeta (metav1.set_OwnerReferences refs (GetObjectMeta o)) o.

(** The two methods of [client.Object] that [controllerutil] needs to manage
    finalizers; [Unstructured] implements them on its document. *)
Class HasFinalizers (T : Type) : Type := {
  GetFinalizers : T -> slice string;
  SetFinalizers : slice string -> T -> T }.

#[global] Instance Object_HasFinalizers {T : Type} `{Object T} : HasFinalizers T := {
  GetFinalizers o := metav1.Finalizers (GetObjectMeta o);
  SetFinalizers f o := SetObjectMeta (metav1.set_Finalizers f (GetObjectMeta o)) o }.

#[global] Instance Unstructured_HasFinalizers : HasFinalizers uns.Unstructured := {
  GetFinalizers := uns.GetFinalizers;
  SetFinalizers := uns.SetFinalizers }.

Module controllerutil.

(** [AddFinalizer]: returns the object and whether it was changed. *)
Definition AddFinalizer {T : Type} `{HasFinalizers T} (o : T) (finalizer : string)
    : T * bool :=
  let f := GetFinalizers o in
  if bool_decide (finalizer ∈ elems f) then (o, false)
  else (SetFinalizers (Some (elems f ++ [finalizer])%list) o, true).

(** [RemoveFinalizer]: keeps the other finalizers in place ([f[:index]] is
    [nil] when [f] is) and tells whether one was dropped. *)
Definition RemoveFinalizer {T : Type} `{HasFinalizers T} (o : T) (finalizer : string)
    : T * bool :=
  let f := GetFinalizers o in
  let kept := filter (fun e => e <> finalizer) (elems f) in
  let f' := match f with
            | None => None
            | Some _ => Some kept
            end in
  (SetFinalizers f' o, negb (length (elems f) =? length kept)%nat).

Inductive OperationResult : Type :=
| OperationResultNone
| OperationResultCreated
| OperationResultUpdated
| OperationResultUpdatedStatus
| OperationResultUpdatedStatusOnly.

#[global] Instance OperationResult_eq_dec : EqDecision OperationResult.
Proof. solve_decision. Defined.

End controllerutil.

(** lib-common's [condition] package: the list of conditions in the status
    of the instance.  The list may be [nil]. *)
Module condition.

Record Condition : Type := mkCondition {
  Type_ : string;
  Status : string;
  Severity : string;
  Reason : string;
  Message : string }.

Definition Conditions : Type := slice Condition.

#[global] Instance Condition_eq_dec : EqDecision Condition.
Proof. solve_decision. Defined.

Definition ReadyCondition : string := "Ready".
Definition InitReason : string := "Init".
Definition ErrorReason : string := "Error".
Definition RequestedReason : string := "Requested".
Definition SeverityWarning : string := "Warning".
Definition SeverityInfo : string := "Info".
Definition ReadyMessage : string := "Setup complete".
Definition ReadyInitMessage : string := "Instance not started".
Definition DeploymentReadyErrorMessage : string := "Deployment error occurred %s".

Definition UnknownCondition (t reason message : string) : Condition :=
  mkCondition t "Unknown" EmptyString reason message.

Definition FalseCondition (t reason severity message : string) : Condition :=
  mkCondition t "False" severity reason message.

Definition CreateList (c : Condition) : Conditions := Some [c].

(** The operations on a list of conditions that the reconciler calls.  They
    belong to lib-common and are taken as given. *)
Record Operations : Type := mkOperations {
  Init : Conditions -> Conditions -> Conditions;
  Set_ : Condition -> Conditions -> Conditions;
  MarkTrue : string -> string -> Conditions -> Conditions;
  MarkUnknown : string -> string -> string -> Conditions -> Conditions;
  Mirror : string -> Conditions -> Condition;
  AllSubConditionIsTrue : Conditions -> bool;
  RestoreLastTransitionTimes : Conditions -> Conditions -> Conditions }.

End condition.

(** Modelled from the spec: the type declarations of [api/v1beta1] are not
    among the sources; the record has the fields of the custom resource that
    the controller reads or writes. *)
Module apiv1beta1.

Record OpenStackLightspeedSpec : Type := mkSpec {
  LLMEndpoint : string;
  LLMEndpointType : string;
  LLMCredentials : string;
  ModelName : string;
  MaxTokensForResponse : Z;
  RAGImage : string;
  TLSCACertBundle : string;
  CatalogSourceName : string;
  CatalogSourceNamespace : string }.

Record OpenStackLightspeedStatus : Type := mkStatus {
  Conditions : condition.Conditions;
  ObservedGeneration : Z }.

Record OpenStackLightspeed : Type := mkOpenStackLightspeed {
  APIVersion : string;
  Kind : string;
  Meta : metav1.ObjectMeta;
  Spec : OpenStackLightspeedSpec;
  Status : OpenStackLightspeedStatus }.

#[global] Instance OpenStackLightspeedSpec_eq_dec : EqDecision OpenStackLightspeedSpec.
Proof. solve_decision. Defined.

#[global] Instance OpenStackLightspeedStatus_eq_dec : EqDecision OpenStackLightspeedStatus.
Proof. solve_decision. Defined.

#[global] Instance OpenStackLightspeed_eq_dec : EqDecision OpenStackLightspeed.
Proof. solve_decision. Defined.

Definition set_Meta (m : metav1.ObjectMeta) (i : OpenStackLightspeed) : OpenStackLightspeed :=
  mkOpenStackLightspeed (APIVersion i) (Kind i) m (Spec i) (Status i).

Definition set_Spec (sp : OpenStackLightspeedSpec) (i : OpenStackLightspeed)
    : OpenStackLightspeed :=
  mkOpenStackLightspeed (APIVersion i) (Kind i) (Meta i) sp (Status i).

Definition set_Status (st : OpenStackLightspeedStatus) (i : OpenStackLightspeed)
    : OpenStackLightspeed :=
  mkOpenStackLightspeed (APIVersion i) (Kind i) (Meta i) (Spec i) st.

Definition set_Conditions (cs : condition.Conditions) (i : OpenStackLightspeed)
    : OpenStackLightspeed :=
  set_Status (mkStatus cs (ObservedGeneration (Status i))) i.

Definition set_RAGImage (img : string) (i : OpenStackLightspeed) : OpenStackLightspeed :=
  let sp := Spec i in
  set_Spec (mkSpec (LLMEndpoint sp) (LLMEndpointType sp) (LLMCredentials sp) (ModelName sp)
              (MaxTokensForResponse sp) img (TLSCACertBundle sp) (CatalogSourceName sp)
              (CatalogSourceNamespace sp)) i.

Definition set_MaxTokensForResponse (n : Z) (i : OpenStackLightspeed) : OpenStackLightspeed :=
  let sp := Spec i in
  set_Spec (mkSpec (LLMEndpoint sp) (LLMEndpointType sp) (LLMCredentials sp) (ModelName sp)
              n (RAGImage sp) (TLSCACertBundle sp) (CatalogSourceName sp)
              (CatalogSourceNamespace sp)) i.

#[global] Instance OpenStackLightspeed_Object : Object OpenStackLightspeed := {
  GetObjectMeta := Meta;
  SetObjectMeta := set_Meta }.

(** conditions.go *)
Definition OpenStackLightspeedReadyCondition : string := "OpenStackLightspeedReady".
Definition OpenShiftLightspeedOperatorReadyCondition : string :=
  "OpenShiftLightspeedOperatorReady".
Definition OCPRAGCondition : string := "OCPRAGReady".
Definition OpenStackLightspeedReadyInitMessage : string := "OpenStack Lightspeed not started".
Definition OpenStackLightspeedReadyMessage : string := "OpenStack Lightspeed created".
Definition OpenStackLightspeedWaitingVectorDBMessage : string :=
  "Waiting for OpenStackLightspeed vector DB pod to become ready".
Definition OpenShiftLightspeedOperatorWaiting : string :=
  "Waiting for the OpenShift Lightspeed operator to deploy.".
Definition OpenShiftLightspeedOperatorReady : string :=
  "OpenShift Lightspeed operator is ready.".

End apiv1beta1.

(** OLM's objects, with the fields that the installer uses. *)
Module operatorsv1alpha1.

Record ClusterServiceVersion : Type := mkCSV {
  csv_Meta : metav1.ObjectMeta;
  csv_Version : string;      (* Spec.Version.String() *)
  csv_Phase : string }.      (* Status.Phase *)

Definition CSVPhaseSucceeded : string := "Succeeded".
Definition ApprovalManual : string := "Manual".

Record SubscriptionSpec : Type := mkSubscriptionSpec {
  Channel : string;
  InstallPlanApproval : string;
  CatalogSource : string;
  CatalogSourceNamespace : string;
  Package : string;
  StartingCSV : string }.

(** [sub_InstallPlanRef] is [Status.InstallPlanRef], the name of the plan. *)
Record Subscription : Type := mkSubscription {
  sub_Meta : metav1.ObjectMeta;
  sub_Spec : option SubscriptionSpec;
  sub_InstallPlanRef : option string }.

Record InstallPlan : Type := mkInstallPlan {
  ip_Meta : metav1.ObjectMeta;
  ip_ClusterServiceVersionNames : list string;
  ip_Approved : bool }.

#[global] Instance ClusterServiceVersion_eq_dec : EqDecision ClusterServiceVersion.
Proof. solve_decision. Defined.

#[global] Instance SubscriptionSpec_eq_dec : EqDecision SubscriptionSpec.
Proof. solve_decision. Defined.

#[global] Instance Subscription_eq_dec : EqDecision Subscription.
Proof. solve_decision. Defined.

#[global] Instance InstallPlan_eq_dec : EqDecision InstallPlan.
Proof. solve_decision. Defined.

#[global] Instance ClusterServiceVersion_Object : Object ClusterServiceVersion := {
  GetObjectMeta := csv_Meta;
  SetObjectMeta m o := mkCSV m (csv_Version o) (csv_Phase o) }.

#[global] Instance Subscription_Object : Object Subscription := {
  GetObjectMeta := sub_Meta;
  SetObjectMeta m o := mkSubscription m (sub_Spec o) (sub_InstallPlanRef o) }.

#[global] Instance InstallPlan_Object : Object InstallPlan := {
  GetObjectMeta := ip_Meta;
  SetObjectMeta m o := mkInstallPlan m (ip_ClusterServiceVersionNames o) (ip_Approved o) }.

Definition set_Spec (sp : option SubscriptionSpec) (o : Subscription) : Subscription :=
  mkSubscription (sub_Meta o) sp (sub_InstallPlanRef o).

Definition set_Approved (b : bool) (o : InstallPlan) : InstallPlan :=
  mkInstallPlan (ip_Meta o) (ip_ClusterServiceVersionNames o) b.

End operatorsv1alpha1.

(** Jobs and pods of the index discovery.  A pod carries the images of its
    containers, its phase and the log that it has written. *)
Module corev1.

Record Pod : Type := mkPod {
  pod_Meta : metav1.ObjectMeta;
  pod_Images : list string;
  pod_Phase : string;
  pod_Logs : string }.

Record Job : Type := mkJob {
  job_Meta : metav1.ObjectMeta;
  job_Image : string;
  job_TTLSecondsAfterFinished : Z;
  job_ActiveDeadlineSeconds : Z }.

Definition PodSucceeded : string := "Succeeded".
Definition PodFailed : string := "Failed".

#[global] Instance Pod_eq_dec : EqDecision Pod.
Proof. solve_decision. Defined.

#[global] Instance Job_eq_dec : EqDecision Job.
Proof. solve_decision. Defined.

#[global] Instance Pod_Object : Object Pod := {
  GetObjectMeta := pod_Meta;
  SetObjectMeta m o := mkPod m (pod_Images o) (pod_Phase o) (pod_Logs o) }.

#[global] Instance Job_Object : Object Job := {
  GetObjectMeta := job_Meta;
  SetObjectMeta m o :=
    mkJob m (job_Image o) (job_TTLSecondsAfterFinished o) (job_ActiveDeadlineSeconds o) }.

End corev1.

(* ===================================================================== *)
(** ** The cluster and the API client                                     *)
(* ===================================================================== *)

Module client.

Inductive Kind : Type :=
| KOpenStackLightspeed
| KOLSConfig
| KClusterServiceVersion
| KSubscription
| KInstallPlan
| KJob
| KPod.

(** The requests that the controller sends; [namespace] is empty for a
    cluster-scoped object and for a list over all namespaces. *)
Inductive Call : Type :=
| CallNewClient                                   (* config.GetConfig, client.New *)
| CallList (k : Kind) (namespace : string)
| CallGet (k : Kind) (namespace name : string)
| CallCreate (k : Kind) (namespace name : string)
| CallUpdate (k : Kind) (namespace name : string)
| CallPatch (k : Kind) (namespace name : string)
| CallStatusPatch (k : Kind) (namespace name : string)
| CallDelete (k : Kind) (namespace name : string)
| CallGetLogs (namespace name : string).

#[global] Instance Kind_eq_dec : EqDecision Kind.
Proof. solve_decision. Defined.

#[global] Instance Call_eq_dec : EqDecision Call.
Proof. solve_decision. Defined.

(** The objects that the API server stores.  [olsConfigs] is the list of
    the cluster-scoped [OLSConfig] objects, in the order a list returns them. *)
Record Objects : Type := mkObjects {
  instances : list apiv1beta1.OpenStackLightspeed;
  olsConfigs : list uns.Unstructured;
  csvs : list operatorsv1alpha1.ClusterServiceVersion;
  subscriptions : list operatorsv1alpha1.Subscription;
  installPlans : list operatorsv1alpha1.InstallPlan;
  jobs : list corev1.Job;
  pods : list corev1.Pod }.

(** The world of one reconciliation: the stored objects, the failures that
    the next requests will meet (one entry per request, [None] or a missing
    entry for a request that is served), the numbers that [rand.Int] will
    return and the requests sent so far. *)
Record Cluster : Type := mkCluster {
  objects : Objects;
  faults : list (option error);
  randomInts : list nat;
  calls : list Call }.

Definition set_objects (o : Objects) (c : Cluster) : Cluster :=
  mkCluster o (faults c) (randomInts c) (calls c).

(** The result of running a piece of the controller: it returns, or the
    goroutine panics. *)
Inductive Outcome (A : Type) : Type :=
| Return (a : A) (c : Cluster)
| Panic (msg : string) (c : Cluster).

Arguments Return {A} a c.
Arguments Panic {A} msg c.

Definition M (A : Type) : Type := Cluster -> Outcome A.

#[global] Instance M_ret : MRet M := fun A a c => Return a c.

#[global] Instance M_bind : MBind M := fun A B f m c =>
  match m c with
  | Return a c' => f a c'
  | Panic msg c' => Panic msg c'
  end.

Definition panic {A : Type} (msg : string) : M A := fun c => Panic msg c.

Definition getObjects : M Objects := fun c => Return (objects c) c.

(** [rand.Int()]. *)
Definition randInt : M nat := fun c =>
  match randomInts c with
  | [] => Return 0 c
  | n :: ns => Return n (mkCluster (objects c) (faults c) ns (calls c))
  end.

(** Sends a request: it is recorded, and the failure that is scheduled for
    it, if any, is returned. *)
Definition request (call : Call) : M (option error) := fun c =>
  let log := (calls c ++ [call])%list in
  match faults c with
  | [] => Return None (mkCluster (objects c) [] (randomInts c) log)
  | f :: fs => Return f (mkCluster (objects c) fs (randomInts c) log)
  end.

Definition modifyObjects (f : Objects -> Objects) : M unit := fun c =>
  Return tt (set_objects (f (objects c)) c).

(** The failure that the next request will meet, if any. *)
Definition nextFault (c : Cluster) : option error := default None (head (faults c)).

(** From [c] to [c'], requests were sent that all satisfy [P]. *)
Definition sends (P : Call -> Prop) (c c' : Cluster) : Prop :=
  exists sent, calls c' = (calls c ++ sent)%list /\ Forall P sent.

(** The requests that read. *)
Definition isRead (call : Call) : Prop :=
  match call with
  | CallNewClient | CallList _ _ | CallGet _ _ _ | CallGetLogs _ _ => True
  | _ => False
  end.

(** The requests about objects of the kind [k]. *)
Definition isAbout (k : Kind) (call : Call) : Prop :=
  match call with
  | CallNewClient | CallGetLogs _ _ => False
  | CallList k' _ | CallGet k' _ _ | CallCreate k' _ _ | CallUpdate k' _ _
  | CallPatch k' _ _ | CallStatusPatch k' _ _ | CallDelete k' _ _ => k' = k
  end.

(** The next [n] requests are served: no failure is scheduled for them. *)
Definition served (n : nat) (c : Cluster) : Prop :=
  Forall (fun f => f = None) (take n (faults c)).

(** The cluster after [sent] has been sent and answered. *)
Definition afterRequests (sent : list Call) (c : Cluster) : Cluster :=
  mkCluster (objects c) (drop (length sent) (faults c)) (randomInts c)
    (calls c ++ sent)%list.

(** A kind of object of the API: where it is stored, its key (namespace and
    name) and its deletion mark. *)
Class Resource (T : Type) `{HasFinalizers T} : Type := {
  kind : Kind;
  store : Objects -> list T;
  setStore : list T -> Objects -> Objects;
  keyOf : T -> string * string;
  isDeleting : T -> bool;
  markDeleting : T -> T }.

Section Requests.
Context {T : Type} `{Resource T}.

Definition hasKey (key : string * string) (o : T) : bool := bool_decide (keyOf o = key).

Definition lookupObject (key : string * string) (l : list T) : option T :=
  List.find (hasKey key) l.

Definition replaceObject (o : T) (l : list T) : list T :=
  map (fun x => if hasKey (keyOf o) x then o else x) l.

Definition removeObject (key : string * string) (l : list T) : list T :=
  List.filter (fun x => negb (hasKey key x)) l.

(** An object that is being deleted goes away with its last finalizer. *)
Definition storeObject (o : T) (l : list T) : list T :=
  if isDeleting o && bool_decide (elems (GetFinalizers o) = [])
  then removeObject (keyOf o) l
  else replaceObject o l.

Definition notFound (key : string * string) : error :=
  k8s_errors.NewNotFound "object" key.2.

Definition alreadyExists (key : string * string) : error :=
  StatusError ReasonAlreadyExists key.2.

(** [c.List(ctx, list, client.InNamespace(namespace))]. *)
Definition List_ (namespace : string) : M (list T * option error) :=
  err ← request (CallList kind namespace);
  match err with
  | Some e => mret ([], Some e)
  | None =>
      os ← getObjects;
      mret (List.filter (fun o => bool_decide (namespace = EmptyString)
                                  || bool_decide ((keyOf o).1 = namespace)) (store os),
            None)
  end.

(** [c.Get(ctx, key, obj)]: the stored object, if it is found. *)
Definition Get (key : string * string) : M (option T * option error) :=
  err ← request (CallGet kind key.1 key.2);
  match err with
  | Some e => mret (None, Some e)
  | None =>
      os ← getObjects;
      match lookupObject key (store os) with
      | Some o => mret (Some o, None)
      | None => mret (None, Some (notFound key))
      end
  end.

Definition Create (o : T) : M (option error) :=
  err ← request (CallCreate kind (keyOf o).1 (keyOf o).2);
  match err with
  | Some e => mret (Some e)
  | None =>
      os ← getObjects;
      match lookupObject (keyOf o) (store os) with
      | Some _ => mret (Some (alreadyExists (keyOf o)))
      | None => modifyObjects (setStore (store os ++ [o])%list);; mret None
      end
  end.

(** [c.Update] and [c.Patch]: the object takes the place of the stored one.
    It is stored as it is sent: what the server adds to an object, and the
    [int64] that a [float64] with the value of an integer is when the object
    is read again, are not modelled. *)
Definition write (call : Call) (o : T) : M (option error) :=
  err ← request call;
  match err with
  | Some e => mret (Some e)
  | None =>
      os ← getObjects;
      match lookupObject (keyOf o) (store os) with
      | None => mret (Some (notFound (keyOf o)))
      | Some _ => modifyObjects (setStore (storeObject o (store os)));; mret None
      end
  end.

Definition Update (o : T) : M (option error) :=
  write (CallUpdate kind (keyOf o).1 (keyOf o).2) o.

Definition Patch (o : T) : M (option error) :=
  write (CallPatch kind (keyOf o).1 (keyOf o).2) o.

(** [c.Delete(ctx, obj)]: the stored object is removed, or marked as being
    deleted while it has finalizers. *)
Definition Delete (o : T) : M (option error) :=
  err ← request (CallDelete kind (keyOf o).1 (keyOf o).2);
  match err with
  | Some e => mret (Some e)
  | None =>
      os ← getObjects;
      match lookupObject (keyOf o) (store os) with
      | None => mret (Some (notFound (keyOf o)))
      | Some stored =>
          if bool_decide (elems (GetFinalizers stored) = [])
          then modifyObjects (setStore (removeObject (keyOf o) (store os)));; mret None
          else modifyObjects (setStore (replaceObject (markDeleting stored) (store os)));;
               mret None
      end
  end.

End Requests.

Definition typedKey {T : Type} `{Object T} (o : T) : string * string :=
  (GetNamespace o, GetName o).

Definition typedIsDeleting {T : Type} `{Object T} (o : T) : bool :=
  bool_decide (metav1.DeletionTimestamp (GetObjectMeta o) <> None).

(** The deletion time is that of the request; its value plays no role. *)
Definition typedMarkDeleting {T : Type} `{Object T} (o : T) : T :=
  match metav1.DeletionTimestamp (GetObjectMeta o) with
  | Some _ => o
  | None => SetObjectMeta (metav1.set_DeletionTimestamp (Some 1) (GetObjectMeta o)) o
  end.

#[global] Instance OpenStackLightspeed_Resource : Resource apiv1beta1.OpenStackLightspeed := {
  kind := KOpenStackLightspeed;
  store := instances;
  setStore l os := mkObjects l (olsConfigs os) (csvs os) (subscriptions os)
                     (installPlans os) (jobs os) (pods os);
  keyOf := typedKey;
  isDeleting := typedIsDeleting;
  markDeleting := typedMarkDeleting }.

#[global] Instance OLSConfig_Resource : Resource uns.Unstructured := {
  kind := KOLSConfig;
  store := olsConfigs;
  setStore l os := mkObjects (instances os) l (csvs os) (subscriptions os)
                     (installPlans os) (jobs os) (pods os);
  keyOf u := (uns.GetNamespace u, uns.GetName u);
  isDeleting u := negb (String.eqb (uns.GetDeletionTimestamp u) EmptyString);
  markDeleting u :=
    if String.eqb (uns.GetDeletionTimestamp u) EmptyString
    then uns.mkUnstructured
           (uns.SetNestedField (uns.Object u) (uns.Str "now")
              ["metadata"; "deletionTimestamp"]).1
    else u }.

#[global] Instance ClusterServiceVersion_Resource
    : Resource operatorsv1alpha1.ClusterServiceVersion := {
  kind := KClusterServiceVersion;
  store := csvs;
  setStore l os := mkObjects (instances os) (olsConfigs os) l (subscriptions os)
                     (installPlans os) (jobs os) (pods os);
  keyOf := typedKey;
  isDeleting := typedIsDeleting;
  markDeleting := typedMarkDeleting }.

#[global] Instance Subscription_Resource : Resource operatorsv1alpha1.Subscription := {
  kind := KSubscription;
  store := subscriptions;
  setStore l os := mkObjects (instances os) (olsConfigs os) (csvs os) l
                     (installPlans os) (jobs os) (pods os);
  keyOf := typedKey;
  isDeleting := typedIsDeleting;
  markDeleting := typedMarkDeleting }.

#[global] Instance InstallPlan_Resource : Resource operatorsv1alpha1.InstallPlan := {
  kind := KInstallPlan;
  store := installPlans;
  setStore l os := mkObjects (instances os) (olsConfigs os) (csvs os) (subscriptions os)
                     l (jobs os) (pods os);
  keyOf := typedKey;
  isDeleting := typedIsDeleting;
  markDeleting := typedMarkDeleting }.

#[global] Instance Job_Resource : Resource corev1.Job := {
  kind := KJob;
  store := jobs;
  setStore l os := mkObjects (instances os) (olsConfigs os) (csvs os) (subscriptions os)
                     (installPlans os) l (pods os);
  keyOf := typedKey;
  isDeleting := typedIsDeleting;
  markDeleting := typedMarkDeleting }.

#[global] Instance Pod_Resource : Resource corev1.Pod := {
  kind := KPod;
  store := pods;
  setStore l os := mkObjects (instances os) (olsConfigs os) (csvs os) (subscriptions os)
                     (installPlans os) (jobs os) l;
  keyOf := typedKey;
  isDeleting := typedIsDeleting;
  markDeleting := typedMarkDeleting }.

End client.

(** controller-runtime's [CreateOrUpdate] and [CreateOrPatch].  The object
    is passed by reference in Go; here the object as it is after the call is
    returned with the result. *)
Module createor.

Import client.

Definition mutateKeyError : error :=
  ErrorString "MutateFn cannot mutate object name and/or object namespace".

(** [mutate(f, key, obj)]. *)
Definition mutate {T : Type} `{Resource T} (f : T -> T * option error)
    (key : string * string) (obj : T) : T * option error :=
  let '(obj', err) := f obj in
  match err with
  | Some e => (obj', Some e)
  | None =>
      if bool_decide (keyOf obj' = key) then (obj', None)
      else (obj', Some mutateKeyError)
  end.

Definition CreateOrUpdate {T : Type} `{Resource T} `{EqDecision T}
    (obj : T) (f : T -> T * option error)
    : M (controllerutil.OperationResult * option error * T) :=
  let key := keyOf obj in
  '(got, err) ← Get key;
  match err, got with
  | Some e, _ =>
      if negb (k8s_errors.IsNotFound e) then
        mret (controllerutil.OperationResultNone, Some e, obj)
      else
        let '(obj', merr) := mutate f key obj in
        match merr with
        | Some e' => mret (controllerutil.OperationResultNone, Some e', obj')
        | None =>
            cerr ← Create obj';
            match cerr with
            | Some e' => mret (controllerutil.OperationResultNone, Some e', obj')
            | None => mret (controllerutil.OperationResultCreated, None, obj')
            end
        end
  | None, None => mret (controllerutil.OperationResultNone, None, obj)
  | None, Some existing =>
      let '(obj', merr) := mutate f key existing in
      match merr with
      | Some e' => mret (controllerutil.OperationResultNone, Some e', obj')
      | None =>
          if bool_decide (existing = obj') then
            mret (controllerutil.OperationResultNone, None, obj')
          else
            uerr ← Update obj';
            match uerr with
            | Some e' => mret (controllerutil.OperationResultNone, Some e', obj')
            | None => mret (controllerutil.OperationResultUpdated, None, obj')
            end
      end
  end.

Definition statusOf (u : uns.Unstructured) : uns.value * bool :=
  (uns.NestedFieldNoCopy (uns.Object u) ["status"]).1.

Definition withoutStatus (u : uns.Unstructured) : gmap string uns.value :=
  uns.RemoveNestedField (uns.Object u) ["status"].

Definition withStatus (status : uns.value * bool) (u : uns.Unstructured)
    : uns.Unstructured :=
  if status.2
  then uns.mkUnstructured (uns.SetNestedField (uns.Object u) status.1 ["status"]).1
  else uns.mkUnstructured (withoutStatus u).

(** [CreateOrPatch] on an [Unstructured]: the object is fetched, [f]
    changes it, and what differs is patched, the status apart from the rest.
    The patch of the main resource leaves the stored status as it is. *)
Definition CreateOrPatch (obj : uns.Unstructured)
    (f : uns.Unstructured -> uns.Unstructured * option error)
    : M (controllerutil.OperationResult * option error * uns.Unstructured) :=
  let key := keyOf obj in
  '(got, err) ← Get key;
  match err, got with
  | Some e, _ =>
      if negb (k8s_errors.IsNotFound e) then
        mret (controllerutil.OperationResultNone, Some e, obj)
      else
        let '(obj', merr) := mutate f key obj in
        match merr with
        | Some e' => mret (controllerutil.OperationResultNone, Some e', obj')
        | None =>
            cerr ← Create obj';
            match cerr with
            | Some e' => mret (controllerutil.OperationResultNone, Some e', obj')
            | None => mret (controllerutil.OperationResultCreated, None, obj')
            end
        end
  | None, None => mret (controllerutil.OperationResultNone, None, obj)
  | None, Some existing =>
      let before := withoutStatus existing in
      let beforeStatus := statusOf existing in
      let '(obj', merr) := mutate f key existing in
      match merr with
      | Some e' => mret (controllerutil.OperationResultNone, Some e', obj')
      | None =>
          let after := withoutStatus obj' in
          let afterStatus := statusOf obj' in
          '(result, perr, obj1) ←
            (if bool_decide (before = after)
             then mret (controllerutil.OperationResultNone, None, obj')
             else
               let patched := withStatus beforeStatus obj' in
               perr ← Patch patched;
               mret (controllerutil.OperationResultUpdated, perr, patched));
          match perr with
          | Some e' => mret (result, Some e', obj1)
          | None =>
              if (beforeStatus.2 || afterStatus.2)
                 && negb (bool_decide (beforeStatus = afterStatus))
              then
                let obj2 := withStatus afterStatus obj1 in
                serr ← write (CallStatusPatch KOLSConfig key.1 key.2) obj2;
                match serr with
                | Some e' => mret (result, Some e', obj2)
                | None =>
                    if bool_decide (result = controllerutil.OperationResultUpdated)
                    then mret (controllerutil.OperationResultUpdatedStatus, None, obj2)
                    else mret (controllerutil.OperationResultUpdatedStatusOnly, None, obj2)
                end
              else mret (result, None, obj1)
          end
      end
  end.

End createor.

(** lib-common's [helper.Helper], built by [NewHelper] for the instance that
    is reconciled: the finalizer of the controller and the instance as it
    was when the helper was built. *)
Module common_helper.

Import client.

Record Helper : Type := mkHelper {
  GetFinalizer : string;
  GetBeforeObject : apiv1beta1.OpenStackLightspeed }.

Definition NewHelper (finalizer : string) (instance : apiv1beta1.OpenStackLightspeed)
    : Helper :=
  mkHelper finalizer instance.

(** [PatchInstance]: patches the metadata and then the status of the
    instance, each only if it has changed; a not-found answer is let go. *)
Definition PatchInstance (helper : Helper) (instance : apiv1beta1.OpenStackLightspeed)
    : M (option error) :=
  let before := GetBeforeObject helper in
  let key := keyOf instance in
  merr ←
    (if bool_decide (apiv1beta1.Meta before = apiv1beta1.Meta instance) then mret None
     else
       err ← write (CallPatch KOpenStackLightspeed key.1 key.2)
               (apiv1beta1.set_Meta (apiv1beta1.Meta instance) before);
       match err with
       | Some e =>
           if k8s_errors.IsConflict e
           then mret (Some (WrapError "error metadata update conflict" e))
           else if negb (k8s_errors.IsNotFound e)
           then mret (Some (WrapError "error metadata update failed" e))
           else mret None
       | None => mret None
       end);
  match merr with
  | Some e => mret (Some e)
  | None =>
      if bool_decide (apiv1beta1.Status before = apiv1beta1.Status instance) then mret None
      else
        err ← write (CallStatusPatch KOpenStackLightspeed key.1 key.2)
                (apiv1beta1.set_Spec (apiv1beta1.Spec before) instance);
        match err with
        | Some e =>
            if k8s_errors.IsConflict e
            then mret (Some (WrapError "error status update conflict" e))
            else if negb (k8s_errors.IsNotFound e)
            then mret (Some (WrapError "error status update failed" e))
            else mret None
        | None => mret None
        end
  end.

End common_helper.


(* ===================================================================== *)
(** ** [time]: the times of the conditions                                *)
(* ===================================================================== *)

(** [time.Parse] with the layout [time.RFC3339], as [metav1.Time] calls it
    to decode a time. *)
Module time.

Definition isDigit (c : ascii) : bool :=
  (48 <=? nat_of_ascii c)%nat && (nat_of_ascii c <=? 57)%nat.

Definition digit (c : ascii) : nat := nat_of_ascii c - 48.

(** [getnum(s, fixed)]: a number of one or two digits, of two digits when
    [fixed], and the rest of the string. *)
Definition getnum (s : string) (fixed : bool) : option (nat * string) :=
  match s with
  | String c0 rest0 =>
      if isDigit c0 then
        match rest0 with
        | String c1 rest1 =>
            if isDigit c1 then Some (digit c0 * 10 + digit c1, rest1)
            else if fixed then None else Some (digit c0, rest0)
        | EmptyString => if fixed then None else Some (digit c0, rest0)
        end
      else None
  | EmptyString => None
  end.

(** The year of the layout: four digits. *)
Definition getyear (s : string) : option (nat * string) :=
  match s with
  | String c0 (String c1 (String c2 (String c3 rest))) =>
      if isDigit c0 && isDigit c1 && isDigit c2 && isDigit c3
      then Some (digit c0 * 1000 + digit c1 * 100 + digit c2 * 10 + digit c3, rest)
      else None
  | _ => None
  end.

(** [skip(value, prefix)] for a prefix of one byte that is no space. *)
Definition skip (s : string) (prefix : ascii) : option string :=
  match s with
  | String c rest => if Ascii.eqb c prefix then Some rest else None
  | EmptyString => None
  end.

Fixpoint dropDigits (s : string) : string :=
  match s with
  | String c rest => if isDigit c then dropDigits rest else s
  | EmptyString => EmptyString
  end.

(** A fraction of the second, which the layout does not name, is read when
    a period or a comma is followed by a digit. *)
Definition skipFraction (s : string) : string :=
  match s with
  | String c0 (String c1 rest) =>
      if (Ascii.eqb c0 "." || Ascii.eqb c0 ",") && isDigit c1 then dropDigits rest else s
  | _ => s
  end.

(** The zone [Z07:00] of the layout: [Z], or a sign, two digits, a colon
    and two digits, the hours up to 24 and the minutes up to 60. *)
Definition getzone (s : string) : option string :=
  match s with
  | String "Z" rest => Some rest
  | String sign (String h0 (String h1 (String colon (String m0 (String m1 rest))))) =>
      if negb (Ascii.eqb colon ":") then None
      else if negb (isDigit h0 && isDigit h1) then None
      else if negb (isDigit m0 && isDigit m1) then None
      else if (24 <? digit h0 * 10 + digit h1)%nat then None
      else if (60 <? digit m0 * 10 + digit m1)%nat then None
      else if Ascii.eqb sign "+" || Ascii.eqb sign "-" then Some rest
      else None
  | _ => None
  end.

Definition isLeap (year : nat) : bool :=
  (year mod 4 =? 0)%nat && (negb (year mod 100 =? 0)%nat || (year mod 400 =? 0)%nat).

Definition daysIn (month year : nat) : nat :=
  match month with
  | 2 => if isLeap year then 29 else 28
  | 4 | 6 | 9 | 11 => 30
  | _ => 31
  end.

Definition inRange (lo n hi : nat) : option unit :=
  if (lo <=? n)%nat && (n <=? hi)%nat then Some tt else None.

(** Whether [time.Parse(time.RFC3339, value)] returns a time. *)
Definition ParseRFC3339 (value : string) : bool :=
  bool_decide (is_Some (
    '(year, value) ← getyear value;
    value ← skip value "-";
    '(month, value) ← getnum value true;
    _ ← inRange 1 month 12;
    value ← skip value "-";
    '(day, value) ← getnum value true;
    value ← skip value "T";
    '(hour, value) ← getnum value false;
    _ ← inRange 0 hour 23;
    value ← skip value ":";
    '(min, value) ← getnum value true;
    _ ← inRange 0 min 59;
    value ← skip value ":";
    '(sec, value) ← getnum value true;
    _ ← inRange 0 sec 59;
    value ← getzone (skipFraction value);
    _ ← (if String.eqb value EmptyString then Some tt else None);
    inRange 1 day (daysIn month year))).

End time.

(* ===================================================================== *)
(** ** [encoding/json]: decoding the conditions of the [OLSConfig]        *)
(* ===================================================================== *)

(** [json.Marshal] followed by [json.Unmarshal] into [[]metav1.Condition].
    An element is an object or [null].  The keys of an object are written
    in the order of their bytes and read in that order; a key sets the field
    whose name it is when letters are folded, a later key over an earlier
    one.  [null] leaves a string or a number as it is; a value of another
    type than the field is an error, and so is a time that is no RFC 3339
    text.  A string is kept byte for byte: the bytes that are not UTF-8,
    which [json.Marshal] replaces, are in none of the names that the code
    compares a string with.  The time is kept as its text. *)
Module json.

Definition upper (c : ascii) : ascii :=
  if (97 <=? nat_of_ascii c)%nat && (nat_of_ascii c <=? 122)%nat
  then ascii_of_nat (nat_of_ascii c - 32)
  else c.

(** [foldName]: the letters of ASCII in upper case, and the two letters
    outside ASCII that fold to a letter of ASCII: the long s (U+017F, the
    bytes C5 BF) and the Kelvin sign (U+212A, the bytes E2 84 AA).  Other
    bytes stay as they are: they are in no name of a field. *)
Fixpoint foldName (s : string) : string :=
  match s with
  | EmptyString => EmptyString
  | String c s' =>
      match s' with
      | String c1 s1 =>
          if Ascii.eqb c (ascii_of_nat 197) && Ascii.eqb c1 (ascii_of_nat 191)
          then String "S" (foldName s1)
          else
            match s1 with
            | String c2 s2 =>
                if Ascii.eqb c (ascii_of_nat 226) && Ascii.eqb c1 (ascii_of_nat 132)
                   && Ascii.eqb c2 (ascii_of_nat 170)
                then String "K" (foldName s2)
                else String (upper c) (foldName s')
            | EmptyString => String (upper c) (foldName s')
            end
      | EmptyString => String (upper c) EmptyString
      end
  end.

(** The keys of an object with their values, in the order in which
    [json.Marshal] writes them. *)
Definition entries (m : gmap string uns.value) : list (string * uns.value) :=
  merge_sort (fun a b => Is_true (String.leb a.1 b.1)) (map_to_list m).

(** The values that are decoded into the field [name], in their order. *)
Definition fieldValues (m : gmap string uns.value) (name : string) : list uns.value :=
  (List.filter (fun kv => String.eqb (foldName kv.1) (foldName name)) (entries m)).*2.

Definition stringField (m : gmap string uns.value) (name : string) : option string :=
  foldl (fun field v =>
           s ← field;
           match v with
           | uns.Null => Some s
           | uns.Str s' => Some s'
           | _ => None
           end) (Some EmptyString) (fieldValues m name).

(** An [int64] field: the number has to be an integer of 64 bits. *)
Definition intField (m : gmap string uns.value) (name : string) : option Z :=
  foldl (fun field v =>
           n ← field;
           match v with
           | uns.Null => Some n
           | uns.Number n' => Some n'
           | uns.Float f =>
               n' ← float64.toInt f;
               if (- 2 ^ 63 <=? n')%Z && (n' <? 2 ^ 63)%Z then Some n' else None
           | _ => None
           end) (Some 0%Z) (fieldValues m name).

(** A [metav1.Time] field: [null] is the zero time. *)
Definition timeField (m : gmap string uns.value) (name : string) : option string :=
  foldl (fun field v =>
           _ ← field;
           match v with
           | uns.Null => Some EmptyString
           | uns.Str s => if time.ParseRFC3339 s then Some s else None
           | _ => None
           end) (Some EmptyString) (fieldValues m name).

Definition UnmarshalCondition (v : uns.value) : option metav1.Condition :=
  match v with
  | uns.Null => Some (metav1.mkCondition "" "" 0 "" "" "")
  | uns.Map m =>
      t ← stringField m "type";
      st ← stringField m "status";
      g ← intField m "observedGeneration";
      ltt ← timeField m "lastTransitionTime";
      r ← stringField m "reason";
      msg ← stringField m "message";
      Some (metav1.mkCondition t st g ltt r msg)
  | _ => None
  end.

Definition UnmarshalConditions (l : list uns.value) : option (list metav1.Condition) :=
  mapM UnmarshalCondition l.

End json.

(* ===================================================================== *)
(** ** funcs.go                                                           *)
(* ===================================================================== *)

Module funcs.

Import client.

Definition OpenStackLightspeedDefaultProvider : string := "openstack-lightspeed-provider".
Definition OpenStackLightspeedOwnerIDLabel : string := "openstack.org/lightspeed-owner-id".
Definition OpenStackLightspeedVectorDBPath : string := "/rag/vector_db/os_product_docs".
Definition OpenStackLightspeedJobName : string := "openstack-lightspeed".
Definition OLSConfigName : string := "cluster".

Definition emptyUnstructured : uns.Unstructured := uns.mkUnstructured ∅.

(** [GetOLSConfig] returns the first [OLSConfig] of the cluster. *)
Definition GetOLSConfig : M (uns.Unstructured * option error) :=
  '(items, err) ← List_ (T := uns.Unstructured) EmptyString;
  match err with
  | Some e => mret (emptyUnstructured, Some e)
  | None =>
      match items with
      | item :: _ => mret (item, None)
      | [] => mret (emptyUnstructured,
                    Some (k8s_errors.NewNotFound "olsconfigs.ols.openshifg.io" "OLSConfig"))
      end
  end.

(** The function that [RemoveOLSConfig] hands to [CreateOrPatch]. *)
Definition removeOLSConfigMutateFn (helper : common_helper.Helper)
    (instance : apiv1beta1.OpenStackLightspeed) (olsConfig : uns.Unstructured)
    : uns.Unstructured * option error :=
  let ownerLabel := default EmptyString
                      (uns.GetLabels olsConfig !! OpenStackLightspeedOwnerIDLabel) in
  let isInstanceOwnedOLSConfig := String.eqb ownerLabel (GetUID instance) in
  if String.eqb ownerLabel EmptyString || negb isInstanceOwnedOLSConfig then
    (olsConfig, None)
  else
    let '(olsConfig', ok) :=
      controllerutil.RemoveFinalizer olsConfig (common_helper.GetFinalizer helper) in
    if negb ok then (olsConfig', Some (ErrorString "remove finalizer failed"))
    else (olsConfig', None).

Definition RemoveOLSConfig (helper : common_helper.Helper)
    (instance : apiv1beta1.OpenStackLightspeed) : M (bool * option error) :=
  '(olsConfig, err) ← GetOLSConfig;
  match err with
  | Some e =>
      if negb (k8s_errors.IsNotFound e) then mret (false, Some e)
      else mret (true, None)
  | None =>
      '(_, err, olsConfig) ←
        createor.CreateOrPatch olsConfig (removeOLSConfigMutateFn helper instance);
      match err with
      | Some e => mret (false, Some e)
      | None =>
          err ← Delete olsConfig;
          match err with
          | Some e => mret (false, Some e)
          | None => mret (true, None)
          end
      end
  end.

(** Runs the next step of a patch on the document unless the last one
    failed; the document is the one that the failed step has left. *)
Definition andThen (r : gmap string uns.value * option error)
    (k : gmap string uns.value -> uns.Unstructured * option error)
    : uns.Unstructured * option error :=
  match r.2 with
  | Some e => (uns.mkUnstructured r.1, Some e)
  | None => k r.1
  end.

Definition providersPatch (instance : apiv1beta1.OpenStackLightspeed) : list uns.value :=
  let spec := apiv1beta1.Spec instance in
  [uns.Map {[
     "credentialsSecretRef" :=
       uns.Map {[ "name" := uns.Str (apiv1beta1.LLMCredentials spec) ]};
     "models" :=
       uns.Slice [uns.Map {[
         "name" := uns.Str (apiv1beta1.ModelName spec);
         "parameters" :=
           uns.Map {[ "maxTokensForResponse" :=
                        uns.Float (float64.ofInt (apiv1beta1.MaxTokensForResponse spec)) ]} ]}];
     "name" := uns.Str OpenStackLightspeedDefaultProvider;
     "type" := uns.Str (apiv1beta1.LLMEndpointType spec);
     "url" := uns.Str (apiv1beta1.LLMEndpoint spec) ]}].

Definition openstackRAG (instance : apiv1beta1.OpenStackLightspeed) : list uns.value :=
  [uns.Map {[
     "image" := uns.Str (apiv1beta1.RAGImage (apiv1beta1.Spec instance));
     "indexPath" := uns.Str OpenStackLightspeedVectorDBPath ]}].

(** The labels that [PatchOLSConfig] writes: the owner label, then every
    label that the object has, which overwrites it. *)
Definition updatedLabels (instance : apiv1beta1.OpenStackLightspeed)
    (labels : gmap string string) : gmap string uns.value :=
  map_fold (fun k v updated => <[k := uns.Str v]> updated)
    {[ OpenStackLightspeedOwnerIDLabel := uns.Str (GetUID instance) ]} labels.

(** [PatchOLSConfig] returns the object as the call leaves it, with the
    error. *)
Definition PatchOLSConfig (helper : common_helper.Helper)
    (instance : apiv1beta1.OpenStackLightspeed) (olsConfig : uns.Unstructured)
    : uns.Unstructured * option error :=
  let spec := apiv1beta1.Spec instance in
  (* Patch the Providers section *)
  andThen (uns.SetNestedSlice (uns.Object olsConfig) (providersPatch instance)
             ["spec"; "llm"; "providers"]) (fun obj =>
  (* Patch the RAG section *)
  andThen (uns.SetNestedSlice obj (openstackRAG instance) ["spec"; "ols"; "rag"])
    (fun obj =>
  andThen (if negb (String.eqb (apiv1beta1.TLSCACertBundle spec) EmptyString)
           then uns.SetNestedField obj (uns.Str (apiv1beta1.TLSCACertBundle spec))
                  ["spec"; "ols"; "additionalCAConfigMapRef"; "name"]
           else (obj, None)) (fun obj =>
  andThen (uns.SetNestedField obj (uns.Str (apiv1beta1.ModelName spec))
             ["spec"; "ols"; "defaultModel"]) (fun obj =>
  andThen (uns.SetNestedField obj (uns.Str OpenStackLightspeedDefaultProvider)
             ["spec"; "ols"; "defaultProvider"]) (fun obj =>
  (* Disable the OCP RAG *)
  andThen (uns.SetNestedField obj (uns.Bool true) ["spec"; "ols"; "byokRAGOnly"])
    (fun obj =>
  (* Add info which OpenStackLightspeed instance owns the OLSConfig *)
  let labels := uns.GetLabels (uns.mkUnstructured obj) in
  andThen (uns.SetNestedField obj (uns.Map (updatedLabels instance labels))
             ["metadata"; "labels"]) (fun obj =>
  (* Add OpenStack finalizers *)
  let '(olsConfig, added) :=
    controllerutil.AddFinalizer (uns.mkUnstructured obj)
      (common_helper.GetFinalizer helper) in
  if negb added
     && bool_decide (apiv1beta1.Conditions (apiv1beta1.Status instance) = None)
  then (olsConfig, Some (ErrorString "cannot add finalizer"))
  else (olsConfig, None)))))))).

(** [OLSConfigPing] writes a label with a random value. *)
Definition OLSConfigPing : M (option error) :=
  let randomLabelKey := "openstack-lightspeed/ping" in
  '(olsConfig, err) ← GetOLSConfig;
  match err with
  | Some e => mret (Some e)
  | None =>
      let labels := uns.GetLabels olsConfig in
      n ← randInt;
      let labels := <[randomLabelKey := pretty n]> labels in
      let olsConfig := uns.SetLabels labels olsConfig in
      Update olsConfig
  end.

Definition requiredConditionTypes : list string :=
  ["ConsolePluginReady"; "CacheReady"; "ApiReady"; "Reconciled"].

(** The body of the inner loop of [IsOLSConfigReady], for one condition. *)
Definition requiredNotTrue (OLSConfigCondition : metav1.Condition) : bool :=
  existsb (fun requiredConditionType =>
             String.eqb (metav1.cond_Type OLSConfigCondition) requiredConditionType
             && negb (String.eqb (metav1.cond_Status OLSConfigCondition) metav1.ConditionTrue))
    requiredConditionTypes.

(** The loops of [IsOLSConfigReady]. *)
Fixpoint checkConditions (OLSConfigConditions : list metav1.Condition)
    : M (bool * option error) :=
  match OLSConfigConditions with
  | [] => mret (true, None)
  | OLSConfigCondition :: rest =>
      if requiredNotTrue OLSConfigCondition then
        err ← OLSConfigPing;
        mret (false, err)
      else checkConditions rest
  end.

Definition IsOLSConfigReady : M (bool * option error) :=
  '(olsConfig, err) ← GetOLSConfig;
  match err with
  | Some e => mret (false, Some e)
  | None =>
      let '(olsConfigStatusList, found, err) :=
        uns.NestedSlice (uns.Object olsConfig) ["status"; "conditions"] in
      if negb found then mret (false, err)
      else
        match json.UnmarshalConditions olsConfigStatusList with
        | None =>
            mret (false,
                  Some (WrapError "failed to unmarshal JSON containing condition.Conditions"
                          (ErrorString "json: cannot unmarshal")))
        | Some OLSConfigConditions => checkConditions OLSConfigConditions
        end
  end.

(** [IsOwnedBy]: some owner reference of [object] has the UID of [owner]. *)
Definition IsOwnedBy {T U : Type} `{Object T} `{Object U} (object : T) (owner : U) : bool :=
  existsb (fun ref => String.eqb (metav1.ref_UID ref) (GetUID owner))
    (GetOwnerReferences object).

(** [GetRawClient]: the client is the cluster; creating it may fail. *)
Definition GetRawClient : M (option error) := request CallNewClient.

End funcs.

(* ===================================================================== *)
(** ** ocp_rag.go: the version of the cluster                             *)
(* ===================================================================== *)

Module ocp_rag.

Import client.

Section Detect.

(** The answer of the raw client to the [Get] of the [ClusterVersion] named
    [version]: the object as the call leaves it, and the error.  The cluster
    above holds no object of this kind, so the answer is taken as given. *)
Variable getClusterVersion : M (uns.Unstructured * option error).

(** [DetectOCPVersion]. *)
Definition DetectOCPVersion : M (string * option error) :=
  err ← funcs.GetRawClient;
  match err with
  | Some e => mret (EmptyString, Some (WrapError "failed to get raw client" e))
  | None =>
      '(clusterVersion, err) ← getClusterVersion;
      match err with
      | Some e => mret (EmptyString, Some (WrapError "failed to get ClusterVersion" e))
      | None =>
          let '(version, found, err) :=
            uns.NestedString (uns.Object clusterVersion) ["status"; "desired"; "version"] in
          match err with
          | Some e =>
              mret (EmptyString,
                    Some (WrapError "failed to extract version from ClusterVersion" e))
          | None =>
              if negb found then
                mret (EmptyString,
                      Some (ErrorString
                              "version field not found in ClusterVersion status.desired.version"))
              else
                let '(majorMinor, err) := OCPVersion.ParseMajorMinorVersion version in
                match err with
                | Some e =>
                    mret (EmptyString,
                          Some (WrapError ("failed to parse version " +:+ version) e))
                | None => mret (majorMinor, None)
                end
          end
      end
  end.

End Detect.

End ocp_rag.

(* ===================================================================== *)
(** ** ols_install.go                                                     *)
(* ===================================================================== *)

Module ols_install.

Import client.

Definition OLSOperatorName : string := "lightspeed-operator".

Definition orPanic {A : Type} (msg : string) (o : option A) : M A :=
  match o with
  | Some a => mret a
  | None => panic msg
  end.

(** [GetOLSSubscriptionName]: [None] stands for the panic of the slice
    expression [uid[:5]] on a UID of less than five bytes. *)
Definition GetOLSSubscriptionName (instance : apiv1beta1.OpenStackLightspeed)
    : option string :=
  let uid := GetUID instance in
  if (5 <=? String.length uid)%nat
  then Some (OLSOperatorName +:+ "-" +:+ GoStrings.takeBytes 5 uid)
  else None.

Definition sliceBoundsPanic : string := "slice bounds out of range".

Section Installer.

(** [os.Getenv]. *)
Variable Getenv : string -> string.

Definition GetRecommendedOLSVersion : string * option error :=
  let version := Getenv "OPENSHIFT_LIGHTSPEED_OPERATOR_VERSION" in
  if String.eqb version EmptyString then
    (EmptyString,
     Some (ErrorString "environment variable OPENSHIFT_LIGHTSPEED_OPERATOR_VERSION is not set"))
  else if String.eqb version "latest" then (EmptyString, None)
  else (version, None).

Definition GetOLSOperatorCSV
    : M (option operatorsv1alpha1.ClusterServiceVersion * option error) :=
  err ← funcs.GetRawClient;
  match err with
  | Some e => mret (None, Some e)
  | None =>
      '(CSVs, err) ← List_ (T := operatorsv1alpha1.ClusterServiceVersion) EmptyString;
      match err with
      | Some e =>
          if k8s_errors.IsNotFound e then mret (None, None) else mret (None, Some e)
      | None =>
          mret (List.find (fun CSV => GoStrings.HasPrefix (GetName CSV) OLSOperatorName) CSVs,
                None)
      end
  end.

Definition InstanceOwnedOLSOperatorComplete (instance : apiv1beta1.OpenStackLightspeed)
    : M (bool * option error) :=
  '(OLSOperatorCSV, err) ← GetOLSOperatorCSV;
  match err, OLSOperatorCSV with
  | Some e, _ => mret (false, Some e)
  | None, None => mret (false, None)
  | None, Some OLSOperatorCSV =>
      mret (funcs.IsOwnedBy OLSOperatorCSV instance
            && String.eqb (operatorsv1alpha1.csv_Phase OLSOperatorCSV)
                 operatorsv1alpha1.CSVPhaseSucceeded,
            None)
  end.

Definition zeroMeta : metav1.ObjectMeta :=
  metav1.mkObjectMeta EmptyString EmptyString EmptyString 0 ∅ [] None None.

Definition zeroSubscription : operatorsv1alpha1.Subscription :=
  operatorsv1alpha1.mkSubscription zeroMeta None None.

Definition IsUserInstalledOLSOperatorMode (instance : apiv1beta1.OpenStackLightspeed)
    : M (bool * option error) :=
  '(OLSOperatorCSV, err) ← GetOLSOperatorCSV;
  match err, OLSOperatorCSV with
  | Some e, _ => mret (false, Some e)
  | None, None => mret (false, None)
  | None, Some OLSOperatorCSV =>
      name ← orPanic sliceBoundsPanic (GetOLSSubscriptionName instance);
      '(got, err) ← Get (T := operatorsv1alpha1.Subscription)
                      (GetNamespace instance, name);
      let subscription := default zeroSubscription got in
      if bool_decide (err <> None) && negb (from_option k8s_errors.IsNotFound false err)
      then mret (false, err)
      else
        let userInstalledMode :=
          negb (funcs.IsOwnedBy OLSOperatorCSV instance)
          && negb (funcs.IsOwnedBy subscription instance) in
        mret (userInstalledMode, None)
  end.

Definition UninstallInstanceOwnedOLSOperator (instance : apiv1beta1.OpenStackLightspeed)
    : M (bool * option error) :=
  '(OLSOperatorCSV, err) ← GetOLSOperatorCSV;
  match err, OLSOperatorCSV with
  | Some e, _ => mret (false, Some e)
  | None, None => mret (true, None)
  | None, Some OLSOperatorCSV =>
      if negb (funcs.IsOwnedBy OLSOperatorCSV instance) then mret (true, None)
      else
        err ← Delete OLSOperatorCSV;
        match err with
        | Some e => mret (false, Some e)
        | None =>
            '(OLSOperatorCSV, err) ← GetOLSOperatorCSV;
            match err, OLSOperatorCSV with
            | Some e, _ => mret (false, Some e)
            | None, None => mret (true, None)
            | None, Some _ => mret (false, None)
            end
        end
  end.

(** The loop of [ApproveOLSOperatorInstallPlan] over the install plans. *)
Fixpoint approveFirst (recommendedOLSVersion : string)
    (installPlans : list operatorsv1alpha1.InstallPlan) : M (bool * option error) :=
  match installPlans with
  | [] => mret (false, None)
  | installPlan :: rest =>
      match operatorsv1alpha1.ip_ClusterServiceVersionNames installPlan with
      | [] => approveFirst recommendedOLSVersion rest
      | name0 :: _ =>
          let isOLSOperatorCSV := GoStrings.HasPrefix name0 OLSOperatorName in
          if negb isOLSOperatorCSV then approveFirst recommendedOLSVersion rest
          else
            let isCorrectVersion := GoStrings.HasSuffix name0 recommendedOLSVersion in
            if negb isCorrectVersion then approveFirst recommendedOLSVersion rest
            else
              let installPlan := operatorsv1alpha1.set_Approved true installPlan in
              err ← Update installPlan;
              match err with
              | Some e =>
                  if k8s_errors.IsConflict e then mret (false, None)
                  else mret (false, Some e)
              | None => mret (true, None)
              end
      end
  end.

Definition ApproveOLSOperatorInstallPlan (instance : apiv1beta1.OpenStackLightspeed)
    : M (bool * option error) :=
  '(installPlans, err) ← List_ (T := operatorsv1alpha1.InstallPlan) (GetNamespace instance);
  match err with
  | Some e => mret (false, Some e)
  | None =>
      let '(recommendedOLSVersion, err) := GetRecommendedOLSVersion in
      match err with
      | Some e => mret (false, Some e)
      | None => approveFirst recommendedOLSVersion installPlans
      end
  end.

(** [SetStartingCSV]: [None] stands for the panic of
    [subscription.Spec.StartingCSV = ...] on a subscription whose [Spec] is
    [nil]. *)
Definition SetStartingCSV (subscription : operatorsv1alpha1.Subscription)
    : option (operatorsv1alpha1.Subscription * option error) :=
  let '(recommendedVersion, err) := GetRecommendedOLSVersion in
  match err with
  | Some e => Some (subscription, Some e)
  | None =>
      if negb (String.eqb recommendedVersion EmptyString) then
        match operatorsv1alpha1.sub_Spec subscription with
        | Some sp =>
            Some (operatorsv1alpha1.set_Spec
                    (Some (operatorsv1alpha1.mkSubscriptionSpec
                             (operatorsv1alpha1.Channel sp)
                             (operatorsv1alpha1.InstallPlanApproval sp)
                             (operatorsv1alpha1.CatalogSource sp)
                             (operatorsv1alpha1.CatalogSourceNamespace sp)
                             (operatorsv1alpha1.Package sp)
                             (OLSOperatorName +:+ ".v" +:+ recommendedVersion)))
                    subscription, None)
        | None => None
        end
      else Some (subscription, None)
  end.

Definition instanceOwnerReference (instance : apiv1beta1.OpenStackLightspeed)
    : list metav1.OwnerReference :=
  [metav1.mkOwnerReference (apiv1beta1.APIVersion instance) (apiv1beta1.Kind instance)
     (GetName instance) (GetUID instance) (Some true) (Some true)].

(** The function that [InstallInstanceOwnedOLSOperator] hands to
    [CreateOrUpdate].  It sets the [Spec] before it calls [SetStartingCSV],
    which therefore does not panic here: the last case is never taken. *)
Definition subscriptionMutateFn (instance : apiv1beta1.OpenStackLightspeed)
    (subscription : operatorsv1alpha1.Subscription)
    : operatorsv1alpha1.Subscription * option error :=
  let subscription :=
    operatorsv1alpha1.set_Spec
      (Some (operatorsv1alpha1.mkSubscriptionSpec "stable" operatorsv1alpha1.ApprovalManual
               (apiv1beta1.CatalogSourceName (apiv1beta1.Spec instance))
               (apiv1beta1.CatalogSourceNamespace (apiv1beta1.Spec instance))
               OLSOperatorName EmptyString))
      subscription in
  match SetStartingCSV subscription with
  | Some (subscription, Some e) => (subscription, Some e)
  | Some (subscription, None) =>
      (SetOwnerReferences (instanceOwnerReference instance) subscription, None)
  | None => (subscription, None)
  end.

Definition InstallInstanceOwnedOLSOperator (instance : apiv1beta1.OpenStackLightspeed)
    : M (bool * option error) :=
  name ← orPanic sliceBoundsPanic (GetOLSSubscriptionName instance);
  let subscription :=
    operatorsv1alpha1.mkSubscription
      (metav1.mkObjectMeta name (GetNamespace instance) EmptyString 0 ∅ [] None None)
      None None in
  '(opResult, err, subscription) ←
    createor.CreateOrUpdate subscription (subscriptionMutateFn instance);
  match err with
  | Some e => mret (false, Some e)
  | None =>
      if negb (bool_decide (opResult = controllerutil.OperationResultNone))
         || bool_decide (operatorsv1alpha1.sub_InstallPlanRef subscription = None)
      then mret (false, None)
      else
        '(installPlanApproved, err) ← ApproveOLSOperatorInstallPlan instance;
        match err with
        | Some e => mret (false, Some e)
        | None =>
            if negb installPlanApproved then mret (false, None)
            else
              '(OLSOperatorCSV, err) ← GetOLSOperatorCSV;
              match err, OLSOperatorCSV with
              | Some e, _ => mret (false, Some e)
              | None, None => mret (false, None)
              | None, Some OLSOperatorCSV =>
                  let OLSOperatorCSV :=
                    SetOwnerReferences (instanceOwnerReference instance) OLSOperatorCSV in
                  err ← Update OLSOperatorCSV;
                  match err with
                  | Some e =>
                      if k8s_errors.IsConflict e then mret (false, None)
                      else mret (false, Some e)
                  | None => InstanceOwnedOLSOperatorComplete instance
                  end
              end
        end
  end.

Definition userInstalledError : error :=
  ErrorString ("detected an existing OpenShift Lightspeed operator installation. " +:+
               "Please uninstall OpenShift Lightspeed operator and allow the " +:+
               "OpenStack Lightspeed operator to manage its installation automatically").

Definition EnsureOLSOperatorInstalled (instance : apiv1beta1.OpenStackLightspeed)
    : M (bool * option error) :=
  '(isUserInstalledOLSOperator, err) ← IsUserInstalledOLSOperatorMode instance;
  match err with
  | Some e => mret (false, Some e)
  | None =>
      if (isUserInstalledOLSOperator : bool) then mret (false, Some userInstalledError)
      else
        '(OLSOperatorInstalled, err) ← InstallInstanceOwnedOLSOperator instance;
        match err with
        | Some e => mret (false, Some e)
        | None => mret (OLSOperatorInstalled, None)
        end
  end.

End Installer.

End ols_install.

(* ===================================================================== *)
(** ** openstacklightspeed_controller.go                                  *)
(* ===================================================================== *)

Module ctrl.

(** [ctrl.Result]; [RequeueAfter] is a [time.Duration], in nanoseconds. *)
Record Result : Type := mkResult {
  Requeue : bool;
  RequeueAfter : Z }.

#[global] Instance Result_eq_dec : EqDecision Result.
Proof. solve_decision. Defined.

Definition zeroResult : Result := mkResult false 0.

Definition Second : Z := 1000000000.

End ctrl.

Module controller.

Import client.

(** [Error()] of an error value. *)
Fixpoint Error (err : error) : string :=
  match err with
  | ErrorString msg => msg
  | WrapError msg cause => msg +:+ ": " +:+ Error cause
  | StatusError _ msg => msg
  end.

(** Modelled from the spec: [apiv1beta1.OpenStackLightspeedDefaultValues],
    the defaults for the optional fields of the instance, is declared outside
    the sources and is taken as given. *)
Record DefaultValues : Type := mkDefaultValues {
  RAGImageURL : string;
  MaxTokensForResponse : Z }.

Section Reconciler.

Variable Getenv : string -> string.
Variable conditions : condition.Operations.
Variable OpenStackLightspeedDefaultValues : DefaultValues.

(** The finalizer that [NewHelper] gives to the helper. *)
Variable finalizer : string.

Definition reconcileDelete (helper : common_helper.Helper)
    (instance : apiv1beta1.OpenStackLightspeed)
    : M (apiv1beta1.OpenStackLightspeed * ctrl.Result * option error) :=
  '(isRemoved, err) ← funcs.RemoveOLSConfig helper instance;
  match err with
  | Some e => mret (instance, ctrl.zeroResult, Some e)
  | None =>
      if negb isRemoved then
        mret (instance, ctrl.mkResult false (ctrl.Second * 10), None)
      else
        '(isUninstalled, err) ← ols_install.UninstallInstanceOwnedOLSOperator instance;
        match err with
        | Some e => mret (instance, ctrl.zeroResult, Some e)
        | None =>
            if negb isUninstalled then
              mret (instance, ctrl.mkResult false (ctrl.Second * 10), None)
            else
              let '(instance, _) :=
                controllerutil.RemoveFinalizer instance (common_helper.GetFinalizer helper) in
              mret (instance, ctrl.zeroResult, None)
        end
  end.

(** The [OLSConfig] that [Reconcile] starts from: kind, version and name. *)
Definition newOLSConfig : uns.Unstructured :=
  uns.mkUnstructured {[
    "apiVersion" := uns.Str "ols.openshift.io/v1alpha1";
    "kind" := uns.Str "OLSConfig";
    "metadata" := uns.Map {[ "name" := uns.Str funcs.OLSConfigName ]} ]}.

Definition managedByOtherError : error :=
  ErrorString "OLSConfig is managed by different OpenStackLightspeed instance".

(** The function that [Reconcile] hands to [CreateOrPatch]. *)
Definition olsConfigMutateFn (helper : common_helper.Helper)
    (instance : apiv1beta1.OpenStackLightspeed) (olsConfig : uns.Unstructured)
    : uns.Unstructured * option error :=
  let olsConfigLabels := uns.GetLabels olsConfig in
  let ownerLabel :=
    match olsConfigLabels !! funcs.OpenStackLightspeedOwnerIDLabel with
    | Some val => val
    | None => EmptyString
    end in
  if negb (String.eqb ownerLabel EmptyString)
     && negb (String.eqb ownerLabel (GetUID instance))
  then (olsConfig, Some managedByOtherError)
  else funcs.PatchOLSConfig helper instance olsConfig.

(** The patch step of [Reconcile]: [CreateOrPatch] on the [OLSConfig], and
    the condition that an error leaves on the instance. *)
Definition patchOLSConfigStep (helper : common_helper.Helper)
    (instance : apiv1beta1.OpenStackLightspeed)
    : M (apiv1beta1.OpenStackLightspeed * option error) :=
  let olsConfig := newOLSConfig in
  '(_, err, _) ← createor.CreateOrPatch olsConfig (olsConfigMutateFn helper instance);
  match err with
  | Some e =>
      let instance :=
        apiv1beta1.set_Conditions
          (condition.Set_ conditions
             (condition.FalseCondition apiv1beta1.OpenStackLightspeedReadyCondition
                condition.ErrorReason condition.SeverityWarning
                ("Deployment error occurred " +:+ Error e))
             (apiv1beta1.Conditions (apiv1beta1.Status instance)))
          instance in
      mret (instance, Some e)
  | None => mret (instance, None)
  end.

(** The body of [Reconcile] once the instance is loaded, up to the deferred
    patch of the status. *)
Definition reconcileBody (helper : common_helper.Helper)
    (instance : apiv1beta1.OpenStackLightspeed)
    : M (apiv1beta1.OpenStackLightspeed * ctrl.Result * option error) :=
  let status := apiv1beta1.Status instance in
  let cl := condition.CreateList
              (condition.UnknownCondition apiv1beta1.OpenStackLightspeedReadyCondition
                 condition.InitReason apiv1beta1.OpenStackLightspeedReadyInitMessage) in
  let instance :=
    apiv1beta1.set_Status
      (apiv1beta1.mkStatus (condition.Init conditions cl (apiv1beta1.Conditions status))
         (metav1.Generation (apiv1beta1.Meta instance)))
      instance in
  if bool_decide (metav1.DeletionTimestamp (apiv1beta1.Meta instance) <> None) then
    reconcileDelete helper instance
  else
    let '(instance', added) :=
      controllerutil.AddFinalizer instance (common_helper.GetFinalizer helper) in
    if added then mret (instance', ctrl.zeroResult, None)
    else
      let instance :=
        if String.eqb (apiv1beta1.RAGImage (apiv1beta1.Spec instance')) EmptyString
        then apiv1beta1.set_RAGImage (RAGImageURL OpenStackLightspeedDefaultValues) instance'
        else instance' in
      let instance :=
        if Z.eqb (apiv1beta1.MaxTokensForResponse (apiv1beta1.Spec instance)) 0
        then apiv1beta1.set_MaxTokensForResponse
               (MaxTokensForResponse OpenStackLightspeedDefaultValues) instance
        else instance in
      '(isOLSOperatorInstalled, err) ← ols_install.EnsureOLSOperatorInstalled Getenv instance;
      let conds := apiv1beta1.Conditions (apiv1beta1.Status instance) in
      match err with
      | Some e =>
          mret (apiv1beta1.set_Conditions
                  (condition.Set_ conditions
                     (condition.FalseCondition
                        apiv1beta1.OpenShiftLightspeedOperatorReadyCondition
                        condition.ErrorReason condition.SeverityWarning
                        ("Deployment error occurred " +:+ Error e)) conds) instance,
                ctrl.zeroResult, None)
      | None =>
          if negb isOLSOperatorInstalled then
            mret (apiv1beta1.set_Conditions
                    (condition.Set_ conditions
                       (condition.FalseCondition
                          apiv1beta1.OpenShiftLightspeedOperatorReadyCondition
                          condition.RequestedReason condition.SeverityInfo
                          apiv1beta1.OpenShiftLightspeedOperatorWaiting) conds) instance,
                  ctrl.mkResult true (10 * ctrl.Second), None)
          else
            let instance :=
              apiv1beta1.set_Conditions
                (condition.MarkTrue conditions
                   apiv1beta1.OpenShiftLightspeedOperatorReadyCondition
                   apiv1beta1.OpenShiftLightspeedOperatorReady conds) instance in
            '(instance, err) ← patchOLSConfigStep helper instance;
            match err with
            | Some e => mret (instance, ctrl.zeroResult, Some e)
            | None =>
                '(OLSConfigReady, err) ← funcs.IsOLSConfigReady;
                match err with
                | Some e => mret (instance, ctrl.zeroResult, Some e)
                | None =>
                    if (OLSConfigReady : bool) then
                      mret (apiv1beta1.set_Conditions
                              (condition.MarkTrue conditions
                                 apiv1beta1.OpenStackLightspeedReadyCondition
                                 apiv1beta1.OpenStackLightspeedReadyMessage
                                 (apiv1beta1.Conditions (apiv1beta1.Status instance)))
                              instance,
                            ctrl.zeroResult, None)
                    else
                      mret (instance, ctrl.mkResult false (ctrl.Second * 5), None)
                end
            end
      end.

(** The deferred function of [Reconcile]: the Ready condition is computed
    from the others and the instance is patched. *)
Definition patchStatusOnExit (helper : common_helper.Helper)
    (savedConditions : condition.Conditions)
    (instance : apiv1beta1.OpenStackLightspeed) : M unit :=
  let conds := condition.RestoreLastTransitionTimes conditions
                 (apiv1beta1.Conditions (apiv1beta1.Status instance)) savedConditions in
  let conds :=
    if condition.AllSubConditionIsTrue conditions conds then
      condition.MarkTrue conditions condition.ReadyCondition condition.ReadyMessage conds
    else
      let conds := condition.MarkUnknown conditions condition.ReadyCondition
                     condition.InitReason condition.ReadyInitMessage conds in
      condition.Set_ conditions (condition.Mirror conditions condition.ReadyCondition conds)
        conds in
  _ ← common_helper.PatchInstance helper (apiv1beta1.set_Conditions conds instance);
  mret tt.

(** [Reconcile]: when the body panics, the deferred function logs the panic
    and raises it again without patching the status. *)
Definition Reconcile (req : string * string) : M (ctrl.Result * option error) :=
  '(got, err) ← Get (T := apiv1beta1.OpenStackLightspeed) req;
  match err, got with
  | Some e, _ =>
      if k8s_errors.IsNotFound e then mret (ctrl.zeroResult, None)
      else mret (ctrl.zeroResult, Some e)
  | None, None => mret (ctrl.zeroResult, None)
  | None, Some instance =>
      let helper := common_helper.NewHelper finalizer instance in
      let savedConditions := apiv1beta1.Conditions (apiv1beta1.Status instance) in
      '(instance, result, err) ← reconcileBody helper instance;
      patchStatusOnExit helper savedConditions instance;;
      mret (result, err)
  end.

(** [NotifyAllOpenStackLightspeeds]: a request for every instance of the
    namespace of [obj]; [nil] when the list fails. *)
Definition NotifyAllOpenStackLightspeeds {T : Type} `{Object T} (obj : T)
    : M (slice (string * string)) :=
  '(items, err) ← List_ (T := apiv1beta1.OpenStackLightspeed) (GetNamespace obj);
  match err with
  | Some _ => mret None
  | None => mret (Some (map (fun item => (GetNamespace item, GetName item)) items))
  end.

End Reconciler.

End controller.

(* ===================================================================== *)
(** ** The revision with the index discovery job (unnamed/part_002)       *)
(* ===================================================================== *)

(** This file of the sources holds another revision of funcs.go and of
    ols_install.go: [PatchOLSConfig] writes the index identifier that a job
    reads from the RAG image, and an operator that the user installed is
    accepted when its version is the recommended one.  What is the same as
    in the files above is taken from them. *)
Module part_002.

Import client.

Definition openstackRAG (instance : apiv1beta1.OpenStackLightspeed) (indexID : string)
    : list uns.value :=
  [uns.Map {[
     "image" := uns.Str (apiv1beta1.RAGImage (apiv1beta1.Spec instance));
     "indexID" := uns.Str indexID;
     "indexPath" := uns.Str funcs.OpenStackLightspeedVectorDBPath ]}].

Definition PatchOLSConfig (helper : common_helper.Helper)
    (instance : apiv1beta1.OpenStackLightspeed) (olsConfig : uns.Unstructured)
    (indexID : string) : uns.Unstructured * option error :=
  let spec := apiv1beta1.Spec instance in
  funcs.andThen (uns.SetNestedSlice (uns.Object olsConfig) (funcs.providersPatch instance)
                   ["spec"; "llm"; "providers"]) (fun obj =>
  funcs.andThen (uns.SetNestedSlice obj (openstackRAG instance indexID)
                   ["spec"; "ols"; "rag"]) (fun obj =>
  funcs.andThen (if negb (String.eqb (apiv1beta1.TLSCACertBundle spec) EmptyString)
                 then uns.SetNestedField obj (uns.Str (apiv1beta1.TLSCACertBundle spec))
                        ["spec"; "ols"; "additionalCAConfigMapRef"; "name"]
                 else (obj, None)) (fun obj =>
  funcs.andThen (uns.SetNestedField obj (uns.Str (apiv1beta1.ModelName spec))
                   ["spec"; "ols"; "defaultModel"]) (fun obj =>
  funcs.andThen (uns.SetNestedField obj (uns.Str funcs.OpenStackLightspeedDefaultProvider)
                   ["spec"; "ols"; "defaultProvider"]) (fun obj =>
  funcs.andThen (uns.SetNestedField obj (uns.Bool true) ["spec"; "ols"; "byokRAGOnly"])
    (fun obj =>
  let labels := uns.GetLabels (uns.mkUnstructured obj) in
  funcs.andThen (uns.SetNestedField obj (uns.Map (funcs.updatedLabels instance labels))
                   ["metadata"; "labels"]) (fun obj =>
  let '(olsConfig, added) :=
    controllerutil.AddFinalizer (uns.mkUnstructured obj)
      (common_helper.GetFinalizer helper) in
  if negb added
     && bool_decide (apiv1beta1.Conditions (apiv1beta1.Status instance) = None)
  then (olsConfig, Some (ErrorString "cannot add finalizer"))
  else (olsConfig, None)))))))).

(** A line of the log yields the variable: it reads [NAME=value] and the
    value has no ['='] of its own. *)
Definition yields (envVarName envLine : string) : Prop :=
  exists value, envLine = envVarName +:+ "=" +:+ value /\
                GoStrings.ContainsByte value "="%char = false.

(** The loop of [extractEnvFromPodLogs] over the lines of the log. *)
Fixpoint envFromLines (envVarName : string) (envLines : list string)
    : string * option error :=
  match envLines with
  | [] => (EmptyString, Some (ErrorString ("env var not discovered: " +:+ envVarName)))
  | envLine :: rest =>
      let parts := GoStrings.Split envLine "=" in
      match parts with
      | [part0; part1] =>
          if String.eqb part0 envVarName then (part1, None)
          else envFromLines envVarName rest
      | _ => envFromLines envVarName rest
      end
  end.

(** [extractEnvFromPodLogs]: a client is built, the log of the pod is read
    to the end and searched. *)
Definition extractEnvFromPodLogs (pod : corev1.Pod) (envVarName : string)
    : M (string * option error) :=
  err ← request CallNewClient;
  match err with
  | Some e => mret (EmptyString, Some e)
  | None =>
      err ← request (CallGetLogs (GetNamespace pod) (GetName pod));
      match err with
      | Some e => mret (EmptyString, Some e)
      | None =>
          os ← getObjects;
          match lookupObject (keyOf pod) (store (T := corev1.Pod) os) with
          | None => mret (EmptyString, Some (notFound (keyOf pod)))
          | Some stored =>
              let logs := corev1.pod_Logs stored in
              mret (envFromLines envVarName (GoStrings.Split logs GoStrings.LF))
          end
      end
  end.

Section IndexDiscovery.

Variable conditions : condition.Operations.

(** The hexadecimal SHA-256 digest of a string ([fmt.Sprintf("%x", ...)]). *)
Variable Sha256Hex : string -> string.

Definition controllerReference (instance : apiv1beta1.OpenStackLightspeed)
    : list metav1.OwnerReference :=
  [metav1.mkOwnerReference (apiv1beta1.APIVersion instance) (apiv1beta1.Kind instance)
     (GetName instance) (GetUID instance) (Some true) (Some true)].

(** [createOLSJob]: the name of the job ends with the last nine digits of
    the digest of the image; a job that exists already is left alone. *)
Definition createOLSJob (instance : apiv1beta1.OpenStackLightspeed) : M (option error) :=
  let imageHashStr := Sha256Hex (apiv1beta1.RAGImage (apiv1beta1.Spec instance)) in
  if (String.length imageHashStr <? 9)%nat then panic ols_install.sliceBoundsPanic
  else
    let imageHashStr := GoStrings.dropBytes (String.length imageHashStr - 9) imageHashStr in
    let imageName := funcs.OpenStackLightspeedJobName +:+ "-" +:+ imageHashStr in
    let OLSPod :=
      corev1.mkJob
        (metav1.mkObjectMeta imageName (GetNamespace instance) EmptyString 0
           {[ "app" := funcs.OpenStackLightspeedJobName ]}
           (controllerReference instance) None None)
        (apiv1beta1.RAGImage (apiv1beta1.Spec instance)) 600 1200 in
    err ← Create OLSPod;
    match err with
    | Some e => if negb (k8s_errors.IsAlreadyExists e) then mret (Some e) else mret None
    | None => mret None
    end.

Definition requeueWaitingPod (instance : apiv1beta1.OpenStackLightspeed)
    : apiv1beta1.OpenStackLightspeed * string * ctrl.Result * option error :=
  (apiv1beta1.set_Conditions
     (condition.Set_ conditions
        (condition.FalseCondition apiv1beta1.OpenStackLightspeedReadyCondition
           condition.RequestedReason condition.SeverityInfo
           apiv1beta1.OpenStackLightspeedWaitingVectorDBMessage)
        (apiv1beta1.Conditions (apiv1beta1.Status instance))) instance,
   EmptyString, ctrl.mkResult false (5 * ctrl.Second), None).

(** The loop of [ResolveIndexID] over the pods: [None] stands for the panic
    of [Containers[0]] on a pod without containers. *)
Fixpoint findOLSPod (RAGImage : string) (items : list corev1.Pod)
    : option (option corev1.Pod) :=
  match items with
  | [] => Some None
  | pod :: rest =>
      match corev1.pod_Images pod with
      | [] => None
      | image0 :: _ =>
          if String.eqb image0 RAGImage then Some (Some pod)
          else findOLSPod RAGImage rest
      end
  end.

Definition ResolveIndexID (instance : apiv1beta1.OpenStackLightspeed)
    : M (apiv1beta1.OpenStackLightspeed * string * ctrl.Result * option error) :=
  err ← createOLSJob instance;
  match err with
  | Some e => mret (instance, EmptyString, ctrl.zeroResult, Some e)
  | None =>
      '(podList, err) ← List_ (T := corev1.Pod) (GetNamespace instance);
      match err with
      | Some e => mret (instance, EmptyString, ctrl.zeroResult, Some e)
      | None =>
          let labelled :=
            List.filter (fun pod =>
                bool_decide (metav1.Labels (corev1.pod_Meta pod) !! "app"
                             = Some funcs.OpenStackLightspeedJobName)) podList in
          found ← ols_install.orPanic "index out of range"
                    (findOLSPod (apiv1beta1.RAGImage (apiv1beta1.Spec instance)) labelled);
          match found with
          | None => mret (requeueWaitingPod instance)
          | Some OLSPod =>
              if String.eqb (corev1.pod_Phase OLSPod) corev1.PodSucceeded then
                '(indexName, err) ← extractEnvFromPodLogs OLSPod "INDEX_NAME";
                if from_option k8s_errors.IsNotFound false err
                then mret (requeueWaitingPod instance)
                else mret (instance, indexName, ctrl.zeroResult, err)
              else if String.eqb (corev1.pod_Phase OLSPod) corev1.PodFailed then
                mret (instance, EmptyString, ctrl.zeroResult,
                      Some (ErrorString "failed to start OpenStack Lightpseed RAG pod"))
              else mret (requeueWaitingPod instance)
          end
      end
  end.

End IndexDiscovery.

Section Installer.

Variable Getenv : string -> string.

Definition GetRecommendedOLSVersion : string * option error :=
  let version := Getenv "OPENSHIFT_LIGHTSPEED_OPERATOR_VERSION" in
  if negb (String.eqb version EmptyString) then (version, None)
  else
    (EmptyString,
     Some (ErrorString "environment variable OPENSHIFT_LIGHTSPEED_OPERATOR_VERSION is not set")).

(** Here the list of CSVs goes through the client of the helper. *)
Definition GetOLSOperatorCSV
    : M (option operatorsv1alpha1.ClusterServiceVersion * option error) :=
  '(CSVs, err) ← List_ (T := operatorsv1alpha1.ClusterServiceVersion) EmptyString;
  match err with
  | Some e =>
      if k8s_errors.IsNotFound e then mret (None, None) else mret (None, Some e)
  | None =>
      mret (List.find (fun CSV => GoStrings.HasPrefix (GetName CSV)
                                    ols_install.OLSOperatorName) CSVs,
            None)
  end.

Definition IsUserInstalledOLSOperatorMode (instance : apiv1beta1.OpenStackLightspeed)
    : M (bool * option error) :=
  '(OLSOperatorCSV, err) ← GetOLSOperatorCSV;
  match err, OLSOperatorCSV with
  | Some e, _ => mret (false, Some e)
  | None, None => mret (false, None)
  | None, Some OLSOperatorCSV =>
      name ← ols_install.orPanic ols_install.sliceBoundsPanic
               (ols_install.GetOLSSubscriptionName instance);
      '(got, err) ← Get (T := operatorsv1alpha1.Subscription)
                      (GetNamespace instance, name);
      let subscription := default ols_install.zeroSubscription got in
      if bool_decide (err <> None) && negb (from_option k8s_errors.IsNotFound false err)
      then mret (false, err)
      else
        let userInstalledMode :=
          negb (funcs.IsOwnedBy OLSOperatorCSV instance)
          && negb (funcs.IsOwnedBy subscription instance) in
        mret (userInstalledMode, None)
  end.

Definition unsupportedVersionError (recommendedVersion : string) : error :=
  ErrorString ("detected an unsupported version of OpenShift Lightspeed in the cluster." +:+
               "The recommended version is: " +:+ recommendedVersion +:+
               ". Please ensure that the installed version " +:+
               "matches the recommended version or uninstall it (OpenStack Lightspeed " +:+
               "will install the OpenShift Lightspeed operator automatically)").

Definition CheckOLSOperatorVersion (instance : apiv1beta1.OpenStackLightspeed)
    : M (bool * option error) :=
  '(OLSOperatorCSV, err) ← GetOLSOperatorCSV;
  match err, OLSOperatorCSV with
  | Some e, _ => mret (false, Some e)
  | None, None => mret (false, None)
  | None, Some OLSOperatorCSV =>
      let '(recommendedVersion, err) := GetRecommendedOLSVersion in
      match err with
      | Some e => mret (false, Some e)
      | None =>
          let installedVersion := operatorsv1alpha1.csv_Version OLSOperatorCSV in
          if negb (String.eqb installedVersion recommendedVersion)
          then mret (false, Some (unsupportedVersionError recommendedVersion))
          else mret (true, None)
      end
  end.

Definition InstanceOwnedOLSOperatorComplete (instance : apiv1beta1.OpenStackLightspeed)
    : M (bool * option error) :=
  '(OLSOperatorCSV, err) ← GetOLSOperatorCSV;
  match err, OLSOperatorCSV with
  | Some e, _ => mret (false, Some e)
  | None, None => mret (false, None)
  | None, Some OLSOperatorCSV =>
      mret (funcs.IsOwnedBy OLSOperatorCSV instance
            && String.eqb (operatorsv1alpha1.csv_Phase OLSOperatorCSV)
                 operatorsv1alpha1.CSVPhaseSucceeded,
            None)
  end.

Definition ApproveOLSOperatorInstallPlan (instance : apiv1beta1.OpenStackLightspeed)
    : M (bool * option error) :=
  '(installPlans, err) ← List_ (T := operatorsv1alpha1.InstallPlan) (GetNamespace instance);
  match err with
  | Some e => mret (false, Some e)
  | None =>
      let '(recommendedOLSVersion, err) := GetRecommendedOLSVersion in
      match err with
      | Some e => mret (false, Some e)
      | None => ols_install.approveFirst recommendedOLSVersion installPlans
      end
  end.

Definition subscriptionMutateFn (instance : apiv1beta1.OpenStackLightspeed)
    (olsVersion : string) (subscription : operatorsv1alpha1.Subscription)
    : operatorsv1alpha1.Subscription * option error :=
  let subscription :=
    operatorsv1alpha1.set_Spec
      (Some (operatorsv1alpha1.mkSubscriptionSpec "stable" operatorsv1alpha1.ApprovalManual
               (apiv1beta1.CatalogSourceName (apiv1beta1.Spec instance))
               (apiv1beta1.CatalogSourceNamespace (apiv1beta1.Spec instance))
               ols_install.OLSOperatorName
               (ols_install.OLSOperatorName +:+ ".v" +:+ olsVersion)))
      subscription in
  (SetOwnerReferences (ols_install.instanceOwnerReference instance) subscription, None).

Definition InstallInstanceOwnedOLSOperator (instance : apiv1beta1.OpenStackLightspeed)
    : M (bool * option error) :=
  let '(olsVersion, err) := GetRecommendedOLSVersion in
  match err with
  | Some e => mret (false, Some e)
  | None =>
  name ← ols_install.orPanic ols_install.sliceBoundsPanic
           (ols_install.GetOLSSubscriptionName instance);
  let subscription :=
    operatorsv1alpha1.mkSubscription
      (metav1.mkObjectMeta name (GetNamespace instance) EmptyString 0 ∅ [] None None)
      None None in
  '(opResult, err, subscription) ←
    createor.CreateOrUpdate subscription (subscriptionMutateFn instance olsVersion);
  match err with
  | Some e => mret (false, Some e)
  | None =>
      if negb (bool_decide (opResult = controllerutil.OperationResultNone))
         || bool_decide (operatorsv1alpha1.sub_InstallPlanRef subscription = None)
      then mret (false, None)
      else
        '(installPlanApproved, err) ← ApproveOLSOperatorInstallPlan instance;
        match err with
        | Some e => mret (false, Some e)
        | None =>
            if negb installPlanApproved then mret (false, None)
            else
              '(OLSOperatorCSV, err) ← GetOLSOperatorCSV;
              match err, OLSOperatorCSV with
              | Some e, _ => mret (false, Some e)
              | None, None => mret (false, None)
              | None, Some OLSOperatorCSV =>
                  let OLSOperatorCSV :=
                    SetOwnerReferences (ols_install.instanceOwnerReference instance)
                      OLSOperatorCSV in
                  err ← Update OLSOperatorCSV;
                  match err with
                  | Some e =>
                      if k8s_errors.IsConflict e then mret (false, None)
                      else mret (false, Some e)
                  | None => InstanceOwnedOLSOperatorComplete instance
                  end
              end
        end
  end
  end.

Definition EnsureOLSOperatorInstalled (instance : apiv1beta1.OpenStackLightspeed)
    : M (bool * option error) :=
  '(isUserInstalledOLSOperator, err) ← IsUserInstalledOLSOperatorMode instance;
  match err with
  | Some e => mret (false, Some e)
  | None =>
      if (isUserInstalledOLSOperator : bool) then CheckOLSOperatorVersion instance
      else
        '(OLSOperatorInstalled, err) ← InstallInstanceOwnedOLSOperator instance;
        match err with
        | Some e => mret (false, Some e)
        | None => mret (OLSOperatorInstalled, None)
        end
  end.

End Installer.

End part_002.

(* ===================================================================== *)
(** ** Objects for the examples                                           *)
(* ===================================================================== *)

Module Examples.

Import client.

Definition finalizer : string := "openstack.org-openstacklightspeed".

Definition uid1 : string := "3f2a9c1e-7b1d-4c58-9a54-0b6c2f0e8d11".
Definition uid2 : string := "3f2a9d77-1c7e-4f0a-8f3b-5d2e9a4c6b22".

Definition meta (name namespace uid : string) : metav1.ObjectMeta :=
  metav1.mkObjectMeta name namespace uid 1 ∅ [] None None.

Definition spec : apiv1beta1.OpenStackLightspeedSpec :=
  apiv1beta1.mkSpec "https://llm.example.com/v1" "openai" "openstack-lightspeed-apitoken"
    "gemini-2.5-pro" 2048 "quay.io/openstack-lightspeed/rag-content:os-docs-2025.1" ""
    "redhat-operators" "openshift-marketplace".

(** An instance whose conditions have been initialised, as [Reconcile]
    leaves them before the patch step. *)
Definition instance1 : apiv1beta1.OpenStackLightspeed :=
  apiv1beta1.mkOpenStackLightspeed "lightspeed.openstack.org/v1beta1" "OpenStackLightspeed"
    (meta "openstack-lightspeed" "openshift-lightspeed" uid1) spec
    (apiv1beta1.mkStatus (Some []) 1).

(** The same instance with a [nil] list of conditions. *)
Definition instanceNilConditions : apiv1beta1.OpenStackLightspeed :=
  apiv1beta1.set_Conditions None instance1.

Definition helper1 : common_helper.Helper := common_helper.NewHelper finalizer instance1.

Definition olsConfigWith (labels : gmap string uns.value) (finalizers : list uns.value)
    (conds : list uns.value) : uns.Unstructured :=
  uns.mkUnstructured {[
    "apiVersion" := uns.Str "ols.openshift.io/v1alpha1";
    "kind" := uns.Str "OLSConfig";
    "metadata" := uns.Map {[
      "name" := uns.Str "cluster";
      "labels" := uns.Map labels;
      "finalizers" := uns.Slice finalizers ]};
    "status" := uns.Map {[ "conditions" := uns.Slice conds ]} ]}.

Definition cond (t status : string) : uns.value :=
  uns.Map {[ "type" := uns.Str t; "status" := uns.Str status ]}.

(** An [OLSConfig] that the instance with [uid2] owns. *)
Definition olsConfigOfOther : uns.Unstructured :=
  olsConfigWith {[ funcs.OpenStackLightspeedOwnerIDLabel := uns.Str uid2 ]}
    [uns.Str finalizer] [].

(** An [OLSConfig] whose owner label is there and empty. *)
Definition olsConfigEmptyOwner : uns.Unstructured :=
  olsConfigWith {[ funcs.OpenStackLightspeedOwnerIDLabel := uns.Str "" ]} [] [].

(** An [OLSConfig] without labels, as a user would create it. *)
Definition olsConfigUnlabelled : uns.Unstructured :=
  olsConfigWith ∅ [] [].

(** An [OLSConfig] of [instance1] on which only one of the four conditions
    has been reported so far. *)
Definition olsConfigOneCondition : uns.Unstructured :=
  olsConfigWith {[ funcs.OpenStackLightspeedOwnerIDLabel := uns.Str uid1 ]}
    [uns.Str finalizer] [cond "ApiReady" "True"].

Definition noObjects : Objects := mkObjects [] [] [] [] [] [] [].

Definition clusterWith (os : Objects) : Cluster := mkCluster os [] [] [].

Definition withOLSConfig (u : uns.Unstructured) : Cluster :=
  clusterWith (mkObjects [] [u] [] [] [] [] []).

(** The same cluster, in which the next requests meet these failures. *)
Definition withFaults (fs : list (option error)) (c : Cluster) : Cluster :=
  mkCluster (objects c) fs (randomInts c) (calls c).

Definition forbidden : error := ErrorString "olsconfigs.ols.openshift.io is forbidden".

(** A CSV of the OpenShift Lightspeed operator that a user installed. *)
Definition userCSV : operatorsv1alpha1.ClusterServiceVersion :=
  operatorsv1alpha1.mkCSV (meta "lightspeed-operator.v1.0.6" "openshift-lightspeed" "csv-uid")
    "1.0.6" "Succeeded".

Definition withUserCSV : Cluster :=
  clusterWith (mkObjects [] [] [userCSV] [] [] [] []).

(** A CSV of the operator that [instance1] owns and that a finalizer keeps
    in the cluster after its deletion has been requested. *)
Definition ownedCSV : operatorsv1alpha1.ClusterServiceVersion :=
  operatorsv1alpha1.mkCSV
    (metav1.mkObjectMeta "lightspeed-operator.v1.0.6" "openshift-lightspeed" "csv-uid" 1 ∅
       [metav1.mkOwnerReference "lightspeed.openstack.org/v1beta1" "OpenStackLightspeed"
          "openstack-lightspeed" uid1 None None]
       (Some ["operators.coreos.com/csv-cleanup"]) None)
    "1.0.6" "Succeeded".

(** [instance1] with the finalizer of the controller, being deleted. *)
Definition instanceDeleted : apiv1beta1.OpenStackLightspeed :=
  apiv1beta1.set_Meta
    (metav1.mkObjectMeta "openstack-lightspeed" "openshift-lightspeed" uid1 1 ∅ []
       (Some [finalizer]) (Some 1))
    instance1.

(** No [OLSConfig] is left, and the CSV of the instance is still there. *)
Definition withOwnedCSV : Cluster :=
  clusterWith (mkObjects [] [] [ownedCSV] [] [] [] []).

Definition getenv (version : string) (name : string) : string :=
  if String.eqb name "OPENSHIFT_LIGHTSPEED_OPERATOR_VERSION" then version else "".

(** The pod of the discovery job, which has printed its environment. *)
Definition discoveryPod (logs : string) : corev1.Pod :=
  corev1.mkPod (meta "openstack-lightspeed-0a1b2c3d4-x7k2p" "openshift-lightspeed" "pod-uid")
    ["quay.io/openstack-lightspeed/rag-content:os-docs-2025.1"] "Succeeded" logs.

Definition withPod (pod : corev1.Pod) : Cluster :=
  clusterWith (mkObjects [] [] [] [] [] [] [pod]).

Definition logsEqualsInValue : string :=
  "PATH=/usr/bin" +:+ GoStrings.LF +:+ "INDEX_NAME=os-docs=2025.1" +:+ GoStrings.LF.

Definition logsPlain : string :=
  "PATH=/usr/bin" +:+ GoStrings.LF +:+ "INDEX_NAME=os-docs-2025.1" +:+ GoStrings.LF.

(** Operations on conditions to run the reconciler with: a condition that
    is set replaces the one of its type and comes first. *)
Definition setCondition (c : condition.Condition) (cs : condition.Conditions)
    : condition.Conditions :=
  Some (c :: List.filter
               (fun x => negb (String.eqb (condition.Type_ x) (condition.Type_ c)))
               (elems cs)).

Definition conditions : condition.Operations :=
  condition.mkOperations
    (fun cl cs => match cs with Some _ => cs | None => cl end)
    setCondition
    (fun t message cs =>
       setCondition (condition.mkCondition t "True" "" "Ready" message) cs)
    (fun t reason message cs => setCondition (condition.UnknownCondition t reason message) cs)
    (fun t cs => default (condition.UnknownCondition t condition.InitReason "")
                   (head (elems cs)))
    (fun cs => forallb (fun x => String.eqb (condition.Status x) "True") (elems cs))
    (fun cs saved => cs).

End Examples.

(* ===================================================================== *)
(** * Properties                                                          *)
(* ===================================================================== *)

Example ParseMajorMinorVersion_nightly :
  OCPVersion.ParseMajorMinorVersion "4.15.0-0.nightly-2024-01-15-123456" = ("4.15", None).
Proof. reflexivity. Qed.

Example ParseMajorMinorVersion_invalid :
  OCPVersion.ParseMajorMinorVersion "invalid"
  = ("", Some (ErrorString "invalid version format: invalid")).
Proof. reflexivity. Qed.

Example ParseMajorMinorVersion_empty :
  OCPVersion.ParseMajorMinorVersion ""
  = ("", Some (ErrorString "invalid version format: ")).
Proof. reflexivity. Qed.

Example GetOCPIndexName_416 : OCPVersion.GetOCPIndexName "4.16" = "ocp-product-docs-4_16".
Proof. reflexivity. Qed.

Example GetOCPVectorDBPath_416 :
  OCPVersion.GetOCPVectorDBPath "4.16" = "/rag/ocp_vector_db/ocp-4.16".
Proof. reflexivity. Qed.

Example Split_env : GoStrings.Split "INDEX_NAME=a=b" "=" = ["INDEX_NAME"; "a"; "b"].
Proof. reflexivity. Qed.

Example Split_empty : GoStrings.Split "" "=" = [""].
Proof. reflexivity. Qed.

Example HasSuffix_ex : GoStrings.HasSuffix "lightspeed-operator.v1.0.6" "1.0.6" = true.
Proof. reflexivity. Qed.

(* --------------------------------------------------------------------- *)
(** ** Byte strings                                                       *)
(* --------------------------------------------------------------------- *)

Lemma append_cons (c : ascii) (s t : string) : String c s +:+ t = String c (s +:+ t).
Proof. reflexivity. Qed.

Lemma append_nil_l (t : string) : "" +:+ t = t.
Proof. reflexivity. Qed.

Lemma append_nil_r (s : string) : s +:+ "" = s.
Proof. induction s as [|c s IH]; [done | by rewrite append_cons, IH]. Qed.

Lemma append_assoc (a b c : string) : (a +:+ b) +:+ c = a +:+ (b +:+ c).
Proof. induction a as [|x a IH]; [done | by rewrite !append_cons, IH]. Qed.

Lemma length_append (a b : string) :
  String.length (a +:+ b) = String.length a + String.length b.
Proof. induction a as [|x a IH]; [done | rewrite append_cons; simpl; by rewrite IH]. Qed.

Lemma takeBytes_append (a b : string) :
  GoStrings.takeBytes (String.length a) (a +:+ b) = a.
Proof.
  induction a as [|x a IH]; [by destruct b |].
  rewrite append_cons. simpl. by rewrite IH.
Qed.

(* --------------------------------------------------------------------- *)
(** ** The matcher on runs of digits                                      *)
(* --------------------------------------------------------------------- *)

Section DigitRuns.
Context {R : Type}.
Implicit Types (k : GoRegexp.Cont R) (s ds rest : string).

Lemma spanDigits_spec s :
  let '(ds, rest) := MajorMinor.spanDigits s in
  s = ds +:+ rest /\ MajorMinor.allDigits ds = true /\
  MajorMinor.startsWithDigit rest = false.
Proof.
  induction s as [|c s IH]; simpl; [done |].
  destruct (GoRegexp.isDigit c) eqn:Hc.
  - destruct (MajorMinor.spanDigits s) as [ds rest].
    destruct IH as (-> & Hds & Hrest). rewrite append_cons. simpl. by rewrite Hc, Hds.
  - simpl. by rewrite Hc.
Qed.

Lemma plusLoop_S (step : nat -> string -> option string -> GoRegexp.Cont R -> option R)
    k n pos s cap :
  GoRegexp.plusLoop step k (S n) pos s cap
  = step pos s cap (fun pos' s' cap' =>
      match (if Nat.ltb pos pos' then GoRegexp.plusLoop step k n pos' s' cap' else None) with
      | Some x => Some x
      | None => k pos' s' cap'
      end).
Proof. reflexivity. Qed.

Lemma run_digit_cons k fuel pos c s cap :
  GoRegexp.run GoRegexp.PerlDigit fuel pos (String c s) cap k
  = if GoRegexp.isDigit c then k (S pos) s cap else None.
Proof. reflexivity. Qed.

Lemma plusLoop_digit_nomatch k fuel n pos s cap :
  MajorMinor.startsWithDigit s = false ->
  GoRegexp.plusLoop (GoRegexp.run GoRegexp.PerlDigit fuel) k n pos s cap = None.
Proof.
  intros Hs. destruct n as [|n]; [done |]. rewrite plusLoop_S.
  destruct s as [|c s]; [done |]. rewrite run_digit_cons.
  simpl in Hs. by rewrite Hs.
Qed.

(** The greedy choice: when the rest of the pattern accepts what follows the
    whole run, the whole run is what [\d+] takes. *)
Lemma plusLoop_digit_greedy k fuel ds : forall n pos rest cap x,
  MajorMinor.digits ds ->
  MajorMinor.startsWithDigit rest = false ->
  String.length ds <= n ->
  k (pos + String.length ds) rest cap = Some x ->
  GoRegexp.plusLoop (GoRegexp.run GoRegexp.PerlDigit fuel) k n pos (ds +:+ rest) cap
  = Some x.
Proof.
  induction ds as [|d ds IH]; intros n pos rest cap x [Hne Hds] Hrest Hn Hk;
    [done |].
  simpl in Hds, Hn. apply andb_prop in Hds as [Hd Hds].
  destruct n as [|n]; [lia |].
  rewrite append_cons, plusLoop_S, run_digit_cons, Hd.
  assert (Nat.ltb pos (S pos) = true) as -> by (apply Nat.ltb_lt; lia).
  destruct ds as [|d' ds].
  - rewrite append_nil_l, plusLoop_digit_nomatch by done.
    simpl in Hk. by replace (S pos) with (pos + 1) by lia.
  - rewrite (IH n (S pos) rest cap x); [done | done | done | lia |].
    by replace (S pos + String.length (String d' ds))
      with (pos + String.length (String d (String d' ds))) by (simpl; lia).
Qed.

(** Backtracking: when the rest of the pattern refuses every input that
    starts with a digit, only the whole run is left to try. *)
Lemma plusLoop_digit_backtrack k fuel ds : forall n pos rest cap,
  MajorMinor.digits ds ->
  MajorMinor.startsWithDigit rest = false ->
  String.length ds <= n ->
  (forall pos' s' cap', MajorMinor.startsWithDigit s' = true -> k pos' s' cap' = None) ->
  GoRegexp.plusLoop (GoRegexp.run GoRegexp.PerlDigit fuel) k n pos (ds +:+ rest) cap
  = k (pos + String.length ds) rest cap.
Proof.
  induction ds as [|d ds IH]; intros n pos rest cap [Hne Hds] Hrest Hn Hk;
    [done |].
  simpl in Hds, Hn. apply andb_prop in Hds as [Hd Hds].
  destruct n as [|n]; [lia |].
  rewrite append_cons, plusLoop_S, run_digit_cons, Hd.
  assert (Nat.ltb pos (S pos) = true) as -> by (apply Nat.ltb_lt; lia).
  destruct ds as [|d' ds].
  - rewrite append_nil_l, plusLoop_digit_nomatch by done.
    simpl. by replace (S pos) with (pos + 1) by lia.
  - rewrite (IH n (S pos) rest cap); [| done | done | lia | done].
    replace (S pos + String.length (String d' ds))
      with (pos + String.length (String d (String d' ds))) by (simpl; lia).
    destruct (k _ rest cap) as [x|] eqn:Hfull; [done |].
    apply Hk. rewrite append_cons. simpl in *. by apply andb_prop in Hds as [-> _].
Qed.

End DigitRuns.

(* --------------------------------------------------------------------- *)
(** ** [ParseMajorMinorVersion]                                           *)
(* --------------------------------------------------------------------- *)

Lemma isDigit_not_dot (c : ascii) :
  GoRegexp.isDigit c = true -> Ascii.eqb c "."%char = false.
Proof.
  intros Hc. destruct (Ascii.eqb_spec c "."%char) as [->|]; [| done].
  vm_compute in Hc. discriminate.
Qed.

Lemma spanDigits_app (ds r : string) :
  MajorMinor.allDigits ds = true ->
  MajorMinor.spanDigits (ds +:+ r)
  = (ds +:+ (MajorMinor.spanDigits r).1, (MajorMinor.spanDigits r).2).
Proof.
  induction ds as [|d ds IH]; intros Hds.
  - rewrite !append_nil_l. by destruct (MajorMinor.spanDigits r).
  - simpl in Hds. apply andb_prop in Hds as [Hd Hds].
    rewrite !append_cons. simpl. rewrite Hd, (IH Hds). done.
Qed.

Lemma spanDigits_nodigit (r : string) :
  MajorMinor.startsWithDigit r = false -> MajorMinor.spanDigits r = ("", r).
Proof. destruct r as [|c r]; [done |]. simpl. by intros ->. Qed.

Lemma findFrom_majorMinorRe_later (fuel pos : nat) (s : string) :
  GoRegexp.findFrom OCPVersion.majorMinorRe fuel (S pos) s = None.
Proof. revert pos. induction s as [|c s IH]; intros pos; simpl; [done | apply IH]. Qed.

(** What the pattern does once [^] and the group are entered. *)
Lemma run_majorMinorRe_unfold {R : Type} (fuel : nat) (v : string)
    (k : GoRegexp.Cont R) :
  GoRegexp.run OCPVersion.majorMinorRe fuel 0 v None k
  = GoRegexp.plusLoop (GoRegexp.run GoRegexp.PerlDigit fuel)
      (fun pos1 s1 cap1 =>
         match s1 with
         | String x s2 =>
             if Ascii.eqb x "."%char then
               GoRegexp.plusLoop (GoRegexp.run GoRegexp.PerlDigit fuel)
                 (fun pos3 s3 _ => k pos3 s3 (Some (GoStrings.takeBytes (pos3 - 0) v)))
                 fuel (S pos1) s2 cap1
             else None
         | EmptyString => None
         end)
      fuel 0 v None.
Proof. reflexivity. Qed.

(** The matcher and the direct scanner agree on every input. *)
Lemma run_majorMinorRe_scan (fuel : nat) (v : string) :
  String.length v < fuel ->
  GoRegexp.run OCPVersion.majorMinorRe fuel 0 v None (fun e _ cap => Some (e, cap))
  = (fun p => (String.length p, Some p)) <$> MajorMinor.scanMajorMinor v.
Proof.
  intros Hfuel. rewrite run_majorMinorRe_unfold. unfold MajorMinor.scanMajorMinor.
  pose proof (spanDigits_spec v) as Hv.
  destruct (MajorMinor.spanDigits v) as [major r1]. destruct Hv as (Hv & Hmajor & Hr1).
  assert (String.length major + String.length r1 < fuel) as Hlen
    by (rewrite <- length_append, <- Hv; done).
  destruct major as [|m major].
  { rewrite append_nil_l in Hv. subst r1. by rewrite plusLoop_digit_nomatch. }
  rewrite Hv at 1.
  rewrite plusLoop_digit_backtrack; [| done | done | lia |]; last first.
  { intros pos' [|c s'] cap' Hc; [done |]. simpl in Hc.
    by rewrite (isDigit_not_dot c Hc). }
  destruct r1 as [|c r2]; [done |].
  destruct (Ascii.eqb_spec c "."%char) as [->|Hc]; [| done].
  pose proof (spanDigits_spec r2) as Hr2.
  destruct (MajorMinor.spanDigits r2) as [minor r3].
  destruct Hr2 as (Hr2 & Hminor & Hr3).
  destruct minor as [|n minor].
  { rewrite append_nil_l in Hr2. subst r3. by rewrite plusLoop_digit_nomatch. }
  rewrite Hr2 at 1.
  erewrite plusLoop_digit_greedy; [| done | done | | done]; last first.
  { assert (String.length r2 = String.length (String n minor) + String.length r3)
      by (rewrite <- length_append; by f_equal).
    simpl in *. lia. }
  simpl fmap. rewrite Nat.sub_0_r.
  assert (v = (String m major +:+ "." +:+ String n minor) +:+ r3) as Hshape.
  { rewrite Hv, Hr2. by rewrite !append_assoc. }
  assert (S (0 + String.length (String m major)) + String.length (String n minor)
          = String.length (String m major +:+ "." +:+ String n minor)) as ->.
  { rewrite !length_append. simpl. lia. }
  rewrite Hshape at 1. by rewrite takeBytes_append.
Qed.

Lemma ParseMajorMinorVersion_scan (v : string) :
  OCPVersion.ParseMajorMinorVersion v
  = match MajorMinor.scanMajorMinor v with
    | Some p => (p, None)
    | None => ("", Some (ErrorString ("invalid version format: " +:+ v)))
    end.
Proof.
  unfold OCPVersion.ParseMajorMinorVersion, GoRegexp.FindStringSubmatch.
  destruct v as [|c v]; [done |].
  unfold GoRegexp.findFrom; fold GoRegexp.findFrom.
  rewrite run_majorMinorRe_scan by lia.
  destruct (MajorMinor.scanMajorMinor (String c v)) as [p|]; simpl fmap; cbv iota beta.
  - done.
  - by rewrite findFrom_majorMinorRe_later.
Qed.

Lemma allDigits_app (a b : string) :
  MajorMinor.allDigits a = true -> MajorMinor.allDigits b = true ->
  MajorMinor.allDigits (a +:+ b) = true.
Proof.
  induction a as [|c a IH]; intros Ha Hb; [done |].
  simpl in Ha. apply andb_prop in Ha as [Hc Ha].
  rewrite append_cons. simpl. by rewrite Hc, IH.
Qed.

Lemma append_nonempty_l (a b : string) : a <> "" -> a +:+ b <> "".
Proof. by destruct a. Qed.

Lemma scanMajorMinor_complete (v p : string) :
  MajorMinor.majorMinorPrefix v p -> MajorMinor.scanMajorMinor v = Some p.
Proof.
  intros (major & minor & rest & [Hmaj1 Hmaj] & [Hmin1 Hmin] & -> & -> & Hrest).
  unfold MajorMinor.scanMajorMinor.
  rewrite !append_assoc, spanDigits_app by done.
  rewrite append_cons, append_nil_l.
  rewrite (spanDigits_nodigit (String "." _)) by done. simpl fst; simpl snd.
  rewrite append_nil_r. destruct major as [|m major]; [done |].
  rewrite Ascii.eqb_refl, spanDigits_app, spanDigits_nodigit by done.
  simpl fst. rewrite append_nil_r. by destruct minor.
Qed.

Lemma scanMajorMinor_sound (v p : string) :
  MajorMinor.scanMajorMinor v = Some p -> MajorMinor.majorMinorPrefix v p.
Proof.
  unfold MajorMinor.scanMajorMinor. intros Hscan.
  pose proof (spanDigits_spec v) as Hv.
  destruct (MajorMinor.spanDigits v) as [major r1]. destruct Hv as (Hv & Hmajor & Hr1).
  destruct major as [|m major]; [done |]. destruct r1 as [|c r2]; [done |].
  destruct (Ascii.eqb_spec c "."%char) as [->|]; [| done].
  pose proof (spanDigits_spec r2) as Hr2.
  destruct (MajorMinor.spanDigits r2) as [minor r3]. destruct Hr2 as (Hr2 & Hminor & Hr3).
  destruct minor as [|n minor]; [done |]. injection Hscan as <-.
  exists (String m major), (String n minor), r3. repeat split; try done.
  rewrite Hv, Hr2. by rewrite !append_assoc.
Qed.

Lemma hasMatchingPrefix_majorMinorPrefix (v : string) :
  MajorMinor.hasMatchingPrefix v -> exists p, MajorMinor.majorMinorPrefix v p.
Proof.
  intros (p & rest & (major & minor & Hmaj & [Hmin1 Hmin] & ->) & ->).
  pose proof (spanDigits_spec rest) as Hrest.
  destruct (MajorMinor.spanDigits rest) as [ds r]. destruct Hrest as (-> & Hds & Hr).
  exists (major +:+ "." +:+ (minor +:+ ds)), major, (minor +:+ ds), r.
  split; [exact Hmaj |].
  split; [split; [by apply append_nonempty_l | by apply allDigits_app] |].
  split; [done |]. split; [by rewrite !append_assoc | done].
Qed.

Lemma majorMinorPrefix_hasMatchingPrefix (v p : string) :
  MajorMinor.majorMinorPrefix v p -> MajorMinor.hasMatchingPrefix v.
Proof.
  intros (major & minor & rest & Hmaj & Hmin & -> & -> & _).
  exists (major +:+ "." +:+ minor), rest. split; [| done]. by exists major, minor.
Qed.

(** C8. For every version string with a prefix that matches [^\d+\.\d+],
    [ParseMajorMinorVersion] returns exactly its major.minor prefix (the
    match with the whole minor number) and no error; for every string
    without such a prefix, the empty string included, it returns an error. *)
Theorem ParseMajorMinorVersion_spec (v : string) :
  (forall p, MajorMinor.majorMinorPrefix v p ->
     OCPVersion.ParseMajorMinorVersion v = (p, None)) /\
  (MajorMinor.hasMatchingPrefix v ->
     exists p, MajorMinor.majorMinorPrefix v p /\
               OCPVersion.ParseMajorMinorVersion v = (p, None)) /\
  (~ MajorMinor.hasMatchingPrefix v ->
     exists err, OCPVersion.ParseMajorMinorVersion v = ("", Some err)).
Proof.
  assert (forall p, MajorMinor.majorMinorPrefix v p ->
            OCPVersion.ParseMajorMinorVersion v = (p, None)) as Hok.
  { intros p Hp. rewrite ParseMajorMinorVersion_scan.
    by rewrite (scanMajorMinor_complete v p Hp). }
  split; [exact Hok |]. split.
  - intros Hv. destruct (hasMatchingPrefix_majorMinorPrefix v Hv) as [p Hp].
    exists p. split; [done | by apply Hok].
  - intros Hv. rewrite ParseMajorMinorVersion_scan.
    destruct (MajorMinor.scanMajorMinor v) as [p|] eqn:Hscan; [| by eexists].
    destruct Hv. eapply majorMinorPrefix_hasMatchingPrefix.
    by apply scanMajorMinor_sound.
Qed.

Lemma ParseMajorMinorVersion_spec_witness :
  OCPVersion.ParseMajorMinorVersion "4.15.0-0.nightly-2024-01-15-123456" = ("4.15", None).
Proof.
  apply (proj1 (ParseMajorMinorVersion_spec "4.15.0-0.nightly-2024-01-15-123456")).
  exists "4", "15", ".0-0.nightly-2024-01-15-123456".
  repeat split; (reflexivity || discriminate).
Defined.

(* --------------------------------------------------------------------- *)
(** ** [ResolveOCPVersion]                                                *)
(* --------------------------------------------------------------------- *)

Lemma IsSupportedOCPVersion_iff (version : string) :
  OCPVersion.IsSupportedOCPVersion version = true
  <-> version = "4.16" \/ version = "4.18" \/ version = "latest".
Proof.
  unfold OCPVersion.IsSupportedOCPVersion, OCPVersion.SupportedOCPVersions. simpl.
  rewrite !orb_true_iff, !String.eqb_eq. unfold OCPVersion.OCPVersion416,
    OCPVersion.OCPVersion418, OCPVersion.OCPVersionLatest. intuition discriminate.
Qed.

(** C1. [ResolveOCPVersion] on every triple (detected, override, enabled):
    nothing and no error when disabled; the override, verbatim, when it is
    not empty; an error when neither an override nor a detected version is
    there; the detected version when it is one of 4.16, 4.18 and latest;
    otherwise the fallback to latest, flagged as such. *)
Theorem ResolveOCPVersion_spec (detected override : string) (enabled : bool) :
  (enabled = false ->
     OCPVersion.ResolveOCPVersion detected override enabled = ("", false, None)) /\
  (enabled = true -> override <> "" ->
     OCPVersion.ResolveOCPVersion detected override enabled = (override, false, None)) /\
  (enabled = true -> override = "" -> detected = "" ->
     exists err, OCPVersion.ResolveOCPVersion detected override enabled
                 = ("", false, Some err)) /\
  (enabled = true -> override = "" ->
     detected = "4.16" \/ detected = "4.18" \/ detected = "latest" ->
     OCPVersion.ResolveOCPVersion detected override enabled = (detected, false, None)) /\
  (enabled = true -> override = "" -> detected <> "" ->
     ~ (detected = "4.16" \/ detected = "4.18" \/ detected = "latest") ->
     OCPVersion.ResolveOCPVersion detected override enabled = ("latest", true, None)).
Proof.
  unfold OCPVersion.ResolveOCPVersion. repeat split.
  - by intros ->.
  - intros -> Ho. simpl. by apply String.eqb_neq in Ho as ->.
  - intros -> -> ->. by eexists.
  - intros -> -> Hd. simpl.
    assert (detected <> "") as Hne by (intros ->; intuition discriminate).
    apply String.eqb_neq in Hne as ->.
    by apply IsSupportedOCPVersion_iff in Hd as ->.
  - intros -> -> Hne Hd. simpl. apply String.eqb_neq in Hne as ->.
    destruct (OCPVersion.IsSupportedOCPVersion detected) eqn:Hs; [| done].
    by apply IsSupportedOCPVersion_iff in Hs.
Qed.

Lemma ResolveOCPVersion_spec_witness :
  OCPVersion.ResolveOCPVersion "4.17" "" true = ("latest", true, None).
Proof.
  apply (proj2 (proj2 (proj2 (proj2 (ResolveOCPVersion_spec "4.17" "" true)))));
    [reflexivity | reflexivity | discriminate |].
  intros [H | [H | H]]; discriminate.
Defined.

Example ResolveOCPVersion_custom_override :
  OCPVersion.ResolveOCPVersion "4.16" "4.99" true = ("4.99", false, None).
Proof. reflexivity. Qed.

(* --------------------------------------------------------------------- *)
(** ** Examples of runs                                                   *)
(* --------------------------------------------------------------------- *)

Example extractEnv_plain :
  part_002.extractEnvFromPodLogs (Examples.discoveryPod Examples.logsPlain) "INDEX_NAME"
    (Examples.withPod (Examples.discoveryPod Examples.logsPlain))
  = client.Return ("os-docs-2025.1", None)
      (client.mkCluster
         (client.objects (Examples.withPod (Examples.discoveryPod Examples.logsPlain)))
         [] []
         [client.CallNewClient;
          client.CallGetLogs "openshift-lightspeed" "openstack-lightspeed-0a1b2c3d4-x7k2p"]).
Proof. vm_compute. reflexivity. Qed.

Example PatchOLSConfig_fresh :
  (funcs.PatchOLSConfig Examples.helper1 Examples.instance1 controller.newOLSConfig).2 = None.
Proof. vm_compute. reflexivity. Qed.

Example PatchOLSConfig_fresh_labels :
  uns.GetLabels
    (funcs.PatchOLSConfig Examples.helper1 Examples.instance1 controller.newOLSConfig).1
  = {[ funcs.OpenStackLightspeedOwnerIDLabel := Examples.uid1 ]}.
Proof. vm_compute. reflexivity. Qed.

Example PatchOLSConfig_fresh_finalizers :
  uns.GetFinalizers
    (funcs.PatchOLSConfig Examples.helper1 Examples.instance1 controller.newOLSConfig).1
  = Some [Examples.finalizer].
Proof. vm_compute. reflexivity. Qed.

(* --------------------------------------------------------------------- *)
(** ** [GetOLSSubscriptionName]                                           *)
(* --------------------------------------------------------------------- *)

Lemma takeBytes_dropBytes (n : nat) (s : string) :
  s = GoStrings.takeBytes n s +:+ GoStrings.dropBytes n s.
Proof.
  revert s. induction n as [|n IH]; intros [|c s]; try done.
  simpl. rewrite append_cons. by f_equal.
Qed.

Lemma length_takeBytes (n : nat) (s : string) :
  n <= String.length s -> String.length (GoStrings.takeBytes n s) = n.
Proof.
  revert s. induction n as [|n IH]; intros [|c s] Hn; simpl in *; try done; try lia.
  rewrite IH; [done | lia].
Qed.

(** C10. [GetOLSSubscriptionName] is the package name, a dash and exactly
    the first five bytes of the UID; it is defined only when the UID has at
    least five bytes (it panics otherwise), and two instances whose UIDs
    start with the same five bytes get the same name. *)
Theorem GetOLSSubscriptionName_spec (instance instance' : apiv1beta1.OpenStackLightspeed) :
  (5 <= String.length (GetUID instance) ->
     exists first5 rest,
       GetUID instance = first5 +:+ rest /\ String.length first5 = 5 /\
       ols_install.GetOLSSubscriptionName instance
       = Some ("lightspeed-operator" +:+ "-" +:+ first5)) /\
  (String.length (GetUID instance) < 5 ->
     ols_install.GetOLSSubscriptionName instance = None) /\
  (5 <= String.length (GetUID instance) -> 5 <= String.length (GetUID instance') ->
     GoStrings.takeBytes 5 (GetUID instance) = GoStrings.takeBytes 5 (GetUID instance') ->
     ols_install.GetOLSSubscriptionName instance
     = ols_install.GetOLSSubscriptionName instance').
Proof.
  unfold ols_install.GetOLSSubscriptionName. repeat split.
  - intros Hlen. exists (GoStrings.takeBytes 5 (GetUID instance)),
      (GoStrings.dropBytes 5 (GetUID instance)).
    split; [apply takeBytes_dropBytes |]. split; [by apply length_takeBytes |].
    by apply Nat.leb_le in Hlen as ->.
  - intros Hlen. by apply Nat.leb_gt in Hlen as ->.
  - intros Hlen Hlen' Heq. apply Nat.leb_le in Hlen as ->.
    apply Nat.leb_le in Hlen' as ->. by rewrite Heq.
Qed.

Lemma GetOLSSubscriptionName_spec_witness :
  ols_install.GetOLSSubscriptionName Examples.instance1
  = ols_install.GetOLSSubscriptionName
      (apiv1beta1.set_Meta
         (Examples.meta "other" "openshift-lightspeed" Examples.uid2) Examples.instance1).
Proof.
  apply (proj2 (proj2 (GetOLSSubscriptionName_spec Examples.instance1
    (apiv1beta1.set_Meta (Examples.meta "other" "openshift-lightspeed" Examples.uid2)
       Examples.instance1)))); vm_compute; (reflexivity || lia).
Defined.

Example GetOLSSubscriptionName_short_uid :
  ols_install.GetOLSSubscriptionName
    (apiv1beta1.set_Meta (Examples.meta "short" "openshift-lightspeed" "3f2a") Examples.instance1)
  = None.
Proof. reflexivity. Qed.

(* --------------------------------------------------------------------- *)
(** ** [strings.Split] on a one-byte separator                            *)
(* --------------------------------------------------------------------- *)

Section SplitByte.
Variable b : ascii.
Let sep : string := String b "".

Lemma splitFrom_byte_cons (c : ascii) (s : string) :
  GoStrings.splitFrom sep 0 (String c s)
  = if Ascii.eqb c b then "" :: GoStrings.splitFrom sep 0 s
    else GoStrings.consHead c (GoStrings.splitFrom sep 0 s).
Proof. unfold sep. simpl. destruct (Ascii.eqb c b); [by destruct s | done]. Qed.

Lemma Split_not_nil (s : string) : GoStrings.Split s sep <> [].
Proof.
  unfold GoStrings.Split. induction s as [|c s IH]; [done |].
  rewrite splitFrom_byte_cons. destruct (Ascii.eqb c b); [done |].
  by destruct (GoStrings.splitFrom sep 0 s).
Qed.

Lemma Split_free (s : string) :
  GoStrings.ContainsByte s b = false -> GoStrings.Split s sep = [s].
Proof.
  unfold GoStrings.Split. induction s as [|c s IH]; [done |].
  simpl GoStrings.ContainsByte. intros [Hc Hs]%orb_false_elim.
  by rewrite splitFrom_byte_cons, Hc, IH.
Qed.

Lemma Split_key_value (k v : string) :
  GoStrings.ContainsByte k b = false -> GoStrings.ContainsByte v b = false ->
  GoStrings.Split (k +:+ sep +:+ v) sep = [k; v].
Proof.
  unfold GoStrings.Split. intros Hk Hv. induction k as [|c k IH].
  - rewrite append_nil_l. change (sep +:+ v) with (String b v).
    rewrite splitFrom_byte_cons, Ascii.eqb_refl. f_equal. by apply Split_free.
  - simpl in Hk. apply orb_false_elim in Hk as [Hc Hk].
    by rewrite append_cons, splitFrom_byte_cons, Hc, IH.
Qed.

Lemma Split_Join (s : string) : GoStrings.Join (GoStrings.Split s sep) sep = s.
Proof.
  unfold GoStrings.Split. induction s as [|c s IH]; [done |].
  rewrite splitFrom_byte_cons. pose proof (Split_not_nil s) as Hne.
  unfold GoStrings.Split in Hne.
  destruct (Ascii.eqb_spec c b) as [->|Hc].
  - destruct (GoStrings.splitFrom sep 0 s) as [|p ps] eqn:Hs; [done |].
    change (GoStrings.Join ("" :: p :: ps) sep) with ("" +:+ sep +:+ GoStrings.Join (p :: ps) sep).
    by rewrite IH.
  - destruct (GoStrings.splitFrom sep 0 s) as [|p ps] eqn:Hs; [done |].
    destruct ps as [|q ps]; simpl in *; [by rewrite IH |].
    rewrite <- IH. by rewrite append_cons.
Qed.

Lemma Split_parts_free (s : string) :
  Forall (fun p => GoStrings.ContainsByte p b = false) (GoStrings.Split s sep).
Proof.
  unfold GoStrings.Split. induction s as [|c s IH]; [by repeat constructor |].
  rewrite splitFrom_byte_cons. destruct (Ascii.eqb c b) eqn:Hc; [by constructor |].
  destruct IH as [|p ps Hp Hps]; [by repeat constructor; simpl; rewrite Hc |].
  constructor; [| done]. simpl. by rewrite Hc.
Qed.

Lemma Split_two_inv (s p0 p1 : string) :
  GoStrings.Split s sep = [p0; p1] ->
  s = p0 +:+ sep +:+ p1 /\ GoStrings.ContainsByte p1 b = false.
Proof.
  intros Hs. split.
  - rewrite <- (Split_Join s) at 1. by rewrite Hs.
  - pose proof (Split_parts_free s) as Hfree. rewrite Hs in Hfree.
    by apply Forall_cons in Hfree as [_ [? _]%Forall_cons].
Qed.

End SplitByte.

Lemma append_inj_r (a x y : string) : a +:+ x = a +:+ y -> x = y.
Proof.
  induction a as [|c a IH]; [done |]. rewrite !append_cons. intros [= H]. by apply IH.
Qed.

(* --------------------------------------------------------------------- *)
(** ** The index discovery: reading a variable from the log of the pod    *)
(* --------------------------------------------------------------------- *)

Lemma envFromLines_skip (envVarName envLine : string) (rest : list string) :
  ~ part_002.yields envVarName envLine ->
  part_002.envFromLines envVarName (envLine :: rest)
  = part_002.envFromLines envVarName rest.
Proof.
  intros Hno. simpl.
  destruct (GoStrings.Split envLine "=") as [|p0 [|p1 [|p2 ps]]] eqn:Hsplit; try done.
  destruct (String.eqb_spec p0 envVarName) as [->|]; [| done].
  destruct Hno. apply (Split_two_inv "="%char) in Hsplit as [-> Hfree]. by exists p1.
Qed.

Lemma envFromLines_hit (envVarName value : string) (rest : list string) :
  GoStrings.ContainsByte envVarName "="%char = false ->
  GoStrings.ContainsByte value "="%char = false ->
  part_002.envFromLines envVarName ((envVarName +:+ "=" +:+ value) :: rest)
  = (value, None).
Proof.
  intros Hname Hvalue. simpl.
  rewrite (Split_key_value "="%char) by done. by rewrite String.eqb_refl.
Qed.

Lemma envFromLines_first (envVarName value : string) (envLines : list string) :
  forall i : nat,
  GoStrings.ContainsByte envVarName "="%char = false ->
  GoStrings.ContainsByte value "="%char = false ->
  envLines !! i = Some (envVarName +:+ "=" +:+ value) ->
  (forall j l, j < i -> envLines !! j = Some l -> ~ part_002.yields envVarName l) ->
  part_002.envFromLines envVarName envLines = (value, None).
Proof.
  induction envLines as [|l ls IH]; intros i Hname Hvalue Hi Hbefore; [done |].
  destruct i as [|i].
  - injection Hi as ->. by apply envFromLines_hit.
  - rewrite envFromLines_skip by (apply (Hbefore 0); [lia | done]).
    apply (IH i); try done. intros j l' Hj Hl'. apply (Hbefore (S j)); [lia | done].
Qed.

Lemma envFromLines_none (envVarName : string) (envLines : list string) :
  (forall l, l ∈ envLines -> ~ part_002.yields envVarName l) ->
  part_002.envFromLines envVarName envLines
  = ("", Some (ErrorString ("env var not discovered: " +:+ envVarName))).
Proof.
  induction envLines as [|l ls IH]; intros Hno; [done |].
  rewrite envFromLines_skip by (apply Hno; by left).
  apply IH. intros l' Hl'. apply Hno. by right.
Qed.

Lemma yields_value_with_separator (envVarName value : string) :
  GoStrings.ContainsByte value "="%char = true ->
  ~ part_002.yields envVarName (envVarName +:+ "=" +:+ value).
Proof.
  intros Hvalue (value' & Heq & Hfree).
  apply append_inj_r, (append_inj_r "=") in Heq. congruence.
Qed.

(* --------------------------------------------------------------------- *)
(** ** Running requests                                                   *)
(* --------------------------------------------------------------------- *)

Lemma bind_eq {A B : Type} (m : client.M A) (f : A -> client.M B) (c : client.Cluster) :
  (m ≫= f) c
  = match m c with
    | client.Return a c' => f a c'
    | client.Panic msg c' => client.Panic msg c'
    end.
Proof. reflexivity. Qed.

Lemma bind_Return {A B : Type} (m : client.M A) (f : A -> client.M B)
    (c c' : client.Cluster) (a : A) :
  m c = client.Return a c' -> (m ≫= f) c = f a c'.
Proof. intros Hm. by rewrite bind_eq, Hm. Qed.

Lemma request_eq (call : client.Call) (c : client.Cluster) :
  client.request call c
  = client.Return (default None (head (client.faults c)))
      (client.mkCluster (client.objects c) (tail (client.faults c)) (client.randomInts c)
         (client.calls c ++ [call])%list).
Proof. unfold client.request. by destruct (client.faults c). Qed.

Lemma request_served (call : client.Call) (c : client.Cluster) :
  client.served 1 c ->
  client.request call c = client.Return None (client.afterRequests [call] c).
Proof.
  unfold client.served, client.afterRequests. rewrite request_eq.
  destruct (client.faults c) as [|f fs]; [done |]. simpl.
  intros [-> _]%Forall_cons. done.
Qed.

Lemma served_S (n : nat) (call : client.Call) (c : client.Cluster) :
  client.served (S n) c ->
  client.served 1 c /\ client.served n (client.afterRequests [call] c).
Proof.
  unfold client.served, client.afterRequests. simpl.
  destruct (client.faults c) as [|f fs]; simpl.
  - by rewrite take_nil.
  - intros [-> Hfs]%Forall_cons. split; [by repeat constructor | done].
Qed.

Lemma afterRequests_app (l1 l2 : list client.Call) (c : client.Cluster) :
  client.afterRequests l2 (client.afterRequests l1 c) = client.afterRequests (l1 ++ l2)%list c.
Proof.
  unfold client.afterRequests. simpl.
  by rewrite drop_drop, length_app, <- app_assoc.
Qed.

Lemma served_nil_faults (n : nat) (c : client.Cluster) :
  client.faults c = [] -> client.served n c.
Proof. unfold client.served. intros ->. by rewrite take_nil. Qed.

Lemma extractEnvFromPodLogs_served (pod stored : corev1.Pod) (envVarName : string)
    (c : client.Cluster) :
  client.served 2 c ->
  client.lookupObject (client.keyOf pod) (client.pods (client.objects c)) = Some stored ->
  part_002.extractEnvFromPodLogs pod envVarName c
  = client.Return
      (part_002.envFromLines envVarName (GoStrings.Split (corev1.pod_Logs stored) GoStrings.LF))
      (client.afterRequests
         [client.CallNewClient; client.CallGetLogs (GetNamespace pod) (GetName pod)] c).
Proof.
  intros Hserved Hstored. unfold part_002.extractEnvFromPodLogs.
  apply (served_S 1 client.CallNewClient) in Hserved as [H1 H2].
  rewrite (bind_Return _ _ _ _ _ (request_served _ _ H1)).
  rewrite (bind_Return _ _ _ _ _ (request_served _ _ H2)).
  rewrite afterRequests_app. simpl app.
  unfold client.getObjects. rewrite bind_eq.
  change (client.store (client.objects (client.afterRequests _ c)))
    with (client.pods (client.objects c)).
  by rewrite Hstored.
Qed.

(** C7.  As the code has it: when the pod has succeeded and its log is
    read, the log is split on line breaks and every line on each ['=']; a
    line counts only if it has exactly two parts, and the value returned is
    the second part of the first line whose first part is the variable.  So
    a line [NAME=v] whose [v] has no ['='] gives [v] when no earlier line
    yields the variable, a line whose value contains ['='] is passed over,
    and a log in which no line yields the variable is an error. *)
Theorem extractEnvFromPodLogs_spec (pod stored : corev1.Pod) (envVarName : string)
    (c : client.Cluster) :
  GoStrings.ContainsByte envVarName "="%char = false ->
  client.served 2 c ->
  client.lookupObject (client.keyOf pod) (client.pods (client.objects c)) = Some stored ->
  let envLines := GoStrings.Split (corev1.pod_Logs stored) GoStrings.LF in
  let c' := client.afterRequests
              [client.CallNewClient; client.CallGetLogs (GetNamespace pod) (GetName pod)] c in
  (forall (i : nat) value,
     envLines !! i = Some (envVarName +:+ "=" +:+ value) ->
     GoStrings.ContainsByte value "="%char = false ->
     (forall j l, j < i -> envLines !! j = Some l -> ~ part_002.yields envVarName l) ->
     part_002.extractEnvFromPodLogs pod envVarName c = client.Return (value, None) c') /\
  (forall value,
     GoStrings.ContainsByte value "="%char = true ->
     forall rest,
       part_002.envFromLines envVarName ((envVarName +:+ "=" +:+ value) :: rest)
       = part_002.envFromLines envVarName rest) /\
  ((forall l, l ∈ envLines -> ~ part_002.yields envVarName l) ->
     exists err,
       part_002.extractEnvFromPodLogs pod envVarName c = client.Return ("", Some err) c').
Proof.
  intros Hname Hserved Hstored envLines c'.
  rewrite (extractEnvFromPodLogs_served pod stored) by done. fold envLines c'.
  split; [| split].
  - intros i value Hi Hvalue Hbefore. f_equal. by apply (envFromLines_first _ _ _ i).
  - intros value Hvalue rest. apply envFromLines_skip.
    by apply yields_value_with_separator.
  - intros Hno. eexists. f_equal. by apply envFromLines_none.
Qed.

Lemma extractEnvFromPodLogs_spec_witness :
  part_002.extractEnvFromPodLogs (Examples.discoveryPod Examples.logsPlain) "INDEX_NAME"
    (Examples.withPod (Examples.discoveryPod Examples.logsPlain))
  = client.Return ("os-docs-2025.1", None)
      (client.afterRequests
         [client.CallNewClient;
          client.CallGetLogs "openshift-lightspeed" "openstack-lightspeed-0a1b2c3d4-x7k2p"]
         (Examples.withPod (Examples.discoveryPod Examples.logsPlain))).
Proof.
  refine (proj1 (extractEnvFromPodLogs_spec (Examples.discoveryPod Examples.logsPlain)
            (Examples.discoveryPod Examples.logsPlain) "INDEX_NAME"
            (Examples.withPod (Examples.discoveryPod Examples.logsPlain)) _ _ _)
          1 "os-docs-2025.1" _ _ _).
  - reflexivity.
  - apply served_nil_faults. reflexivity.
  - reflexivity.
  - reflexivity.
  - reflexivity.
  - intros j l Hj Hl. assert (j = 0) as -> by lia. injection Hl as <-.
    intros (value & Hvalue & _). vm_compute in Hvalue. discriminate.
Defined.

(** A value that contains ['='] is not returned: the line splits into three
    parts and is passed over, and the variable is reported as missing. *)
Lemma extractEnvFromPodLogs_value_with_separator :
  "INDEX_NAME=os-docs=2025.1"
    ∈ GoStrings.Split Examples.logsEqualsInValue GoStrings.LF /\
  part_002.extractEnvFromPodLogs (Examples.discoveryPod Examples.logsEqualsInValue)
    "INDEX_NAME" (Examples.withPod (Examples.discoveryPod Examples.logsEqualsInValue))
  = client.Return ("", Some (ErrorString "env var not discovered: INDEX_NAME"))
      (client.afterRequests
         [client.CallNewClient;
          client.CallGetLogs "openshift-lightspeed" "openstack-lightspeed-0a1b2c3d4-x7k2p"]
         (Examples.withPod (Examples.discoveryPod Examples.logsEqualsInValue))).
Proof.
  split; [| vm_compute; reflexivity].
  vm_compute. apply list_elem_of_lookup. by exists 1.
Qed.

(* --------------------------------------------------------------------- *)
(** ** Reading and writing fields of a document                           *)
(* --------------------------------------------------------------------- *)

Lemma setNestedFrom_other (m : gmap string uns.value) (v : uns.value)
    (f g : string) (fs : list string) :
  f <> g -> (uns.setNestedFrom m v f fs).1 !! g = m !! g.
Proof.
  intros Hfg. destruct fs as [|f' fs]; simpl.
  - by rewrite lookup_insert_ne.
  - destruct (m !! f) as [[|?|?|?|?|?|child]|] eqn:Hf; try done.
    + destruct (uns.setNestedFrom child v f' fs). simpl. by rewrite lookup_insert_ne.
    + destruct (uns.setNestedFrom ∅ v f' fs). simpl. by rewrite lookup_insert_ne.
Qed.

(** A failed write leaves the document as it was. *)
Lemma setNestedFrom_error (v : uns.value) (fs : list string) :
  forall (m m' : gmap string uns.value) (f : string) (e : error),
  uns.setNestedFrom m v f fs = (m', Some e) -> m' = m.
Proof.
  induction fs as [|f' fs IH]; intros m m' f e; simpl; [done |].
  destruct (m !! f) as [[|?|?|?|?|?|child]|] eqn:Hf; try by intros [= <-].
  - destruct (uns.setNestedFrom child v f' fs) as [child' err] eqn:Hset.
    intros [= <- ->]. apply IH in Hset as ->. by apply insert_id.
  - destruct (uns.setNestedFrom ∅ v f' fs) as [child' err] eqn:Hset.
    intros [= <- ->]. assert (Hfresh : forall fs f, (uns.setNestedFrom ∅ v f fs).2 = None).
    { clear. induction fs as [|f' fs IH]; intros f; simpl; [done |].
      rewrite lookup_empty. specialize (IH f').
      by destruct (uns.setNestedFrom ∅ v f' fs). }
    specialize (Hfresh fs f'). by rewrite Hset in Hfresh.
Qed.

(** After a write that succeeded, the value is found at the path. *)
Lemma setNestedFrom_hasField (v : uns.value) (fs : list string) :
  forall (m m' : gmap string uns.value) (f : string),
  uns.setNestedFrom m v f fs = (m', None) -> uns.hasField m' (f :: fs) v.
Proof.
  unfold uns.hasField, uns.NestedFieldNoCopy.
  induction fs as [|f' fs IH]; intros m m' f; simpl.
  - intros [= <-]. by rewrite lookup_insert_eq.
  - destruct (m !! f) as [[|?|?|?|?|?|child]|] eqn:Hf; try done.
    + destruct (uns.setNestedFrom child v f' fs) as [child' err] eqn:Hset.
      intros [= <- ->]. rewrite lookup_insert_eq. by apply (IH child).
    + destruct (uns.setNestedFrom ∅ v f' fs) as [child' err] eqn:Hset.
      intros [= <- ->]. rewrite lookup_insert_eq. by apply (IH ∅).
Qed.

(** Writing the value that is there changes nothing. *)
Lemma setNestedFrom_id (v : uns.value) (fs : list string) :
  forall (m : gmap string uns.value) (f : string),
  uns.hasField m (f :: fs) v -> uns.setNestedFrom m v f fs = (m, None).
Proof.
  unfold uns.hasField, uns.NestedFieldNoCopy.
  induction fs as [|f' fs IH]; intros m f; simpl.
  - destruct (m !! f) as [v'|] eqn:Hf; [| done]. intros [= ->]. by rewrite insert_id.
  - destruct (m !! f) as [[|?|?|?|?|?|child]|] eqn:Hf; try done.
    intros Hchild. rewrite (IH child f' Hchild). by rewrite insert_id.
Qed.

(** A write does not change what is read at a path that parts ways with
    the one that is written, whether the write succeeds or not. *)
Lemma setNestedFrom_frame (v : uns.value) (fs : list string) :
  forall (m : gmap string uns.value) (f : string) (q : list string),
  uns.diverge (f :: fs) q = true ->
  uns.nestedFrom (uns.Map (uns.setNestedFrom m v f fs).1) q = uns.nestedFrom (uns.Map m) q.
Proof.
  induction fs as [|f' fs IH]; intros m f [|g gs]; try done; simpl.
  - destruct (String.eqb_spec f g) as [->|Hfg]; [by destruct gs |]. intros _.
    by rewrite lookup_insert_ne.
  - destruct (String.eqb_spec f g) as [->|Hfg].
    + intros Hdiv. destruct gs as [|g' gs]; [done |].
      destruct (m !! g) as [[|?|?|?|?|?|child]|] eqn:Hg;
        try (cbn [fst]; by rewrite Hg).
      * specialize (IH child f' (g' :: gs) Hdiv).
        destruct (uns.setNestedFrom child v f' fs) as [child' err].
        simpl. rewrite lookup_insert_eq. exact IH.
      * specialize (IH ∅ f' (g' :: gs) Hdiv).
        destruct (uns.setNestedFrom ∅ v f' fs) as [child' err].
        simpl. rewrite lookup_insert_eq. simpl in IH. rewrite IH. by rewrite lookup_empty.
    + intros _.
      pose proof (setNestedFrom_other m v f g (f' :: fs) Hfg) as Hother. simpl in Hother.
      by rewrite Hother.
Qed.

Section Fields.
Implicit Types (obj : gmap string uns.value) (v : uns.value) (p q : list string).

Lemma SetNestedField_error obj obj' v p e :
  uns.SetNestedField obj v p = (obj', Some e) -> obj' = obj.
Proof. destruct p as [|f fs]; [done |]. apply setNestedFrom_error. Qed.

Lemma SetNestedField_hasField obj obj' v p :
  p <> [] -> uns.SetNestedField obj v p = (obj', None) -> uns.hasField obj' p v.
Proof. destruct p as [|f fs]; [done |]. intros _. apply setNestedFrom_hasField. Qed.

Lemma SetNestedField_id obj v p :
  p <> [] -> uns.hasField obj p v -> uns.SetNestedField obj v p = (obj, None).
Proof. destruct p as [|f fs]; [done |]. intros _. apply setNestedFrom_id. Qed.

Lemma SetNestedField_frame obj obj' v w p q err :
  uns.SetNestedField obj v p = (obj', err) ->
  uns.hasField obj q w ->
  uns.diverge p q = true ->
  uns.hasField obj' q w.
Proof.
  unfold uns.hasField, uns.NestedFieldNoCopy.
  destruct p as [|f fs]; [done |]. intros Hset <- Hdiv.
  pose proof (setNestedFrom_frame v fs obj f q Hdiv) as Hframe.
  simpl in Hset. by rewrite Hset in Hframe.
Qed.

End Fields.

(* --------------------------------------------------------------------- *)
(** ** Labels and finalizers of a document                                *)
(* --------------------------------------------------------------------- *)

Lemma map_fold_insert_fmap {A B : Type} (g : A -> B) (base : gmap string B)
    (m : gmap string A) :
  map_fold (fun k v acc => <[k := g v]> acc) base m = (g <$> m) ∪ base.
Proof.
  induction m as [|k v m Hk IH] using map_ind.
  - by rewrite map_fold_empty, fmap_empty, (left_id_L ∅ (∪)).
  - rewrite map_fold_insert_L; [| | done].
    + by rewrite IH, fmap_insert, insert_union_l.
    + intros j1 j2 z1 z2 y Hj _ _. by apply insert_insert_ne.
Qed.

Lemma updatedLabels_eq (instance : apiv1beta1.OpenStackLightspeed)
    (labels : gmap string string) :
  funcs.updatedLabels instance labels
  = uns.Str <$> (labels ∪ {[ funcs.OpenStackLightspeedOwnerIDLabel := GetUID instance ]}).
Proof.
  unfold funcs.updatedLabels. rewrite map_fold_insert_fmap.
  by rewrite map_fmap_union, map_fmap_singleton.
Qed.

Lemma omap_asString_fmap (labels : gmap string string) :
  omap uns.asString (uns.Str <$> labels) = labels.
Proof.
  apply map_eq. intros k. rewrite lookup_omap, lookup_fmap. by destruct (labels !! k).
Qed.

Lemma GetLabels_hasField (obj : gmap string uns.value) (labels : gmap string string) :
  uns.hasField obj ["metadata"; "labels"] (uns.Map (uns.Str <$> labels)) ->
  uns.GetLabels (uns.mkUnstructured obj) = labels.
Proof.
  unfold uns.hasField, uns.GetLabels, uns.NestedStringMap. simpl uns.Object.
  intros ->. simpl. rewrite bool_decide_eq_true_2.
  - simpl. apply omap_asString_fmap.
  - intros k v. rewrite lookup_fmap. destruct (labels !! k); [| done].
    intros [= <-]. by eexists.
Qed.

(** The labels that a second patch computes are those of the first. *)
Lemma updatedLabels_stable (instance : apiv1beta1.OpenStackLightspeed)
    (obj : gmap string uns.value) (labels : gmap string string) :
  uns.hasField obj ["metadata"; "labels"] (uns.Map (funcs.updatedLabels instance labels)) ->
  funcs.updatedLabels instance (uns.GetLabels (uns.mkUnstructured obj))
  = funcs.updatedLabels instance labels.
Proof.
  rewrite updatedLabels_eq. intros Hobj.
  rewrite (GetLabels_hasField _ _ Hobj), updatedLabels_eq.
  by rewrite <- (assoc_L (∪)), (idemp_L (∪)).
Qed.

Lemma mapM_asString_fmap (l : list string) : mapM uns.asString (uns.Str <$> l) = Some l.
Proof. by apply mapM_fmap_Some. Qed.

Lemma GetFinalizers_hasField (obj : gmap string uns.value) (l : list string) :
  uns.hasField obj ["metadata"; "finalizers"] (uns.Slice (uns.Str <$> l)) ->
  uns.GetFinalizers (uns.mkUnstructured obj) = Some l.
Proof.
  unfold uns.hasField, uns.GetFinalizers, uns.NestedStringSlice. simpl uns.Object.
  intros ->. simpl. by rewrite mapM_asString_fmap.
Qed.

(** When the labels are in place, the finalizers can be written. *)
Lemma SetNestedField_sibling (obj : gmap string uns.value) (w v : uns.value)
    (a b b' : string) :
  uns.hasField obj [a; b] w ->
  exists obj', uns.SetNestedField obj v [a; b'] = (obj', None).
Proof.
  unfold uns.hasField, uns.NestedFieldNoCopy. simpl.
  destruct (obj !! a) as [[|?|?|?|?|?|child]|]; try done. intros _. by eexists.
Qed.

(* --------------------------------------------------------------------- *)
(** ** [PatchOLSConfig] applied twice                                     *)
(* --------------------------------------------------------------------- *)

Lemma AddFinalizer_Unstructured (obj : gmap string uns.value) (fin : string) :
  controllerutil.AddFinalizer (uns.mkUnstructured obj) fin
  = if bool_decide (fin ∈ elems (uns.GetFinalizers (uns.mkUnstructured obj)))
    then (uns.mkUnstructured obj, false)
    else (uns.mkUnstructured
            (uns.SetNestedField obj
               (uns.Slice (uns.Str <$> (elems (uns.GetFinalizers (uns.mkUnstructured obj))
                                        ++ [fin])%list))
               ["metadata"; "finalizers"]).1,
          true).
Proof. reflexivity. Qed.

Lemma andThen_inv (r : gmap string uns.value * option error)
    (k : gmap string uns.value -> uns.Unstructured * option error)
    (o : uns.Unstructured) (e : option error) :
  funcs.andThen r k = (o, e) ->
  (exists err, r.2 = Some err /\ o = uns.mkUnstructured r.1 /\ e = Some err) \/
  (r.2 = None /\ k r.1 = (o, e)).
Proof.
  unfold funcs.andThen. destruct r as [obj [err|]]; simpl.
  - intros [= <- <-]. left. by exists err.
  - intros Hk. by right.
Qed.

(** Carries the fields that are known of the document over a write [E] and
    records the field that [E] has written. *)
Ltac advance E :=
  repeat match goal with
    | F : uns.hasField ?o ?q ?w |- _ =>
        lazymatch type of E with
        | uns.SetNestedField o _ _ = _ =>
            let F' := fresh "F" in
            pose proof (SetNestedField_frame _ _ _ _ _ _ _ E F eq_refl) as F'; clear F
        end
    end;
  let F := fresh "F" in
  pose proof E as F; apply SetNestedField_hasField in F; [| done].

(** Runs a patch again on a document on which its writes change nothing. *)
Ltac rerun :=
  cbn [uns.Object];
  repeat match goal with
    | F : uns.hasField ?o ?q ?w |- context [uns.SetNestedField ?o ?w ?q] =>
        rewrite (SetNestedField_id o w q ltac:(discriminate) F);
        unfold funcs.andThen at 1; cbn beta iota delta [fst snd]
    | E : uns.SetNestedField ?o ?w ?q = _ |- context [uns.SetNestedField ?o ?w ?q] =>
        rewrite E; unfold funcs.andThen at 1; cbn beta iota delta [fst snd]
    | F : uns.hasField ?o ["metadata"; "labels"] (uns.Map (funcs.updatedLabels ?i ?l))
      |- context [funcs.updatedLabels ?i (uns.GetLabels (uns.mkUnstructured ?o))] =>
        rewrite (updatedLabels_stable i o l F)
    | |- context [funcs.andThen (?o, None) _] =>
        unfold funcs.andThen at 1; cbn beta iota delta [fst snd]
    end.

(** One step of a patch that has run: either the write failed, and the
    document is as before, or it succeeded and the patch went on. *)
Ltac step H E :=
  cbn beta iota in H;
  apply andThen_inv in H as [(? & ? & -> & ->) | [? H]];
  match goal with
  | Hr : (uns.SetNestedField ?o ?v ?p).2 = _ |- _ =>
      destruct (uns.SetNestedField o v p) as [? ?] eqn:E; cbn [fst snd] in *; subst
  end.

(** A patch that failed at the write [E] fails again at it. *)
Ltac failed_at E :=
  pose proof (SetNestedField_error _ _ _ _ _ E); subst; rerun; done.

(** The end of a patch that has run: the finalizer was there, or it was
    added to the document. *)
Ltac finalizer_step H :=
  let Hin := fresh "Hin" in
  let Hnil := fresh "Hnil" in
  let Hfin := fresh "Hfin" in
  let Hpresent := fresh "Hpresent" in
  rewrite AddFinalizer_Unstructured in H;
  match type of H with
  | context [bool_decide ?P] =>
      lazymatch P with
      | context [uns.GetFinalizers] => destruct (bool_decide P) eqn:Hin
      end
  end;
  [ cbn [negb andb] in H;
    destruct (bool_decide (apiv1beta1.Conditions (apiv1beta1.Status _) = None)) eqn:Hnil;
    apply pair_equal_spec in H as [<- <-];
    rerun; rewrite AddFinalizer_Unstructured, Hin; cbn [negb andb]; by rewrite ?Hnil
  | cbn [negb andb] in H; apply pair_equal_spec in H as [<- <-];
    match goal with
    | F : uns.hasField ?o ["metadata"; "labels"] _
      |- context [uns.SetNestedField ?o ?v ["metadata"; "finalizers"]] =>
        let EF := fresh "EF" in
        destruct (SetNestedField_sibling o _ v "metadata" "labels" "finalizers" F)
          as [? EF];
        rewrite EF; cbn [fst snd]; advance EF
    end;
    match goal with
    | FF : uns.hasField ?o ["metadata"; "finalizers"] _ |- _ =>
        pose proof (GetFinalizers_hasField _ _ FF) as Hfin
    end;
    assert (Hpresent : forall (fin : string) (l : list string),
               bool_decide (fin ∈ (l ++ [fin])%list) = true)
      by (intros; apply bool_decide_eq_true_2, elem_of_app; right; by left);
    rerun; rewrite AddFinalizer_Unstructured, Hfin; cbn [elems default from_option id];
    rewrite Hpresent; cbn [negb andb];
    by destruct (bool_decide (apiv1beta1.Conditions _ = None)) ].

Section PatchTwice.
Variable helper : common_helper.Helper.
Variable instance : apiv1beta1.OpenStackLightspeed.

(** Whatever a patch has left, failed or not, a second patch leaves the
    same.  A patch that failed fails again with its error; after one that
    succeeded, the second finds the finalizer in place and succeeds unless
    the list of conditions of the instance is [nil]. *)
Lemma PatchOLSConfig_twice (olsConfig once : uns.Unstructured) (err : option error) :
  funcs.PatchOLSConfig helper instance olsConfig = (once, err) ->
  funcs.PatchOLSConfig helper instance once
  = (once,
     match err with
     | Some e => Some e
     | None =>
         if bool_decide (apiv1beta1.Conditions (apiv1beta1.Status instance) = None)
         then Some (ErrorString "cannot add finalizer")
         else None
     end).
Proof.
  unfold funcs.PatchOLSConfig, uns.SetNestedSlice.
  destruct (negb (apiv1beta1.TLSCACertBundle (apiv1beta1.Spec instance) =? ""))%string
    eqn:Htls; intros H.
  - step H E1; [failed_at E1 | advance E1].
    step H E2; [failed_at E2 | advance E2].
    step H E3; [failed_at E3 | advance E3].
    step H E4; [failed_at E4 | advance E4].
    step H E5; [failed_at E5 | advance E5].
    step H E6; [failed_at E6 | advance E6].
    step H E7; [failed_at E7 | advance E7].
    finalizer_step H.
  - step H E1; [failed_at E1 | advance E1].
    step H E2; [failed_at E2 | advance E2].
    unfold funcs.andThen at 1 in H; cbn beta iota delta [fst snd] in H.
    step H E4; [failed_at E4 | advance E4].
    step H E5; [failed_at E5 | advance E5].
    step H E6; [failed_at E6 | advance E6].
    step H E7; [failed_at E7 | advance E7].
    finalizer_step H.
Qed.

End PatchTwice.

(* --------------------------------------------------------------------- *)
(** ** What the requests do                                               *)
(* --------------------------------------------------------------------- *)

Lemma request_next (call : client.Call) (c : client.Cluster) :
  client.request call c
  = client.Return (client.nextFault c) (client.afterRequests [call] c).
Proof.
  rewrite request_eq. unfold client.nextFault, client.afterRequests.
  by destruct (client.faults c).
Qed.

Lemma objects_afterRequests (sent : list client.Call) (c : client.Cluster) :
  client.objects (client.afterRequests sent c) = client.objects c.
Proof. reflexivity. Qed.

Lemma calls_afterRequests (sent : list client.Call) (c : client.Cluster) :
  client.calls (client.afterRequests sent c) = (client.calls c ++ sent)%list.
Proof. reflexivity. Qed.

Lemma nextFault_served (c : client.Cluster) : client.served 1 c -> client.nextFault c = None.
Proof.
  unfold client.served, client.nextFault.
  destruct (client.faults c) as [|f fs]; [done |]. by intros [-> _]%Forall_cons.
Qed.

Section RequestEquations.
Context {T : Type} `{client.Resource T}.

Lemma List_eq (namespace : string) (c : client.Cluster) :
  client.List_ (T := T) namespace c
  = client.Return
      (match client.nextFault c with
       | Some e => ([], Some e)
       | None =>
           (List.filter (fun o => bool_decide (namespace = "")
                                  || bool_decide ((client.keyOf o).1 = namespace))
              (client.store (client.objects c)), None)
       end)
      (client.afterRequests [client.CallList client.kind namespace] c).
Proof.
  unfold client.List_. rewrite bind_eq, request_next.
  by destruct (client.nextFault c).
Qed.

Lemma Get_eq (key : string * string) (c : client.Cluster) :
  client.Get (T := T) key c
  = client.Return
      (match client.nextFault c with
       | Some e => (None, Some e)
       | None =>
           match client.lookupObject key (client.store (client.objects c)) with
           | Some o => (Some o, None)
           | None => (None, Some (client.notFound key))
           end
       end)
      (client.afterRequests [client.CallGet client.kind key.1 key.2] c).
Proof.
  unfold client.Get. rewrite bind_eq, request_next.
  destruct (client.nextFault c); [done |].
  unfold client.getObjects. rewrite bind_eq. rewrite objects_afterRequests.
  by destruct (client.lookupObject key _).
Qed.

Lemma Delete_eq (o : T) (c : client.Cluster) :
  client.Delete o c
  = let c1 := client.afterRequests
                [client.CallDelete client.kind (client.keyOf o).1 (client.keyOf o).2] c in
    match client.nextFault c with
    | Some e => client.Return (Some e) c1
    | None =>
        match client.lookupObject (client.keyOf o) (client.store (client.objects c)) with
        | None => client.Return (Some (client.notFound (client.keyOf o))) c1
        | Some stored =>
            client.Return None
              (client.set_objects
                 (client.setStore
                    (if bool_decide (elems (GetFinalizers stored) = [])
                     then client.removeObject (client.keyOf o)
                            (client.store (client.objects c))
                     else client.replaceObject (client.markDeleting stored)
                            (client.store (client.objects c)))
                    (client.objects c)) c1)
        end
    end.
Proof.
  unfold client.Delete. rewrite bind_eq, request_next.
  destruct (client.nextFault c); [done |].
  unfold client.getObjects. rewrite bind_eq. rewrite objects_afterRequests.
  destruct (client.lookupObject _ _) as [stored|]; [| done].
  by destruct (bool_decide _).
Qed.

Lemma write_eq (call : client.Call) (o : T) (c : client.Cluster) :
  client.write call o c
  = let c1 := client.afterRequests [call] c in
    match client.nextFault c with
    | Some e => client.Return (Some e) c1
    | None =>
        match client.lookupObject (client.keyOf o) (client.store (client.objects c)) with
        | None => client.Return (Some (client.notFound (client.keyOf o))) c1
        | Some _ =>
            client.Return None
              (client.set_objects
                 (client.setStore (client.storeObject o (client.store (client.objects c)))
                    (client.objects c)) c1)
        end
    end.
Proof.
  unfold client.write. rewrite bind_eq, request_next.
  destruct (client.nextFault c); [done |].
  unfold client.getObjects. rewrite bind_eq. rewrite objects_afterRequests.
  by destruct (client.lookupObject _ _).
Qed.

Lemma Create_eq (o : T) (c : client.Cluster) :
  client.Create o c
  = let c1 := client.afterRequests
                [client.CallCreate client.kind (client.keyOf o).1 (client.keyOf o).2] c in
    match client.nextFault c with
    | Some e => client.Return (Some e) c1
    | None =>
        match client.lookupObject (client.keyOf o) (client.store (client.objects c)) with
        | Some _ => client.Return (Some (client.alreadyExists (client.keyOf o))) c1
        | None =>
            client.Return None
              (client.set_objects
                 (client.setStore (client.store (client.objects c) ++ [o])%list
                    (client.objects c)) c1)
        end
    end.
Proof.
  unfold client.Create. rewrite bind_eq, request_next.
  destruct (client.nextFault c); [done |].
  unfold client.getObjects. rewrite bind_eq. rewrite objects_afterRequests.
  by destruct (client.lookupObject _ _).
Qed.

End RequestEquations.

(* --------------------------------------------------------------------- *)
(** ** PatchOLSConfig applied twice                                       *)
(* --------------------------------------------------------------------- *)

(** The same for the revision of [PatchOLSConfig] that also writes the
    identifier of the index. *)
Lemma PatchOLSConfig_indexID_twice (helper : common_helper.Helper)
    (instance : apiv1beta1.OpenStackLightspeed) (indexID : string)
    (olsConfig once : uns.Unstructured) (err : option error) :
  part_002.PatchOLSConfig helper instance olsConfig indexID = (once, err) ->
  part_002.PatchOLSConfig helper instance once indexID
  = (once,
     match err with
     | Some e => Some e
     | None =>
         if bool_decide (apiv1beta1.Conditions (apiv1beta1.Status instance) = None)
         then Some (ErrorString "cannot add finalizer")
         else None
     end).
Proof.
  unfold part_002.PatchOLSConfig, uns.SetNestedSlice.
  destruct (negb (apiv1beta1.TLSCACertBundle (apiv1beta1.Spec instance) =? ""))%string
    eqn:Htls; intros H.
  - step H E1; [failed_at E1 | advance E1].
    step H E2; [failed_at E2 | advance E2].
    step H E3; [failed_at E3 | advance E3].
    step H E4; [failed_at E4 | advance E4].
    step H E5; [failed_at E5 | advance E5].
    step H E6; [failed_at E6 | advance E6].
    step H E7; [failed_at E7 | advance E7].
    finalizer_step H.
  - step H E1; [failed_at E1 | advance E1].
    step H E2; [failed_at E2 | advance E2].
    unfold funcs.andThen at 1 in H; cbn beta iota delta [fst snd] in H.
    step H E4; [failed_at E4 | advance E4].
    step H E5; [failed_at E5 | advance E5].
    step H E6; [failed_at E6 | advance E6].
    step H E7; [failed_at E7 | advance E7].
    finalizer_step H.
Qed.

(** C4. [PatchOLSConfig] is idempotent on the object: applied to the object
    that a first application has left, with the same instance (and, in the
    revision that takes one, the same index identifier), it leaves that
    object as it is, whatever the inputs and whether the first application
    failed or not.  The second application also succeeds when the first
    did, provided that the list of conditions of the instance is not [nil]
    (the reconciler initialises it before it patches). *)
Theorem PatchOLSConfig_idempotent (helper : common_helper.Helper)
    (instance : apiv1beta1.OpenStackLightspeed) (olsConfig : uns.Unstructured)
    (indexID : string) :
  let once := funcs.PatchOLSConfig helper instance olsConfig in
  let twice := funcs.PatchOLSConfig helper instance once.1 in
  let once' := part_002.PatchOLSConfig helper instance olsConfig indexID in
  let twice' := part_002.PatchOLSConfig helper instance once'.1 indexID in
  twice.1 = once.1 /\ twice'.1 = once'.1 /\
  (apiv1beta1.Conditions (apiv1beta1.Status instance) <> None ->
   twice.2 = once.2 /\ twice'.2 = once'.2).
Proof.
  cbn zeta.
  destruct (funcs.PatchOLSConfig helper instance olsConfig) as [once err] eqn:E.
  destruct (part_002.PatchOLSConfig helper instance olsConfig indexID)
    as [once' err'] eqn:E'.
  cbn [fst snd].
  rewrite (PatchOLSConfig_twice _ _ _ _ _ E).
  rewrite (PatchOLSConfig_indexID_twice _ _ _ _ _ _ E').
  cbn [fst snd]. split; [done |]. split; [done |].
  intros Hconds. rewrite bool_decide_eq_false_2 by done.
  by destruct err, err'.
Qed.

Lemma PatchOLSConfig_idempotent_witness :
  let once := funcs.PatchOLSConfig Examples.helper1 Examples.instance1
                controller.newOLSConfig in
  let twice := funcs.PatchOLSConfig Examples.helper1 Examples.instance1 once.1 in
  once.2 = None /\ twice = once.
Proof.
  cbn zeta.
  assert (Hconds : apiv1beta1.Conditions (apiv1beta1.Status Examples.instance1) <> None)
    by discriminate.
  destruct (PatchOLSConfig_idempotent Examples.helper1 Examples.instance1
              controller.newOLSConfig "os-docs-2025.1") as (Hobj & _ & Herr).
  destruct (Herr Hconds) as [Herr1 _].
  split; [by vm_compute |].
  cbn zeta in Hobj, Herr1.
  destruct (funcs.PatchOLSConfig Examples.helper1 Examples.instance1
              (funcs.PatchOLSConfig Examples.helper1 Examples.instance1
                 controller.newOLSConfig).1) as [o e].
  cbn [fst snd] in Hobj, Herr1. rewrite Hobj, Herr1.
  by destruct (funcs.PatchOLSConfig _ _ _).
Defined.

(** With an instance whose list of conditions is [nil], a first application
    adds the finalizer and succeeds, and a second one, on the object that
    the first has left, fails: the results differ, the objects do not. *)
Lemma PatchOLSConfig_nil_conditions_second_fails :
  let once := funcs.PatchOLSConfig Examples.helper1 Examples.instanceNilConditions
                controller.newOLSConfig in
  let twice := funcs.PatchOLSConfig Examples.helper1 Examples.instanceNilConditions
                 once.1 in
  once.2 = None /\ twice.2 = Some (ErrorString "cannot add finalizer") /\
  twice.1 = once.1.
Proof. by vm_compute. Qed.

(* --------------------------------------------------------------------- *)
(** ** IsOLSConfigReady                                                   *)
(* --------------------------------------------------------------------- *)

Lemma filter_all_namespaces {A : Type} (f : A -> bool) (l : list A) :
  List.filter (fun o => bool_decide ("" = "") || f o) l = l.
Proof. induction l as [|x l IH]; [done |]. cbn. by rewrite IH. Qed.

Lemma GetOLSConfig_eq (c : client.Cluster) :
  funcs.GetOLSConfig c
  = client.Return
      (match client.nextFault c with
       | Some e => (funcs.emptyUnstructured, Some e)
       | None =>
           match client.olsConfigs (client.objects c) with
           | item :: _ => (item, None)
           | [] => (funcs.emptyUnstructured,
                    Some (k8s_errors.NewNotFound "olsconfigs.ols.openshifg.io" "OLSConfig"))
           end
       end)
      (client.afterRequests [client.CallList client.KOLSConfig ""] c).
Proof.
  unfold funcs.GetOLSConfig. rewrite bind_eq, List_eq.
  destruct (client.nextFault c); [done |].
  rewrite filter_all_namespaces. cbn [client.store client.OLSConfig_Resource].
  by destruct (client.olsConfigs (client.objects c)).
Qed.

(** The loops of [IsOLSConfigReady] answer "ready" as soon as no condition
    of the list has a required type and a status other than [True]. *)
Lemma checkConditions_ready (conds : list metav1.Condition) (c : client.Cluster) :
  existsb funcs.requiredNotTrue conds = false ->
  funcs.checkConditions conds c = client.Return (true, None) c.
Proof.
  induction conds as [|cond conds IH]; [done |].
  cbn [existsb funcs.checkConditions]. intros [Hc Hrest]%orb_false_elim.
  rewrite Hc. by apply IH.
Qed.

(** They ping and answer "not ready", with the error of the ping, when some
    condition of the list has a required type and a status other than
    [True]. *)
Lemma checkConditions_not_ready (conds : list metav1.Condition) (c : client.Cluster) :
  existsb funcs.requiredNotTrue conds = true ->
  funcs.checkConditions conds c = (err ← funcs.OLSConfigPing; mret (false, err)) c.
Proof.
  induction conds as [|cond conds IH]; [done |].
  cbn [existsb funcs.checkConditions].
  destruct (funcs.requiredNotTrue cond); [done |]. cbn [orb]. apply IH.
Qed.

(** C3. [IsOLSConfigReady] does not require the four conditions to be there:
    whenever the first [OLSConfig] has a list of conditions in which no
    condition of a required type has a status other than [True], it returns
    [(true, nil)] after its read, whether or not [ConsolePluginReady],
    [CacheReady], [ApiReady] and [Reconciled] appear in the list. *)
Theorem IsOLSConfigReady_ignores_missing_conditions (c : client.Cluster)
    (olsConfig : uns.Unstructured) (rest : list uns.Unstructured)
    (raw : list uns.value) (conds : list metav1.Condition) :
  client.served 1 c ->
  client.olsConfigs (client.objects c) = olsConfig :: rest ->
  uns.NestedSlice (uns.Object olsConfig) ["status"; "conditions"] = (raw, true, None) ->
  json.UnmarshalConditions raw = Some conds ->
  existsb funcs.requiredNotTrue conds = false ->
  funcs.IsOLSConfigReady c
  = client.Return (true, None)
      (client.afterRequests [client.CallList client.KOLSConfig ""] c).
Proof.
  intros Hserved Hstore Hraw Hconds Hnone.
  unfold funcs.IsOLSConfigReady. rewrite bind_eq, GetOLSConfig_eq.
  rewrite (nextFault_served _ Hserved), Hstore, Hraw. cbn [negb].
  rewrite Hconds. by apply checkConditions_ready.
Qed.

(** Only [ApiReady] has been reported, and the answer is "ready". *)
Lemma IsOLSConfigReady_ignores_missing_conditions_witness :
  funcs.IsOLSConfigReady (Examples.withOLSConfig Examples.olsConfigOneCondition)
  = client.Return (true, None)
      (client.afterRequests [client.CallList client.KOLSConfig ""]
         (Examples.withOLSConfig Examples.olsConfigOneCondition)).
Proof.
  apply (IsOLSConfigReady_ignores_missing_conditions _ Examples.olsConfigOneCondition []
           [Examples.cond "ApiReady" "True"]
           [metav1.mkCondition "ApiReady" "True" 0 "" "" ""]).
  - by apply Forall_nil.
  - reflexivity.
  - by vm_compute.
  - by vm_compute.
  - by vm_compute.
Defined.

(* --------------------------------------------------------------------- *)
(** ** The patch step of Reconcile                                        *)
(* --------------------------------------------------------------------- *)




(* --------------------------------------------------------------------- *)
(** ** The requests that a piece of the controller sends                  *)
(* --------------------------------------------------------------------- *)

Lemma ret_eq {A : Type} (a : A) (c : client.Cluster) :
  (mret a : client.M A) c = client.Return a c.
Proof. reflexivity. Qed.

Lemma sends_refl (P : client.Call -> Prop) (c : client.Cluster) : client.sends P c c.
Proof. exists []. by rewrite app_nil_r. Qed.

Lemma sends_trans (P : client.Call -> Prop) (c1 c2 c3 : client.Cluster) :
  client.sends P c1 c2 -> client.sends P c2 c3 -> client.sends P c1 c3.
Proof.
  intros (s1 & E1 & F1) (s2 & E2 & F2). exists (s1 ++ s2)%list.
  split; [by rewrite E2, E1, <- app_assoc | by apply Forall_app].
Qed.

Lemma sends_afterRequests (P : client.Call -> Prop) (sent : list client.Call)
    (c : client.Cluster) :
  Forall P sent -> client.sends P c (client.afterRequests sent c).
Proof. intros Hsent. by exists sent. Qed.

Lemma sends_set_objects (P : client.Call -> Prop) (os : client.Objects)
    (c c' : client.Cluster) :
  client.sends P c c' -> client.sends P c (client.set_objects os c').
Proof. intros (sent & E & F). by exists sent. Qed.

Lemma sends_one (P : client.Call -> Prop) (call : client.Call) (c c' : client.Cluster) :
  P call -> client.sends P (client.afterRequests [call] c) c' -> client.sends P c c'.
Proof.
  intros Hcall. apply sends_trans. apply sends_afterRequests. by constructor.
Qed.

(** What was sent from [c] to [c'] is determined by the two logs. *)
Lemma sends_sent (P : client.Call -> Prop) (c c' : client.Cluster)
    (sent : list client.Call) :
  client.sends P c c' -> client.calls c' = (client.calls c ++ sent)%list -> Forall P sent.
Proof.
  intros (sent' & E & F) E'. rewrite E in E'. by apply app_inv_head in E' as <-.
Qed.

Lemma nextFault_after_served (n : nat) (call : client.Call) (c : client.Cluster) :
  client.served (S n) c ->
  client.nextFault c = None /\ client.served n (client.afterRequests [call] c).
Proof.
  intros [H1 Hn]%(served_S n call). split; [by apply nextFault_served | done].
Qed.

Section Lookup.
Context {T : Type} `{client.Resource T}.

Lemma lookupObject_key (key : string * string) (l : list T) (o : T) :
  client.lookupObject key l = Some o -> client.keyOf o = key.
Proof.
  unfold client.lookupObject. intros [_ Hkey]%find_some.
  unfold client.hasKey in Hkey. by apply bool_decide_eq_true_1 in Hkey.
Qed.

Lemma lookupObject_head (o : T) (rest : list T) :
  client.lookupObject (client.keyOf o) (o :: rest) = Some o.
Proof.
  unfold client.lookupObject, client.hasKey. cbn [List.find].
  by rewrite bool_decide_eq_true_2.
Qed.

End Lookup.

(** [CreateOrPatch] with a function that leaves the stored object as it is
    reads the object and sends no patch. *)
Lemma CreateOrPatch_unchanged (obj existing : uns.Unstructured)
    (f : uns.Unstructured -> uns.Unstructured * option error) (c : client.Cluster) :
  client.nextFault c = None ->
  client.lookupObject (client.keyOf obj) (client.olsConfigs (client.objects c))
  = Some existing ->
  f existing = (existing, None) ->
  createor.CreateOrPatch obj f c
  = client.Return (controllerutil.OperationResultNone, None, existing)
      (client.afterRequests
         [client.CallGet client.KOLSConfig (client.keyOf obj).1 (client.keyOf obj).2] c).
Proof.
  intros Hfault Hstored Hf. unfold createor.CreateOrPatch.
  rewrite bind_eq, Get_eq, Hfault.
  cbn [client.store client.OLSConfig_Resource client.kind]. rewrite Hstored.
  unfold createor.mutate. rewrite Hf.
  rewrite (bool_decide_eq_true_2 _ (lookupObject_key _ _ _ Hstored)).
  rewrite bind_eq. rewrite (bool_decide_eq_true_2 (_ = _) eq_refl). rewrite ret_eq.
  rewrite (bool_decide_eq_true_2 (createor.statusOf existing = _) eq_refl).
  cbn [negb]. by rewrite andb_false_r.
Qed.

(* --------------------------------------------------------------------- *)
(** ** RemoveOLSConfig                                                    *)
(* --------------------------------------------------------------------- *)

(** On an [OLSConfig] that is not the instance's, the function that
    [RemoveOLSConfig] hands to [CreateOrPatch] changes nothing: the
    finalizer stays. *)
Lemma removeOLSConfigMutateFn_not_owned (helper : common_helper.Helper)
    (instance : apiv1beta1.OpenStackLightspeed) (olsConfig : uns.Unstructured) :
  let ownerLabel := default "" (uns.GetLabels olsConfig
                                  !! funcs.OpenStackLightspeedOwnerIDLabel) in
  ownerLabel = "" \/ ownerLabel <> GetUID instance ->
  funcs.removeOLSConfigMutateFn helper instance olsConfig = (olsConfig, None).
Proof.
  cbn zeta. unfold funcs.removeOLSConfigMutateFn. intros [-> | Hother].
  - done.
  - apply String.eqb_neq in Hother. rewrite Hother. cbn [negb]. by rewrite orb_true_r.
Qed.

(** With its first two requests served, [RemoveOLSConfig] on an [OLSConfig]
    that is not the instance's reads it, sends no patch and asks for its
    deletion; the answer to that request decides the result. *)
Lemma RemoveOLSConfig_not_owned (helper : common_helper.Helper)
    (instance : apiv1beta1.OpenStackLightspeed) (c : client.Cluster)
    (olsConfig : uns.Unstructured) (rest : list uns.Unstructured) :
  let ownerLabel := default "" (uns.GetLabels olsConfig
                                  !! funcs.OpenStackLightspeedOwnerIDLabel) in
  let key := client.keyOf olsConfig in
  let read := [client.CallList client.KOLSConfig "";
               client.CallGet client.KOLSConfig key.1 key.2] in
  let sent := (read ++ [client.CallDelete client.KOLSConfig key.1 key.2])%list in
  client.served 2 c ->
  client.olsConfigs (client.objects c) = olsConfig :: rest ->
  ownerLabel = "" \/ ownerLabel <> GetUID instance ->
  funcs.RemoveOLSConfig helper instance c
  = match client.nextFault (client.afterRequests read c) with
    | Some e => client.Return (false, Some e) (client.afterRequests sent c)
    | None =>
        client.Return (true, None)
          (client.set_objects
             (client.setStore
                (if bool_decide (elems (GetFinalizers olsConfig) = [])
                 then client.removeObject key (olsConfig :: rest)
                 else client.replaceObject (client.markDeleting olsConfig)
                        (olsConfig :: rest))
                (client.objects c))
             (client.afterRequests sent c))
    end.
Proof.
  cbn zeta. intros Hserved Hstore Howner.
  apply (nextFault_after_served 1 (client.CallList client.KOLSConfig "")) in Hserved
    as [Hfault1 Hserved].
  apply nextFault_served in Hserved as Hfault2.
  unfold funcs.RemoveOLSConfig. rewrite bind_eq, GetOLSConfig_eq, Hfault1, Hstore.
  rewrite bind_eq.
  rewrite (CreateOrPatch_unchanged olsConfig olsConfig _ _ Hfault2);
    [| rewrite objects_afterRequests, Hstore; apply lookupObject_head
     | by apply removeOLSConfigMutateFn_not_owned ].
  rewrite bind_eq, Delete_eq. cbn zeta.
  rewrite !afterRequests_app, !objects_afterRequests.
  cbn [client.store client.OLSConfig_Resource client.kind app].
  rewrite Hstore, lookupObject_head.
  clear Hfault1 Hfault2 Hserved. by destruct (client.nextFault _).
Qed.

(** Once the read and the patch of [RemoveOLSConfig] have succeeded, the
    deletion is requested, whoever owns the object, and the answer to that
    request is the result. *)
Lemma RemoveOLSConfig_deletes_after_patch (helper : common_helper.Helper)
    (instance : apiv1beta1.OpenStackLightspeed) (c c1 c2 : client.Cluster)
    (olsConfig olsConfig' : uns.Unstructured) (r : controllerutil.OperationResult) :
  funcs.GetOLSConfig c = client.Return (olsConfig, None) c1 ->
  createor.CreateOrPatch olsConfig (funcs.removeOLSConfigMutateFn helper instance) c1
  = client.Return (r, None, olsConfig') c2 ->
  exists (err : option error) (c' : client.Cluster),
    client.Delete olsConfig' c2 = client.Return err c' /\
    client.calls c'
    = (client.calls c2
       ++ [client.CallDelete client.KOLSConfig (client.keyOf olsConfig').1
             (client.keyOf olsConfig').2])%list /\
    funcs.RemoveOLSConfig helper instance c
    = client.Return (bool_decide (err = None), err) c'.
Proof.
  intros Hread Hpatch. unfold funcs.RemoveOLSConfig.
  rewrite bind_eq, Hread, bind_eq, Hpatch, bind_eq, Delete_eq. cbn zeta.
  destruct (client.nextFault c2) as [e|]; [by eexists _, _ |].
  destruct (client.lookupObject _ _) as [stored|]; by eexists _, _.
Qed.

(** [RemoveOLSConfig] answers [(true, nil)] at two places only: when the
    read has found no [OLSConfig], and after the deletion that it has
    requested. *)
Lemma RemoveOLSConfig_true_inv (helper : common_helper.Helper)
    (instance : apiv1beta1.OpenStackLightspeed) (c c' : client.Cluster) :
  funcs.RemoveOLSConfig helper instance c = client.Return (true, None) c' ->
  (exists e : error,
     funcs.GetOLSConfig c = client.Return (funcs.emptyUnstructured, Some e) c' /\
     k8s_errors.IsNotFound e = true) \/
  (exists namespace name : string,
     last (client.calls c') = Some (client.CallDelete client.KOLSConfig namespace name)).
Proof.
  unfold funcs.RemoveOLSConfig. rewrite bind_eq.
  destruct (funcs.GetOLSConfig c) as [[olsConfig [e|]] c1|msg c1] eqn:Hread; [| | done].
  - destruct (k8s_errors.IsNotFound e) eqn:He; cbn [negb]; rewrite ret_eq; [| done].
    intros [= <-]. left. exists e. split; [| done].
    rewrite GetOLSConfig_eq in Hread. injection Hread as Hread _.
    destruct (client.nextFault c); [by injection Hread as <- _ |].
    destruct (client.olsConfigs _); [by injection Hread as <- _ | discriminate].
  - rewrite bind_eq.
    destruct (createor.CreateOrPatch _ _ c1) as [[[r [e|]] olsConfig'] c2|msg c2];
      [done | | done].
    rewrite bind_eq, Delete_eq. cbn zeta.
    destruct (client.nextFault c2) as [e|]; [done |].
    destruct (client.lookupObject _ _) as [stored|]; [| done].
    rewrite ret_eq. intros [= <-]. right. eexists _, _.
    cbn [client.calls client.set_objects client.afterRequests]. apply last_snoc.
Qed.

(** C9. Once the read and the patch of [RemoveOLSConfig] have succeeded, it
    requests the deletion of the [OLSConfig], and its result is the answer
    to that request: [(true, nil)] when the deletion is accepted and
    [(false, err)] when it fails.  This holds whoever owns the object: when
    the owner label is absent or names another instance, the patch step
    changes nothing (no patch is sent, the finalizer stays) and the deletion
    is requested all the same.  [(true, nil)] is returned without a deletion
    request only when the read finds no [OLSConfig]. *)
Theorem RemoveOLSConfig_deletion (helper : common_helper.Helper)
    (instance : apiv1beta1.OpenStackLightspeed) (c : client.Cluster) :
  (forall (c1 c2 : client.Cluster) (olsConfig olsConfig' : uns.Unstructured)
          (r : controllerutil.OperationResult),
     funcs.GetOLSConfig c = client.Return (olsConfig, None) c1 ->
     createor.CreateOrPatch olsConfig (funcs.removeOLSConfigMutateFn helper instance) c1
     = client.Return (r, None, olsConfig') c2 ->
     exists (err : option error) (c' : client.Cluster),
       client.Delete olsConfig' c2 = client.Return err c' /\
       client.calls c'
       = (client.calls c2
          ++ [client.CallDelete client.KOLSConfig (client.keyOf olsConfig').1
                (client.keyOf olsConfig').2])%list /\
       funcs.RemoveOLSConfig helper instance c
       = client.Return (bool_decide (err = None), err) c') /\
  (forall (olsConfig : uns.Unstructured) (rest : list uns.Unstructured),
     let ownerLabel := default "" (uns.GetLabels olsConfig
                                     !! funcs.OpenStackLightspeedOwnerIDLabel) in
     let key := client.keyOf olsConfig in
     let read := [client.CallList client.KOLSConfig "";
                  client.CallGet client.KOLSConfig key.1 key.2] in
     let sent := (read ++ [client.CallDelete client.KOLSConfig key.1 key.2])%list in
     client.served 2 c ->
     client.olsConfigs (client.objects c) = olsConfig :: rest ->
     ownerLabel = "" \/ ownerLabel <> GetUID instance ->
     funcs.RemoveOLSConfig helper instance c
     = match client.nextFault (client.afterRequests read c) with
       | Some e => client.Return (false, Some e) (client.afterRequests sent c)
       | None =>
           client.Return (true, None)
             (client.set_objects
                (client.setStore
                   (if bool_decide (elems (GetFinalizers olsConfig) = [])
                    then client.removeObject key (olsConfig :: rest)
                    else client.replaceObject (client.markDeleting olsConfig)
                           (olsConfig :: rest))
                   (client.objects c))
                (client.afterRequests sent c))
       end) /\
  (forall c' : client.Cluster,
     funcs.RemoveOLSConfig helper instance c = client.Return (true, None) c' ->
     (exists e : error,
        funcs.GetOLSConfig c = client.Return (funcs.emptyUnstructured, Some e) c' /\
        k8s_errors.IsNotFound e = true) \/
     (exists namespace name : string,
        last (client.calls c')
        = Some (client.CallDelete client.KOLSConfig namespace name))).
Proof.
  split; [| split].
  - intros c1 c2 olsConfig olsConfig' r.
    apply RemoveOLSConfig_deletes_after_patch.
  - intros olsConfig rest. apply RemoveOLSConfig_not_owned.
  - apply RemoveOLSConfig_true_inv.
Qed.

(** The [OLSConfig] of another instance: [RemoveOLSConfig] for [instance1]
    sends no patch, requests the deletion and answers [(true, nil)]; the
    object keeps its finalizer and is marked as being deleted. *)
Lemma RemoveOLSConfig_deletion_witness :
  let c := Examples.withOLSConfig Examples.olsConfigOfOther in
  exists c' : client.Cluster,
    funcs.RemoveOLSConfig Examples.helper1 Examples.instance1 c
    = client.Return (true, None) c' /\
    client.calls c'
    = [client.CallList client.KOLSConfig "";
       client.CallGet client.KOLSConfig "" funcs.OLSConfigName;
       client.CallDelete client.KOLSConfig "" funcs.OLSConfigName] /\
    client.olsConfigs (client.objects c')
    = [client.markDeleting Examples.olsConfigOfOther] /\
    uns.GetFinalizers (client.markDeleting Examples.olsConfigOfOther)
    = Some [Examples.finalizer].
Proof.
  cbn zeta.
  destruct (RemoveOLSConfig_deletion Examples.helper1 Examples.instance1
              (Examples.withOLSConfig Examples.olsConfigOfOther)) as (_ & Hnot_owned & _).
  specialize (Hnot_owned Examples.olsConfigOfOther []).
  cbn zeta in Hnot_owned. rewrite Hnot_owned.
  - eexists. split; [reflexivity |]. vm_compute. repeat split.
  - by apply Forall_nil.
  - reflexivity.
  - right. vm_compute. discriminate.
Defined.

(** The read and the patch succeed and the deletion is refused: the
    deletion was requested and the result is [(false, err)]. *)
Lemma RemoveOLSConfig_delete_refused :
  let c := Examples.withFaults [None; None; Some Examples.forbidden]
             (Examples.withOLSConfig Examples.olsConfigOfOther) in
  let c1 := client.afterRequests [client.CallList client.KOLSConfig ""] c in
  let c2 := client.afterRequests
              [client.CallGet client.KOLSConfig "" funcs.OLSConfigName] c1 in
  let c' := client.afterRequests
              [client.CallDelete client.KOLSConfig "" funcs.OLSConfigName] c2 in
  funcs.GetOLSConfig c = client.Return (Examples.olsConfigOfOther, None) c1 /\
  createor.CreateOrPatch Examples.olsConfigOfOther
    (funcs.removeOLSConfigMutateFn Examples.helper1 Examples.instance1) c1
  = client.Return (controllerutil.OperationResultNone, None, Examples.olsConfigOfOther) c2 /\
  funcs.RemoveOLSConfig Examples.helper1 Examples.instance1 c
  = client.Return (false, Some Examples.forbidden) c' /\
  funcs.RemoveOLSConfig Examples.helper1 Examples.instance1 c
  <> client.Return (true, None) c'.
Proof.
  cbn zeta. split; [vm_compute; reflexivity |]. split; [vm_compute; reflexivity |].
  assert (Hrefused :
    funcs.RemoveOLSConfig Examples.helper1 Examples.instance1
      (Examples.withFaults [None; None; Some Examples.forbidden]
         (Examples.withOLSConfig Examples.olsConfigOfOther))
    = client.Return (false, Some Examples.forbidden)
        (client.afterRequests
           [client.CallList client.KOLSConfig "";
            client.CallGet client.KOLSConfig "" funcs.OLSConfigName;
            client.CallDelete client.KOLSConfig "" funcs.OLSConfigName]
           (Examples.withFaults [None; None; Some Examples.forbidden]
              (Examples.withOLSConfig Examples.olsConfigOfOther))))
    by (vm_compute; reflexivity).
  split; [by rewrite Hrefused |]. rewrite Hrefused. discriminate.
Qed.

(* --------------------------------------------------------------------- *)
(** ** The deletion branch of Reconcile                                   *)
(* --------------------------------------------------------------------- *)

Lemma sends_snoc (P : client.Call -> Prop) (sent : list client.Call)
    (c c' : client.Cluster) :
  Forall P sent -> client.sends P c c' -> client.sends P c (client.afterRequests sent c').
Proof.
  intros Hsent Hc. eapply sends_trans; [exact Hc |]. by apply sends_afterRequests.
Qed.

(** Runs a piece of the controller on a cluster, by cases on the failures
    that its requests meet and on what it finds. *)
Ltac run :=
  repeat first
    [ rewrite bind_eq | rewrite ret_eq
    | rewrite Get_eq | rewrite List_eq | rewrite Create_eq | rewrite write_eq
    | rewrite Delete_eq | rewrite GetOLSConfig_eq | rewrite request_next
    | progress cbn beta iota zeta
    | match goal with
      | |- context [match ?x with _ => _ end] =>
          lazymatch x with
          | context [match _ with _ => _ end] => fail
          | _ => destruct x
          end
      end ].

(** The requests from the cluster of the goal are those of the kind. *)
Ltac solve_sends :=
  repeat first
    [ apply sends_refl
    | apply sends_set_objects
    | apply sends_snoc; [by repeat constructor |] ].

Lemma CreateOrPatch_returns (obj : uns.Unstructured)
    (f : uns.Unstructured -> uns.Unstructured * option error) (c : client.Cluster) :
  exists r c', createor.CreateOrPatch obj f c = client.Return r c' /\
               client.sends (client.isAbout client.KOLSConfig) c c'.
Proof.
  unfold createor.CreateOrPatch, client.Patch. run;
    (eexists _, _; split; [reflexivity | solve_sends]).
Qed.

Lemma RemoveOLSConfig_returns (helper : common_helper.Helper)
    (instance : apiv1beta1.OpenStackLightspeed) (c : client.Cluster) :
  exists r c', funcs.RemoveOLSConfig helper instance c = client.Return r c' /\
               client.sends (client.isAbout client.KOLSConfig) c c'.
Proof.
  unfold funcs.RemoveOLSConfig. rewrite bind_eq, GetOLSConfig_eq.
  assert (Hlist : client.sends (client.isAbout client.KOLSConfig) c
                    (client.afterRequests [client.CallList client.KOLSConfig ""] c))
    by solve_sends.
  destruct (match client.nextFault c with Some _ => _ | None => _ end) as [olsConfig [e|]].
  - destruct (negb _); rewrite ret_eq; by eexists _, _.
  - rewrite bind_eq.
    destruct (CreateOrPatch_returns olsConfig
                (funcs.removeOLSConfigMutateFn helper instance)
                (client.afterRequests [client.CallList client.KOLSConfig ""] c))
      as ([[r err] olsConfig'] & c2 & -> & Hpatch).
    pose proof (sends_trans _ _ _ _ Hlist Hpatch) as Hc2.
    destruct err as [e|]; [rewrite ret_eq; by eexists _, _ |].
    rewrite bind_eq, Delete_eq. cbn zeta.
    destruct (client.nextFault c2); [rewrite ret_eq |
      destruct (client.lookupObject _ _); rewrite ret_eq ];
      (eexists _, _; split; [reflexivity |]);
      repeat apply sends_set_objects; (apply sends_snoc; [by repeat constructor | done]).
Qed.

Lemma GetOLSOperatorCSV_returns (c : client.Cluster) :
  exists r c', ols_install.GetOLSOperatorCSV c = client.Return r c'.
Proof.
  unfold ols_install.GetOLSOperatorCSV, funcs.GetRawClient. run; by eexists _, _.
Qed.

Lemma UninstallInstanceOwnedOLSOperator_returns
    (instance : apiv1beta1.OpenStackLightspeed) (c : client.Cluster) :
  exists r c', ols_install.UninstallInstanceOwnedOLSOperator instance c
               = client.Return r c'.
Proof.
  unfold ols_install.UninstallInstanceOwnedOLSOperator. rewrite bind_eq.
  destruct (GetOLSOperatorCSV_returns c) as ([[CSV|] [e|]] & c1 & ->);
    try (rewrite ret_eq; by eexists _, _).
  destruct (negb _); [rewrite ret_eq; by eexists _, _ |].
  rewrite bind_eq, Delete_eq. cbn zeta.
  destruct (client.nextFault c1); [rewrite ret_eq; by eexists _, _ |].
  destruct (client.lookupObject _ _); [| rewrite ret_eq; by eexists _, _].
  rewrite bind_eq.
  match goal with
  | |- context [ols_install.GetOLSOperatorCSV ?c2] =>
      destruct (GetOLSOperatorCSV_returns c2) as ([[CSV'|] [e|]] & c3 & ->)
  end; rewrite ret_eq; by eexists _, _.
Qed.

(** [RemoveOLSConfig] never answers "not yet": it reports the removal as
    complete or it fails. *)
Lemma RemoveOLSConfig_results (helper : common_helper.Helper)
    (instance : apiv1beta1.OpenStackLightspeed) (c c' : client.Cluster)
    (isRemoved : bool) (err : option error) :
  funcs.RemoveOLSConfig helper instance c = client.Return (isRemoved, err) c' ->
  isRemoved = bool_decide (err = None).
Proof.
  unfold funcs.RemoveOLSConfig. rewrite bind_eq, GetOLSConfig_eq.
  destruct (match client.nextFault c with Some _ => _ | None => _ end) as [olsConfig [e|]].
  - destruct (negb _); rewrite ret_eq; by intros [= <- <- _].
  - rewrite bind_eq.
    destruct (createor.CreateOrPatch _ _ _) as [[[r [e|]] olsConfig'] c2|msg c2];
      [rewrite ret_eq; by intros [= <- <- _] | | done].
    rewrite bind_eq.
    destruct (client.Delete _ _) as [[e|] c3|msg c3];
      [rewrite ret_eq; by intros [= <- <- _] .. | done].
Qed.

(** C6. The deletion branch always returns, and it runs its steps in order.
    It first runs [RemoveOLSConfig], whose requests are all about the
    [OLSConfig].  Unless that step reports completion, [(true, nil)], the
    branch stops there, on the cluster the step has left: with the error of
    the step, or, when the step is not complete, with a requeue after ten
    seconds; nothing of the uninstallation is sent and the instance keeps
    its finalizer.  Only then comes [UninstallInstanceOwnedOLSOperator], on
    the cluster that the removal has left, and unless it reports completion
    the branch stops in the same way.  The finalizer of the instance is
    removed only when both steps have reported completion. *)
Theorem reconcileDelete_order (helper : common_helper.Helper)
    (instance : apiv1beta1.OpenStackLightspeed) (c : client.Cluster) :
  exists (isRemoved : bool) (removeErr : option error) (c1 : client.Cluster),
    funcs.RemoveOLSConfig helper instance c = client.Return (isRemoved, removeErr) c1 /\
    client.sends (client.isAbout client.KOLSConfig) c c1 /\
    match removeErr, isRemoved with
    | Some e, _ =>
        controller.reconcileDelete helper instance c
        = client.Return (instance, ctrl.zeroResult, Some e) c1
    | None, false =>
        controller.reconcileDelete helper instance c
        = client.Return (instance, ctrl.mkResult false (10 * 1000000000), None) c1
    | None, true =>
        exists (isUninstalled : bool) (uninstallErr : option error) (c2 : client.Cluster),
          ols_install.UninstallInstanceOwnedOLSOperator instance c1
          = client.Return (isUninstalled, uninstallErr) c2 /\
          match uninstallErr, isUninstalled with
          | Some e, _ =>
              controller.reconcileDelete helper instance c
              = client.Return (instance, ctrl.zeroResult, Some e) c2
          | None, false =>
              controller.reconcileDelete helper instance c
              = client.Return (instance, ctrl.mkResult false (10 * 1000000000), None) c2
          | None, true =>
              controller.reconcileDelete helper instance c
              = client.Return
                  ((controllerutil.RemoveFinalizer instance
                      (common_helper.GetFinalizer helper)).1,
                   ctrl.zeroResult, None) c2
          end
    end.
Proof.
  destruct (RemoveOLSConfig_returns helper instance c)
    as ([isRemoved removeErr] & c1 & Hremove & Hsends).
  exists isRemoved, removeErr, c1. split; [done |]. split; [done |].
  unfold controller.reconcileDelete. rewrite bind_eq, Hremove.
  destruct removeErr as [e|]; [done |]. destruct isRemoved; [| done].
  cbn [negb]. rewrite bind_eq.
  destruct (UninstallInstanceOwnedOLSOperator_returns instance c1)
    as ([isUninstalled uninstallErr] & c2 & Huninstall).
  exists isUninstalled, uninstallErr, c2. split; [done |]. rewrite Huninstall.
  destruct uninstallErr as [e|]; [done |]. destruct isUninstalled; [| done].
  cbn [negb]. by destruct (controllerutil.RemoveFinalizer _ _).
Qed.

(** The [OLSConfig] is gone and the CSV of the instance is kept by a
    finalizer: the uninstallation is not complete, the branch asks for a
    requeue after ten seconds and the instance keeps its finalizer. *)
Lemma reconcileDelete_uninstall_pending :
  let instance := Examples.instanceDeleted in
  let helper := common_helper.NewHelper Examples.finalizer instance in
  exists c' : client.Cluster,
    controller.reconcileDelete helper instance Examples.withOwnedCSV
    = client.Return (instance, ctrl.mkResult false 10000000000, None) c' /\
    client.calls c'
    = [client.CallList client.KOLSConfig "";
       client.CallNewClient;
       client.CallList client.KClusterServiceVersion "";
       client.CallDelete client.KClusterServiceVersion "openshift-lightspeed"
         "lightspeed-operator.v1.0.6";
       client.CallNewClient;
       client.CallList client.KClusterServiceVersion ""].
Proof.
  cbn zeta.
  exists (match controller.reconcileDelete
                  (common_helper.NewHelper Examples.finalizer Examples.instanceDeleted)
                  Examples.instanceDeleted Examples.withOwnedCSV with
          | client.Return _ c' | client.Panic _ c' => c'
          end).
  vm_compute. by split.
Qed.

(** The [OLSConfig] is gone and no CSV of the instance is left: both steps
    report completion and the finalizer of the instance is removed. *)
Lemma reconcileDelete_complete :
  let instance := Examples.instanceDeleted in
  let helper := common_helper.NewHelper Examples.finalizer instance in
  exists (instance' : apiv1beta1.OpenStackLightspeed) (c' : client.Cluster),
    controller.reconcileDelete helper instance Examples.withUserCSV
    = client.Return (instance', ctrl.zeroResult, None) c' /\
    GetFinalizers instance = Some [Examples.finalizer] /\
    GetFinalizers instance' = Some [].
Proof.
  cbn zeta.
  destruct (controller.reconcileDelete _ _ _) as [[[instance' result] err] c'|msg c'] eqn:E;
    vm_compute in E; [| discriminate E].
  injection E as <- <- <- <-. eexists _, _. split; [reflexivity |]. by vm_compute.
Qed.

(* --------------------------------------------------------------------- *)
(** ** An operator that a user has installed                              *)
(* --------------------------------------------------------------------- *)

Lemma GetOLSSubscriptionName_long (instance : apiv1beta1.OpenStackLightspeed) :
  5 <= String.length (GetUID instance) ->
  ols_install.GetOLSSubscriptionName instance
  = Some (ols_install.OLSOperatorName +:+ "-" +:+ GoStrings.takeBytes 5 (GetUID instance)).
Proof.
  intros Hlen. unfold ols_install.GetOLSSubscriptionName.
  by rewrite (proj2 (Nat.leb_le _ _) Hlen).
Qed.

Lemma IsNotFound_notFound (key : string * string) :
  k8s_errors.IsNotFound (client.notFound key) = true.
Proof. reflexivity. Qed.

Section UserInstalled.
Variable instance : apiv1beta1.OpenStackLightspeed.
Variable c : client.Cluster.
Variable csv : operatorsv1alpha1.ClusterServiceVersion.

Hypothesis Huid : 5 <= String.length (GetUID instance).

(** The CSV of the operator that the controller finds is not the
    instance's. *)
Hypothesis Hcsv :
  List.find (fun CSV => GoStrings.HasPrefix (GetName CSV) ols_install.OLSOperatorName)
    (client.csvs (client.objects c)) = Some csv.
Hypothesis Hcsv_owner : funcs.IsOwnedBy csv instance = false.

(** The subscription with the name that the instance gives to its own, if
    there is one, is not the instance's. *)
Hypothesis Hsubscription :
  forall (name : string) (sub : operatorsv1alpha1.Subscription),
    ols_install.GetOLSSubscriptionName instance = Some name ->
    client.lookupObject (GetNamespace instance, name)
      (client.subscriptions (client.objects c)) = Some sub ->
    funcs.IsOwnedBy sub instance = false.

(** In [ols_install.go] the mode is found with reads only, and it is the
    user's unless a read fails. *)
Lemma IsUserInstalledOLSOperatorMode_user :
  (forall e, client.nextFault (client.afterRequests [client.CallNewClient] c) = Some e ->
             k8s_errors.IsNotFound e = false) ->
  exists (r : bool * option error) (c' : client.Cluster),
    ols_install.IsUserInstalledOLSOperatorMode instance c = client.Return r c' /\
    client.objects c' = client.objects c /\
    client.sends client.isRead c c' /\
    (r = (true, None) \/ exists e, r = (false, Some e)) /\
    (client.served 3 c -> r = (true, None)).
Proof.
  intros Hlist.
  unfold ols_install.IsUserInstalledOLSOperatorMode, ols_install.GetOLSOperatorCSV,
    funcs.GetRawClient.
  rewrite !bind_eq, request_next.
  destruct (client.nextFault c) as [e1|] eqn:E1.
  { rewrite !ret_eq. eexists _, _. split; [reflexivity |]. split; [reflexivity |].
    split; [solve_sends |]. split; [right; by eexists |].
    intros Hserved. apply (nextFault_after_served 2 client.CallNewClient) in Hserved.
    destruct Hserved as [Hserved _]. congruence. }
  rewrite bind_eq, List_eq.
  destruct (client.nextFault (client.afterRequests _ c)) as [e2|] eqn:E2.
  { rewrite (Hlist e2 eq_refl), !ret_eq.
    eexists _, _. split; [reflexivity |]. split; [reflexivity |].
    split; [solve_sends |]. split; [right; by eexists |].
    intros Hserved. apply (nextFault_after_served 2 client.CallNewClient) in Hserved.
    destruct Hserved as [_ Hserved].
    apply (nextFault_after_served 1 client.CallNewClient) in Hserved.
    destruct Hserved as [Hserved _]. congruence. }
  rewrite filter_all_namespaces, !ret_eq.
  cbn [client.store client.ClusterServiceVersion_Resource].
  rewrite !objects_afterRequests, Hcsv.
  rewrite bind_eq, (GetOLSSubscriptionName_long _ Huid).
  cbn [ols_install.orPanic]. rewrite ret_eq, bind_eq, Get_eq.
  cbn [client.store client.Subscription_Resource].
  rewrite !objects_afterRequests.
  destruct (client.nextFault (client.afterRequests [client.CallList _ _] _))
    as [e3|] eqn:E3.
  - cbn [from_option]. rewrite bool_decide_eq_true_2 by done. cbn [andb].
    destruct (k8s_errors.IsNotFound e3) eqn:He3; cbn [negb]; rewrite ret_eq, ?Hcsv_owner.
    + eexists _, _. split; [reflexivity |]. split; [reflexivity |].
      split; [solve_sends |]. split; [by left | done].
    + eexists _, _. split; [reflexivity |]. split; [reflexivity |].
      split; [solve_sends |]. split; [right; by eexists |].
      intros Hserved. apply (nextFault_after_served 2 client.CallNewClient) in Hserved.
      destruct Hserved as [_ Hserved].
      apply (nextFault_after_served 1 (client.CallList client.KClusterServiceVersion ""))
        in Hserved.
      destruct Hserved as [_ Hserved]. apply nextFault_served in Hserved.
      discriminate (eq_trans (eq_sym E3) Hserved).
  - destruct (client.lookupObject _ _) as [sub|] eqn:Hsub.
    + rewrite bool_decide_eq_false_2 by (intros Hne; by apply Hne). cbn [andb].
      rewrite ret_eq, Hcsv_owner. cbn [default from_option id].
      rewrite (Hsubscription _ sub (GetOLSSubscriptionName_long _ Huid) Hsub).
      eexists _, _. split; [reflexivity |]. split; [reflexivity |].
      split; [solve_sends |]. split; [by left | done].
    + cbn [from_option]. rewrite IsNotFound_notFound. cbn [negb]. rewrite andb_false_r.
      rewrite ret_eq, Hcsv_owner.
      eexists _, _. split; [reflexivity |]. split; [reflexivity |].
      split; [solve_sends |]. split; [by left | done].
Qed.

(** In [ols_install.go], [EnsureOLSOperatorInstalled] then fails, having
    only read: with the error that asks the user to uninstall the operator,
    or with the error of a read. *)
Lemma EnsureOLSOperatorInstalled_user (Getenv : string -> string) :
  (forall e, client.nextFault (client.afterRequests [client.CallNewClient] c) = Some e ->
             k8s_errors.IsNotFound e = false) ->
  exists (e : error) (c' : client.Cluster),
    ols_install.EnsureOLSOperatorInstalled Getenv instance c
    = client.Return (false, Some e) c' /\
    client.objects c' = client.objects c /\
    client.sends client.isRead c c' /\
    (client.served 3 c -> e = ols_install.userInstalledError).
Proof.
  intros Hlist.
  destruct (IsUserInstalledOLSOperatorMode_user Hlist)
    as (r & c' & Hmode & Hobjects & Hsends & Hr & Hserved).
  unfold ols_install.EnsureOLSOperatorInstalled. rewrite bind_eq, Hmode.
  destruct Hr as [-> | [e ->]].
  - rewrite ret_eq. by eexists _, _.
  - rewrite ret_eq. exists e, c'. repeat split; try done.
    intros H3. by specialize (Hserved H3).
Qed.

(** In the revision of [part_002], the version of the CSV is checked
    instead: [EnsureOLSOperatorInstalled] fails when it is not the
    recommended one, and answers [(true, nil)] when it is. *)
Lemma EnsureOLSOperatorInstalled_checks_version (Getenv : string -> string) :
  let name := ols_install.OLSOperatorName +:+ "-"
              +:+ GoStrings.takeBytes 5 (GetUID instance) in
  client.served 3 c ->
  part_002.EnsureOLSOperatorInstalled Getenv instance c
  = client.Return
      (match part_002.GetRecommendedOLSVersion Getenv with
       | (_, Some e) => (false, Some e)
       | (recommendedVersion, None) =>
           if String.eqb (operatorsv1alpha1.csv_Version csv) recommendedVersion
           then (true, None)
           else (false, Some (part_002.unsupportedVersionError recommendedVersion))
       end)
      (client.afterRequests
         [client.CallList client.KClusterServiceVersion "";
          client.CallGet client.KSubscription (GetNamespace instance) name;
          client.CallList client.KClusterServiceVersion ""] c).
Proof.
  cbn zeta. intros Hserved.
  apply (nextFault_after_served 2 (client.CallList client.KClusterServiceVersion ""))
    in Hserved as [Hfault1 Hserved].
  apply (nextFault_after_served 1
           (client.CallGet client.KSubscription (GetNamespace instance)
              (ols_install.OLSOperatorName +:+ "-"
               +:+ GoStrings.takeBytes 5 (GetUID instance))))
    in Hserved as [Hfault2 Hserved].
  apply nextFault_served in Hserved as Hfault3.
  unfold part_002.EnsureOLSOperatorInstalled, part_002.IsUserInstalledOLSOperatorMode,
    part_002.GetOLSOperatorCSV.
  rewrite !bind_eq, List_eq, Hfault1, filter_all_namespaces, ret_eq.
  cbn [client.store client.kind client.ClusterServiceVersion_Resource
       client.Subscription_Resource fst snd]. rewrite Hcsv.
  rewrite bind_eq, (GetOLSSubscriptionName_long _ Huid).
  cbn [ols_install.orPanic]. rewrite ret_eq, bind_eq, Get_eq.
  cbn [client.store client.kind client.ClusterServiceVersion_Resource
       client.Subscription_Resource fst snd].
  rewrite Hfault2, !objects_afterRequests.
  assert (Hmode :
    forall got err,
      (got, err)
      = match client.lookupObject
                (GetNamespace instance,
                 ols_install.OLSOperatorName +:+ "-"
                 +:+ GoStrings.takeBytes 5 (GetUID instance))
                (client.subscriptions (client.objects c)) with
        | Some o => (Some o, None)
        | None => (None, Some (client.notFound
                     (GetNamespace instance,
                      ols_install.OLSOperatorName +:+ "-"
                      +:+ GoStrings.takeBytes 5 (GetUID instance))))
        end ->
      bool_decide (err <> None) && negb (from_option k8s_errors.IsNotFound false err)
      = false /\
      funcs.IsOwnedBy (default ols_install.zeroSubscription got) instance = false).
  { intros got err. destruct (client.lookupObject _ _) as [sub|] eqn:Hsub; intros [= -> ->].
    - split; [by rewrite bool_decide_eq_false_2 by (intros Hne; by apply Hne) |].
      apply (Hsubscription _ sub (GetOLSSubscriptionName_long _ Huid) Hsub).
    - split; [| done]. cbn [from_option]. rewrite IsNotFound_notFound. apply andb_false_r. }
  destruct (match client.lookupObject _ _ with Some _ => _ | None => _ end)
    as [got err] eqn:Hgot.
  destruct (Hmode got err eq_refl) as [-> ->]. rewrite Hcsv_owner. cbn [negb andb].
  rewrite ret_eq. unfold part_002.CheckOLSOperatorVersion, part_002.GetOLSOperatorCSV.
  rewrite !bind_eq, List_eq, Hfault3, filter_all_namespaces, ret_eq.
  cbn [client.store client.kind client.ClusterServiceVersion_Resource
       client.Subscription_Resource fst snd].
  rewrite !objects_afterRequests, Hcsv, !afterRequests_app. cbn [app].
  destruct (part_002.GetRecommendedOLSVersion Getenv) as [recommendedVersion [e|]];
    [done |].
  by destruct (String.eqb _ _).
Qed.

End UserInstalled.

(** When the Subscription with the name that the instance gives to its own
    is the instance's, the mode is not the user's, whoever owns the CSV:
    [EnsureOLSOperatorInstalled] goes on with
    [InstallInstanceOwnedOLSOperator]. *)
Lemma EnsureOLSOperatorInstalled_owned_subscription (Getenv : string -> string)
    (instance : apiv1beta1.OpenStackLightspeed) (c : client.Cluster)
    (csv : operatorsv1alpha1.ClusterServiceVersion) (name : string)
    (sub : operatorsv1alpha1.Subscription) :
  List.find (fun CSV => GoStrings.HasPrefix (GetName CSV) ols_install.OLSOperatorName)
    (client.csvs (client.objects c)) = Some csv ->
  ols_install.GetOLSSubscriptionName instance = Some name ->
  client.lookupObject (GetNamespace instance, name)
    (client.subscriptions (client.objects c)) = Some sub ->
  funcs.IsOwnedBy sub instance = true ->
  client.served 3 c ->
  ols_install.EnsureOLSOperatorInstalled Getenv instance c
  = match ols_install.InstallInstanceOwnedOLSOperator Getenv instance
            (client.afterRequests
               [client.CallNewClient;
                client.CallList client.KClusterServiceVersion "";
                client.CallGet client.KSubscription (GetNamespace instance) name] c) with
    | client.Return (_, Some e) c' => client.Return (false, Some e) c'
    | client.Return (OLSOperatorInstalled, None) c' =>
        client.Return (OLSOperatorInstalled, None) c'
    | client.Panic msg c' => client.Panic msg c'
    end.
Proof.
  intros Hcsv Hname Hsub Howned Hserved.
  apply (nextFault_after_served 2 client.CallNewClient) in Hserved as [Hfault1 Hserved].
  apply (nextFault_after_served 1 (client.CallList client.KClusterServiceVersion ""))
    in Hserved as [Hfault2 Hserved].
  apply nextFault_served in Hserved as Hfault3.
  rewrite afterRequests_app in Hfault3. cbn [app] in Hfault3.
  unfold ols_install.EnsureOLSOperatorInstalled, ols_install.IsUserInstalledOLSOperatorMode,
    ols_install.GetOLSOperatorCSV, funcs.GetRawClient.
  rewrite !bind_eq, request_next, Hfault1.
  rewrite bind_eq, List_eq, Hfault2, filter_all_namespaces, !ret_eq.
  cbn [client.store client.kind client.ClusterServiceVersion_Resource].
  rewrite !objects_afterRequests, Hcsv.
  rewrite bind_eq, Hname. cbn [ols_install.orPanic]. rewrite ret_eq, bind_eq, Get_eq.
  cbn [client.store client.kind client.Subscription_Resource fst snd].
  rewrite !afterRequests_app. cbn [app]. rewrite Hfault3.
  rewrite !objects_afterRequests, Hsub.
  rewrite bool_decide_eq_false_2 by (intros Hne; by apply Hne). cbn [andb].
  rewrite ret_eq. cbn [default from_option id]. rewrite Howned, andb_false_r.
  rewrite bind_eq.
  destruct (ols_install.InstallInstanceOwnedOLSOperator Getenv instance _)
    as [[OLSOperatorInstalled [e|]] c'|msg c']; reflexivity.
Qed.

(** C5. The first CSV of the operator that the list of the cluster finds is
    not owned by the instance.  When the Subscription with the name that the
    instance gives to its own is missing or is not the instance's, the mode
    is the user's: in [ols_install.go], [EnsureOLSOperatorInstalled] returns
    an error and has only read, so that nothing is installed or adopted, and
    the error is the one that asks the user to uninstall the operator once
    the three reads are served; in the revision of [part_002] it returns the
    answer of [CheckOLSOperatorVersion]: an error when the version of the
    CSV is not the recommended one, and [(true, nil)], next to the user's
    operator, when it is.  When that Subscription is the instance's, the
    mode is not the user's, whoever else owns the CSV: in [ols_install.go],
    [EnsureOLSOperatorInstalled] goes on with
    [InstallInstanceOwnedOLSOperator] after the three reads and returns its
    answer. *)
Theorem EnsureOLSOperatorInstalled_user_installed (Getenv : string -> string)
    (instance : apiv1beta1.OpenStackLightspeed) (c : client.Cluster)
    (csv : operatorsv1alpha1.ClusterServiceVersion) :
  5 <= String.length (GetUID instance) ->
  List.find (fun CSV => GoStrings.HasPrefix (GetName CSV) ols_install.OLSOperatorName)
    (client.csvs (client.objects c)) = Some csv ->
  funcs.IsOwnedBy csv instance = false ->
  ((forall (name : string) (sub : operatorsv1alpha1.Subscription),
      ols_install.GetOLSSubscriptionName instance = Some name ->
      client.lookupObject (GetNamespace instance, name)
        (client.subscriptions (client.objects c)) = Some sub ->
      funcs.IsOwnedBy sub instance = false) ->
   ((forall e, client.nextFault (client.afterRequests [client.CallNewClient] c) = Some e ->
               k8s_errors.IsNotFound e = false) ->
    exists (e : error) (c' : client.Cluster),
      ols_install.EnsureOLSOperatorInstalled Getenv instance c
      = client.Return (false, Some e) c' /\
      client.objects c' = client.objects c /\
      client.sends client.isRead c c' /\
      (client.served 3 c -> e = ols_install.userInstalledError)) /\
   (client.served 3 c ->
    part_002.EnsureOLSOperatorInstalled Getenv instance c
    = client.Return
        (match part_002.GetRecommendedOLSVersion Getenv with
         | (_, Some e) => (false, Some e)
         | (recommendedVersion, None) =>
             if String.eqb (operatorsv1alpha1.csv_Version csv) recommendedVersion
             then (true, None)
             else (false, Some (part_002.unsupportedVersionError recommendedVersion))
         end)
        (client.afterRequests
           [client.CallList client.KClusterServiceVersion "";
            client.CallGet client.KSubscription (GetNamespace instance)
              (ols_install.OLSOperatorName +:+ "-"
               +:+ GoStrings.takeBytes 5 (GetUID instance));
            client.CallList client.KClusterServiceVersion ""] c))) /\
  (forall (name : string) (sub : operatorsv1alpha1.Subscription),
     ols_install.GetOLSSubscriptionName instance = Some name ->
     client.lookupObject (GetNamespace instance, name)
       (client.subscriptions (client.objects c)) = Some sub ->
     funcs.IsOwnedBy sub instance = true ->
     client.served 3 c ->
     ols_install.EnsureOLSOperatorInstalled Getenv instance c
     = match ols_install.InstallInstanceOwnedOLSOperator Getenv instance
               (client.afterRequests
                  [client.CallNewClient;
                   client.CallList client.KClusterServiceVersion "";
                   client.CallGet client.KSubscription (GetNamespace instance) name]
                  c) with
       | client.Return (_, Some e) c' => client.Return (false, Some e) c'
       | client.Return (OLSOperatorInstalled, None) c' =>
           client.Return (OLSOperatorInstalled, None) c'
       | client.Panic msg c' => client.Panic msg c'
       end).
Proof.
  intros Huid Hcsv Hcsv_owner. split.
  - intros Hsubscription. split.
    + intros Hlist.
      exact (EnsureOLSOperatorInstalled_user instance c csv Huid Hcsv Hcsv_owner
               Hsubscription Getenv Hlist).
    + intros Hserved.
      exact (EnsureOLSOperatorInstalled_checks_version instance c csv Huid Hcsv Hcsv_owner
               Hsubscription Getenv Hserved).
  - intros name sub Hname Hsub Howned Hserved.
    exact (EnsureOLSOperatorInstalled_owned_subscription Getenv instance c csv name sub
             Hcsv Hname Hsub Howned Hserved).
Qed.

(** A user has installed the operator: in [ols_install.go] the instance is
    told so, and the cluster is left as it is. *)
Lemma EnsureOLSOperatorInstalled_user_installed_witness :
  exists c' : client.Cluster,
    ols_install.EnsureOLSOperatorInstalled (Examples.getenv "1.0.7") Examples.instance1
      Examples.withUserCSV
    = client.Return (false, Some ols_install.userInstalledError) c' /\
    client.objects c' = client.objects Examples.withUserCSV.
Proof.
  assert (Hserved : client.served 3 Examples.withUserCSV)
    by (by apply served_nil_faults).
  destruct (EnsureOLSOperatorInstalled_user_installed (Examples.getenv "1.0.7")
              Examples.instance1 Examples.withUserCSV Examples.userCSV)
    as [Huser _].
  - vm_compute. lia.
  - reflexivity.
  - reflexivity.
  - destruct Huser as [Hnamed _].
    + intros name sub _ Hsub. discriminate Hsub.
    + destruct Hnamed as (e & c' & Hrun & Hobjects & _ & He).
      * intros e He. discriminate He.
      * exists c'. by rewrite Hrun, (He Hserved).
Defined.

(** A CSV of the operator that nobody owns, next to a Subscription of the
    instance that names an install plan for the recommended version: in
    [ols_install.go], [EnsureOLSOperatorInstalled] returns [(true, nil)];
    the install plan has been approved and the CSV has been given to the
    instance. *)
Lemma EnsureOLSOperatorInstalled_adopts_unowned_csv :
  let subscription :=
    operatorsv1alpha1.mkSubscription
      (metav1.mkObjectMeta "lightspeed-operator-3f2a9" "openshift-lightspeed" "" 0 ∅
         [metav1.mkOwnerReference "lightspeed.openstack.org/v1beta1" "OpenStackLightspeed"
            "openstack-lightspeed" Examples.uid1 (Some true) (Some true)]
         None None)
      (Some (operatorsv1alpha1.mkSubscriptionSpec "stable" "Manual" "redhat-operators"
               "openshift-marketplace" "lightspeed-operator" "lightspeed-operator.v1.0.6"))
      (Some "install-x7k2p") in
  let installPlan :=
    operatorsv1alpha1.mkInstallPlan
      (Examples.meta "install-x7k2p" "openshift-lightspeed" "plan-uid")
      ["lightspeed-operator.v1.0.6"] false in
  let c :=
    Examples.clusterWith
      (client.mkObjects [] [] [Examples.userCSV] [subscription] [installPlan] [] []) in
  let c' := match ols_install.EnsureOLSOperatorInstalled (Examples.getenv "1.0.6")
                    Examples.instance1 c with
            | client.Return _ c' | client.Panic _ c' => c'
            end in
  List.find (fun CSV => GoStrings.HasPrefix (GetName CSV) ols_install.OLSOperatorName)
    (client.csvs (client.objects c)) = Some Examples.userCSV /\
  GetOwnerReferences Examples.userCSV = [] /\
  funcs.IsOwnedBy Examples.userCSV Examples.instance1 = false /\
  funcs.IsOwnedBy Examples.userCSV subscription = false /\
  ols_install.GetOLSSubscriptionName Examples.instance1 = Some (GetName subscription) /\
  funcs.IsOwnedBy subscription Examples.instance1 = true /\
  ols_install.EnsureOLSOperatorInstalled (Examples.getenv "1.0.6") Examples.instance1 c
  = client.Return (true, None) c' /\
  client.installPlans (client.objects c')
  = [operatorsv1alpha1.set_Approved true installPlan] /\
  client.csvs (client.objects c')
  = [SetOwnerReferences
       [metav1.mkOwnerReference "lightspeed.openstack.org/v1beta1" "OpenStackLightspeed"
          "openstack-lightspeed" Examples.uid1 (Some true) (Some true)]
       Examples.userCSV] /\
  client.calls c'
  = [client.CallNewClient;
     client.CallList client.KClusterServiceVersion "";
     client.CallGet client.KSubscription "openshift-lightspeed" "lightspeed-operator-3f2a9";
     client.CallGet client.KSubscription "openshift-lightspeed" "lightspeed-operator-3f2a9";
     client.CallList client.KInstallPlan "openshift-lightspeed";
     client.CallUpdate client.KInstallPlan "openshift-lightspeed" "install-x7k2p";
     client.CallNewClient;
     client.CallList client.KClusterServiceVersion "";
     client.CallUpdate client.KClusterServiceVersion "openshift-lightspeed"
       "lightspeed-operator.v1.0.6";
     client.CallNewClient;
     client.CallList client.KClusterServiceVersion ""].
Proof. cbn zeta. repeat split; by vm_compute. Qed.

(** The same cluster in the revision of [part_002], with the version of the
    user's operator recommended: [EnsureOLSOperatorInstalled] returns
    [(true, nil)] and no error. *)
Lemma EnsureOLSOperatorInstalled_accepts_recommended_version :
  let c := Examples.withUserCSV in
  List.find (fun CSV => GoStrings.HasPrefix (GetName CSV) ols_install.OLSOperatorName)
    (client.csvs (client.objects c)) = Some Examples.userCSV /\
  funcs.IsOwnedBy Examples.userCSV Examples.instance1 = false /\
  client.subscriptions (client.objects c) = [] /\
  part_002.EnsureOLSOperatorInstalled (Examples.getenv "1.0.6") Examples.instance1 c
  = client.Return (true, None)
      (client.afterRequests
         [client.CallList client.KClusterServiceVersion "";
          client.CallGet client.KSubscription "openshift-lightspeed"
            "lightspeed-operator-3f2a9";
          client.CallList client.KClusterServiceVersion ""] c).
Proof. cbn zeta. repeat split; vm_compute; reflexivity. Qed.

(* ===================================================================== *)
(** * Further properties of the controller                                *)
(* ===================================================================== *)
(* --------------------------------------------------------------------- *)
(** ** More on the versions of the cluster                                *)
(* --------------------------------------------------------------------- *)

(** A string that matches [\d+\.\d+] as a whole is its own major.minor
    prefix. *)
Lemma matchesPattern_majorMinorPrefix (p : string) :
  MajorMinor.matchesPattern p -> MajorMinor.majorMinorPrefix p p.
Proof.
  intros (major & minor & Hmajor & Hminor & ->).
  exists major, minor, "". repeat split; try apply Hmajor; try apply Hminor.
  by rewrite append_nil_r.
Qed.

Lemma majorMinorPrefix_matchesPattern (v p : string) :
  MajorMinor.majorMinorPrefix v p -> MajorMinor.matchesPattern p.
Proof. intros (major & minor & rest & Hmajor & Hminor & -> & _). by exists major, minor. Qed.

Lemma ParseMajorMinorVersion_inv (v p : string) :
  OCPVersion.ParseMajorMinorVersion v = (p, None) -> MajorMinor.majorMinorPrefix v p.
Proof.
  rewrite ParseMajorMinorVersion_scan.
  destruct (MajorMinor.scanMajorMinor v) as [q|] eqn:Hscan; [| done].
  intros [= <-]. by apply scanMajorMinor_sound.
Qed.

Lemma matchesPattern_nonempty (p : string) : MajorMinor.matchesPattern p -> p <> "".
Proof.
  intros (major & minor & [Hmajor _] & _ & ->). by apply append_nonempty_l.
Qed.

(** X1. [ParseMajorMinorVersion] is idempotent: a version that it returns
    is not empty, matches [\d+\.\d+] as a whole, and is returned as it is
    when it is parsed again. *)
Theorem ParseMajorMinorVersion_idempotent (fullVersion majorMinor : string) :
  OCPVersion.ParseMajorMinorVersion fullVersion = (majorMinor, None) ->
  majorMinor <> "" /\
  MajorMinor.matchesPattern majorMinor /\
  OCPVersion.ParseMajorMinorVersion majorMinor = (majorMinor, None).
Proof.
  intros Hparse%ParseMajorMinorVersion_inv%majorMinorPrefix_matchesPattern.
  split; [by apply matchesPattern_nonempty |]. split; [done |].
  rewrite ParseMajorMinorVersion_scan.
  by rewrite (scanMajorMinor_complete _ _ (matchesPattern_majorMinorPrefix _ Hparse)).
Qed.

Lemma ParseMajorMinorVersion_idempotent_witness :
  OCPVersion.ParseMajorMinorVersion "4.18.12" = ("4.18", None) /\
  OCPVersion.ParseMajorMinorVersion "4.18" = ("4.18", None).
Proof.
  assert (H : OCPVersion.ParseMajorMinorVersion "4.18.12" = ("4.18", None))
    by (vm_compute; reflexivity).
  split; [exact H |].
  exact (proj2 (proj2 (ParseMajorMinorVersion_idempotent "4.18.12" "4.18" H))).
Defined.

(** X2. What [ResolveOCPVersion] returns without an error.  When the OCP
    RAG is enabled the version is never empty, and without an override it
    is one of the supported versions.  The fallback flag is only raised for
    the version [latest], with the RAG enabled, no override, and a detected
    version that is not supported. *)
Theorem ResolveOCPVersion_result (detectedVersion overrideVersion : string)
    (enableOCPRAG : bool) (version : string) (isFallback : bool) :
  OCPVersion.ResolveOCPVersion detectedVersion overrideVersion enableOCPRAG
  = (version, isFallback, None) ->
  (enableOCPRAG = true -> version <> "") /\
  (enableOCPRAG = true -> overrideVersion = "" ->
   OCPVersion.IsSupportedOCPVersion version = true) /\
  (isFallback = true ->
   version = OCPVersion.OCPVersionLatest /\ enableOCPRAG = true /\
   overrideVersion = "" /\ detectedVersion <> "" /\
   OCPVersion.IsSupportedOCPVersion detectedVersion = false).
Proof.
  unfold OCPVersion.ResolveOCPVersion.
  destruct enableOCPRAG; cbn [negb]; [| by intros [= <- <-]].
  destruct (String.eqb_spec overrideVersion "") as [->|Hoverride]; cbn [negb];
    [| by intros [= <- <-]].
  destruct (String.eqb_spec detectedVersion "") as [->|Hdetected]; [done |].
  destruct (OCPVersion.IsSupportedOCPVersion detectedVersion) eqn:Hsupported;
    intros [= <- <-]; repeat split; try done.
Qed.

Lemma ResolveOCPVersion_result_witness :
  OCPVersion.ResolveOCPVersion "4.17" "" true = ("latest", true, None) /\
  OCPVersion.IsSupportedOCPVersion "latest" = true /\
  OCPVersion.IsSupportedOCPVersion "4.17" = false.
Proof.
  assert (H : OCPVersion.ResolveOCPVersion "4.17" "" true = ("latest", true, None))
    by reflexivity.
  destruct (ResolveOCPVersion_result "4.17" "" true "latest" true H)
    as (_ & Hsupported & Hfallback).
  split; [exact H |]. split; [by apply Hsupported |].
  by apply Hfallback.
Defined.

(** X3. A version that [ParseMajorMinorVersion] has returned is always
    resolved, whatever the cluster runs: with the OCP RAG enabled and no
    override, [ResolveOCPVersion] returns no error on it, and the version
    it returns is a supported one. *)
Theorem ResolveOCPVersion_after_parse (fullVersion majorMinor : string) :
  OCPVersion.ParseMajorMinorVersion fullVersion = (majorMinor, None) ->
  exists version isFallback,
    OCPVersion.ResolveOCPVersion majorMinor "" true = (version, isFallback, None) /\
    OCPVersion.IsSupportedOCPVersion version = true /\
    isFallback = negb (OCPVersion.IsSupportedOCPVersion majorMinor).
Proof.
  intros Hparse%ParseMajorMinorVersion_inv%majorMinorPrefix_matchesPattern.
  apply matchesPattern_nonempty, String.eqb_neq in Hparse.
  unfold OCPVersion.ResolveOCPVersion. cbn [negb String.eqb]. rewrite Hparse.
  destruct (OCPVersion.IsSupportedOCPVersion majorMinor) eqn:Hsupported;
    by eexists _, _.
Qed.

Lemma ResolveOCPVersion_after_parse_witness :
  exists version isFallback,
    OCPVersion.ResolveOCPVersion "4.15" "" true = (version, isFallback, None) /\
    OCPVersion.IsSupportedOCPVersion version = true /\
    isFallback = negb (OCPVersion.IsSupportedOCPVersion "4.15").
Proof.
  apply (ResolveOCPVersion_after_parse "4.15.0-0.nightly-2024-01-15-123456").
  vm_compute. reflexivity.
Defined.

(* --------------------------------------------------------------------- *)
(** ** The name of the index of a version                                 *)
(* --------------------------------------------------------------------- *)

Lemma ContainsByte_append (a b : string) (c : ascii) :
  GoStrings.ContainsByte (a +:+ b) c
  = GoStrings.ContainsByte a c || GoStrings.ContainsByte b c.
Proof.
  induction a as [|x a IH]; [done |].
  rewrite append_cons. cbn [GoStrings.ContainsByte]. by rewrite IH, orb_assoc.
Qed.

(** After all the occurrences of a byte are replaced, none is left. *)
Lemma ReplaceAllByte_free (s : string) (old : ascii) (new : string) :
  GoStrings.ContainsByte new old = false ->
  GoStrings.ContainsByte (GoStrings.ReplaceAllByte s old new) old = false.
Proof.
  intros Hnew. induction s as [|c s IH]; [done |]. cbn [GoStrings.ReplaceAllByte].
  destruct (Ascii.eqb c old) eqn:Hc.
  - by rewrite ContainsByte_append, Hnew, IH.
  - cbn [GoStrings.ContainsByte]. by rewrite Hc, IH.
Qed.

Lemma length_ReplaceAllByte (s : string) (old new : ascii) :
  String.length (GoStrings.ReplaceAllByte s old (String new "")) = String.length s.
Proof.
  induction s as [|c s IH]; [done |]. cbn [GoStrings.ReplaceAllByte].
  destruct (Ascii.eqb c old); rewrite ?append_cons, ?append_nil_l; simpl; by rewrite IH.
Qed.

(** Replacing a byte by one that the string does not have can be undone. *)
Lemma ReplaceAllByte_undo (s : string) (old new : ascii) :
  GoStrings.ContainsByte s new = false ->
  GoStrings.ReplaceAllByte (GoStrings.ReplaceAllByte s old (String new ""))
    new (String old "") = s.
Proof.
  induction s as [|c s IH]; [done |]. cbn [GoStrings.ContainsByte].
  intros [Hc Hs]%orb_false_elim. cbn [GoStrings.ReplaceAllByte].
  destruct (Ascii.eqb_spec c old) as [->|Hold].
  - rewrite append_cons, append_nil_l. cbn [GoStrings.ReplaceAllByte].
    rewrite Ascii.eqb_refl, append_cons, append_nil_l. by rewrite IH.
  - cbn [GoStrings.ReplaceAllByte]. rewrite Hc. by rewrite IH.
Qed.

Lemma HasPrefix_append (prefix s : string) :
  GoStrings.HasPrefix (prefix +:+ s) prefix = true.
Proof.
  induction prefix as [|c prefix IH]; [by destruct s |].
  rewrite append_cons. cbn [GoStrings.HasPrefix]. by rewrite Ascii.eqb_refl.
Qed.

(** X4. The index name of a version is the prefix [ocp-product-docs-] and
    the version with every dot replaced: it has no dot, it is as long as the
    prefix and the version together, and two versions without underscore
    that have the same index name are the same version. *)
Theorem GetOCPIndexName_spec (version : string) :
  GoStrings.HasPrefix (OCPVersion.GetOCPIndexName version) "ocp-product-docs-" = true /\
  GoStrings.ContainsByte (OCPVersion.GetOCPIndexName version) "."%char = false /\
  String.length (OCPVersion.GetOCPIndexName version) = 17 + String.length version /\
  (forall other : string,
     GoStrings.ContainsByte version "_"%char = false ->
     GoStrings.ContainsByte other "_"%char = false ->
     OCPVersion.GetOCPIndexName version = OCPVersion.GetOCPIndexName other ->
     version = other).
Proof.
  unfold OCPVersion.GetOCPIndexName, OCPVersion.OpenStackLightspeedOCPIndexPrefix.
  split; [by rewrite <- append_assoc; apply HasPrefix_append |]. split; [| split].
  - rewrite !ContainsByte_append. by rewrite ReplaceAllByte_free.
  - rewrite !length_append, length_ReplaceAllByte. reflexivity.
  - intros other Hversion Hother Hsame.
    apply append_inj_r in Hsame. apply append_inj_r in Hsame.
    rewrite <- (ReplaceAllByte_undo version "." "_" Hversion).
    rewrite <- (ReplaceAllByte_undo other "." "_" Hother).
    by rewrite Hsame.
Qed.

(* --------------------------------------------------------------------- *)
(** ** What the log of the pod can yield                                  *)
(* --------------------------------------------------------------------- *)

(** What the loop of [extractEnvFromPodLogs] returns is the value of a line
    of the log, the first that yields the variable. *)
Lemma envFromLines_inv (envVarName value : string) (envLines : list string) :
  GoStrings.ContainsByte envVarName "="%char = false ->
  part_002.envFromLines envVarName envLines = (value, None) ->
  GoStrings.ContainsByte value "="%char = false /\
  exists i : nat,
    envLines !! i = Some (envVarName +:+ "=" +:+ value) /\
    forall j l, j < i -> envLines !! j = Some l -> ~ part_002.yields envVarName l.
Proof.
  intros Hname. induction envLines as [|envLine rest IH]; [done |].
  assert (Hskip : part_002.envFromLines envVarName rest = (value, None) ->
                  ~ part_002.yields envVarName envLine ->
                  GoStrings.ContainsByte value "="%char = false /\
                  exists i : nat,
                    (envLine :: rest) !! i = Some (envVarName +:+ "=" +:+ value) /\
                    forall j l, j < i -> (envLine :: rest) !! j = Some l ->
                                ~ part_002.yields envVarName l).
  { intros Hrest Hno. destruct (IH Hrest) as (Hvalue & i & Hi & Hbefore).
    split; [done |]. exists (S i). split; [done |].
    intros [|j] l Hj Hl; [by injection Hl as <- |]. apply (Hbefore j); [lia | done]. }
  assert (Hparts : forall parts, GoStrings.Split envLine "=" = parts ->
                     match parts with [_; _] => False | _ => True end ->
                     ~ part_002.yields envVarName envLine).
  { intros parts Hsplit Hshape (v & -> & Hv).
    rewrite (Split_key_value "="%char) in Hsplit by done. by subst parts. }
  cbn [part_002.envFromLines].
  destruct (GoStrings.Split envLine "=") as [|p0 [|p1 [|p2 ps]]] eqn:Hsplit;
    try (intros Hrest; apply Hskip; [done | exact (Hparts _ eq_refl I)]).
  destruct (String.eqb_spec p0 envVarName) as [->|Hp0].
  - intros [= <-]. apply (Split_two_inv "="%char) in Hsplit as [-> Hfree].
    split; [done |]. exists 0. split; [done |]. intros j l Hj. lia.
  - intros Hrest. apply Hskip; [done |]. intros (v & -> & Hv).
    rewrite (Split_key_value "="%char) in Hsplit by done. by injection Hsplit as <- _.
Qed.

(** X5. Whatever [extractEnvFromPodLogs] returns without an error has been
    read from the log of the pod: it is the value of the first line of the
    log that yields the variable, and it has no ['='] and no line break. *)
Theorem extractEnvFromPodLogs_sound (pod : corev1.Pod) (envVarName value : string)
    (c c' : client.Cluster) :
  GoStrings.ContainsByte envVarName "="%char = false ->
  part_002.extractEnvFromPodLogs pod envVarName c = client.Return (value, None) c' ->
  exists (stored : corev1.Pod) (i : nat),
    client.lookupObject (client.keyOf pod) (client.pods (client.objects c)) = Some stored /\
    GoStrings.Split (corev1.pod_Logs stored) GoStrings.LF !! i
    = Some (envVarName +:+ "=" +:+ value) /\
    (forall j l, j < i ->
       GoStrings.Split (corev1.pod_Logs stored) GoStrings.LF !! j = Some l ->
       ~ part_002.yields envVarName l) /\
    GoStrings.ContainsByte value "="%char = false /\
    GoStrings.ContainsByte value (ascii_of_nat 10) = false.
Proof.
  intros Hname. unfold part_002.extractEnvFromPodLogs.
  rewrite bind_eq, request_next.
  destruct (client.nextFault c); [done |].
  rewrite bind_eq, request_next.
  destruct (client.nextFault _); [done |].
  unfold client.getObjects. rewrite bind_eq.
  cbn [client.store client.Pod_Resource client.objects client.afterRequests].
  destruct (client.lookupObject _ _) as [stored|] eqn:Hstored; [| done].
  rewrite ret_eq. intros [= Hlines _].
  apply (envFromLines_inv _ _ _ Hname) in Hlines as (Hvalue & i & Hi & Hbefore).
  exists stored, i. repeat split; try done.
  pose proof (Split_parts_free (ascii_of_nat 10) (corev1.pod_Logs stored)) as Hfree.
  rewrite Forall_lookup in Hfree. specialize (Hfree i _ Hi).
  cbn beta in Hfree. rewrite !ContainsByte_append in Hfree.
  by apply orb_false_elim in Hfree as [_ [_ ?]%orb_false_elim].
Qed.

Lemma extractEnvFromPodLogs_sound_witness :
  exists (stored : corev1.Pod) (i : nat),
    client.lookupObject (client.keyOf (Examples.discoveryPod Examples.logsPlain))
      (client.pods (client.objects (Examples.withPod (Examples.discoveryPod Examples.logsPlain))))
    = Some stored /\
    GoStrings.Split (corev1.pod_Logs stored) GoStrings.LF !! i
    = Some ("INDEX_NAME" +:+ "=" +:+ "os-docs-2025.1") /\
    (forall j l, j < i ->
       GoStrings.Split (corev1.pod_Logs stored) GoStrings.LF !! j = Some l ->
       ~ part_002.yields "INDEX_NAME" l) /\
    GoStrings.ContainsByte "os-docs-2025.1" "="%char = false /\
    GoStrings.ContainsByte "os-docs-2025.1" (ascii_of_nat 10) = false.
Proof.
  apply (extractEnvFromPodLogs_sound (Examples.discoveryPod Examples.logsPlain)
           "INDEX_NAME" "os-docs-2025.1"
           (Examples.withPod (Examples.discoveryPod Examples.logsPlain))
           (client.afterRequests
              [client.CallNewClient;
               client.CallGetLogs "openshift-lightspeed"
                 "openstack-lightspeed-0a1b2c3d4-x7k2p"]
              (Examples.withPod (Examples.discoveryPod Examples.logsPlain)))).
  - reflexivity.
  - vm_compute. reflexivity.
Defined.

(* --------------------------------------------------------------------- *)
(** ** What [PatchOLSConfig] writes and what it leaves                    *)
(* --------------------------------------------------------------------- *)

(** A write, whether it succeeds or not, leaves what is read at a path that
    parts ways with the one that is written. *)
Lemma SetNestedField_keeps (obj : gmap string uns.value) (v : uns.value)
    (p q : list string) :
  uns.diverge p q = true ->
  uns.NestedFieldNoCopy (uns.SetNestedField obj v p).1 q = uns.NestedFieldNoCopy obj q.
Proof.
  destruct p as [|f fs]; [done |]. intros Hdiv. by apply setNestedFrom_frame.
Qed.

Lemma AddFinalizer_keeps (obj : gmap string uns.value) (fin : string) (q : list string) :
  uns.diverge ["metadata"; "finalizers"] q = true ->
  uns.NestedFieldNoCopy
    (uns.Object (controllerutil.AddFinalizer (uns.mkUnstructured obj) fin).1) q
  = uns.NestedFieldNoCopy obj q.
Proof.
  intros Hdiv. rewrite AddFinalizer_Unstructured.
  destruct (bool_decide _); cbn [fst uns.Object]; [done |].
  by apply SetNestedField_keeps.
Qed.

Section PatchFrame.
Variable helper : common_helper.Helper.
Variable instance : apiv1beta1.OpenStackLightspeed.
Variable q : list string.
Variable read : uns.value * bool * option error.

(** A step of the patch keeps what is read at [q] when the write does and
    the rest of the patch does. *)
Lemma andThen_keeps (r : gmap string uns.value * option error)
    (k : gmap string uns.value -> uns.Unstructured * option error) :
  uns.NestedFieldNoCopy r.1 q = read ->
  (forall obj, uns.NestedFieldNoCopy obj q = read ->
               uns.NestedFieldNoCopy (uns.Object (k obj).1) q = read) ->
  uns.NestedFieldNoCopy (uns.Object (funcs.andThen r k).1) q = read.
Proof.
  intros Hr Hk. unfold funcs.andThen. destruct r as [obj [e|]]; cbn [fst snd] in *.
  - done.
  - by apply Hk.
Qed.

Hypothesis Hq :
  Forall (fun p => uns.diverge p q = true)
    [["spec"; "llm"; "providers"];
     ["spec"; "ols"; "rag"];
     ["spec"; "ols"; "additionalCAConfigMapRef"; "name"];
     ["spec"; "ols"; "defaultModel"];
     ["spec"; "ols"; "defaultProvider"];
     ["spec"; "ols"; "byokRAGOnly"];
     ["metadata"; "labels"];
     ["metadata"; "finalizers"]].

Lemma PatchOLSConfig_keeps (olsConfig : uns.Unstructured) :
  uns.NestedFieldNoCopy (uns.Object olsConfig) q = read ->
  uns.NestedFieldNoCopy
    (uns.Object (funcs.PatchOLSConfig helper instance olsConfig).1) q = read.
Proof.
  pose proof Hq as Hall. repeat (apply Forall_cons in Hall as [? Hall]).
  unfold funcs.PatchOLSConfig, uns.SetNestedSlice. intros Hread.
  apply andThen_keeps; [by rewrite SetNestedField_keeps | intros obj1 K1].
  apply andThen_keeps; [by rewrite SetNestedField_keeps | intros obj2 K2].
  apply andThen_keeps;
    [destruct (negb _); [by rewrite SetNestedField_keeps | done] | intros obj3 K3].
  apply andThen_keeps; [by rewrite SetNestedField_keeps | intros obj4 K4].
  apply andThen_keeps; [by rewrite SetNestedField_keeps | intros obj5 K5].
  apply andThen_keeps; [by rewrite SetNestedField_keeps | intros obj6 K6].
  apply andThen_keeps; [by rewrite SetNestedField_keeps | intros obj7 K7].
  pose proof (AddFinalizer_keeps obj7 (common_helper.GetFinalizer helper) q) as Hfin.
  destruct (controllerutil.AddFinalizer _ _) as [o added].
  cbn [fst] in Hfin. rewrite <- K7, <- Hfin by done.
  by destruct (negb added && _).
Qed.

End PatchFrame.

(** X6. [PatchOLSConfig] writes at eight paths of the object and nowhere
    else: whatever is read at a path that parts ways with each of them is
    read again after the patch, failed or not.  So the name and the
    namespace of the object stay (the key that [CreateOrPatch] checks), and
    so does its status. *)
Theorem PatchOLSConfig_frame (helper : common_helper.Helper)
    (instance : apiv1beta1.OpenStackLightspeed) (olsConfig : uns.Unstructured) :
  let once := (funcs.PatchOLSConfig helper instance olsConfig).1 in
  (forall q : list string,
     Forall (fun p => uns.diverge p q = true)
       [["spec"; "llm"; "providers"];
        ["spec"; "ols"; "rag"];
        ["spec"; "ols"; "additionalCAConfigMapRef"; "name"];
        ["spec"; "ols"; "defaultModel"];
        ["spec"; "ols"; "defaultProvider"];
        ["spec"; "ols"; "byokRAGOnly"];
        ["metadata"; "labels"];
        ["metadata"; "finalizers"]] ->
     uns.NestedFieldNoCopy (uns.Object once) q
     = uns.NestedFieldNoCopy (uns.Object olsConfig) q) /\
  client.keyOf once = client.keyOf olsConfig /\
  createor.statusOf once = createor.statusOf olsConfig /\
  uns.GetDeletionTimestamp once = uns.GetDeletionTimestamp olsConfig.
Proof.
  cbn zeta.
  assert (Hframe : forall q : list string,
     Forall (fun p => uns.diverge p q = true)
       [["spec"; "llm"; "providers"];
        ["spec"; "ols"; "rag"];
        ["spec"; "ols"; "additionalCAConfigMapRef"; "name"];
        ["spec"; "ols"; "defaultModel"];
        ["spec"; "ols"; "defaultProvider"];
        ["spec"; "ols"; "byokRAGOnly"];
        ["metadata"; "labels"];
        ["metadata"; "finalizers"]] ->
     uns.NestedFieldNoCopy
       (uns.Object (funcs.PatchOLSConfig helper instance olsConfig).1) q
     = uns.NestedFieldNoCopy (uns.Object olsConfig) q).
  { intros q Hq. by apply PatchOLSConfig_keeps. }
  split; [exact Hframe |].
  assert (Hname := Hframe ["metadata"; "name"] ltac:(by repeat constructor)).
  assert (Hnamespace := Hframe ["metadata"; "namespace"] ltac:(by repeat constructor)).
  assert (Hstatus := Hframe ["status"] ltac:(by repeat constructor)).
  assert (Hdeletion := Hframe ["metadata"; "deletionTimestamp"]
                         ltac:(by repeat constructor)).
  split; [| split].
  - unfold client.keyOf, client.OLSConfig_Resource, uns.GetName, uns.GetNamespace,
      uns.NestedString. by rewrite Hname, Hnamespace.
  - unfold createor.statusOf. by rewrite Hstatus.
  - unfold uns.GetDeletionTimestamp, uns.NestedString. by rewrite Hdeletion.
Qed.

(** Records that the write [E] keeps what is read at the path [q]. *)
Ltac kept E q K :=
  match type of E with
  | uns.SetNestedField ?o ?v ?p = _ =>
      pose proof (SetNestedField_keeps o v p q eq_refl) as K;
      rewrite E in K; cbn [fst] in K
  end.

(** The same for the labels and the finalizers, from one write to the next. *)
Ltac keeping E L N :=
  let L' := fresh "L" in
  let N' := fresh "N" in
  kept E ["metadata"; "labels"] L'; kept E ["metadata"; "finalizers"] N';
  pose proof (eq_trans L' L); pose proof (eq_trans N' N); clear L N L' N';
  match goal with
  | A : uns.NestedFieldNoCopy _ ["metadata"; "labels"] = _,
    B : uns.NestedFieldNoCopy _ ["metadata"; "finalizers"] = _ |- _ =>
      rename A into L; rename B into N
  end.

Section PatchSuccess.
Variable helper : common_helper.Helper.
Variable instance : apiv1beta1.OpenStackLightspeed.
Variables olsConfig once : uns.Unstructured.
Variable err : option error.
Hypothesis Hpatch : funcs.PatchOLSConfig helper instance olsConfig = (once, err).
Hypothesis Herr : forall e, err <> Some e.

Lemma PatchOLSConfig_success_inv :
  exists obj7 : gmap string uns.value,
    once = (controllerutil.AddFinalizer (uns.mkUnstructured obj7)
              (common_helper.GetFinalizer helper)).1 /\
    uns.NestedFieldNoCopy obj7 ["metadata"; "finalizers"]
    = uns.NestedFieldNoCopy (uns.Object olsConfig) ["metadata"; "finalizers"] /\
    uns.hasField obj7 ["metadata"; "labels"]
      (uns.Map (funcs.updatedLabels instance (uns.GetLabels olsConfig))) /\
    uns.hasField obj7 ["spec"; "llm"; "providers"]
      (uns.Slice (funcs.providersPatch instance)) /\
    uns.hasField obj7 ["spec"; "ols"; "rag"] (uns.Slice (funcs.openstackRAG instance)) /\
    uns.hasField obj7 ["spec"; "ols"; "defaultModel"]
      (uns.Str (apiv1beta1.ModelName (apiv1beta1.Spec instance))) /\
    uns.hasField obj7 ["spec"; "ols"; "defaultProvider"]
      (uns.Str funcs.OpenStackLightspeedDefaultProvider) /\
    uns.hasField obj7 ["spec"; "ols"; "byokRAGOnly"] (uns.Bool true) /\
    (apiv1beta1.TLSCACertBundle (apiv1beta1.Spec instance) <> "" ->
     uns.hasField obj7 ["spec"; "ols"; "additionalCAConfigMapRef"; "name"]
       (uns.Str (apiv1beta1.TLSCACertBundle (apiv1beta1.Spec instance)))).
Proof.
  pose proof Hpatch as H. unfold funcs.PatchOLSConfig, uns.SetNestedSlice in H.
  assert (L : uns.NestedFieldNoCopy (uns.Object olsConfig) ["metadata"; "labels"]
              = uns.NestedFieldNoCopy (uns.Object olsConfig) ["metadata"; "labels"])
    by done.
  assert (N : uns.NestedFieldNoCopy (uns.Object olsConfig) ["metadata"; "finalizers"]
              = uns.NestedFieldNoCopy (uns.Object olsConfig) ["metadata"; "finalizers"])
    by done.
  assert (Hlabels : forall obj,
            uns.NestedFieldNoCopy obj ["metadata"; "labels"]
            = uns.NestedFieldNoCopy (uns.Object olsConfig) ["metadata"; "labels"] ->
            uns.GetLabels (uns.mkUnstructured obj) = uns.GetLabels olsConfig).
  { intros obj Hobj. unfold uns.GetLabels, uns.NestedStringMap. cbn [uns.Object].
    by rewrite Hobj. }
  destruct (negb (apiv1beta1.TLSCACertBundle (apiv1beta1.Spec instance) =? ""))%string
    eqn:Htls.
  - step H E1; [by destruct (Herr _ eq_refl) |]. keeping E1 L N. advance E1.
    step H E2; [by destruct (Herr _ eq_refl) |]. keeping E2 L N. advance E2.
    step H E3; [by destruct (Herr _ eq_refl) |]. keeping E3 L N. advance E3.
    step H E4; [by destruct (Herr _ eq_refl) |]. keeping E4 L N. advance E4.
    step H E5; [by destruct (Herr _ eq_refl) |]. keeping E5 L N. advance E5.
    step H E6; [by destruct (Herr _ eq_refl) |]. keeping E6 L N. advance E6.
    step H E7; [by destruct (Herr _ eq_refl) |].
    rewrite (Hlabels _ L) in E7. kept E7 ["metadata"; "finalizers"] N7.
    pose proof (eq_trans N7 N) as N8. advance E7.
    destruct (controllerutil.AddFinalizer _ _) as [o added] eqn:Hadd.
    destruct (negb added && _); injection H as <- <-; [by destruct (Herr _ eq_refl) |].
    eexists. split; [by rewrite Hadd |]. by repeat split.
  - step H E1; [by destruct (Herr _ eq_refl) |]. keeping E1 L N. advance E1.
    step H E2; [by destruct (Herr _ eq_refl) |]. keeping E2 L N. advance E2.
    unfold funcs.andThen at 1 in H; cbn beta iota delta [fst snd] in H.
    step H E4; [by destruct (Herr _ eq_refl) |]. keeping E4 L N. advance E4.
    step H E5; [by destruct (Herr _ eq_refl) |]. keeping E5 L N. advance E5.
    step H E6; [by destruct (Herr _ eq_refl) |]. keeping E6 L N. advance E6.
    step H E7; [by destruct (Herr _ eq_refl) |].
    rewrite (Hlabels _ L) in E7. kept E7 ["metadata"; "finalizers"] N7.
    pose proof (eq_trans N7 N) as N8. advance E7.
    destruct (controllerutil.AddFinalizer _ _) as [o added] eqn:Hadd.
    destruct (negb added && _); injection H as <- <-; [by destruct (Herr _ eq_refl) |].
    eexists. split; [by rewrite Hadd |]. repeat split; try done.
    intros Hne. apply String.eqb_neq in Hne. by rewrite Hne in Htls.
Qed.

End PatchSuccess.

Lemma PatchOLSConfig_success (helper : common_helper.Helper)
    (instance : apiv1beta1.OpenStackLightspeed) (olsConfig once : uns.Unstructured) :
  funcs.PatchOLSConfig helper instance olsConfig = (once, None) ->
  exists obj7 : gmap string uns.value,
    once = (controllerutil.AddFinalizer (uns.mkUnstructured obj7)
              (common_helper.GetFinalizer helper)).1 /\
    uns.NestedFieldNoCopy obj7 ["metadata"; "finalizers"]
    = uns.NestedFieldNoCopy (uns.Object olsConfig) ["metadata"; "finalizers"] /\
    uns.hasField obj7 ["metadata"; "labels"]
      (uns.Map (funcs.updatedLabels instance (uns.GetLabels olsConfig))) /\
    uns.hasField obj7 ["spec"; "llm"; "providers"]
      (uns.Slice (funcs.providersPatch instance)) /\
    uns.hasField obj7 ["spec"; "ols"; "rag"] (uns.Slice (funcs.openstackRAG instance)) /\
    uns.hasField obj7 ["spec"; "ols"; "defaultModel"]
      (uns.Str (apiv1beta1.ModelName (apiv1beta1.Spec instance))) /\
    uns.hasField obj7 ["spec"; "ols"; "defaultProvider"]
      (uns.Str funcs.OpenStackLightspeedDefaultProvider) /\
    uns.hasField obj7 ["spec"; "ols"; "byokRAGOnly"] (uns.Bool true) /\
    (apiv1beta1.TLSCACertBundle (apiv1beta1.Spec instance) <> "" ->
     uns.hasField obj7 ["spec"; "ols"; "additionalCAConfigMapRef"; "name"]
       (uns.Str (apiv1beta1.TLSCACertBundle (apiv1beta1.Spec instance)))).
Proof. intros Hpatch. by apply (PatchOLSConfig_success_inv _ _ _ _ _ Hpatch). Qed.

(** The finalizer is added beside the labels and the specification. *)
Lemma AddFinalizer_hasField (obj : gmap string uns.value) (fin : string)
    (p : list string) (v : uns.value) :
  uns.diverge ["metadata"; "finalizers"] p = true ->
  uns.hasField obj p v ->
  uns.hasField (uns.Object (controllerutil.AddFinalizer (uns.mkUnstructured obj) fin).1) p v.
Proof. intros Hdiv Hp. unfold uns.hasField. by rewrite AddFinalizer_keeps. Qed.

(** The odd part of a mantissa keeps the value. *)
Lemma oddPart_value (p : positive) (e : Z) :
  (0 <= e)%Z ->
  (0 <= (float64.oddPart p e).2)%Z /\
  (Z.pos (float64.oddPart p e).1 * 2 ^ (float64.oddPart p e).2 = Z.pos p * 2 ^ e)%Z.
Proof.
  revert e. induction p as [p _|p IH|]; intros e He; cbn [float64.oddPart fst snd];
    [done | | done].
  destruct (IH (e + 1)%Z ltac:(lia)) as [Hexp Hval]. split; [done |].
  rewrite Hval, Z.pow_add_r by lia. lia.
Qed.

Lemma toInt_make (n : Z) : float64.toInt (float64.make n 0) = Some n.
Proof.
  destruct n as [|p|p]; [done | |]; unfold float64.make;
    destruct (oddPart_value p 0 ltac:(lia)) as [Hexp Hval];
    destruct (float64.oddPart p 0) as [p' e']; cbn [fst snd] in *;
    unfold float64.toInt; cbn [float64.mantissa float64.exponent];
    rewrite (proj2 (Z.leb_le _ _) Hexp); f_equal; lia.
Qed.

(** An integer that 53 bits hold is written as it is: [float64(n)] has the
    value [n]. *)
Lemma ofInt_exact (n : Z) :
  (Z.abs n < 2 ^ 53)%Z -> float64.toInt (float64.ofInt n) = Some n.
Proof.
  intros Hn. unfold float64.ofInt. cbn zeta.
  assert (Hlog : (Z.log2 (Z.abs n) < 53)%Z).
  { destruct (decide (Z.abs n = 0%Z)) as [-> | Hnz]; [done |].
    apply Z.log2_lt_pow2; lia. }
  rewrite (proj2 (Z.leb_le _ _)) by lia. apply toInt_make.
Qed.

(** A larger integer is rounded to 53 bits, to the even mantissa when two
    values are as near. *)
Lemma ofInt_rounds :
  float64.ofInt (2 ^ 53 + 1) = float64.ofInt (2 ^ 53) /\
  float64.toInt (float64.ofInt (2 ^ 53 + 1)) = Some (2 ^ 53)%Z /\
  float64.toInt (float64.ofInt (2 ^ 53 + 3)) = Some (2 ^ 53 + 4)%Z /\
  float64.toInt (float64.ofInt (- (2 ^ 62 + 2 ^ 9))) = Some (- 2 ^ 62)%Z.
Proof. repeat split; by vm_compute. Qed.

(** X7. After a [PatchOLSConfig] that succeeded, the [OLSConfig] holds what
    the instance asks for: the provider with the model, the endpoint, the
    credentials and the limit of tokens, which is written as a [float64],
    the RAG image with its index path, the default model and provider,
    [byokRAGOnly], and the CA bundle when the instance names one. *)
Theorem PatchOLSConfig_spec_written (helper : common_helper.Helper)
    (instance : apiv1beta1.OpenStackLightspeed) (olsConfig once : uns.Unstructured) :
  funcs.PatchOLSConfig helper instance olsConfig = (once, None) ->
  uns.hasField (uns.Object once) ["spec"; "llm"; "providers"]
    (uns.Slice (funcs.providersPatch instance)) /\
  uns.hasField (uns.Object once) ["spec"; "ols"; "rag"]
    (uns.Slice (funcs.openstackRAG instance)) /\
  uns.hasField (uns.Object once) ["spec"; "ols"; "defaultModel"]
    (uns.Str (apiv1beta1.ModelName (apiv1beta1.Spec instance))) /\
  uns.hasField (uns.Object once) ["spec"; "ols"; "defaultProvider"]
    (uns.Str funcs.OpenStackLightspeedDefaultProvider) /\
  uns.hasField (uns.Object once) ["spec"; "ols"; "byokRAGOnly"] (uns.Bool true) /\
  (apiv1beta1.TLSCACertBundle (apiv1beta1.Spec instance) <> "" ->
   uns.hasField (uns.Object once) ["spec"; "ols"; "additionalCAConfigMapRef"; "name"]
     (uns.Str (apiv1beta1.TLSCACertBundle (apiv1beta1.Spec instance)))).
Proof.
  intros (obj7 & -> & _ & _ & F1 & F2 & F4 & F5 & F6 & F3)%PatchOLSConfig_success.
  repeat split; try by apply AddFinalizer_hasField.
  intros Htls. apply AddFinalizer_hasField; [done | by apply F3].
Qed.

Lemma PatchOLSConfig_spec_written_witness :
  let once := (funcs.PatchOLSConfig Examples.helper1 Examples.instance1
                 Examples.olsConfigUnlabelled).1 in
  uns.hasField (uns.Object once) ["spec"; "ols"; "defaultModel"] (uns.Str "gemini-2.5-pro") /\
  uns.hasField (uns.Object once) ["spec"; "ols"; "byokRAGOnly"] (uns.Bool true).
Proof.
  cbn zeta.
  assert (H : funcs.PatchOLSConfig Examples.helper1 Examples.instance1
                Examples.olsConfigUnlabelled
              = ((funcs.PatchOLSConfig Examples.helper1 Examples.instance1
                    Examples.olsConfigUnlabelled).1, None))
    by (vm_compute; reflexivity).
  destruct (PatchOLSConfig_spec_written _ _ _ _ H) as (_ & _ & Hmodel & _ & Hbyok & _).
  by split.
Defined.

(** X8. After a [PatchOLSConfig] that succeeded, the labels of the
    [OLSConfig] are those it had, with the owner label set to the UID of
    the instance when the object had none.  Every label that was there is
    kept with its value, the owner label included: an owner that is already
    written is not replaced. *)
Theorem PatchOLSConfig_labels (helper : common_helper.Helper)
    (instance : apiv1beta1.OpenStackLightspeed) (olsConfig once : uns.Unstructured) :
  funcs.PatchOLSConfig helper instance olsConfig = (once, None) ->
  uns.GetLabels once
  = uns.GetLabels olsConfig ∪ {[ funcs.OpenStackLightspeedOwnerIDLabel := GetUID instance ]} /\
  (forall k v, uns.GetLabels olsConfig !! k = Some v -> uns.GetLabels once !! k = Some v) /\
  (uns.GetLabels olsConfig !! funcs.OpenStackLightspeedOwnerIDLabel = None ->
   uns.GetLabels once !! funcs.OpenStackLightspeedOwnerIDLabel = Some (GetUID instance)).
Proof.
  intros (obj7 & -> & _ & Flabels & _)%PatchOLSConfig_success.
  rewrite updatedLabels_eq in Flabels.
  apply (AddFinalizer_hasField _ (common_helper.GetFinalizer helper)) in Flabels;
    [| done].
  destruct (controllerutil.AddFinalizer _ _) as [[obj] added]. cbn [fst uns.Object] in *.
  rewrite (GetLabels_hasField _ _ Flabels).
  split; [done |]. split.
  - intros k v Hk. by apply lookup_union_Some_l.
  - intros Hnone. rewrite lookup_union_r by done. apply lookup_singleton_eq.
Qed.

Lemma PatchOLSConfig_labels_witness :
  let once := (funcs.PatchOLSConfig Examples.helper1 Examples.instance1
                 Examples.olsConfigEmptyOwner).1 in
  uns.GetLabels once !! funcs.OpenStackLightspeedOwnerIDLabel = Some "".
Proof.
  cbn zeta.
  assert (H : funcs.PatchOLSConfig Examples.helper1 Examples.instance1
                Examples.olsConfigEmptyOwner
              = ((funcs.PatchOLSConfig Examples.helper1 Examples.instance1
                    Examples.olsConfigEmptyOwner).1, None))
    by (vm_compute; reflexivity).
  destruct (PatchOLSConfig_labels _ _ _ _ H) as (_ & Hkept & _).
  apply Hkept. vm_compute. reflexivity.
Defined.

(** X9. After a [PatchOLSConfig] that succeeded, the finalizer of the
    controller is among the finalizers of the [OLSConfig]: it is added at
    the end when it was not there, the finalizers that were there stay in
    their order, and it is not added a second time. *)
Theorem PatchOLSConfig_finalizers (helper : common_helper.Helper)
    (instance : apiv1beta1.OpenStackLightspeed) (olsConfig once : uns.Unstructured) :
  funcs.PatchOLSConfig helper instance olsConfig = (once, None) ->
  let finalizer := common_helper.GetFinalizer helper in
  let before := elems (uns.GetFinalizers olsConfig) in
  elems (uns.GetFinalizers once)
  = (if bool_decide (finalizer ∈ before) then before else before ++ [finalizer])%list /\
  finalizer ∈ elems (uns.GetFinalizers once).
Proof.
  intros (obj7 & -> & Hfinalizers & Flabels & _)%PatchOLSConfig_success. cbn zeta.
  assert (Hbefore : uns.GetFinalizers (uns.mkUnstructured obj7) = uns.GetFinalizers olsConfig).
  { unfold uns.GetFinalizers, uns.NestedStringSlice. cbn [uns.Object].
    by rewrite Hfinalizers. }
  rewrite AddFinalizer_Unstructured, Hbefore.
  destruct (bool_decide _) eqn:Hin; cbn [fst].
  - rewrite Hbefore. split; [done |]. by apply bool_decide_eq_true in Hin.
  - destruct (SetNestedField_sibling obj7 _
                (uns.Slice (uns.Str <$> (elems (uns.GetFinalizers olsConfig)
                                         ++ [common_helper.GetFinalizer helper])%list))
                "metadata" "labels" "finalizers" Flabels) as [obj8 Hset].
    rewrite Hset. cbn [fst].
    apply SetNestedField_hasField in Hset; [| done].
    rewrite (GetFinalizers_hasField _ _ Hset). cbn [elems default from_option id].
    split; [done |]. apply elem_of_app. right. by left.
Qed.

Lemma PatchOLSConfig_finalizers_witness :
  let once := (funcs.PatchOLSConfig Examples.helper1 Examples.instance1
                 Examples.olsConfigOfOther).1 in
  elems (uns.GetFinalizers once) = [Examples.finalizer].
Proof.
  cbn zeta.
  assert (H : funcs.PatchOLSConfig Examples.helper1 Examples.instance1
                Examples.olsConfigOfOther
              = ((funcs.PatchOLSConfig Examples.helper1 Examples.instance1
                    Examples.olsConfigOfOther).1, None))
    by (vm_compute; reflexivity).
  destruct (PatchOLSConfig_finalizers _ _ _ _ H) as [Hfinalizers _].
  rewrite Hfinalizers. vm_compute. reflexivity.
Defined.

(* --------------------------------------------------------------------- *)
(** ** More on [RemoveOLSConfig]                                          *)
(* --------------------------------------------------------------------- *)

Lemma filter_ne_length (finalizer : string) (l : list string) :
  finalizer ∉ l -> length (filter (fun e => e <> finalizer) l) = length l.
Proof.
  induction l as [|x l IH]; [done |]. intros [Hx Hl]%not_elem_of_cons.
  rewrite filter_cons_True by done. cbn [length]. by rewrite IH.
Qed.

Lemma filter_ne_shorter (finalizer : string) (l : list string) :
  finalizer ∈ l -> length (filter (fun e => e <> finalizer) l) < length l.
Proof.
  induction l as [|x l IH]; [by intros ?%elem_of_nil |].
  destruct (decide (x = finalizer)) as [->|Hx].
  - intros _. rewrite filter_cons_False by (by intros ?). cbn [length].
    pose proof (length_filter (fun e => e <> finalizer) l). lia.
  - intros [?|Hl]%elem_of_cons; [congruence |].
    rewrite filter_cons_True by done. cbn [length]. specialize (IH Hl). lia.
Qed.

(** On an [OLSConfig] of the instance that has not the finalizer of the
    controller, the function that [RemoveOLSConfig] hands to [CreateOrPatch]
    fails. *)
Lemma removeOLSConfigMutateFn_no_finalizer (helper : common_helper.Helper)
    (instance : apiv1beta1.OpenStackLightspeed) (olsConfig : uns.Unstructured) :
  uns.GetLabels olsConfig !! funcs.OpenStackLightspeedOwnerIDLabel = Some (GetUID instance) ->
  GetUID instance <> "" ->
  common_helper.GetFinalizer helper ∉ elems (uns.GetFinalizers olsConfig) ->
  (funcs.removeOLSConfigMutateFn helper instance olsConfig).2
  = Some (ErrorString "remove finalizer failed").
Proof.
  intros Hlabel Huid Hfin. unfold funcs.removeOLSConfigMutateFn.
  rewrite Hlabel. cbn [default from_option id].
  rewrite String.eqb_refl. apply String.eqb_neq in Huid. rewrite Huid. cbn [negb orb].
  unfold controllerutil.RemoveFinalizer.
  cbn [GetFinalizers Unstructured_HasFinalizers].
  rewrite (filter_ne_length _ _ Hfin), Nat.eqb_refl. done.
Qed.

(** X10. An [OLSConfig] that carries the owner label of the instance but
    not the finalizer of the controller is not deleted: once it is read,
    [RemoveOLSConfig] fails with "remove finalizer failed", and it has sent
    neither a patch nor a deletion. *)
Theorem RemoveOLSConfig_no_finalizer (helper : common_helper.Helper)
    (instance : apiv1beta1.OpenStackLightspeed) (c : client.Cluster)
    (olsConfig : uns.Unstructured) (rest : list uns.Unstructured) :
  client.served 2 c ->
  client.olsConfigs (client.objects c) = olsConfig :: rest ->
  uns.GetLabels olsConfig !! funcs.OpenStackLightspeedOwnerIDLabel = Some (GetUID instance) ->
  GetUID instance <> "" ->
  common_helper.GetFinalizer helper ∉ elems (uns.GetFinalizers olsConfig) ->
  funcs.RemoveOLSConfig helper instance c
  = client.Return (false, Some (ErrorString "remove finalizer failed"))
      (client.afterRequests
         [client.CallList client.KOLSConfig "";
          client.CallGet client.KOLSConfig (client.keyOf olsConfig).1
            (client.keyOf olsConfig).2] c).
Proof.
  intros Hserved Hstore Hlabel Huid Hfin.
  apply (nextFault_after_served 1 (client.CallList client.KOLSConfig "")) in Hserved
    as [Hfault1 Hserved].
  apply nextFault_served in Hserved as Hfault2.
  pose proof (removeOLSConfigMutateFn_no_finalizer helper _ _ Hlabel Huid Hfin) as Hfn.
  unfold funcs.RemoveOLSConfig. rewrite bind_eq, GetOLSConfig_eq, Hfault1, Hstore.
  rewrite bind_eq. unfold createor.CreateOrPatch.
  rewrite bind_eq, Get_eq, Hfault2.
  cbn [client.store client.OLSConfig_Resource client.kind].
  rewrite objects_afterRequests, Hstore, lookupObject_head.
  unfold createor.mutate.
  destruct (funcs.removeOLSConfigMutateFn helper instance olsConfig) as [olsConfig' err].
  cbn [snd] in Hfn. subst err. rewrite !ret_eq. by rewrite afterRequests_app.
Qed.

Lemma RemoveOLSConfig_no_finalizer_witness :
  let olsConfig := Examples.olsConfigWith
                     {[ funcs.OpenStackLightspeedOwnerIDLabel := uns.Str Examples.uid1 ]}
                     [] [] in
  funcs.RemoveOLSConfig Examples.helper1 Examples.instance1 (Examples.withOLSConfig olsConfig)
  = client.Return (false, Some (ErrorString "remove finalizer failed"))
      (client.afterRequests
         [client.CallList client.KOLSConfig "";
          client.CallGet client.KOLSConfig (client.keyOf olsConfig).1
            (client.keyOf olsConfig).2] (Examples.withOLSConfig olsConfig)).
Proof.
  cbn zeta. apply (RemoveOLSConfig_no_finalizer _ _ _ _ []).
  - by apply served_nil_faults.
  - reflexivity.
  - vm_compute. reflexivity.
  - discriminate.
  - vm_compute. by intros ?%elem_of_nil.
Defined.

(* --------------------------------------------------------------------- *)
(** ** The removal of an [OLSConfig] of the instance                      *)
(* --------------------------------------------------------------------- *)

Lemma mapM_asString_inv (vs : list uns.value) (l : list string) :
  mapM uns.asString vs = Some l -> vs = uns.Str <$> l.
Proof.
  revert l. induction vs as [|v vs IH]; intros l.
  - by intros [= <-].
  - cbn [mapM]. destruct v as [| | | |s| |]; try done. cbn.
    destruct (mapM uns.asString vs) as [l'|] eqn:Hvs; [| done].
    cbn. intros [= <-]. cbn. by rewrite (IH l' eq_refl).
Qed.

(** Finalizers that are read are a list of strings in the document. *)
Lemma GetFinalizers_Some_inv (u : uns.Unstructured) (l : list string) :
  uns.GetFinalizers u = Some l ->
  uns.hasField (uns.Object u) ["metadata"; "finalizers"] (uns.Slice (uns.Str <$> l)).
Proof.
  unfold uns.GetFinalizers, uns.NestedStringSlice, uns.hasField.
  destruct (uns.NestedFieldNoCopy _ _) as [[val found] err] eqn:Hread.
  assert (Hshape : found = true -> err = None).
  { unfold uns.NestedFieldNoCopy in Hread. cbn in Hread.
    destruct (uns.Object u !! "metadata") as [[| | | | | |m]|]; try by injection Hread as <- <- <-.
    destruct (m !! "finalizers"); by injection Hread as <- <- <-. }
  destruct found; cbn [negb orb fst]; [| done].
  rewrite (Hshape eq_refl). rewrite bool_decide_eq_false_2 by (by intros ?).
  destruct val as [| | | | |vs|]; try done.
  destruct (mapM uns.asString vs) as [l'|] eqn:Hvs; [| done].
  cbn. intros [= <-]. by rewrite (mapM_asString_inv _ _ Hvs).
Qed.

(** [SetFinalizers] on a document whose finalizers are read: the new list
    is written, and what is read elsewhere stays. *)
Lemma SetFinalizers_Some (u : uns.Unstructured) (l l' : list string) :
  uns.GetFinalizers u = Some l ->
  uns.GetFinalizers (uns.SetFinalizers (Some l') u) = Some l' /\
  forall q, uns.diverge ["metadata"; "finalizers"] q = true ->
            uns.NestedFieldNoCopy (uns.Object (uns.SetFinalizers (Some l') u)) q
            = uns.NestedFieldNoCopy (uns.Object u) q.
Proof.
  intros Hread%GetFinalizers_Some_inv.
  unfold uns.SetFinalizers, uns.SetNestedStringSlice.
  destruct (SetNestedField_sibling (uns.Object u) _ (uns.Slice (uns.Str <$> l'))
              "metadata" "finalizers" "finalizers" Hread) as [obj' Hset].
  split.
  - rewrite Hset. cbn [fst]. apply GetFinalizers_hasField.
    eapply SetNestedField_hasField; [| exact Hset]. done.
  - intros q Hq. cbn [uns.Object]. by apply SetNestedField_keeps.
Qed.

(** Putting back the status that an object has changes nothing. *)
Lemma withStatus_statusOf (u : uns.Unstructured) :
  createor.withStatus (createor.statusOf u) u = u.
Proof.
  destruct u as [obj].
  unfold createor.withStatus, createor.statusOf, createor.withoutStatus,
    uns.NestedFieldNoCopy. cbn.
  destruct (obj !! "status") as [v|] eqn:Hstatus; cbn.
  - by rewrite insert_id.
  - by rewrite delete_id.
Qed.

Lemma withoutStatus_read (u : uns.Unstructured) (q : list string) :
  uns.diverge ["status"] q = true ->
  uns.NestedFieldNoCopy (createor.withoutStatus u) q
  = uns.NestedFieldNoCopy (uns.Object u) q.
Proof.
  unfold createor.withoutStatus, uns.NestedFieldNoCopy. destruct q as [|f q]; [done |].
  cbn. destruct (String.eqb_spec "status" f) as [<-|Hf]; [done |]. intros _.
  by rewrite lookup_delete_ne.
Qed.

(** [CreateOrPatch] with a function that changes the stored object, but
    neither its key nor its status: the object is read and patched. *)
Lemma CreateOrPatch_patched (obj existing obj' : uns.Unstructured)
    (f : uns.Unstructured -> uns.Unstructured * option error) (c : client.Cluster) :
  client.nextFault c = None ->
  client.lookupObject (client.keyOf obj) (client.olsConfigs (client.objects c))
  = Some existing ->
  f existing = (obj', None) ->
  client.keyOf obj' = client.keyOf obj ->
  createor.withoutStatus existing <> createor.withoutStatus obj' ->
  createor.statusOf obj' = createor.statusOf existing ->
  createor.CreateOrPatch obj f c
  = let key := client.keyOf obj in
    let c1 := client.afterRequests
                [client.CallGet client.KOLSConfig key.1 key.2;
                 client.CallPatch client.KOLSConfig key.1 key.2] c in
    match client.nextFault
            (client.afterRequests [client.CallGet client.KOLSConfig key.1 key.2] c) with
    | Some e => client.Return (controllerutil.OperationResultUpdated, Some e, obj') c1
    | None =>
        client.Return (controllerutil.OperationResultUpdated, None, obj')
          (client.set_objects
             (client.setStore
                (client.storeObject obj' (client.olsConfigs (client.objects c)))
                (client.objects c)) c1)
    end.
Proof.
  intros Hfault Hstored Hf Hkey Hchanged Hstatus. unfold createor.CreateOrPatch.
  rewrite bind_eq, Get_eq, Hfault.
  cbn [client.store client.OLSConfig_Resource client.kind]. rewrite Hstored.
  unfold createor.mutate. rewrite Hf, (bool_decide_eq_true_2 _ Hkey).
  rewrite bind_eq, (bool_decide_eq_false_2 _ Hchanged).
  rewrite <- Hstatus, withStatus_statusOf.
  rewrite bind_eq. unfold client.Patch. rewrite write_eq. cbn zeta.
  rewrite Hkey. cbn [client.store client.OLSConfig_Resource client.kind].
  rewrite objects_afterRequests, Hstored, !afterRequests_app. cbn [app].
  rewrite (bool_decide_eq_true_2 (createor.statusOf obj' = _) eq_refl).
  cbn [negb]. rewrite andb_false_r. unfold mret, client.M_ret.
  by destruct (client.nextFault (client.afterRequests _ _)) as [e|].
Qed.

(* --------------------------------------------------------------------- *)
(** ** The owner label and the patch step                                 *)
(* --------------------------------------------------------------------- *)






Section Store.
Context {T : Type} `{client.Resource T}.

(** An object that is removed is not found any more. *)
Lemma lookupObject_removeObject (key : string * string) (l : list T) :
  client.lookupObject key (client.removeObject key l) = None.
Proof.
  unfold client.lookupObject, client.removeObject.
  induction l as [|x l IH]; [done |]. cbn [List.filter].
  destruct (client.hasKey key x) eqn:Hx; cbn [negb]; [done |].
  cbn [List.find]. by rewrite Hx.
Qed.

Lemma replaceObject_head (o o' : T) (rest : list T) :
  client.keyOf o' = client.keyOf o ->
  exists rest', client.replaceObject o' (o :: rest) = o' :: rest'.
Proof.
  intros Hkey. unfold client.replaceObject. cbn [map]. unfold client.hasKey at 1.
  rewrite bool_decide_eq_true_2 by done. by eexists.
Qed.

End Store.

Section RemoveOwned.
Variable helper : common_helper.Helper.
Variable instance : apiv1beta1.OpenStackLightspeed.
Variable olsConfig : uns.Unstructured.
Variable finalizers : list string.

Let finalizer : string := common_helper.GetFinalizer helper.
Let kept : list string := filter (fun e => e <> finalizer) finalizers.
Let released : uns.Unstructured := uns.SetFinalizers (Some kept) olsConfig.

Hypothesis Hlabel :
  uns.GetLabels olsConfig !! funcs.OpenStackLightspeedOwnerIDLabel = Some (GetUID instance).
Hypothesis Huid : GetUID instance <> "".
Hypothesis Hfinalizers : uns.GetFinalizers olsConfig = Some finalizers.
Hypothesis Hfinalizer : finalizer ∈ finalizers.

Lemma removeOLSConfigMutateFn_owned :
  funcs.removeOLSConfigMutateFn helper instance olsConfig = (released, None).
Proof.
  unfold funcs.removeOLSConfigMutateFn.
  rewrite Hlabel. cbn [default from_option id].
  rewrite String.eqb_refl. apply String.eqb_neq in Huid. rewrite Huid. cbn [negb orb].
  unfold controllerutil.RemoveFinalizer.
  cbn [GetFinalizers SetFinalizers Unstructured_HasFinalizers].
  rewrite Hfinalizers. cbn [elems default from_option id].
  pose proof (filter_ne_shorter _ _ Hfinalizer) as Hshorter.
  fold finalizer in Hshorter |- *.
  destruct (Nat.eqb_spec (length finalizers)
              (length (filter (fun e => e <> finalizer) finalizers))) as [Heq|_];
    [lia | done].
Qed.

Lemma released_finalizers : uns.GetFinalizers released = Some kept.
Proof. apply (SetFinalizers_Some _ _ _ Hfinalizers). Qed.

Lemma released_read (q : list string) :
  uns.diverge ["metadata"; "finalizers"] q = true ->
  uns.NestedFieldNoCopy (uns.Object released) q
  = uns.NestedFieldNoCopy (uns.Object olsConfig) q.
Proof. apply (SetFinalizers_Some _ _ _ Hfinalizers). Qed.

Lemma released_key : client.keyOf released = client.keyOf olsConfig.
Proof.
  unfold client.keyOf, client.OLSConfig_Resource, uns.GetName, uns.GetNamespace,
    uns.NestedString.
  by rewrite !released_read.
Qed.

Lemma released_status : createor.statusOf released = createor.statusOf olsConfig.
Proof. unfold createor.statusOf. by rewrite released_read. Qed.

Lemma released_deleting :
  uns.GetDeletionTimestamp released = uns.GetDeletionTimestamp olsConfig.
Proof. unfold uns.GetDeletionTimestamp, uns.NestedString. by rewrite released_read. Qed.

Lemma released_changed :
  createor.withoutStatus olsConfig <> createor.withoutStatus released.
Proof.
  intros Hsame.
  assert (Hread : uns.NestedFieldNoCopy (uns.Object olsConfig) ["metadata"; "finalizers"]
                  = uns.NestedFieldNoCopy (uns.Object released) ["metadata"; "finalizers"]).
  { rewrite <- !withoutStatus_read by done. by rewrite Hsame. }
  assert (Hget : uns.GetFinalizers olsConfig = uns.GetFinalizers released).
  { unfold uns.GetFinalizers, uns.NestedStringSlice. by rewrite Hread. }
  rewrite Hfinalizers, released_finalizers in Hget. injection Hget as Hget.
  pose proof (filter_ne_shorter _ _ Hfinalizer) as Hshorter.
  fold finalizer kept in Hshorter. rewrite <- Hget in Hshorter. lia.
Qed.

(** The removal of an [OLSConfig] of the instance that is not yet being
    deleted, with its four requests served. *)
Lemma RemoveOLSConfig_owned (c : client.Cluster) (rest : list uns.Unstructured) :
  client.served 4 c ->
  client.olsConfigs (client.objects c) = olsConfig :: rest ->
  uns.GetDeletionTimestamp olsConfig = "" ->
  exists c' : client.Cluster,
    funcs.RemoveOLSConfig helper instance c = client.Return (true, None) c' /\
    client.calls c'
    = (client.calls c
       ++ [client.CallList client.KOLSConfig "";
           client.CallGet client.KOLSConfig (client.keyOf olsConfig).1
             (client.keyOf olsConfig).2;
           client.CallPatch client.KOLSConfig (client.keyOf olsConfig).1
             (client.keyOf olsConfig).2;
           client.CallDelete client.KOLSConfig (client.keyOf olsConfig).1
             (client.keyOf olsConfig).2])%list /\
    client.olsConfigs (client.objects c')
    = (if bool_decide (kept = [])
       then client.removeObject (client.keyOf olsConfig)
              (client.replaceObject released (olsConfig :: rest))
       else client.replaceObject (client.markDeleting released)
              (client.replaceObject released (olsConfig :: rest))).
Proof.
  intros Hserved Hstore Hlive.
  apply (nextFault_after_served 3 (client.CallList client.KOLSConfig "")) in Hserved
    as [Hfault1 Hserved].
  apply (nextFault_after_served 2
           (client.CallGet client.KOLSConfig (client.keyOf olsConfig).1
              (client.keyOf olsConfig).2)) in Hserved as [Hfault2 Hserved].
  apply (nextFault_after_served 1
           (client.CallPatch client.KOLSConfig (client.keyOf olsConfig).1
              (client.keyOf olsConfig).2)) in Hserved as [Hfault3 Hserved].
  apply nextFault_served in Hserved as Hfault4.
  unfold funcs.RemoveOLSConfig. rewrite bind_eq, GetOLSConfig_eq, Hfault1, Hstore.
  rewrite bind_eq.
  rewrite (CreateOrPatch_patched olsConfig olsConfig released _ _ Hfault2);
    [| rewrite objects_afterRequests, Hstore; apply lookupObject_head
     | apply removeOLSConfigMutateFn_owned
     | apply released_key
     | apply released_changed
     | apply released_status ].
  cbn zeta. rewrite Hfault3.
  match goal with
  | |- context [client.set_objects ?a ?b] => set (c3 := client.set_objects a b)
  end.
  assert (Hfault : client.nextFault c3 = None).
  { subst c3. unfold client.nextFault in Hfault4 |- *.
    cbn [client.faults client.set_objects client.afterRequests length] in Hfault4 |- *.
    rewrite !drop_drop in Hfault4. by rewrite !drop_drop. }
  assert (Hstore3 : client.olsConfigs (client.objects c3)
                    = client.replaceObject released (olsConfig :: rest)).
  { subst c3. cbn [client.objects client.set_objects client.setStore
                   client.OLSConfig_Resource client.olsConfigs client.afterRequests].
    rewrite Hstore. unfold client.storeObject.
    cbn [client.isDeleting client.OLSConfig_Resource].
    by rewrite released_deleting, Hlive. }
  assert (Hcalls3 : client.calls c3
                    = (client.calls c
                       ++ [client.CallList client.KOLSConfig "";
                           client.CallGet client.KOLSConfig (client.keyOf olsConfig).1
                             (client.keyOf olsConfig).2;
                           client.CallPatch client.KOLSConfig (client.keyOf olsConfig).1
                             (client.keyOf olsConfig).2])%list).
  { subst c3. cbn [client.calls client.set_objects client.afterRequests].
    by rewrite <- !app_assoc. }
  clearbody c3.
  rewrite bind_eq, Delete_eq. cbn zeta. rewrite released_key, Hfault.
  cbn [client.store client.OLSConfig_Resource client.kind]. rewrite Hstore3.
  destruct (replaceObject_head olsConfig released rest released_key) as [rest' Hhead].
  assert (Hfound : client.lookupObject (client.keyOf olsConfig)
                     (client.replaceObject released (olsConfig :: rest)) = Some released).
  { rewrite Hhead, <- released_key. apply lookupObject_head. }
  rewrite Hfound. cbn [GetFinalizers Unstructured_HasFinalizers].
  rewrite released_finalizers. cbn [elems default from_option id].
  eexists. split; [reflexivity |].
  cbn [client.calls client.objects client.set_objects client.afterRequests
       client.setStore client.OLSConfig_Resource client.olsConfigs].
  split; [by rewrite Hcalls3, <- !app_assoc | done].
Qed.

End RemoveOwned.

(** X11. [RemoveOLSConfig] on an [OLSConfig] of the instance that has the
    finalizer of the controller and is not yet being deleted, with its four
    requests served: the finalizer is taken off by a patch (the other
    finalizers stay), the deletion is requested and the answer is
    [(true, nil)].  When the finalizer was the only one, the [OLSConfig] is
    gone from the cluster; otherwise it stays, marked as being deleted. *)
Theorem RemoveOLSConfig_owned_removed (helper : common_helper.Helper)
    (instance : apiv1beta1.OpenStackLightspeed) (c : client.Cluster)
    (olsConfig : uns.Unstructured) (rest : list uns.Unstructured)
    (finalizers : list string) :
  client.served 4 c ->
  client.olsConfigs (client.objects c) = olsConfig :: rest ->
  uns.GetLabels olsConfig !! funcs.OpenStackLightspeedOwnerIDLabel = Some (GetUID instance) ->
  GetUID instance <> "" ->
  uns.GetFinalizers olsConfig = Some finalizers ->
  common_helper.GetFinalizer helper ∈ finalizers ->
  uns.GetDeletionTimestamp olsConfig = "" ->
  let kept := filter (fun e => e <> common_helper.GetFinalizer helper) finalizers in
  let released := uns.SetFinalizers (Some kept) olsConfig in
  exists c' : client.Cluster,
    funcs.RemoveOLSConfig helper instance c = client.Return (true, None) c' /\
    client.calls c'
    = (client.calls c
       ++ [client.CallList client.KOLSConfig "";
           client.CallGet client.KOLSConfig (client.keyOf olsConfig).1
             (client.keyOf olsConfig).2;
           client.CallPatch client.KOLSConfig (client.keyOf olsConfig).1
             (client.keyOf olsConfig).2;
           client.CallDelete client.KOLSConfig (client.keyOf olsConfig).1
             (client.keyOf olsConfig).2])%list /\
    uns.GetFinalizers released = Some kept /\
    client.olsConfigs (client.objects c')
    = (if bool_decide (kept = [])
       then client.removeObject (client.keyOf olsConfig)
              (client.replaceObject released (olsConfig :: rest))
       else client.replaceObject (client.markDeleting released)
              (client.replaceObject released (olsConfig :: rest))) /\
    (kept = [] ->
     client.lookupObject (client.keyOf olsConfig) (client.olsConfigs (client.objects c'))
     = None).
Proof.
  intros Hserved Hstore Hlabel Huid Hfinalizers Hfinalizer Hlive. cbn zeta.
  destruct (RemoveOLSConfig_owned helper instance olsConfig finalizers
              Hlabel Huid Hfinalizers Hfinalizer c rest Hserved Hstore Hlive)
    as (c' & Hrun & Hcalls & Hobjects).
  exists c'. split; [done |]. split; [done |].
  split; [by apply released_finalizers |]. split; [done |].
  intros Hkept. rewrite Hobjects, Hkept, bool_decide_eq_true_2 by done.
  apply lookupObject_removeObject.
Qed.

Lemma RemoveOLSConfig_owned_removed_witness :
  exists c' : client.Cluster,
    funcs.RemoveOLSConfig Examples.helper1 Examples.instance1
      (Examples.withOLSConfig Examples.olsConfigOneCondition)
    = client.Return (true, None) c' /\
    client.olsConfigs (client.objects c') = [].
Proof.
  destruct (RemoveOLSConfig_owned_removed Examples.helper1 Examples.instance1
              (Examples.withOLSConfig Examples.olsConfigOneCondition)
              Examples.olsConfigOneCondition [] [Examples.finalizer])
    as (c' & Hrun & _ & _ & Hobjects & _).
  - by apply served_nil_faults.
  - reflexivity.
  - vm_compute. reflexivity.
  - discriminate.
  - vm_compute. reflexivity.
  - by left.
  - vm_compute. reflexivity.
  - exists c'. split; [done |]. rewrite Hobjects. vm_compute. reflexivity.
Defined.


(* --------------------------------------------------------------------- *)
(** ** More on [IsOLSConfigReady]                                         *)
(* --------------------------------------------------------------------- *)

Lemma nestedFrom_found (fields : list string) :
  forall (val v : uns.value) (err : option error),
  uns.nestedFrom val fields = (v, true, err) -> err = None.
Proof.
  induction fields as [|field fields IH]; intros val v err; cbn.
  - by intros [= _ <-].
  - destruct val as [| | | | | |m]; try done.
    destruct (m !! field) as [val'|]; [apply IH | done].
Qed.

(** [NestedSlice] finds a field only without an error. *)
Lemma NestedSlice_found (obj : gmap string uns.value) (fields : list string)
    (l : list uns.value) (err : option error) :
  uns.NestedSlice obj fields = (l, true, err) -> err = None.
Proof.
  unfold uns.NestedSlice, uns.NestedFieldNoCopy.
  destruct (uns.nestedFrom (uns.Map obj) fields) as [[val found] e] eqn:Hread.
  destruct found; cbn [negb orb]; [| by intros [= _ ? _]].
  apply nestedFrom_found in Hread as ->.
  rewrite bool_decide_eq_false_2 by (by intros ?).
  destruct val; by intros [= _ <-].
Qed.

(** X12. [IsOLSConfigReady] answers "ready" only without an error, only
    when the first [OLSConfig] has a list of conditions in which no
    condition of a required type has a status other than [True], and then
    it has only listed the [OLSConfig]: nothing is written, no ping is
    sent. *)
Theorem IsOLSConfigReady_ready_inv (c c' : client.Cluster) (err : option error) :
  funcs.IsOLSConfigReady c = client.Return (true, err) c' ->
  err = None /\
  c' = client.afterRequests [client.CallList client.KOLSConfig ""] c /\
  exists (olsConfig : uns.Unstructured) (rest : list uns.Unstructured)
         (raw : list uns.value) (conds : list metav1.Condition),
    client.olsConfigs (client.objects c) = olsConfig :: rest /\
    uns.NestedSlice (uns.Object olsConfig) ["status"; "conditions"] = (raw, true, None) /\
    json.UnmarshalConditions raw = Some conds /\
    existsb funcs.requiredNotTrue conds = false.
Proof.
  unfold funcs.IsOLSConfigReady. rewrite bind_eq, GetOLSConfig_eq.
  destruct (client.nextFault c) as [e|]; [done |].
  destruct (client.olsConfigs (client.objects c)) as [|olsConfig rest]; [done |].
  destruct (uns.NestedSlice _ _) as [[raw found] nerr] eqn:Hraw.
  destruct found; cbn [negb]; [| done].
  pose proof (NestedSlice_found _ _ _ _ Hraw) as ->.
  destruct (json.UnmarshalConditions raw) as [conds|] eqn:Hconds; [| done].
  destruct (existsb funcs.requiredNotTrue conds) eqn:Hrequired.
  - rewrite (checkConditions_not_ready _ _ Hrequired), bind_eq.
    by destruct (funcs.OLSConfigPing _).
  - rewrite (checkConditions_ready _ _ Hrequired). intros [= <- <-].
    split; [done |]. split; [done |]. by exists olsConfig, rest, raw, conds.
Qed.

Lemma IsOLSConfigReady_ready_inv_witness :
  exists (olsConfig : uns.Unstructured) (rest : list uns.Unstructured)
         (raw : list uns.value) (conds : list metav1.Condition),
    client.olsConfigs (client.objects (Examples.withOLSConfig Examples.olsConfigOneCondition))
    = olsConfig :: rest /\
    uns.NestedSlice (uns.Object olsConfig) ["status"; "conditions"] = (raw, true, None) /\
    json.UnmarshalConditions raw = Some conds /\
    existsb funcs.requiredNotTrue conds = false.
Proof.
  apply (IsOLSConfigReady_ready_inv
           (Examples.withOLSConfig Examples.olsConfigOneCondition)
           (client.afterRequests [client.CallList client.KOLSConfig ""]
              (Examples.withOLSConfig Examples.olsConfigOneCondition)) None).
  vm_compute. reflexivity.
Defined.


(** [SetLabels] leaves what is read at a path that parts ways with the
    labels. *)
Lemma SetLabels_read (labels : gmap string string) (u : uns.Unstructured)
    (q : list string) :
  uns.diverge ["metadata"; "labels"] q = true ->
  uns.NestedFieldNoCopy (uns.Object (uns.SetLabels labels u)) q
  = uns.NestedFieldNoCopy (uns.Object u) q.
Proof.
  intros Hq. unfold uns.SetLabels, uns.SetNestedStringMap. cbn [uns.Object].
  by apply SetNestedField_keeps.
Qed.

Lemma SetLabels_key (labels : gmap string string) (u : uns.Unstructured) :
  client.keyOf (uns.SetLabels labels u) = client.keyOf u.
Proof.
  unfold client.keyOf, client.OLSConfig_Resource, uns.GetName, uns.GetNamespace,
    uns.NestedString.
  by rewrite !SetLabels_read.
Qed.

(** X13. When a condition of a required type is in the list with a status
    other than [True], [IsOLSConfigReady] answers "not ready" and pings:
    it lists the [OLSConfig] again and updates it with the label
    [openstack-lightspeed/ping] set to a random number.  The error of that
    update, if any, is the error returned.  The ping changes nothing of the
    object outside its labels. *)
Theorem IsOLSConfigReady_not_ready_pings (c : client.Cluster)
    (olsConfig : uns.Unstructured) (rest : list uns.Unstructured)
    (raw : list uns.value) (conds : list metav1.Condition) :
  client.served 2 c ->
  client.olsConfigs (client.objects c) = olsConfig :: rest ->
  uns.NestedSlice (uns.Object olsConfig) ["status"; "conditions"] = (raw, true, None) ->
  json.UnmarshalConditions raw = Some conds ->
  existsb funcs.requiredNotTrue conds = true ->
  let n := default 0 (head (client.randomInts c)) in
  let pinged :=
    uns.SetLabels (<["openstack-lightspeed/ping" := pretty n]> (uns.GetLabels olsConfig))
      olsConfig in
  let failure :=
    client.nextFault
      (client.afterRequests
         [client.CallList client.KOLSConfig ""; client.CallList client.KOLSConfig ""] c) in
  exists c' : client.Cluster,
    funcs.IsOLSConfigReady c = client.Return (false, failure) c' /\
    client.calls c'
    = (client.calls c
       ++ [client.CallList client.KOLSConfig "";
           client.CallList client.KOLSConfig "";
           client.CallUpdate client.KOLSConfig (client.keyOf olsConfig).1
             (client.keyOf olsConfig).2])%list /\
    client.olsConfigs (client.objects c')
    = match failure with
      | Some _ => olsConfig :: rest
      | None => client.storeObject pinged (olsConfig :: rest)
      end /\
    (forall q, uns.diverge ["metadata"; "labels"] q = true ->
               uns.NestedFieldNoCopy (uns.Object pinged) q
               = uns.NestedFieldNoCopy (uns.Object olsConfig) q).
Proof.
  intros Hserved Hstore Hraw Hconds Hrequired. cbn zeta.
  apply (nextFault_after_served 1 (client.CallList client.KOLSConfig "")) in Hserved
    as [Hfault1 Hserved].
  apply nextFault_served in Hserved as Hfault2.
  unfold funcs.IsOLSConfigReady. rewrite bind_eq, GetOLSConfig_eq, Hfault1, Hstore, Hraw.
  cbn [negb]. rewrite Hconds, (checkConditions_not_ready _ _ Hrequired).
  rewrite bind_eq. unfold funcs.OLSConfigPing.
  rewrite bind_eq, GetOLSConfig_eq, Hfault2, objects_afterRequests, Hstore.
  rewrite bind_eq, afterRequests_app. cbn [app].
  set (c2 := client.afterRequests _ c).
  assert (Hrand : exists c3,
            client.randInt c2 = client.Return (default 0 (head (client.randomInts c))) c3 /\
            client.objects c3 = client.objects c2 /\ client.calls c3 = client.calls c2 /\
            client.nextFault c3 = client.nextFault c2).
  { unfold client.randInt. subst c2. cbn [client.randomInts client.afterRequests].
    destruct (client.randomInts c) as [|n ns]; by eexists. }
  destruct Hrand as (c3 & -> & Hobjects3 & Hcalls3 & Hfault3).
  unfold client.Update. rewrite write_eq. cbn zeta.
  rewrite SetLabels_key, Hfault3.
  cbn [client.store client.OLSConfig_Resource client.kind].
  rewrite Hobjects3. subst c2. rewrite objects_afterRequests, Hstore, lookupObject_head.
  set (failure := client.nextFault _).
  destruct failure as [e|]; unfold mret, client.M_ret;
    (eexists; split; [reflexivity |]);
    cbn [client.calls client.objects client.set_objects client.afterRequests
         client.setStore client.OLSConfig_Resource client.olsConfigs];
    rewrite ?Hcalls3, ?Hobjects3;
    cbn [client.calls client.objects client.afterRequests];
    (split; [by rewrite <- app_assoc |]); (split; [done |]);
    intros q Hq; by apply SetLabels_read.
Qed.

Lemma IsOLSConfigReady_not_ready_pings_witness :
  let olsConfig := Examples.olsConfigWith ∅ [] [Examples.cond "ApiReady" "False"] in
  exists c' : client.Cluster,
    funcs.IsOLSConfigReady (Examples.withOLSConfig olsConfig)
    = client.Return (false, None) c' /\
    uns.GetLabels <$> client.olsConfigs (client.objects c')
    = [{[ "openstack-lightspeed/ping" := "0" ]}].
Proof.
  cbn zeta.
  destruct (IsOLSConfigReady_not_ready_pings
              (Examples.withOLSConfig
                 (Examples.olsConfigWith ∅ [] [Examples.cond "ApiReady" "False"]))
              (Examples.olsConfigWith ∅ [] [Examples.cond "ApiReady" "False"]) []
              [Examples.cond "ApiReady" "False"]
              [metav1.mkCondition "ApiReady" "False" 0 "" "" ""])
    as (c' & Hrun & _ & Hobjects & _).
  - by apply served_nil_faults.
  - reflexivity.
  - vm_compute. reflexivity.
  - vm_compute. reflexivity.
  - vm_compute. reflexivity.
  - exists c'. split; [exact Hrun |]. rewrite Hobjects. vm_compute. reflexivity.
Defined.

(** A key of a condition is matched with the name of a field whatever the
    case of its letters: a status [True] under the key [Status] is read. *)
Lemma IsOLSConfigReady_folded_key :
  let olsConfig :=
    Examples.olsConfigWith ∅ []
      [uns.Map {[ "type" := uns.Str "ApiReady"; "Status" := uns.Str "True" ]}] in
  funcs.IsOLSConfigReady (Examples.withOLSConfig olsConfig)
  = client.Return (true, None)
      (client.afterRequests [client.CallList client.KOLSConfig ""]
         (Examples.withOLSConfig olsConfig)).
Proof. by vm_compute. Qed.

(** A time that is no RFC 3339 text stops the decoding: the error is
    returned after the list, and no ping is sent. *)
Lemma IsOLSConfigReady_bad_time :
  let olsConfig :=
    Examples.olsConfigWith ∅ []
      [uns.Map {[ "type" := uns.Str "ApiReady"; "status" := uns.Str "False";
                  "lastTransitionTime" := uns.Str "yesterday" ]}] in
  json.UnmarshalConditions
    [uns.Map {[ "type" := uns.Str "ApiReady"; "status" := uns.Str "False";
                "lastTransitionTime" := uns.Str "yesterday" ]}] = None /\
  json.UnmarshalConditions
    [uns.Map {[ "type" := uns.Str "ApiReady"; "status" := uns.Str "False";
                "lastTransitionTime" := uns.Str "2025-03-09T14:07:31Z" ]}]
  = Some [metav1.mkCondition "ApiReady" "False" 0 "2025-03-09T14:07:31Z" "" ""] /\
  exists e : error,
    funcs.IsOLSConfigReady (Examples.withOLSConfig olsConfig)
    = client.Return (false, Some e)
        (client.afterRequests [client.CallList client.KOLSConfig ""]
           (Examples.withOLSConfig olsConfig)).
Proof.
  cbn zeta. split; [by vm_compute |]. split; [by vm_compute |].
  eexists. by vm_compute.
Qed.


(* --------------------------------------------------------------------- *)
(** ** Finding the CSV of the operator                                    *)
(* --------------------------------------------------------------------- *)

Lemma find_elem_of {A : Type} (P : A -> bool) (l : list A) (x : A) :
  List.find P l = Some x -> x ∈ l /\ P x = true.
Proof.
  induction l as [|y l IH]; [done |]. cbn [List.find].
  destruct (P y) eqn:Hy.
  - intros [= <-]. split; [by left | done].
  - intros [Hx HP]%IH. split; [by right | done].
Qed.

Lemma find_None_Forall {A : Type} (P : A -> bool) (l : list A) :
  List.find P l = None -> Forall (fun x => P x = false) l.
Proof.
  induction l as [|y l IH]; [by constructor |]. cbn [List.find].
  destruct (P y) eqn:Hy; [done |]. intros Hl. constructor; [done | by apply IH].
Qed.

Lemma GetOLSOperatorCSV_eq (c : client.Cluster) :
  ols_install.GetOLSOperatorCSV c
  = match client.nextFault c with
    | Some e => client.Return (None, Some e) (client.afterRequests [client.CallNewClient] c)
    | None =>
        client.Return
          (match client.nextFault (client.afterRequests [client.CallNewClient] c) with
           | Some e => if k8s_errors.IsNotFound e then (None, None) else (None, Some e)
           | None =>
               (List.find (fun CSV => GoStrings.HasPrefix (GetName CSV)
                                        ols_install.OLSOperatorName)
                  (client.csvs (client.objects c)), None)
           end)
          (client.afterRequests
             [client.CallNewClient; client.CallList client.KClusterServiceVersion ""] c)
    end.
Proof.
  unfold ols_install.GetOLSOperatorCSV, funcs.GetRawClient.
  rewrite bind_eq, request_next.
  destruct (client.nextFault c) as [e|]; [done |].
  rewrite bind_eq, List_eq, afterRequests_app. cbn [app].
  destruct (client.nextFault _) as [e|].
  - by destruct (k8s_errors.IsNotFound e).
  - by rewrite filter_all_namespaces.
Qed.

(** X14. Whatever [GetOLSOperatorCSV] returns, it has only read.  A CSV
    that it returns comes without an error, is in the cluster and has a name
    that begins with the name of the operator; when its two requests are
    served and it returns none, no CSV of the cluster has such a name. *)
Theorem GetOLSOperatorCSV_spec (c c' : client.Cluster)
    (found : option operatorsv1alpha1.ClusterServiceVersion) (err : option error) :
  ols_install.GetOLSOperatorCSV c = client.Return (found, err) c' ->
  client.objects c' = client.objects c /\
  client.sends client.isRead c c' /\
  (forall CSV, found = Some CSV ->
     err = None /\ CSV ∈ client.csvs (client.objects c) /\
     GoStrings.HasPrefix (GetName CSV) ols_install.OLSOperatorName = true) /\
  (client.served 2 c -> found = None ->
     err = None /\
     Forall (fun CSV => GoStrings.HasPrefix (GetName CSV) ols_install.OLSOperatorName = false)
       (client.csvs (client.objects c))).
Proof.
  rewrite GetOLSOperatorCSV_eq.
  destruct (client.nextFault c) as [e1|] eqn:Hfault1.
  { intros [= <- <- <-]. split; [done |]. split; [solve_sends |]. split; [done |].
    intros [Hserved _]%(nextFault_after_served 1 client.CallNewClient). congruence. }
  destruct (client.nextFault (client.afterRequests _ c)) as [e2|] eqn:Hfault2.
  { intros [= Hresult <-]. split; [done |]. split; [solve_sends |].
    split; [destruct (k8s_errors.IsNotFound e2); by injection Hresult as <- <- |].
    intros [_ Hserved%nextFault_served]%(nextFault_after_served 1 client.CallNewClient).
    congruence. }
  intros [= <- <- <-]. split; [done |]. split; [solve_sends |]. split.
  - intros CSV [Hin Hprefix]%find_elem_of. by repeat split.
  - intros _ Hnone%find_None_Forall. by split.
Qed.

Lemma GetOLSOperatorCSV_spec_witness :
  Examples.userCSV ∈ client.csvs (client.objects Examples.withUserCSV) /\
  GoStrings.HasPrefix (GetName Examples.userCSV) ols_install.OLSOperatorName = true.
Proof.
  assert (Hrun : ols_install.GetOLSOperatorCSV Examples.withUserCSV
                 = client.Return (Some Examples.userCSV, None)
                     (client.afterRequests
                        [client.CallNewClient;
                         client.CallList client.KClusterServiceVersion ""]
                        Examples.withUserCSV))
    by (vm_compute; reflexivity).
  destruct (GetOLSOperatorCSV_spec _ _ _ _ Hrun) as (_ & _ & Hfound & _).
  by destruct (Hfound _ eq_refl) as (_ & Hin & Hprefix).
Defined.

(* --------------------------------------------------------------------- *)
(** ** The mode of the installation                                       *)
(* --------------------------------------------------------------------- *)

(** X15. [IsUserInstalledOLSOperatorMode] never takes an operator for the
    user's without a CSV that shows it: when it answers [true] there is no
    error, a CSV of the operator is in the cluster, and the instance does
    not own that CSV. *)
Theorem IsUserInstalledOLSOperatorMode_true_inv
    (instance : apiv1beta1.OpenStackLightspeed) (c c' : client.Cluster)
    (err : option error) :
  ols_install.IsUserInstalledOLSOperatorMode instance c = client.Return (true, err) c' ->
  err = None /\
  client.objects c' = client.objects c /\
  exists CSV : operatorsv1alpha1.ClusterServiceVersion,
    CSV ∈ client.csvs (client.objects c) /\
    GoStrings.HasPrefix (GetName CSV) ols_install.OLSOperatorName = true /\
    funcs.IsOwnedBy CSV instance = false.
Proof.
  unfold ols_install.IsUserInstalledOLSOperatorMode.
  rewrite bind_eq, GetOLSOperatorCSV_eq.
  destruct (client.nextFault c) as [e1|]; [done |].
  destruct (client.nextFault (client.afterRequests _ c)) as [e2|];
    [by destruct (k8s_errors.IsNotFound e2) |].
  destruct (List.find _ _) as [CSV|] eqn:Hfind; [| done].
  apply find_elem_of in Hfind as [Hin Hprefix].
  rewrite bind_eq.
  destruct (ols_install.GetOLSSubscriptionName instance) as [name|]; [| done].
  cbn [ols_install.orPanic]. rewrite ret_eq, bind_eq, Get_eq.
  set (answer := match client.nextFault _ with Some _ => _ | None => _ end).
  destruct answer as [got gerr].
  destruct (bool_decide (gerr <> None) && _); unfold mret, client.M_ret; [by intros [= ? _] |].
  intros [= Hmode <- <-]. split; [done |]. split; [done |].
  exists CSV. repeat split; try done.
  apply andb_prop in Hmode as [Hmode _]. by apply negb_true_iff in Hmode.
Qed.

Lemma IsUserInstalledOLSOperatorMode_true_inv_witness :
  exists CSV : operatorsv1alpha1.ClusterServiceVersion,
    CSV ∈ client.csvs (client.objects Examples.withUserCSV) /\
    GoStrings.HasPrefix (GetName CSV) ols_install.OLSOperatorName = true /\
    funcs.IsOwnedBy CSV Examples.instance1 = false.
Proof.
  assert (Hrun : ols_install.IsUserInstalledOLSOperatorMode Examples.instance1
                   Examples.withUserCSV
                 = client.Return (true, None)
                     (client.afterRequests
                        [client.CallNewClient;
                         client.CallList client.KClusterServiceVersion "";
                         client.CallGet client.KSubscription "openshift-lightspeed"
                           "lightspeed-operator-3f2a9"]
                        Examples.withUserCSV))
    by (vm_compute; reflexivity).
  by destruct (IsUserInstalledOLSOperatorMode_true_inv _ _ _ _ Hrun) as (_ & _ & H).
Defined.


(* --------------------------------------------------------------------- *)
(** ** Uninstalling the operator                                          *)
(* --------------------------------------------------------------------- *)

(** X16. [UninstallInstanceOwnedOLSOperator] leaves an operator that is not
    the instance's alone: when the CSV that it finds is not owned by the
    instance, or when it finds none, it only reads, whatever its requests
    meet, and it reports the uninstallation as complete as soon as its two
    requests are served. *)
Theorem UninstallInstanceOwnedOLSOperator_not_owned
    (instance : apiv1beta1.OpenStackLightspeed) (c : client.Cluster) :
  (forall CSV,
     List.find (fun CSV => GoStrings.HasPrefix (GetName CSV) ols_install.OLSOperatorName)
       (client.csvs (client.objects c)) = Some CSV ->
     funcs.IsOwnedBy CSV instance = false) ->
  exists (r : bool * option error) (c' : client.Cluster),
    ols_install.UninstallInstanceOwnedOLSOperator instance c = client.Return r c' /\
    client.objects c' = client.objects c /\
    client.sends client.isRead c c' /\
    (client.served 2 c -> r = (true, None)).
Proof.
  intros Hforeign. unfold ols_install.UninstallInstanceOwnedOLSOperator.
  rewrite bind_eq, GetOLSOperatorCSV_eq.
  destruct (client.nextFault c) as [e1|] eqn:Hfault1.
  { unfold mret, client.M_ret. eexists _, _. split; [reflexivity |].
    split; [done |]. split; [solve_sends |].
    intros [Hserved _]%(nextFault_after_served 1 client.CallNewClient). congruence. }
  destruct (client.nextFault (client.afterRequests _ c)) as [e2|] eqn:Hfault2.
  { destruct (k8s_errors.IsNotFound e2); unfold mret, client.M_ret;
      (eexists _, _; split; [reflexivity |]); (split; [done |]);
      (split; [solve_sends |]); [done |].
    intros [_ Hserved%nextFault_served]%(nextFault_after_served 1 client.CallNewClient).
    congruence. }
  destruct (List.find _ _) as [CSV|] eqn:Hfind.
  - rewrite (Hforeign CSV eq_refl). cbn [negb]. unfold mret, client.M_ret.
    eexists _, _. split; [reflexivity |]. split; [done |]. split; [solve_sends | done].
  - unfold mret, client.M_ret.
    eexists _, _. split; [reflexivity |]. split; [done |]. split; [solve_sends | done].
Qed.

Lemma UninstallInstanceOwnedOLSOperator_not_owned_witness :
  exists c' : client.Cluster,
    ols_install.UninstallInstanceOwnedOLSOperator Examples.instance1 Examples.withUserCSV
    = client.Return (true, None) c' /\
    client.objects c' = client.objects Examples.withUserCSV.
Proof.
  destruct (UninstallInstanceOwnedOLSOperator_not_owned Examples.instance1
              Examples.withUserCSV) as (r & c' & Hrun & Hobjects & _ & Hserved).
  - intros CSV [= <-]. reflexivity.
  - exists c'. rewrite Hrun, Hserved by (by apply served_nil_faults). by split.
Defined.

(** A typed object that is marked as being deleted keeps its name and its
    owners. *)
Lemma typedMarkDeleting_meta {T : Type} `{Object T}
    (Hset : forall (m : metav1.ObjectMeta) (o : T), GetObjectMeta (SetObjectMeta m o) = m)
    (o : T) :
  GetName (client.typedMarkDeleting o) = GetName o /\
  GetNamespace (client.typedMarkDeleting o) = GetNamespace o /\
  GetOwnerReferences (client.typedMarkDeleting o) = GetOwnerReferences o.
Proof.
  unfold client.typedMarkDeleting, GetName, GetNamespace, GetOwnerReferences.
  destruct (metav1.DeletionTimestamp (GetObjectMeta o)); [done |].
  rewrite Hset. by destruct (GetObjectMeta o).
Qed.

Lemma find_is_Some {A : Type} (P : A -> bool) (l : list A) (x : A) :
  x ∈ l -> P x = true -> is_Some (List.find P l).
Proof.
  induction l as [|y l IH]; [by intros ?%elem_of_nil |]. cbn [List.find].
  destruct (P y) eqn:Hy; [by eexists |].
  intros [->|Hin]%elem_of_cons HP; [congruence | by apply IH].
Qed.

(** X17. [UninstallInstanceOwnedOLSOperator] on a CSV that the instance
    owns, with its requests served: the deletion of the CSV is requested
    and the CSVs are listed again.  While a finalizer keeps the CSV in the
    cluster the answer is [(false, nil)], the uninstallation is not
    complete; when the CSV has no finalizer it is gone, and the answer tells
    whether another CSV of the operator is left. *)
Theorem UninstallInstanceOwnedOLSOperator_owned
    (instance : apiv1beta1.OpenStackLightspeed) (c : client.Cluster)
    (CSV : operatorsv1alpha1.ClusterServiceVersion) :
  client.served 5 c ->
  List.find (fun CSV => GoStrings.HasPrefix (GetName CSV) ols_install.OLSOperatorName)
    (client.csvs (client.objects c)) = Some CSV ->
  client.lookupObject (client.keyOf CSV) (client.csvs (client.objects c)) = Some CSV ->
  funcs.IsOwnedBy CSV instance = true ->
  let left :=
    if bool_decide (elems (GetFinalizers CSV) = [])
    then client.removeObject (client.keyOf CSV) (client.csvs (client.objects c))
    else client.replaceObject (client.markDeleting CSV) (client.csvs (client.objects c)) in
  let complete :=
    bool_decide
      (List.find (fun CSV => GoStrings.HasPrefix (GetName CSV) ols_install.OLSOperatorName)
         left = None) in
  exists c' : client.Cluster,
    ols_install.UninstallInstanceOwnedOLSOperator instance c
    = client.Return (complete, None) c' /\
    client.csvs (client.objects c') = left /\
    client.calls c'
    = (client.calls c
       ++ [client.CallNewClient; client.CallList client.KClusterServiceVersion "";
           client.CallDelete client.KClusterServiceVersion (GetNamespace CSV) (GetName CSV);
           client.CallNewClient; client.CallList client.KClusterServiceVersion ""])%list /\
    (elems (GetFinalizers CSV) <> [] -> complete = false).
Proof.
  intros Hserved Hfind Hstored Howned. cbn zeta.
  set (left := if bool_decide (elems (GetFinalizers CSV) = []) then _ else _).
  apply (nextFault_after_served 4 client.CallNewClient) in Hserved as [Hfault1 Hserved].
  apply (nextFault_after_served 3 (client.CallList client.KClusterServiceVersion ""))
    in Hserved as [Hfault2 Hserved].
  apply (nextFault_after_served 2
           (client.CallDelete client.KClusterServiceVersion (GetNamespace CSV)
              (GetName CSV))) in Hserved as [Hfault3 Hserved].
  apply (nextFault_after_served 1 client.CallNewClient) in Hserved as [Hfault4 Hserved].
  apply nextFault_served in Hserved as Hfault5.
  unfold ols_install.UninstallInstanceOwnedOLSOperator.
  rewrite bind_eq, GetOLSOperatorCSV_eq, Hfault1, Hfault2, Hfind, Howned. cbn [negb].
  rewrite bind_eq, Delete_eq. cbn zeta.
  rewrite !afterRequests_app. cbn [app].
  cbn [client.store client.kind client.ClusterServiceVersion_Resource client.keyOf
       client.typedKey fst snd] in *.
  rewrite objects_afterRequests.
  assert (Hfault3' : client.nextFault
            (client.afterRequests
               [client.CallNewClient; client.CallList client.KClusterServiceVersion ""] c)
            = None)
    by (by rewrite <- (afterRequests_app [client.CallNewClient]
                         [client.CallList client.KClusterServiceVersion ""])).
  rewrite Hfault3', Hstored.
  match goal with
  | |- context [client.set_objects ?a ?b] => set (c3 := client.set_objects a b)
  end.
  assert (Hleft : client.csvs (client.objects c3) = left) by done.
  assert (Hcalls : client.calls c3
                   = (client.calls c
                      ++ [client.CallNewClient;
                          client.CallList client.KClusterServiceVersion "";
                          client.CallDelete client.KClusterServiceVersion
                            (GetNamespace CSV) (GetName CSV)])%list) by done.
  assert (Hfaults : client.faults c3 = drop 3 (client.faults c)) by done.
  assert (Hnext4 : client.nextFault c3 = None).
  { unfold client.nextFault in Hfault4 |- *. rewrite Hfaults.
    cbn [client.faults client.afterRequests length] in Hfault4.
    by rewrite !drop_drop in Hfault4. }
  assert (Hnext5 : client.nextFault (client.afterRequests [client.CallNewClient] c3) = None).
  { unfold client.nextFault in Hfault5 |- *.
    cbn [client.faults client.afterRequests length] in Hfault5 |- *. rewrite Hfaults.
    rewrite !drop_drop in Hfault5. by rewrite !drop_drop. }
  clearbody c3.
  rewrite bind_eq, GetOLSOperatorCSV_eq, Hnext4, Hnext5, Hleft.
  eexists. split; [| split; [| split]].
  - destruct (List.find _ left) as [CSV'|] eqn:Hleft_find; unfold mret, client.M_ret.
    + by rewrite bool_decide_eq_false_2.
    + by rewrite bool_decide_eq_true_2.
  - cbn [client.objects client.afterRequests]. exact Hleft.
  - cbn [client.calls client.afterRequests]. by rewrite Hcalls, <- !app_assoc.
  - intros Hkept. apply bool_decide_eq_false_2. subst left.
    rewrite (bool_decide_eq_false_2 _ Hkept).
    assert (Hin : client.markDeleting CSV
                  ∈ client.replaceObject (client.markDeleting CSV)
                      (client.csvs (client.objects c))).
    { apply find_elem_of in Hfind as [Hin _]. unfold client.replaceObject.
      apply list_elem_of_fmap. exists CSV. split; [| done].
      unfold client.hasKey. rewrite bool_decide_eq_true_2; [done |].
      cbn [client.keyOf client.markDeleting client.ClusterServiceVersion_Resource].
      unfold client.typedKey.
      destruct (typedMarkDeleting_meta (T := operatorsv1alpha1.ClusterServiceVersion)
                  ltac:(done) CSV) as (-> & -> & _). done. }
    apply find_elem_of in Hfind as [_ Hprefix].
    assert (Hprefix' : GoStrings.HasPrefix (GetName (client.markDeleting CSV))
                         ols_install.OLSOperatorName = true).
    { cbn [client.markDeleting client.ClusterServiceVersion_Resource].
      destruct (typedMarkDeleting_meta (T := operatorsv1alpha1.ClusterServiceVersion)
                  ltac:(done) CSV) as (-> & _). done. }
    destruct (find_is_Some
                (fun CSV => GoStrings.HasPrefix (GetName CSV) ols_install.OLSOperatorName)
                _ _ Hin Hprefix') as [x Hx].
    by rewrite Hx.
Qed.

Lemma UninstallInstanceOwnedOLSOperator_owned_witness :
  exists c' : client.Cluster,
    ols_install.UninstallInstanceOwnedOLSOperator Examples.instance1 Examples.withOwnedCSV
    = client.Return (false, None) c' /\
    client.csvs (client.objects c') = [client.markDeleting Examples.ownedCSV].
Proof.
  destruct (UninstallInstanceOwnedOLSOperator_owned Examples.instance1
              Examples.withOwnedCSV Examples.ownedCSV)
    as (c' & Hrun & Hleft & _ & Hkept).
  - by apply served_nil_faults.
  - reflexivity.
  - reflexivity.
  - reflexivity.
  - exists c'. rewrite Hrun, Hleft, Hkept.
    + split; reflexivity.
    + vm_compute. discriminate.
Defined.

(* --------------------------------------------------------------------- *)
(** ** Approving the install plan                                         *)
(* --------------------------------------------------------------------- *)

(** The loop of [ApproveOLSOperatorInstallPlan] stops at the first plan
    whose first CSV name begins with the name of the operator and ends with
    the version. *)
Lemma approveFirst_find (version : string)
    (installPlans : list operatorsv1alpha1.InstallPlan) (c : client.Cluster) :
  ols_install.approveFirst version installPlans c
  = match List.find
            (fun installPlan =>
               match operatorsv1alpha1.ip_ClusterServiceVersionNames installPlan with
               | [] => false
               | name0 :: _ =>
                   GoStrings.HasPrefix name0 ols_install.OLSOperatorName
                   && GoStrings.HasSuffix name0 version
               end) installPlans with
    | None => client.Return (false, None) c
    | Some installPlan =>
        (err ← client.Update (operatorsv1alpha1.set_Approved true installPlan);
         match err with
         | Some e =>
             if k8s_errors.IsConflict e then mret (false, None) else mret (false, Some e)
         | None => mret (true, None)
         end) c
    end.
Proof.
  induction installPlans as [|installPlan rest IH]; [done |].
  cbn [ols_install.approveFirst List.find].
  destruct (operatorsv1alpha1.ip_ClusterServiceVersionNames installPlan) as [|name0 names];
    [exact IH |].
  destruct (GoStrings.HasPrefix name0 ols_install.OLSOperatorName); cbn [negb andb];
    [| exact IH].
  destruct (GoStrings.HasSuffix name0 version); cbn [negb]; [done | exact IH].
Qed.

(** [ApproveOLSOperatorInstallPlan] with its requests served. *)
Lemma ApproveOLSOperatorInstallPlan_served
    (Getenv : string -> string) (instance : apiv1beta1.OpenStackLightspeed)
    (c : client.Cluster) (version : string) :
  client.served 2 c ->
  ols_install.GetRecommendedOLSVersion Getenv = (version, None) ->
  ols_install.ApproveOLSOperatorInstallPlan Getenv instance c
  = match List.find
            (fun installPlan =>
               match operatorsv1alpha1.ip_ClusterServiceVersionNames installPlan with
               | [] => false
               | name0 :: _ =>
                   GoStrings.HasPrefix name0 ols_install.OLSOperatorName
                   && GoStrings.HasSuffix name0 version
               end)
            (List.filter (fun installPlan =>
                            bool_decide (GetNamespace instance = "")
                            || bool_decide (GetNamespace installPlan
                                            = GetNamespace instance))
               (client.installPlans (client.objects c))) with
    | Some installPlan =>
        client.Return (true, None)
          (client.set_objects
             (client.setStore
                (client.storeObject (operatorsv1alpha1.set_Approved true installPlan)
                   (client.installPlans (client.objects c)))
                (client.objects c))
             (client.afterRequests
                [client.CallList client.KInstallPlan (GetNamespace instance);
                 client.CallUpdate client.KInstallPlan (GetNamespace installPlan)
                   (GetName installPlan)] c))
    | None =>
        client.Return (false, None)
          (client.afterRequests
             [client.CallList client.KInstallPlan (GetNamespace instance)] c)
    end.
Proof.
  intros Hserved Hversion.
  apply (nextFault_after_served 1
           (client.CallList client.KInstallPlan (GetNamespace instance)))
    in Hserved as [Hfault1 Hserved].
  apply nextFault_served in Hserved as Hfault2.
  unfold ols_install.ApproveOLSOperatorInstallPlan.
  rewrite bind_eq, List_eq, Hfault1, Hversion, approveFirst_find.
  cbn [client.store client.kind client.InstallPlan_Resource client.keyOf client.typedKey
       fst snd].
  destruct (List.find _ _) as [installPlan|] eqn:Hfind; [| done].
  apply find_elem_of in Hfind as [Hin _].
  apply list_elem_of_In, filter_In in Hin as [Hin%list_elem_of_In _].
  assert (Hstored : is_Some (client.lookupObject
                               (client.keyOf (operatorsv1alpha1.set_Approved true
                                                installPlan))
                               (client.installPlans (client.objects c)))).
  { apply (find_is_Some _ _ installPlan Hin). unfold client.hasKey.
    by apply bool_decide_eq_true_2. }
  destruct Hstored as [stored Hstored].
  rewrite bind_eq. unfold client.Update. rewrite write_eq. cbn zeta.
  rewrite Hfault2, objects_afterRequests.
  cbn [client.store client.kind client.InstallPlan_Resource].
  rewrite Hstored. unfold mret, client.M_ret.
  by rewrite afterRequests_app.
Qed.

(** X18. [ApproveOLSOperatorInstallPlan], with the version of the operator
    given by the environment and its requests served, approves one install
    plan at most: the first plan of the namespace of the instance whose
    first CSV name begins with the name of the operator and ends with the
    version.  It answers [(true, nil)] when there is such a plan, which is
    then stored as approved, and [(false, nil)] after the list alone when
    there is none. *)
Theorem ApproveOLSOperatorInstallPlan_first_match
    (Getenv : string -> string) (instance : apiv1beta1.OpenStackLightspeed)
    (c : client.Cluster) (version : string) :
  client.served 2 c ->
  ols_install.GetRecommendedOLSVersion Getenv = (version, None) ->
  let listed :=
    List.filter (fun installPlan =>
                   bool_decide (GetNamespace instance = "")
                   || bool_decide (GetNamespace installPlan = GetNamespace instance))
      (client.installPlans (client.objects c)) in
  let first :=
    List.find (fun installPlan =>
                 match operatorsv1alpha1.ip_ClusterServiceVersionNames installPlan with
                 | [] => false
                 | name0 :: _ =>
                     GoStrings.HasPrefix name0 ols_install.OLSOperatorName
                     && GoStrings.HasSuffix name0 version
                 end) listed in
  exists c' : client.Cluster,
    ols_install.ApproveOLSOperatorInstallPlan Getenv instance c
    = client.Return (bool_decide (is_Some first), None) c' /\
    match first with
    | Some installPlan =>
        client.installPlans (client.objects c')
        = client.storeObject (operatorsv1alpha1.set_Approved true installPlan)
            (client.installPlans (client.objects c)) /\
        client.calls c'
        = (client.calls c
           ++ [client.CallList client.KInstallPlan (GetNamespace instance);
               client.CallUpdate client.KInstallPlan (GetNamespace installPlan)
                 (GetName installPlan)])%list
    | None =>
        client.objects c' = client.objects c /\
        client.calls c'
        = (client.calls c
           ++ [client.CallList client.KInstallPlan (GetNamespace instance)])%list
    end.
Proof.
  intros Hserved Hversion. cbn zeta.
  rewrite (ApproveOLSOperatorInstallPlan_served _ _ _ _ Hserved Hversion).
  destruct (List.find _ _) as [installPlan|]; eexists.
  - split; [by rewrite bool_decide_eq_true_2 |]. split; [done |].
    cbn [client.calls client.set_objects client.afterRequests]. done.
  - split; [by rewrite bool_decide_eq_false_2; [| by intros [? ?]] |]. by split.
Qed.

Lemma ApproveOLSOperatorInstallPlan_first_match_witness :
  let installPlan :=
    operatorsv1alpha1.mkInstallPlan
      (Examples.meta "install-x7k2p" "openshift-lightspeed" "plan-uid")
      ["lightspeed-operator.v1.0.6"] false in
  let c := Examples.clusterWith (client.mkObjects [] [] [] [] [installPlan] [] []) in
  exists c' : client.Cluster,
    ols_install.ApproveOLSOperatorInstallPlan (Examples.getenv "1.0.6") Examples.instance1 c
    = client.Return (true, None) c' /\
    client.installPlans (client.objects c')
    = [operatorsv1alpha1.set_Approved true installPlan].
Proof.
  intros installPlan c.
  destruct (ApproveOLSOperatorInstallPlan_first_match (Examples.getenv "1.0.6")
              Examples.instance1 c "1.0.6") as (c' & Hrun & Hfirst).
  - by apply served_nil_faults.
  - reflexivity.
  - exists c'. split; [exact Hrun |]. exact (proj1 Hfirst).
Defined.

(* --------------------------------------------------------------------- *)
(** ** Installing the operator                                            *)
(* --------------------------------------------------------------------- *)

(** [SetStartingCSV] panics on a Subscription without a [Spec] when the
    environment gives a version, and in no other case. *)
Lemma SetStartingCSV_panics (Getenv : string -> string)
    (subscription : operatorsv1alpha1.Subscription) :
  ols_install.SetStartingCSV Getenv subscription = None <->
  operatorsv1alpha1.sub_Spec subscription = None /\
  exists version : string,
    ols_install.GetRecommendedOLSVersion Getenv = (version, None) /\ version <> "".
Proof.
  unfold ols_install.SetStartingCSV.
  destruct (ols_install.GetRecommendedOLSVersion Getenv) as [version [e|]].
  - split; [done |]. by intros [_ (v & [= _] & _)].
  - destruct (String.eqb version "") eqn:Hversion; cbn [negb].
    + apply String.eqb_eq in Hversion as ->. split; [done |].
      by intros [_ (v & [= <-] & Hv)].
    + apply String.eqb_neq in Hversion.
      destruct (operatorsv1alpha1.sub_Spec subscription) as [sp|].
      * split; [done |]. by intros [[=] _].
      * split; [| done]. intros _. split; [done |]. by exists version.
Qed.

(** What [InstallInstanceOwnedOLSOperator] writes into the Subscription
    when the environment gives the version of the operator. *)
Lemma subscriptionMutateFn_sets (Getenv : string -> string)
    (instance : apiv1beta1.OpenStackLightspeed)
    (subscription : operatorsv1alpha1.Subscription) (version : string) :
  ols_install.GetRecommendedOLSVersion Getenv = (version, None) ->
  ols_install.subscriptionMutateFn Getenv instance subscription
  = (operatorsv1alpha1.mkSubscription
       (metav1.set_OwnerReferences (ols_install.instanceOwnerReference instance)
          (operatorsv1alpha1.sub_Meta subscription))
       (Some (operatorsv1alpha1.mkSubscriptionSpec "stable" "Manual"
                (apiv1beta1.CatalogSourceName (apiv1beta1.Spec instance))
                (apiv1beta1.CatalogSourceNamespace (apiv1beta1.Spec instance))
                "lightspeed-operator"
                (if String.eqb version "" then ""
                 else "lightspeed-operator.v" +:+ version)))
       (operatorsv1alpha1.sub_InstallPlanRef subscription),
     None).
Proof.
  intros Hversion.
  unfold ols_install.subscriptionMutateFn, ols_install.SetStartingCSV.
  rewrite Hversion. by destruct (String.eqb version "").
Qed.

(** X19. The first pass of [InstallInstanceOwnedOLSOperator]: when no
    Subscription of the name of the instance is stored, the version of the
    operator is given by the environment and the two requests are served,
    the Subscription is created with manual approval, the catalog source of
    the instance, the starting CSV of the version (none for ["latest"]) and
    the instance as its controlling owner, and the answer is [(false, nil)]:
    the install plan is left for a later pass. *)
Theorem InstallInstanceOwnedOLSOperator_first_pass
    (Getenv : string -> string) (instance : apiv1beta1.OpenStackLightspeed)
    (c : client.Cluster) (name version : string) :
  client.served 2 c ->
  ols_install.GetOLSSubscriptionName instance = Some name ->
  ols_install.GetRecommendedOLSVersion Getenv = (version, None) ->
  client.lookupObject (GetNamespace instance, name)
    (client.subscriptions (client.objects c)) = None ->
  let subscription :=
    operatorsv1alpha1.mkSubscription
      (metav1.mkObjectMeta name (GetNamespace instance) "" 0 ∅
         [metav1.mkOwnerReference (apiv1beta1.APIVersion instance)
            (apiv1beta1.Kind instance) (GetName instance) (GetUID instance)
            (Some true) (Some true)]
         None None)
      (Some (operatorsv1alpha1.mkSubscriptionSpec "stable" "Manual"
               (apiv1beta1.CatalogSourceName (apiv1beta1.Spec instance))
               (apiv1beta1.CatalogSourceNamespace (apiv1beta1.Spec instance))
               "lightspeed-operator"
               (if String.eqb version "" then ""
                else "lightspeed-operator.v" +:+ version)))
      None in
  exists c' : client.Cluster,
    ols_install.InstallInstanceOwnedOLSOperator Getenv instance c
    = client.Return (false, None) c' /\
    client.subscriptions (client.objects c')
    = (client.subscriptions (client.objects c) ++ [subscription])%list /\
    funcs.IsOwnedBy subscription instance = true /\
    client.calls c'
    = (client.calls c
       ++ [client.CallGet client.KSubscription (GetNamespace instance) name;
           client.CallCreate client.KSubscription (GetNamespace instance) name])%list.
Proof.
  intros Hserved Hname Hversion Hmissing. cbn zeta.
  apply (nextFault_after_served 1
           (client.CallGet client.KSubscription (GetNamespace instance) name))
    in Hserved as [Hfault1 Hserved].
  apply nextFault_served in Hserved as Hfault2.
  unfold ols_install.InstallInstanceOwnedOLSOperator.
  rewrite bind_eq, Hname. cbn [ols_install.orPanic]. rewrite ret_eq.
  rewrite bind_eq. unfold createor.CreateOrUpdate.
  cbn [client.keyOf client.Subscription_Resource client.typedKey GetNamespace GetName
       GetObjectMeta operatorsv1alpha1.Subscription_Object operatorsv1alpha1.sub_Meta
       metav1.Namespace metav1.Name].
  rewrite bind_eq, Get_eq, Hfault1.
  cbn [client.store client.kind client.Subscription_Resource fst snd].
  set (subscription0 := operatorsv1alpha1.mkSubscription _ None None).
  change (client.typedKey subscription0) with (GetNamespace instance, name).
  rewrite Hmissing, IsNotFound_notFound. cbn [negb].
  unfold createor.mutate. rewrite (subscriptionMutateFn_sets _ _ _ _ Hversion).
  subst subscription0.
  cbn [operatorsv1alpha1.sub_Meta operatorsv1alpha1.sub_InstallPlanRef
       metav1.set_OwnerReferences metav1.Name metav1.Namespace metav1.UID
       metav1.Generation metav1.Labels metav1.Finalizers metav1.DeletionTimestamp].
  set (subscription := operatorsv1alpha1.mkSubscription _ (Some _) None).
  change (client.keyOf subscription) with (GetNamespace instance, name).
  rewrite bool_decide_eq_true_2 by done.
  rewrite bind_eq, Create_eq. cbn zeta.
  cbn [fst snd]. rewrite Hfault2, objects_afterRequests.
  change (client.keyOf subscription) with (GetNamespace instance, name).
  cbn [client.store client.kind client.Subscription_Resource fst snd].
  rewrite Hmissing. unfold mret, client.M_ret. cbn [negb orb].
  eexists. split; [reflexivity |]. split; [done |]. split.
  - unfold funcs.IsOwnedBy. subst subscription.
    cbn [GetOwnerReferences GetObjectMeta operatorsv1alpha1.Subscription_Object
         operatorsv1alpha1.sub_Meta metav1.set_OwnerReferences metav1.OwnerReferences
         ols_install.instanceOwnerReference existsb metav1.ref_UID].
    by rewrite String.eqb_refl.
  - cbn [client.calls client.set_objects client.afterRequests]. by rewrite <- app_assoc.
Qed.

Lemma InstallInstanceOwnedOLSOperator_first_pass_witness :
  exists c' : client.Cluster,
    ols_install.InstallInstanceOwnedOLSOperator (Examples.getenv "1.0.6")
      Examples.instance1 (Examples.clusterWith Examples.noObjects)
    = client.Return (false, None) c' /\
    (exists subscription : operatorsv1alpha1.Subscription,
       client.subscriptions (client.objects c') = [subscription] /\
       GetName subscription = "lightspeed-operator-3f2a9" /\
       option_map operatorsv1alpha1.StartingCSV (operatorsv1alpha1.sub_Spec subscription)
       = Some "lightspeed-operator.v1.0.6").
Proof.
  destruct (InstallInstanceOwnedOLSOperator_first_pass (Examples.getenv "1.0.6")
              Examples.instance1 (Examples.clusterWith Examples.noObjects)
              "lightspeed-operator-3f2a9" "1.0.6")
    as (c' & Hrun & Hstore & _).
  - by apply served_nil_faults.
  - reflexivity.
  - reflexivity.
  - reflexivity.
  - exists c'. split; [exact Hrun |]. eexists. split; [exact Hstore |]. by split.
Defined.

(** Without the version of the operator in the environment,
    [EnsureOLSOperatorInstalled] fails and leaves the cluster as it is. *)
Lemma EnsureOLSOperatorInstalled_without_version
    (Getenv : string -> string) (instance : apiv1beta1.OpenStackLightspeed)
    (c : client.Cluster) :
  5 <= String.length (GetUID instance) ->
  Getenv "OPENSHIFT_LIGHTSPEED_OPERATOR_VERSION" = "" ->
  exists (e : error) (c' : client.Cluster),
    ols_install.EnsureOLSOperatorInstalled Getenv instance c
    = client.Return (false, Some e) c' /\
    client.objects c' = client.objects c.
Proof.
  intros Huid Henv.
  unfold ols_install.EnsureOLSOperatorInstalled, ols_install.IsUserInstalledOLSOperatorMode,
    ols_install.InstallInstanceOwnedOLSOperator, createor.CreateOrUpdate, createor.mutate,
    ols_install.subscriptionMutateFn, ols_install.SetStartingCSV,
    ols_install.GetRecommendedOLSVersion.
  rewrite Henv, (GetOLSSubscriptionName_long _ Huid).
  cbn [String.eqb ols_install.orPanic].
  rewrite bind_eq, bind_eq, GetOLSOperatorCSV_eq.
  run; by eexists _, _.
Qed.

(** X20. [EnsureOLSOperatorInstalled] without the environment variable
    [OPENSHIFT_LIGHTSPEED_OPERATOR_VERSION]: whatever the cluster holds and
    whatever its requests meet, it fails, it never reports the operator as
    installed, and it writes nothing to the cluster. *)
Theorem EnsureOLSOperatorInstalled_version_unset
    (Getenv : string -> string) (instance : apiv1beta1.OpenStackLightspeed)
    (c : client.Cluster) :
  5 <= String.length (GetUID instance) ->
  Getenv "OPENSHIFT_LIGHTSPEED_OPERATOR_VERSION" = "" ->
  exists (e : error) (c' : client.Cluster),
    ols_install.EnsureOLSOperatorInstalled Getenv instance c
    = client.Return (false, Some e) c' /\
    client.objects c' = client.objects c /\
    client.sends client.isRead c c'.
Proof.
  intros Huid Henv.
  unfold ols_install.EnsureOLSOperatorInstalled, ols_install.IsUserInstalledOLSOperatorMode,
    ols_install.InstallInstanceOwnedOLSOperator, createor.CreateOrUpdate, createor.mutate,
    ols_install.subscriptionMutateFn, ols_install.SetStartingCSV,
    ols_install.GetRecommendedOLSVersion.
  rewrite Henv, (GetOLSSubscriptionName_long _ Huid).
  cbn [String.eqb ols_install.orPanic].
  rewrite bind_eq, bind_eq, GetOLSOperatorCSV_eq.
  run; (eexists _, _; split; [reflexivity |]; split; [done | solve_sends]).
Qed.

Lemma EnsureOLSOperatorInstalled_version_unset_witness :
  exists (e : error) (c' : client.Cluster),
    ols_install.EnsureOLSOperatorInstalled (Examples.getenv "") Examples.instance1
      (Examples.clusterWith Examples.noObjects)
    = client.Return (false, Some e) c' /\
    client.objects c' = Examples.noObjects.
Proof.
  destruct (EnsureOLSOperatorInstalled_version_unset (Examples.getenv "")
              Examples.instance1 (Examples.clusterWith Examples.noObjects))
    as (e & c' & Hrun & Hobjects & _).
  - vm_compute. lia.
  - reflexivity.
  - by exists e, c'.
Defined.

(* --------------------------------------------------------------------- *)
(** ** The discovery of the index                                         *)
(* --------------------------------------------------------------------- *)

(** The pod that the loop of [ResolveIndexID] picks is one of the list and
    its first container runs the image. *)
Lemma findOLSPod_inv (RAGImage : string) (items : list corev1.Pod) (OLSPod : corev1.Pod) :
  part_002.findOLSPod RAGImage items = Some (Some OLSPod) ->
  OLSPod ∈ items /\ head (corev1.pod_Images OLSPod) = Some RAGImage.
Proof.
  induction items as [|pod rest IH]; [done |]. cbn [part_002.findOLSPod].
  destruct (corev1.pod_Images pod) as [|image0 images] eqn:Himages; [done |].
  destruct (String.eqb_spec image0 RAGImage) as [->|Hother].
  - intros [= <-]. split; [apply list_elem_of_here | by rewrite Himages].
  - intros [Hin Himage]%IH. split; [by apply list_elem_of_further | done].
Qed.

Lemma createOLSJob_pods (Sha256Hex : string -> string)
    (instance : apiv1beta1.OpenStackLightspeed) (c c' : client.Cluster)
    (err : option error) :
  part_002.createOLSJob Sha256Hex instance c = client.Return err c' ->
  client.pods (client.objects c') = client.pods (client.objects c).
Proof.
  unfold part_002.createOLSJob. destruct (_ <? 9)%nat; [done |].
  cbn zeta. rewrite bind_eq, Create_eq. cbn zeta.
  destruct (client.nextFault c) as [e|].
  { destruct (negb _); rewrite ret_eq; by intros [= _ <-]. }
  destruct (client.lookupObject _ _).
  - destruct (negb _); rewrite ret_eq; by intros [= _ <-].
  - rewrite ret_eq. by intros [= _ <-].
Qed.

(** X21. An answer of [ResolveIndexID] without an error and without a
    requeue comes from the log of a pod: a pod of the namespace of the
    instance with the label of the discovery job, whose first container
    runs the RAG image of the instance and which has succeeded, and the
    index ID is the value of a line [INDEX_NAME=...] of its log.  The
    instance is then returned as it was. *)
Theorem ResolveIndexID_from_log (conditions : condition.Operations)
    (Sha256Hex : string -> string) (instance instance' : apiv1beta1.OpenStackLightspeed)
    (indexID : string) (c c' : client.Cluster) :
  part_002.ResolveIndexID conditions Sha256Hex instance c
  = client.Return (instance', indexID, ctrl.zeroResult, None) c' ->
  instance' = instance /\
  exists (OLSPod stored : corev1.Pod) (i : nat),
    OLSPod ∈ client.pods (client.objects c) /\
    (GetNamespace instance = "" \/ GetNamespace OLSPod = GetNamespace instance) /\
    metav1.Labels (corev1.pod_Meta OLSPod) !! "app" = Some "openstack-lightspeed" /\
    head (corev1.pod_Images OLSPod) = Some (apiv1beta1.RAGImage (apiv1beta1.Spec instance)) /\
    corev1.pod_Phase OLSPod = "Succeeded" /\
    client.lookupObject (client.keyOf OLSPod) (client.pods (client.objects c))
    = Some stored /\
    GoStrings.Split (corev1.pod_Logs stored) GoStrings.LF !! i
    = Some ("INDEX_NAME=" +:+ indexID).
Proof.
  unfold part_002.ResolveIndexID. rewrite bind_eq.
  destruct (part_002.createOLSJob Sha256Hex instance c) as [err c1|] eqn:Hjob; [| done].
  apply createOLSJob_pods in Hjob as Hpods.
  destruct err as [e|]; [by rewrite ret_eq |].
  rewrite bind_eq, List_eq.
  destruct (client.nextFault c1); [by rewrite ret_eq |].
  cbn [client.store client.kind client.Pod_Resource]. rewrite Hpods.
  rewrite bind_eq.
  destruct (part_002.findOLSPod _ _) as [[OLSPod|]|] eqn:Hfind;
    cbn [ols_install.orPanic]; [| by rewrite ret_eq | done].
  rewrite ret_eq.
  apply findOLSPod_inv in Hfind as [Hin Himage].
  apply list_elem_of_In, filter_In in Hin as [Hin Hlabel].
  apply bool_decide_eq_true in Hlabel.
  apply filter_In in Hin as [Hin%list_elem_of_In Hnamespace].
  destruct (String.eqb_spec (corev1.pod_Phase OLSPod) corev1.PodSucceeded) as [Hphase|_].
  - rewrite bind_eq. unfold part_002.extractEnvFromPodLogs.
    rewrite bind_eq, request_next.
    destruct (client.nextFault _) as [e|].
    { rewrite ret_eq. cbn [from_option]. by destruct (k8s_errors.IsNotFound e). }
    rewrite bind_eq, request_next.
    destruct (client.nextFault _) as [e|].
    { rewrite ret_eq. cbn [from_option]. by destruct (k8s_errors.IsNotFound e). }
    unfold client.getObjects. rewrite bind_eq.
    cbn [client.store client.Pod_Resource client.objects client.afterRequests].
    rewrite Hpods.
    destruct (client.lookupObject _ _) as [stored|] eqn:Hstored.
    2: { rewrite ret_eq. cbn [from_option]. by rewrite IsNotFound_notFound. }
    rewrite ret_eq.
    destruct (part_002.envFromLines _ _) as [indexName [e|]] eqn:Hlines.
    { cbn [from_option]. by destruct (k8s_errors.IsNotFound e). }
    cbn [from_option]. intros [= <- <- _].
    apply envFromLines_inv in Hlines as (_ & i & Hi & _); [| done].
    split; [done |]. exists OLSPod, stored, i. repeat split; try done.
    apply orb_true_iff in Hnamespace as [?%bool_decide_eq_true|?%bool_decide_eq_true];
      [by left | by right].
  - destruct (String.eqb _ corev1.PodFailed); by rewrite ret_eq.
Qed.

Lemma ResolveIndexID_from_log_witness :
  let Sha256Hex :=
    fun _ : string => "5d41402abc4b2a76b9719d911017c5925d41402abc4b2a76b9719d911017c592" in
  let pod :=
    corev1.mkPod
      (metav1.mkObjectMeta "openstack-lightspeed-11017c592-x7k2p" "openshift-lightspeed"
         "pod-uid" 1 {[ "app" := "openstack-lightspeed" ]} [] None None)
      ["quay.io/openstack-lightspeed/rag-content:os-docs-2025.1"] "Succeeded"
      Examples.logsPlain in
  Examples.instance1 = Examples.instance1 /\
  exists (OLSPod stored : corev1.Pod) (i : nat),
    OLSPod ∈ client.pods (client.objects (Examples.withPod pod)) /\
    (GetNamespace Examples.instance1 = "" \/
     GetNamespace OLSPod = GetNamespace Examples.instance1) /\
    metav1.Labels (corev1.pod_Meta OLSPod) !! "app" = Some "openstack-lightspeed" /\
    head (corev1.pod_Images OLSPod)
    = Some (apiv1beta1.RAGImage (apiv1beta1.Spec Examples.instance1)) /\
    corev1.pod_Phase OLSPod = "Succeeded" /\
    client.lookupObject (client.keyOf OLSPod)
      (client.pods (client.objects (Examples.withPod pod))) = Some stored /\
    GoStrings.Split (corev1.pod_Logs stored) GoStrings.LF !! i
    = Some ("INDEX_NAME=" +:+ "os-docs-2025.1").
Proof.
  intros Sha256Hex pod.
  eapply (ResolveIndexID_from_log Examples.conditions Sha256Hex Examples.instance1
            Examples.instance1 "os-docs-2025.1" (Examples.withPod pod)).
  vm_compute. reflexivity.
Defined.

(** [ResolveIndexID] gives no value with an error of the log. *)
Lemma envFromLines_error (envVarName value : string) (envLines : list string) (e : error) :
  part_002.envFromLines envVarName envLines = (value, Some e) -> value = "".
Proof.
  induction envLines as [|envLine rest IH]; cbn [part_002.envFromLines];
    [by intros [= <- _] |].
  destruct (GoStrings.Split envLine "=") as [|p0 [|p1 [|p2 ps]]]; try done.
  by destruct (String.eqb p0 envVarName).
Qed.

(** X22. [ResolveIndexID] returns an index ID that is not empty only as its
    final answer: without an error and without a requeue. *)
Theorem ResolveIndexID_index_final (conditions : condition.Operations)
    (Sha256Hex : string -> string) (instance instance' : apiv1beta1.OpenStackLightspeed)
    (indexID : string) (result : ctrl.Result) (err : option error)
    (c c' : client.Cluster) :
  part_002.ResolveIndexID conditions Sha256Hex instance c
  = client.Return (instance', indexID, result, err) c' ->
  indexID <> "" ->
  err = None /\ result = ctrl.zeroResult.
Proof.
  unfold part_002.ResolveIndexID, part_002.requeueWaitingPod. rewrite bind_eq.
  destruct (part_002.createOLSJob Sha256Hex instance c) as [jobErr c1|]; [| done].
  destruct jobErr as [e|]; [rewrite ret_eq; by intros [= _ <- _ _] |].
  rewrite bind_eq, List_eq.
  destruct (client.nextFault c1); [rewrite ret_eq; by intros [= _ <- _ _] |].
  rewrite bind_eq.
  destruct (part_002.findOLSPod _ _) as [[OLSPod|]|];
    cbn [ols_install.orPanic]; [| rewrite ret_eq; by intros [= _ <- _ _] | done].
  rewrite ret_eq.
  destruct (String.eqb (corev1.pod_Phase OLSPod) corev1.PodSucceeded).
  - rewrite bind_eq. unfold part_002.extractEnvFromPodLogs.
    rewrite bind_eq, request_next.
    destruct (client.nextFault _) as [e|].
    { rewrite ret_eq. cbn [from_option].
      destruct (k8s_errors.IsNotFound e); by intros [= _ <- _ _]. }
    rewrite bind_eq, request_next.
    destruct (client.nextFault _) as [e|].
    { rewrite ret_eq. cbn [from_option].
      destruct (k8s_errors.IsNotFound e); by intros [= _ <- _ _]. }
    unfold client.getObjects. rewrite bind_eq.
    destruct (client.lookupObject _ _) as [stored|].
    2: { rewrite ret_eq. cbn [from_option]. rewrite IsNotFound_notFound.
         by intros [= _ <- _ _]. }
    rewrite ret_eq.
    destruct (part_002.envFromLines _ _) as [indexName [e|]] eqn:Hlines.
    + apply envFromLines_error in Hlines as ->. cbn [from_option].
      destruct (k8s_errors.IsNotFound e); by intros [= _ <- _ _].
    + cbn [from_option]. by intros [= _ _ <- <-].
  - destruct (String.eqb _ corev1.PodFailed); rewrite ret_eq; by intros [= _ <- _ _].
Qed.

Lemma ResolveIndexID_index_final_witness :
  let Sha256Hex :=
    fun _ : string => "5d41402abc4b2a76b9719d911017c5925d41402abc4b2a76b9719d911017c592" in
  let pod :=
    corev1.mkPod
      (metav1.mkObjectMeta "openstack-lightspeed-11017c592-x7k2p" "openshift-lightspeed"
         "pod-uid" 1 {[ "app" := "openstack-lightspeed" ]} [] None None)
      ["quay.io/openstack-lightspeed/rag-content:os-docs-2025.1"] "Succeeded"
      Examples.logsPlain in
  exists c' : client.Cluster,
    part_002.ResolveIndexID Examples.conditions Sha256Hex Examples.instance1
      (Examples.withPod pod)
    = client.Return (Examples.instance1, "os-docs-2025.1", ctrl.zeroResult, None) c' /\
    (@None error = None /\ ctrl.zeroResult = ctrl.zeroResult).
Proof.
  intros Sha256Hex pod. eexists.
  assert (Hrun : part_002.ResolveIndexID Examples.conditions Sha256Hex Examples.instance1
                   (Examples.withPod pod)
                 = client.Return
                     (Examples.instance1, "os-docs-2025.1", ctrl.zeroResult, None) _)
    by (vm_compute; reflexivity).
  split; [exact Hrun |].
  exact (ResolveIndexID_index_final _ _ _ _ _ _ _ _ _ Hrun ltac:(discriminate)).
Defined.

(* --------------------------------------------------------------------- *)
(** ** The discovery job                                                  *)
(* --------------------------------------------------------------------- *)

Section Snoc.
Context {T : Type} `{client.Resource T}.

Lemma lookupObject_snoc (o : T) (l : list T) :
  client.lookupObject (client.keyOf o) l = None ->
  client.lookupObject (client.keyOf o) (l ++ [o]) = Some o.
Proof.
  unfold client.lookupObject. induction l as [|x l IH]; cbn [app List.find].
  - intros _. unfold client.hasKey. by rewrite bool_decide_eq_true_2.
  - by destruct (client.hasKey (client.keyOf o) x).
Qed.

End Snoc.

Lemma IsAlreadyExists_alreadyExists (key : string * string) :
  k8s_errors.IsAlreadyExists (client.alreadyExists key) = true.
Proof. reflexivity. Qed.

(** X23. [createOLSJob] can be repeated: with its requests served and a
    digest of nine characters at least, it succeeds whether the job of the
    image exists or not, and a second call succeeds too and leaves the
    cluster as the first call left it.  The job that the first call creates,
    when there was none, runs the RAG image of the instance and is owned by
    the instance. *)
Theorem createOLSJob_twice (Sha256Hex : string -> string)
    (instance : apiv1beta1.OpenStackLightspeed) (c : client.Cluster) :
  client.served 2 c ->
  9 <= String.length (Sha256Hex (apiv1beta1.RAGImage (apiv1beta1.Spec instance))) ->
  let imageHashStr := Sha256Hex (apiv1beta1.RAGImage (apiv1beta1.Spec instance)) in
  let key :=
    (GetNamespace instance,
     "openstack-lightspeed-"
     +:+ GoStrings.dropBytes (String.length imageHashStr - 9) imageHashStr) in
  exists (c1 c2 : client.Cluster) (job : corev1.Job),
    part_002.createOLSJob Sha256Hex instance c = client.Return None c1 /\
    part_002.createOLSJob Sha256Hex instance c1 = client.Return None c2 /\
    client.objects c2 = client.objects c1 /\
    client.lookupObject key (client.jobs (client.objects c1)) = Some job /\
    (client.lookupObject key (client.jobs (client.objects c)) = None ->
     client.jobs (client.objects c1) = (client.jobs (client.objects c) ++ [job])%list /\
     corev1.job_Image job = apiv1beta1.RAGImage (apiv1beta1.Spec instance) /\
     funcs.IsOwnedBy job instance = true).
Proof.
  intros Hserved Hlen. cbn zeta.
  unfold part_002.createOLSJob.
  rewrite (proj2 (Nat.ltb_ge _ _) Hlen). cbn zeta.
  set (job := corev1.mkJob _ _ 600 1200).
  set (key := (GetNamespace instance, _)).
  assert (Hkey : client.keyOf job = key) by done.
  apply (nextFault_after_served 1
           (client.CallCreate client.KJob (client.keyOf job).1 (client.keyOf job).2))
    in Hserved as [Hfault1 Hserved].
  apply nextFault_served in Hserved as Hfault2.
  rewrite bind_eq, Create_eq. cbn zeta. rewrite Hfault1.
  cbn [client.store client.kind client.Job_Resource].
  destruct (client.lookupObject (client.keyOf job) (client.jobs (client.objects c)))
    as [stored|] eqn:Hstored.
  - rewrite IsAlreadyExists_alreadyExists. cbn [negb]. rewrite ret_eq.
    eexists _, _, stored. split; [reflexivity |].
    rewrite bind_eq, Create_eq. cbn zeta. rewrite Hfault2, objects_afterRequests.
    cbn [client.store client.kind client.Job_Resource]. rewrite Hstored.
    rewrite IsAlreadyExists_alreadyExists. cbn [negb]. rewrite ret_eq.
    split; [reflexivity |]. split; [done |]. rewrite <- Hkey. split; [done |].
    intros Hnone. congruence.
  - rewrite ret_eq. eexists _, _, job. split; [reflexivity |].
    rewrite bind_eq, Create_eq. cbn zeta.
    assert (Hnew : client.lookupObject (client.keyOf job)
                     (client.jobs (client.objects c) ++ [job]) = Some job)
      by (by apply lookupObject_snoc).
    match goal with
    | |- context [client.set_objects ?a ?b] => set (c1 := client.set_objects a b)
    end.
    assert (Hjobs : client.store (T := corev1.Job) (client.objects c1)
                    = (client.jobs (client.objects c) ++ [job])%list) by done.
    assert (Hnext : client.nextFault c1 = None) by exact Hfault2.
    rewrite Hnext, Hjobs, Hnew.
    rewrite IsAlreadyExists_alreadyExists. cbn [negb]. rewrite ret_eq.
    split; [reflexivity |]. split; [done |]. rewrite <- Hkey. split; [exact Hnew |].
    intros _. split; [done |]. split; [done |].
    unfold funcs.IsOwnedBy. subst job.
    cbn [GetOwnerReferences GetObjectMeta corev1.Job_Object corev1.job_Meta
         metav1.OwnerReferences part_002.controllerReference existsb metav1.ref_UID].
    by rewrite String.eqb_refl.
Qed.

Lemma createOLSJob_twice_witness :
  let Sha256Hex :=
    fun _ : string => "5d41402abc4b2a76b9719d911017c5925d41402abc4b2a76b9719d911017c592" in
  exists (c1 c2 : client.Cluster) (job : corev1.Job),
    part_002.createOLSJob Sha256Hex Examples.instance1
      (Examples.clusterWith Examples.noObjects) = client.Return None c1 /\
    part_002.createOLSJob Sha256Hex Examples.instance1 c1 = client.Return None c2 /\
    client.objects c2 = client.objects c1 /\
    client.jobs (client.objects c1) = [job] /\
    GetName job = "openstack-lightspeed-11017c592".
Proof.
  intros Sha256Hex.
  destruct (createOLSJob_twice Sha256Hex Examples.instance1
              (Examples.clusterWith Examples.noObjects))
    as (c1 & c2 & job & Hfirst & Hsecond & Hsame & Hstored & Hnew).
  - by apply served_nil_faults.
  - vm_compute. lia.
  - destruct (Hnew eq_refl) as (Hjobs & _ & _).
    exists c1, c2, job. repeat split; try done.
    apply lookupObject_key in Hstored. by injection Hstored as _ ->.
Defined.

(* --------------------------------------------------------------------- *)
(** ** [Reconcile]                                                        *)
(* --------------------------------------------------------------------- *)

(** X24. [Reconcile] on a request whose instance is not in the cluster: a
    not-found answer ends the reconciliation without an error and without a
    requeue, any other failure of the [Get] is returned as it is, and in
    both cases the [Get] is the only request and nothing is written. *)
Theorem Reconcile_instance_missing (Getenv : string -> string)
    (conditions : condition.Operations) (defaults : controller.DefaultValues)
    (finalizer : string) (req : string * string) (c : client.Cluster) :
  client.lookupObject req (client.instances (client.objects c)) = None ->
  controller.Reconcile Getenv conditions defaults finalizer req c
  = client.Return
      (ctrl.zeroResult,
       match client.nextFault c with
       | Some e => if k8s_errors.IsNotFound e then None else Some e
       | None => None
       end)
      (client.afterRequests [client.CallGet client.KOpenStackLightspeed req.1 req.2] c).
Proof.
  intros Hmissing. unfold controller.Reconcile. rewrite bind_eq, Get_eq.
  cbn [client.store client.kind client.OpenStackLightspeed_Resource].
  rewrite Hmissing.
  destruct (client.nextFault c) as [e|].
  - by destruct (k8s_errors.IsNotFound e).
  - by rewrite IsNotFound_notFound.
Qed.

Lemma Reconcile_instance_missing_witness :
  controller.Reconcile (Examples.getenv "1.0.6") Examples.conditions
    (controller.mkDefaultValues "" 2048) Examples.finalizer
    ("openshift-lightspeed", "openstack-lightspeed")
    (Examples.clusterWith Examples.noObjects)
  = client.Return (ctrl.zeroResult, None)
      (client.afterRequests
         [client.CallGet client.KOpenStackLightspeed "openshift-lightspeed"
            "openstack-lightspeed"]
         (Examples.clusterWith Examples.noObjects)).
Proof.
  exact (Reconcile_instance_missing (Examples.getenv "1.0.6") Examples.conditions
           (controller.mkDefaultValues "" 2048) Examples.finalizer
           ("openshift-lightspeed", "openstack-lightspeed")
           (Examples.clusterWith Examples.noObjects) eq_refl).
Defined.

(** [PatchInstance] returns, and its requests and what it writes are about
    the instance. *)
Lemma PatchInstance_returns (helper : common_helper.Helper)
    (instance : apiv1beta1.OpenStackLightspeed) (c : client.Cluster) :
  exists (r : option error) (c' : client.Cluster),
    common_helper.PatchInstance helper instance c = client.Return r c' /\
    client.sends (client.isAbout client.KOpenStackLightspeed) c c' /\
    client.olsConfigs (client.objects c') = client.olsConfigs (client.objects c) /\
    client.csvs (client.objects c') = client.csvs (client.objects c) /\
    client.subscriptions (client.objects c') = client.subscriptions (client.objects c) /\
    client.installPlans (client.objects c') = client.installPlans (client.objects c).
Proof.
  unfold common_helper.PatchInstance.
  run; (eexists _, _; split; [reflexivity |]; split; [solve_sends | done]).
Qed.

(** X25. [Reconcile] does not return the failure of
    [EnsureOLSOperatorInstalled].  For an instance that has its finalizer
    and is not being deleted, without the version of the operator in the
    environment: the reconciliation ends without an error and without a
    requeue, whatever the later requests meet, and nothing but the instance
    is written. *)
Theorem Reconcile_version_unset (Getenv : string -> string)
    (conditions : condition.Operations) (defaults : controller.DefaultValues)
    (finalizer : string) (req : string * string) (c : client.Cluster)
    (instance : apiv1beta1.OpenStackLightspeed) :
  client.served 1 c ->
  client.lookupObject req (client.instances (client.objects c)) = Some instance ->
  metav1.DeletionTimestamp (apiv1beta1.Meta instance) = None ->
  finalizer ∈ elems (GetFinalizers instance) ->
  5 <= String.length (GetUID instance) ->
  Getenv "OPENSHIFT_LIGHTSPEED_OPERATOR_VERSION" = "" ->
  exists c' : client.Cluster,
    controller.Reconcile Getenv conditions defaults finalizer req c
    = client.Return (ctrl.zeroResult, None) c' /\
    client.olsConfigs (client.objects c') = client.olsConfigs (client.objects c) /\
    client.csvs (client.objects c') = client.csvs (client.objects c) /\
    client.subscriptions (client.objects c') = client.subscriptions (client.objects c) /\
    client.installPlans (client.objects c') = client.installPlans (client.objects c).
Proof.
  intros Hserved%nextFault_served Hstored Hlive Hfinalizer Huid Henv.
  unfold controller.Reconcile. rewrite bind_eq, Get_eq, Hserved.
  cbn [client.store client.kind client.OpenStackLightspeed_Resource].
  rewrite Hstored. rewrite bind_eq.
  unfold controller.reconcileBody. cbn zeta.
  set (instance0 := apiv1beta1.set_Status _ instance).
  change (apiv1beta1.Meta instance0) with (apiv1beta1.Meta instance).
  rewrite Hlive, bool_decide_eq_false_2 by (by intros []).
  unfold controllerutil.AddFinalizer.
  change (GetFinalizers instance0) with (GetFinalizers instance).
  cbn [common_helper.GetFinalizer common_helper.NewHelper].
  rewrite bool_decide_eq_true_2 by done.
  set (instance1 := if String.eqb _ "" then _ else instance0).
  set (instance2 := if Z.eqb _ 0 then _ else instance1).
  assert (Huid2 : GetUID instance2 = GetUID instance).
  { subst instance2 instance1. by destruct (Z.eqb _ 0), (String.eqb _ ""). }
  rewrite <- Huid2 in Huid.
  destruct (EnsureOLSOperatorInstalled_without_version Getenv instance2
              (client.afterRequests
                 [client.CallGet client.KOpenStackLightspeed req.1 req.2] c) Huid Henv)
    as (e & c2 & Hensure & Hobjects).
  rewrite bind_eq, Hensure, ret_eq.
  unfold controller.patchStatusOnExit. rewrite bind_eq, bind_eq.
  match goal with
  | |- context [common_helper.PatchInstance ?h ?i c2] =>
      destruct (PatchInstance_returns h i c2)
        as (r & c3 & -> & _ & HolsConfigs & Hcsvs & Hsubscriptions & HinstallPlans)
  end.
  rewrite !ret_eq. exists c3. split; [done |].
  rewrite HolsConfigs, Hcsvs, Hsubscriptions, HinstallPlans, Hobjects. done.
Qed.

Lemma Reconcile_version_unset_witness :
  let instance :=
    apiv1beta1.set_Meta
      (metav1.mkObjectMeta "openstack-lightspeed" "openshift-lightspeed" Examples.uid1 1 ∅ []
         (Some [Examples.finalizer]) None)
      Examples.instance1 in
  let c := Examples.clusterWith (client.mkObjects [instance] [] [] [] [] [] []) in
  exists c' : client.Cluster,
    controller.Reconcile (Examples.getenv "") Examples.conditions
      (controller.mkDefaultValues "" 2048) Examples.finalizer
      ("openshift-lightspeed", "openstack-lightspeed") c
    = client.Return (ctrl.zeroResult, None) c' /\
    client.olsConfigs (client.objects c') = [] /\
    client.subscriptions (client.objects c') = [].
Proof.
  intros instance c.
  destruct (Reconcile_version_unset (Examples.getenv "") Examples.conditions
              (controller.mkDefaultValues "" 2048) Examples.finalizer
              ("openshift-lightspeed", "openstack-lightspeed") c instance)
    as (c' & Hrun & HolsConfigs & _ & Hsubscriptions & _).
  - by apply served_nil_faults.
  - reflexivity.
  - reflexivity.
  - apply list_elem_of_here.
  - vm_compute. lia.
  - reflexivity.
  - exists c'. by split.
Defined.

Section Replace.
Context {T : Type} `{client.Resource T}.

Lemma lookupObject_replaceObject (o x : T) (l : list T) :
  client.lookupObject (client.keyOf o) l = Some x ->
  client.lookupObject (client.keyOf o) (client.replaceObject o l) = Some o.
Proof.
  unfold client.lookupObject, client.replaceObject.
  induction l as [|y l IH]; [done |]. cbn [List.find map].
  destruct (client.hasKey (client.keyOf o) y) eqn:Hy.
  - intros _. unfold client.hasKey. by rewrite bool_decide_eq_true_2.
  - by rewrite Hy.
Qed.

End Replace.

(** X26. The first reconciliation of an instance puts the finalizer of the
    controller on it and does nothing else: for a stored instance that is
    not being deleted and has not the finalizer yet, with the requests
    served, [Reconcile] ends without an error and without a requeue, all its
    requests are about the instance, and the instance is stored with the
    finalizer added after the ones it had and with its spec as it was. *)
Theorem Reconcile_adds_finalizer (Getenv : string -> string)
    (conditions : condition.Operations) (defaults : controller.DefaultValues)
    (finalizer : string) (req : string * string) (c : client.Cluster)
    (instance : apiv1beta1.OpenStackLightspeed) :
  client.served 3 c ->
  client.lookupObject req (client.instances (client.objects c)) = Some instance ->
  metav1.DeletionTimestamp (apiv1beta1.Meta instance) = None ->
  finalizer ∉ elems (GetFinalizers instance) ->
  exists (c' : client.Cluster) (stored : apiv1beta1.OpenStackLightspeed),
    controller.Reconcile Getenv conditions defaults finalizer req c
    = client.Return (ctrl.zeroResult, None) c' /\
    client.sends (client.isAbout client.KOpenStackLightspeed) c c' /\
    client.lookupObject req (client.instances (client.objects c')) = Some stored /\
    GetFinalizers stored = Some (elems (GetFinalizers instance) ++ [finalizer])%list /\
    apiv1beta1.Spec stored = apiv1beta1.Spec instance.
Proof.
  intros Hserved Hstored Hlive Hfinalizer.
  apply (nextFault_after_served 2
           (client.CallGet client.KOpenStackLightspeed req.1 req.2))
    in Hserved as [Hfault1 Hserved].
  pose proof (lookupObject_key _ _ _ Hstored) as Hkey.
  unfold controller.Reconcile. rewrite bind_eq, Get_eq, Hfault1.
  cbn [client.store client.kind client.OpenStackLightspeed_Resource].
  rewrite Hstored. rewrite bind_eq.
  unfold controller.reconcileBody. cbn zeta.
  set (instance0 := apiv1beta1.set_Status _ instance).
  change (apiv1beta1.Meta instance0) with (apiv1beta1.Meta instance).
  rewrite Hlive, bool_decide_eq_false_2 by (by intros []).
  unfold controllerutil.AddFinalizer.
  change (GetFinalizers instance0) with (GetFinalizers instance).
  cbn [common_helper.GetFinalizer common_helper.NewHelper].
  rewrite bool_decide_eq_false_2 by done.
  rewrite ret_eq. unfold controller.patchStatusOnExit. rewrite bind_eq, bind_eq.
  set (conds := if condition.AllSubConditionIsTrue _ _ then _ else _).
  unfold common_helper.PatchInstance.
  cbn [common_helper.GetBeforeObject common_helper.NewHelper].
  set (added := Some (elems (GetFinalizers instance) ++ [finalizer])%list) in *.
  set (final := apiv1beta1.set_Conditions conds (SetFinalizers added instance0)).
  set (patched := apiv1beta1.set_Meta (apiv1beta1.Meta final) instance).
  set (statusPatched := apiv1beta1.set_Spec (apiv1beta1.Spec instance) final).
  assert (Hmeta : apiv1beta1.Meta final
                  = metav1.set_Finalizers added (apiv1beta1.Meta instance)) by done.
  assert (Hkey1 : client.keyOf final = req).
  { rewrite <- Hkey.
    cbn [client.keyOf client.OpenStackLightspeed_Resource]. unfold client.typedKey,
      GetNamespace, GetName.
    cbn [GetObjectMeta apiv1beta1.OpenStackLightspeed_Object]. rewrite Hmeta.
    by destruct (apiv1beta1.Meta instance). }
  assert (Hkey2 : client.keyOf patched = req) by exact Hkey1.
  assert (Hkey3 : client.keyOf statusPatched = req) by exact Hkey1.
  assert (Hchanged : apiv1beta1.Meta instance <> apiv1beta1.Meta final).
  { rewrite Hmeta. intros Heq. apply (f_equal metav1.Finalizers) in Heq.
    apply (f_equal (fun f => length (elems f))) in Heq. revert Heq. subst added.
    unfold GetFinalizers, Object_HasFinalizers.
    cbn [GetObjectMeta apiv1beta1.OpenStackLightspeed_Object].
    destruct (apiv1beta1.Meta instance). cbn. rewrite length_app. cbn. lia. }
  assert (Hkept : forall o : apiv1beta1.OpenStackLightspeed,
            apiv1beta1.Meta o = apiv1beta1.Meta final ->
            forall l, client.storeObject o l = client.replaceObject o l).
  { intros o Ho l. unfold client.storeObject.
    cbn [client.isDeleting client.OpenStackLightspeed_Resource].
    unfold client.typedIsDeleting.
    cbn [GetObjectMeta apiv1beta1.OpenStackLightspeed_Object]. rewrite Ho, Hmeta.
    replace (metav1.DeletionTimestamp (metav1.set_Finalizers added (apiv1beta1.Meta instance)))
      with (metav1.DeletionTimestamp (apiv1beta1.Meta instance))
      by (by destruct (apiv1beta1.Meta instance)).
    by rewrite Hlive, bool_decide_eq_false_2 by (by intros []). }
  rewrite (bool_decide_eq_false_2 _ Hchanged).
  rewrite Hkey1. rewrite !bind_eq, write_eq. cbn zeta.
  apply (nextFault_after_served 1
           (client.CallPatch client.KOpenStackLightspeed req.1 req.2))
    in Hserved as [Hfault2 Hserved].
  apply nextFault_served in Hserved as Hfault3.
  rewrite Hfault2, Hkey2, objects_afterRequests.
  cbn [client.store client.kind client.OpenStackLightspeed_Resource].
  rewrite Hstored, ret_eq, (Hkept patched eq_refl).
  assert (Hstored2 : client.lookupObject req
                       (client.replaceObject patched (client.instances (client.objects c)))
                     = Some patched).
  { rewrite <- Hkey2. apply (lookupObject_replaceObject _ instance). by rewrite Hkey2. }
  assert (Hfinalizers : GetFinalizers patched = added).
  { unfold GetFinalizers, Object_HasFinalizers. subst patched.
    cbn [GetObjectMeta apiv1beta1.OpenStackLightspeed_Object apiv1beta1.set_Meta
         apiv1beta1.Meta].
    change (metav1.Finalizers (apiv1beta1.Meta final) = added). rewrite Hmeta.
    by destruct (apiv1beta1.Meta instance). }
  destruct (bool_decide (apiv1beta1.Status instance = apiv1beta1.Status final)).
  - rewrite !ret_eq. eexists _, patched. split; [reflexivity |].
    split; [solve_sends |]. by split.
  - rewrite bind_eq, write_eq. cbn zeta.
    match goal with
    | |- context [client.set_objects ?a ?b] => set (c2 := client.set_objects a b)
    end.
    assert (Hinstances : client.store (T := apiv1beta1.OpenStackLightspeed)
                           (client.objects c2)
                         = client.replaceObject patched
                             (client.instances (client.objects c))) by done.
    assert (Hnext : client.nextFault c2 = None).
    { rewrite <- Hfault3. by subst c2. }
    assert (Hsends : client.sends (client.isAbout client.KOpenStackLightspeed) c c2)
      by (subst c2; solve_sends).
    clearbody c2.
    rewrite Hnext, Hkey3, Hinstances, Hstored2, !ret_eq, (Hkept statusPatched eq_refl).
    eexists _, statusPatched. split; [reflexivity |].
    split; [solve_sends; exact Hsends |].
    split.
    { cbn [client.objects client.set_objects client.instances client.setStore
           client.OpenStackLightspeed_Resource].
      rewrite <- Hkey3. apply (lookupObject_replaceObject _ patched).
      by rewrite Hkey3. }
    by split.
Qed.

Lemma Reconcile_adds_finalizer_witness :
  let c := Examples.clusterWith (client.mkObjects [Examples.instance1] [] [] [] [] [] []) in
  exists (c' : client.Cluster) (stored : apiv1beta1.OpenStackLightspeed),
    controller.Reconcile (Examples.getenv "1.0.6") Examples.conditions
      (controller.mkDefaultValues "" 2048) Examples.finalizer
      ("openshift-lightspeed", "openstack-lightspeed") c
    = client.Return (ctrl.zeroResult, None) c' /\
    client.lookupObject ("openshift-lightspeed", "openstack-lightspeed")
      (client.instances (client.objects c')) = Some stored /\
    GetFinalizers stored = Some [Examples.finalizer].
Proof.
  intros c.
  destruct (Reconcile_adds_finalizer (Examples.getenv "1.0.6") Examples.conditions
              (controller.mkDefaultValues "" 2048) Examples.finalizer
              ("openshift-lightspeed", "openstack-lightspeed") c Examples.instance1)
    as (c' & stored & Hrun & _ & Hstored & Hfinalizers & _).
  - by apply served_nil_faults.
  - reflexivity.
  - reflexivity.
  - apply not_elem_of_nil.
  - by exists c', stored.
Defined.

(* --------------------------------------------------------------------- *)
(** ** Which instances a changed install plan wakes up                    *)
(* --------------------------------------------------------------------- *)

(** X27. [NotifyAllOpenStackLightspeeds] only lists the instances.  When
    the list is served, its requests are the keys of the stored instances
    that are in the namespace of the object (of all of them for an object
    without a namespace); when the list fails it returns [nil]. *)
Theorem NotifyAllOpenStackLightspeeds_requests {T : Type} `{Object T} (obj : T)
    (c : client.Cluster) :
  exists (requests : slice (string * string)),
    controller.NotifyAllOpenStackLightspeeds obj c
    = client.Return requests
        (client.afterRequests
           [client.CallList client.KOpenStackLightspeed (GetNamespace obj)] c) /\
    (client.nextFault c <> None -> requests = None) /\
    (client.nextFault c = None ->
     (exists l, requests = Some l /\
        length l <= length (client.instances (client.objects c))) /\
     forall req : string * string,
       req ∈ elems requests <->
       exists instance : apiv1beta1.OpenStackLightspeed,
         instance ∈ client.instances (client.objects c) /\
         (GetNamespace obj = "" \/ GetNamespace instance = GetNamespace obj) /\
         req = (GetNamespace instance, GetName instance)).
Proof.
  unfold controller.NotifyAllOpenStackLightspeeds. rewrite bind_eq, List_eq.
  cbn [client.store client.kind client.OpenStackLightspeed_Resource client.keyOf
       client.typedKey fst].
  destruct (client.nextFault c) as [e|].
  - rewrite ret_eq. eexists. split; [reflexivity |]. split; [done |]. done.
  - rewrite ret_eq. eexists. split; [reflexivity |]. split; [done |]. intros _. split.
    + eexists. split; [reflexivity |]. rewrite length_map. apply filter_length_le.
    + intros req. cbn [elems default from_option id]. rewrite list_elem_of_fmap. split.
      * intros (instance & -> & [Hin Hnamespace]%list_elem_of_In%filter_In).
        exists instance. split; [by apply list_elem_of_In |]. split; [| done].
        apply orb_true_iff in Hnamespace as [?%bool_decide_eq_true|?%bool_decide_eq_true];
          [by left | by right].
      * intros (instance & Hin & Hnamespace & ->). exists instance. split; [done |].
        apply list_elem_of_In, filter_In. split; [by apply list_elem_of_In |].
        apply orb_true_iff.
        destruct Hnamespace as [Hall|Hsame]; [left | right]; by apply bool_decide_eq_true.
Qed.

(* --------------------------------------------------------------------- *)
(** ** The version of the cluster                                         *)
(* --------------------------------------------------------------------- *)

(** X28. [DetectOCPVersion] never returns a version with an error.  The
    version that it returns without an error is the major.minor prefix of
    the string at [status.desired.version] of the [ClusterVersion] that the
    client answered with: it matches [\d+\.\d+] as a whole and is not
    empty. *)
Theorem DetectOCPVersion_result
    (getClusterVersion : client.M (uns.Unstructured * option error))
    (c c' : client.Cluster) (version : string) (err : option error) :
  ocp_rag.DetectOCPVersion getClusterVersion c = client.Return (version, err) c' ->
  match err with
  | Some _ => version = ""
  | None =>
      exists (clusterVersion : uns.Unstructured) (fullVersion : string),
        getClusterVersion (client.afterRequests [client.CallNewClient] c)
        = client.Return (clusterVersion, None) c' /\
        uns.NestedString (uns.Object clusterVersion) ["status"; "desired"; "version"]
        = (fullVersion, true, None) /\
        MajorMinor.majorMinorPrefix fullVersion version /\
        MajorMinor.matchesPattern version /\
        version <> ""
  end.
Proof.
  unfold ocp_rag.DetectOCPVersion, funcs.GetRawClient.
  rewrite bind_eq, request_next.
  destruct (client.nextFault c) as [e|]; [rewrite ret_eq; by intros [= <- <- _] |].
  rewrite bind_eq.
  destruct (getClusterVersion _) as [[clusterVersion getErr] c1|]; [| done].
  destruct getErr as [e|]; [rewrite ret_eq; by intros [= <- <- _] |].
  destruct (uns.NestedString _ _) as [[fullVersion found] nestedErr] eqn:Hnested.
  destruct nestedErr as [e|]; [rewrite ret_eq; by intros [= <- <- _] |].
  destruct found; cbn [negb]; [| rewrite ret_eq; by intros [= <- <- _]].
  destruct (OCPVersion.ParseMajorMinorVersion fullVersion) as [majorMinor [e|]] eqn:Hparse;
    rewrite ret_eq; intros [= <- <- <-]; [done |].
  apply ParseMajorMinorVersion_inv in Hparse as Hprefix.
  pose proof (majorMinorPrefix_matchesPattern _ _ Hprefix) as Hpattern.
  exists clusterVersion, fullVersion. repeat split; try done.
  by apply matchesPattern_nonempty.
Qed.

Lemma DetectOCPVersion_result_witness :
  let clusterVersion :=
    uns.mkUnstructured
      {[ "status" :=
           uns.Map {[ "desired" := uns.Map {[ "version" := uns.Str "4.18.12" ]} ]} ]} in
  let c := Examples.clusterWith Examples.noObjects in
  exists (clusterVersion' : uns.Unstructured) (fullVersion : string),
    mret (M := client.M) (clusterVersion, @None error)
      (client.afterRequests [client.CallNewClient] c)
    = client.Return (clusterVersion', None) (client.afterRequests [client.CallNewClient] c) /\
    uns.NestedString (uns.Object clusterVersion') ["status"; "desired"; "version"]
    = (fullVersion, true, None) /\
    MajorMinor.majorMinorPrefix fullVersion "4.18" /\
    MajorMinor.matchesPattern "4.18" /\
    "4.18" <> "".
Proof.
  intros clusterVersion c.
  apply (DetectOCPVersion_result (mret (clusterVersion, None)) c
           (client.afterRequests [client.CallNewClient] c) "4.18" None).
  vm_compute. reflexivity.
Defined.

(* --------------------------------------------------------------------- *)
(** ** A complete pass of the installation                                *)
(* --------------------------------------------------------------------- *)

Lemma served_weaken (n m : nat) (c : client.Cluster) :
  client.served n c -> m <= n -> client.served m c.
Proof.
  unfold client.served. rewrite !Forall_lookup. intros Hall Hle i f Hi.
  apply lookup_take_Some in Hi as [Hi Hlt]. apply (Hall i).
  apply lookup_take_Some. split; [done | lia].
Qed.

Lemma served_afterRequests (sent : list client.Call) (n : nat) (os : client.Objects)
    (c : client.Cluster) :
  client.served (length sent + n) c ->
  client.served n (client.set_objects os (client.afterRequests sent c)).
Proof.
  unfold client.served. cbn [client.faults client.set_objects client.afterRequests].
  rewrite !Forall_lookup. intros Hall i f Hi.
  apply lookup_take_Some in Hi as [Hi Hlt]. rewrite lookup_drop in Hi.
  apply (Hall (length sent + i)). apply lookup_take_Some. split; [done | lia].
Qed.

Section ReplaceFound.
Context {T : Type} `{client.Resource T}.

(** Replacing the first object that [P] finds by an object of the same key
    that [P] accepts: it is found in its place, when [P] accepts every
    object of that key. *)
Lemma find_replaceObject (P : T -> bool) (o o' : T) (l : list T) :
  List.find P l = Some o ->
  client.keyOf o' = client.keyOf o ->
  P o' = true ->
  (forall x, client.keyOf x = client.keyOf o -> P x = true) ->
  List.find P (client.replaceObject o' l) = Some o'.
Proof.
  intros Hfind Hkey Ho' Hsame. unfold client.replaceObject.
  induction l as [|y l IH]; [done |]. cbn [List.find] in Hfind. cbn [map].
  destruct (P y) eqn:Hy.
  - injection Hfind as ->.
    assert (Hhit : client.hasKey (client.keyOf o') o = true)
      by (unfold client.hasKey; rewrite Hkey; by apply bool_decide_eq_true_2).
    rewrite Hhit. cbn [List.find]. by rewrite Ho'.
  - assert (Hmiss : client.hasKey (client.keyOf o') y = false).
    { unfold client.hasKey. apply bool_decide_eq_false_2. rewrite Hkey.
      intros Hyo. rewrite (Hsame y Hyo) in Hy. done. }
    rewrite Hmiss. cbn [List.find]. rewrite Hy. by apply IH.
Qed.

End ReplaceFound.

(** X29. A complete pass of [InstallInstanceOwnedOLSOperator].  When the
    Subscription of the instance is stored as the function wants it and
    names an install plan, an install plan of the namespace matches the
    version of the environment, a CSV of the operator is in the cluster and
    is not being deleted, and the requests are served: the install plan is
    approved, the CSV is stored with the instance as its only owner, and
    the answer tells whether the CSV is in the phase [Succeeded]. *)
Theorem InstallInstanceOwnedOLSOperator_takes_ownership
    (Getenv : string -> string) (instance : apiv1beta1.OpenStackLightspeed)
    (c : client.Cluster) (name version : string)
    (subscription : operatorsv1alpha1.Subscription)
    (installPlan : operatorsv1alpha1.InstallPlan)
    (CSV : operatorsv1alpha1.ClusterServiceVersion) :
  client.served 8 c ->
  ols_install.GetOLSSubscriptionName instance = Some name ->
  ols_install.GetRecommendedOLSVersion Getenv = (version, None) ->
  client.lookupObject (GetNamespace instance, name)
    (client.subscriptions (client.objects c)) = Some subscription ->
  ols_install.subscriptionMutateFn Getenv instance subscription = (subscription, None) ->
  operatorsv1alpha1.sub_InstallPlanRef subscription <> None ->
  List.find (fun installPlan =>
               match operatorsv1alpha1.ip_ClusterServiceVersionNames installPlan with
               | [] => false
               | name0 :: _ =>
                   GoStrings.HasPrefix name0 ols_install.OLSOperatorName
                   && GoStrings.HasSuffix name0 version
               end)
    (List.filter (fun installPlan =>
                    bool_decide (GetNamespace instance = "")
                    || bool_decide (GetNamespace installPlan = GetNamespace instance))
       (client.installPlans (client.objects c))) = Some installPlan ->
  List.find (fun CSV => GoStrings.HasPrefix (GetName CSV) ols_install.OLSOperatorName)
    (client.csvs (client.objects c)) = Some CSV ->
  metav1.DeletionTimestamp (operatorsv1alpha1.csv_Meta CSV) = None ->
  let owned :=
    SetOwnerReferences
      [metav1.mkOwnerReference (apiv1beta1.APIVersion instance) (apiv1beta1.Kind instance)
         (GetName instance) (GetUID instance) (Some true) (Some true)] CSV in
  exists c' : client.Cluster,
    ols_install.InstallInstanceOwnedOLSOperator Getenv instance c
    = client.Return (String.eqb (operatorsv1alpha1.csv_Phase CSV) "Succeeded", None) c' /\
    client.csvs (client.objects c')
    = client.replaceObject owned (client.csvs (client.objects c)) /\
    List.find (fun CSV => GoStrings.HasPrefix (GetName CSV) ols_install.OLSOperatorName)
      (client.csvs (client.objects c')) = Some owned /\
    funcs.IsOwnedBy owned instance = true /\
    client.installPlans (client.objects c')
    = client.storeObject (operatorsv1alpha1.set_Approved true installPlan)
        (client.installPlans (client.objects c)).
Proof.
  intros Hserved Hname Hversion Hsubscription Hmutate Hplanref Hplan Hfind Hlive owned.
  pose proof (lookupObject_key _ _ _ Hsubscription) as Hkey.
  (* the Subscription is read and left as it is *)
  apply (nextFault_after_served 7
           (client.CallGet client.KSubscription (GetNamespace instance) name))
    in Hserved as [Hfault1 Hserved].
  unfold ols_install.InstallInstanceOwnedOLSOperator.
  rewrite bind_eq, Hname. cbn [ols_install.orPanic]. rewrite ret_eq.
  rewrite bind_eq. unfold createor.CreateOrUpdate.
  set (subscription0 := operatorsv1alpha1.mkSubscription _ None None).
  change (client.keyOf subscription0) with (GetNamespace instance, name).
  rewrite bind_eq, Get_eq, Hfault1.
  cbn [client.store client.kind client.Subscription_Resource fst snd].
  rewrite Hsubscription. unfold createor.mutate. rewrite Hmutate.
  rewrite (bool_decide_eq_true_2 _ Hkey), bool_decide_eq_true_2 by done.
  rewrite ret_eq. cbn [negb orb].
  rewrite (bool_decide_eq_true_2 (_ = controllerutil.OperationResultNone)) by done.
  rewrite (bool_decide_eq_false_2 _ Hplanref). cbn [negb orb].
  set (c1 := client.afterRequests _ c) in *.
  (* the install plan is approved *)
  rewrite bind_eq.
  rewrite (ApproveOLSOperatorInstallPlan_served _ _ _ _
             (served_weaken _ 2 _ Hserved ltac:(lia)) Hversion).
  change (client.objects c1) with (client.objects c). rewrite Hplan. cbn [negb].
  match goal with
  | |- context [client.set_objects ?os (client.afterRequests ?sent c1)] =>
      pose proof (served_afterRequests sent 5 os c1 Hserved) as Hserved2;
      set (c2 := client.set_objects os (client.afterRequests sent c1)) in *
  end.
  assert (Hcsvs2 : client.csvs (client.objects c2) = client.csvs (client.objects c))
    by done.
  assert (Hplans2 : client.installPlans (client.objects c2)
                    = client.storeObject (operatorsv1alpha1.set_Approved true installPlan)
                        (client.installPlans (client.objects c))) by done.
  clearbody c2. clear Hserved.
  (* the CSV is found *)
  apply (nextFault_after_served 4 client.CallNewClient) in Hserved2 as [Hfault2 Hserved2].
  apply (nextFault_after_served 3 (client.CallList client.KClusterServiceVersion ""))
    in Hserved2 as [Hfault3 Hserved2].
  rewrite afterRequests_app in Hserved2. cbn [app] in Hserved2.
  rewrite bind_eq, GetOLSOperatorCSV_eq, Hfault2, Hfault3, Hcsvs2, Hfind.
  (* and updated with the instance as its owner *)
  change (SetOwnerReferences (ols_install.instanceOwnerReference instance) CSV) with owned.
  assert (Hname' : GetName owned = GetName CSV) by (by destruct CSV as [[]]).
  assert (Hkey' : client.keyOf owned = client.keyOf CSV) by (by destruct CSV as [[]]).
  pose proof (find_elem_of _ _ _ Hfind) as [Hin Hprefix].
  assert (Hstored : is_Some (client.lookupObject (client.keyOf owned)
                               (client.csvs (client.objects c)))).
  { apply (find_is_Some _ _ CSV Hin). unfold client.hasKey.
    by apply bool_decide_eq_true_2. }
  destruct Hstored as [stored Hstored].
  assert (Hkept : client.storeObject owned (client.csvs (client.objects c))
                  = client.replaceObject owned (client.csvs (client.objects c))).
  { unfold client.storeObject.
    cbn [client.isDeleting client.ClusterServiceVersion_Resource].
    unfold client.typedIsDeleting.
    replace (metav1.DeletionTimestamp (GetObjectMeta owned)) with (@None nat)
      by (rewrite <- Hlive; by destruct CSV as [[]]).
    by rewrite bool_decide_eq_false_2 by (by intros []). }
  rewrite bind_eq. unfold client.Update. rewrite write_eq. cbn zeta.
  apply (nextFault_after_served 2
           (client.CallUpdate client.KClusterServiceVersion (client.keyOf owned).1
              (client.keyOf owned).2)) in Hserved2 as [Hfault4 Hserved2].
  rewrite Hfault4.
  cbn [client.store client.kind client.ClusterServiceVersion_Resource].
  rewrite objects_afterRequests, Hcsvs2, Hstored, Hkept.
  match goal with
  | |- context [client.set_objects ?os (client.afterRequests ?sent ?c3)] =>
      pose proof (served_afterRequests [] 2 os _ Hserved2) as Hserved4;
      set (c4 := client.set_objects os (client.afterRequests sent c3)) in *
  end.
  assert (Hcsvs4 : client.csvs (client.objects c4)
                   = client.replaceObject owned (client.csvs (client.objects c))) by done.
  assert (Hplans4 : client.installPlans (client.objects c4)
                    = client.installPlans (client.objects c2)) by done.
  assert (Hserved4' : client.served 2 c4) by exact Hserved4.
  clearbody c4. clear Hserved4 Hserved2.
  (* the CSV as it is stored is owned by the instance *)
  assert (Hfound : List.find (fun CSV => GoStrings.HasPrefix (GetName CSV)
                                           ols_install.OLSOperatorName)
                     (client.replaceObject owned (client.csvs (client.objects c)))
                   = Some owned).
  { apply (find_replaceObject _ CSV); [done | done | by rewrite Hname' |].
    intros x Hx. rewrite <- Hprefix. f_equal.
    by injection Hx. }
  assert (Howned : funcs.IsOwnedBy owned instance = true).
  { unfold funcs.IsOwnedBy. subst owned. destruct CSV as [[]].
    cbn. by rewrite String.eqb_refl. }
  apply (nextFault_after_served 1 client.CallNewClient) in Hserved4' as [Hfault5 Hserved5].
  apply nextFault_served in Hserved5 as Hfault6.
  unfold ols_install.InstanceOwnedOLSOperatorComplete.
  rewrite bind_eq, GetOLSOperatorCSV_eq, Hfault5, Hfault6, Hcsvs4, Hfound, Howned.
  rewrite ret_eq. cbn [andb].
  eexists. split; [by destruct CSV as [[]] |].
  rewrite objects_afterRequests, Hcsvs4, Hplans4, Hplans2. done.
Qed.

Lemma InstallInstanceOwnedOLSOperator_takes_ownership_witness :
  let subscription :=
    operatorsv1alpha1.mkSubscription
      (metav1.mkObjectMeta "lightspeed-operator-3f2a9" "openshift-lightspeed" "" 0 ∅
         [metav1.mkOwnerReference "lightspeed.openstack.org/v1beta1" "OpenStackLightspeed"
            "openstack-lightspeed" Examples.uid1 (Some true) (Some true)]
         None None)
      (Some (operatorsv1alpha1.mkSubscriptionSpec "stable" "Manual" "redhat-operators"
               "openshift-marketplace" "lightspeed-operator" "lightspeed-operator.v1.0.6"))
      (Some "install-x7k2p") in
  let installPlan :=
    operatorsv1alpha1.mkInstallPlan
      (Examples.meta "install-x7k2p" "openshift-lightspeed" "plan-uid")
      ["lightspeed-operator.v1.0.6"] false in
  let c :=
    Examples.clusterWith
      (client.mkObjects [] [] [Examples.userCSV] [subscription] [installPlan] [] []) in
  exists (c' : client.Cluster) (owned : operatorsv1alpha1.ClusterServiceVersion),
    ols_install.InstallInstanceOwnedOLSOperator (Examples.getenv "1.0.6")
      Examples.instance1 c
    = client.Return (true, None) c' /\
    client.csvs (client.objects c') = [owned] /\
    funcs.IsOwnedBy owned Examples.instance1 = true /\
    client.installPlans (client.objects c')
    = [operatorsv1alpha1.set_Approved true installPlan].
Proof.
  intros subscription installPlan c.
  destruct (InstallInstanceOwnedOLSOperator_takes_ownership (Examples.getenv "1.0.6")
              Examples.instance1 c "lightspeed-operator-3f2a9" "1.0.6" subscription
              installPlan Examples.userCSV)
    as (c' & Hrun & Hcsvs & _ & Howned & Hplans).
  - by apply served_nil_faults.
  - reflexivity.
  - reflexivity.
  - reflexivity.
  - reflexivity.
  - discriminate.
  - reflexivity.
  - reflexivity.
  - reflexivity.
  - exists c'. eexists. split; [exact Hrun |]. split; [exact Hcsvs |].
    split; [exact Howned | exact Hplans].
Defined.
